(** * Sandboxed agent functions of jingai-agent

    A shallow embedding of [src/agent/functions/agent_functions.py]:
    the four operations [get_files_info], [get_file_content],
    [write_file] and [run_python_file], together with the part of
    [pathlib], [os] and [subprocess] they call.

    The library layer follows CPython 3.11 on POSIX, in a UTF-8
    locale.  Its scope:
    - the file system is a tree of regular files, directories and
      sockets, without symbolic links and without permission bits, so
      [Path.resolve] is the lexical normalisation [os.path.realpath]
      performs when no component is a link;
    - names and paths are within the limits of the system (NAME_MAX,
      PATH_MAX), so [os.stat] only fails because something is missing
      or is not a directory, which [Path.exists], [Path.is_file] and
      [Path.is_dir] answer by [False]; for a longer name they raise
      OSError, which the tree does not follow;
    - a Python [str] is a [string], one character per code point;
    - a regular file is recorded by what the program observes of it:
      its size in bytes and its text when it decodes as UTF-8;
    - the child process is an oracle of the world: it tells whether the
      interpreter exists and how the script behaves (how long it runs,
      what it writes on its two streams, its exit code); what the
      script itself does to the tree is not followed;
    - time is the run time of the child, in milliseconds. *)

From Stdlib Require Import String Ascii List Bool Arith NArith ZArith Lia.
Import ListNotations.
Local Open Scope string_scope.
Local Open Scope list_scope.

Set Implicit Arguments.
Local Set Warnings "-register-all".

(** ** Python strings *)

Module PyStr.

Definition nl : string := String (ascii_of_nat 10) "".
Definition cr : ascii := ascii_of_nat 13.
Definition lf : ascii := ascii_of_nat 10.
Definition dq : string := String (ascii_of_nat 34) "".
Definition nul : ascii := ascii_of_nat 0.

(** An f-string is the concatenation of its pieces. *)
Definition f_string (pieces : list string) : string := String.concat "" pieces.

(** [sep.join(parts)] *)
Definition join (sep : string) (parts : list string) : string :=
  String.concat sep parts.

Definition nonempty (s : string) : bool :=
  match s with EmptyString => false | String _ _ => true end.

Fixpoint contains_char (c : ascii) (s : string) : bool :=
  match s with
  | EmptyString => false
  | String d r => Ascii.eqb c d || contains_char c r
  end.

(** [sub in s] *)
Fixpoint contains (sub s : string) : bool :=
  String.prefix sub s ||
  match s with
  | EmptyString => false
  | String _ r => contains sub r
  end.

Fixpoint rev_string (s : string) : string :=
  match s with
  | EmptyString => EmptyString
  | String c r => String.append (rev_string r) (String c EmptyString)
  end.

(** [s.endswith(suffix)] *)
Definition endswith (s suffix : string) : bool :=
  String.prefix (rev_string suffix) (rev_string s).

(** [s[-1] == c] for a non-empty [s] *)
Definition last_char_is (c : ascii) (s : string) : bool :=
  match rev_string s with
  | String d _ => Ascii.eqb c d
  | EmptyString => false
  end.

(** [str.lower] on the code points below 256: A-Z and the Latin-1
    capitals (all of U+00C0..U+00DE but the multiplication sign). *)
Definition lower_char (c : ascii) : ascii :=
  let n := nat_of_ascii c in
  if ((65 <=? n)%nat && (n <=? 90)%nat) || ((192 <=? n)%nat && (n <=? 222)%nat && negb (n =? 215)%nat)
  then ascii_of_nat (n + 32) else c.

Fixpoint lower (s : string) : string :=
  match s with
  | EmptyString => EmptyString
  | String c r => String (lower_char c) (lower r)
  end.

(** [s[:n]] *)
Fixpoint take (n : nat) (s : string) : string :=
  match n, s with
  | S k, String c r => String c (take k r)
  | _, _ => EmptyString
  end.

(** [s.split(sep)] for a one-character separator *)
Fixpoint split (sep : ascii) (s : string) : list string :=
  match s with
  | EmptyString => [EmptyString]
  | String c r =>
      if Ascii.eqb c sep then EmptyString :: split sep r
      else match split sep r with
           | [] => [String c EmptyString]
           | h :: t => String c h :: t
           end
  end.

Definition digit (n : N) : ascii := ascii_of_N (48 + n).

Fixpoint dec_digits (fuel : nat) (n : N) (acc : string) : string :=
  match fuel with
  | O => acc
  | S f =>
      let acc' := String (digit (n mod 10)) acc in
      if (n / 10 =? 0)%N then acc' else dec_digits f (n / 10)%N acc'
  end.

(** [str(n)] for a non-negative integer *)
Definition str_of_N (n : N) : string := dec_digits (S (N.size_nat n)) n "".

(** [str(z)] for an integer *)
Definition str_of_Z (z : Z) : string :=
  if (z <? 0)%Z then String.append "-" (str_of_N (Z.abs_N z)) else str_of_N (Z.to_N z).

(** [str(b)] for a boolean *)
Definition str_of_bool (b : bool) : string := if b then "True" else "False".

(** Number of bytes of the UTF-8 encoding of a text whose code points
    are below 256. *)
Fixpoint utf8_len (s : string) : N :=
  match s with
  | EmptyString => 0%N
  | String c r => ((if (nat_of_ascii c <? 128)%nat then 1 else 2) + utf8_len r)%N
  end.

(** Text mode with [newline=None]: on input CR LF and a lone CR
    become LF. *)
Fixpoint universal_newlines (s : string) : string :=
  match s with
  | EmptyString => EmptyString
  | String c r =>
      if Ascii.eqb c cr then
        match r with
        | String d r' =>
            if Ascii.eqb d lf then String lf (universal_newlines r')
            else String lf (universal_newlines r)
        | EmptyString => String lf EmptyString
        end
      else String c (universal_newlines r)
  end.

End PyStr.

(** ** Python exceptions and results *)

Inductive errno : Type := ENOENT | EEXIST | ENOTDIR | EISDIR | ENXIO | EACCES.

(** The exception classes the program can meet.  [OSError e f] stands for
    the subclass Python picks from the error number: FileNotFoundError
    for ENOENT, FileExistsError for EEXIST, NotADirectoryError for
    ENOTDIR, IsADirectoryError for EISDIR, PermissionError for EACCES. *)
Inductive exn : Type :=
| OSError (e : errno) (filename : string)
| ValueError (msg : string)
| NotImplementedError (msg : string)
| UnicodeDecodeError (msg : string)
| TimeoutExpired.

(** What a call gives back: a value, or an exception that leaves it. *)
Inductive res (A : Type) : Type :=
| Val (a : A)
| Exc (e : exn).
Arguments Val {A} a.
Arguments Exc {A} e.

Definition errno_number (e : errno) : N :=
  match e with
  | ENOENT => 2 | ENXIO => 6 | EACCES => 13 | EEXIST => 17 | ENOTDIR => 20 | EISDIR => 21
  end%N.

Definition strerror (e : errno) : string :=
  match e with
  | ENOENT => "No such file or directory"
  | ENXIO => "No such device or address"
  | EACCES => "Permission denied"
  | EEXIST => "File exists"
  | ENOTDIR => "Not a directory"
  | EISDIR => "Is a directory"
  end.

(** [str(e)]; the file name of an OSError is shown between single
    quotes, as [repr] does for a name without quotes or escapes. *)
Definition str_of_exn (e : exn) : string :=
  match e with
  | OSError n f =>
      PyStr.f_string ["[Errno "; PyStr.str_of_N (errno_number n); "] "; strerror n; ": '"; f; "'"]
  | ValueError m => m
  | NotImplementedError m => m
  | UnicodeDecodeError m => m
  | TimeoutExpired => "Command timed out"
  end.

Definition is_PermissionError (e : exn) : bool :=
  match e with OSError EACCES _ => true | _ => false end.

Definition is_FileNotFoundError (e : exn) : bool :=
  match e with OSError ENOENT _ => true | _ => false end.

Definition is_OSError (e : exn) : bool :=
  match e with OSError _ _ => true | _ => false end.

(** ** Paths *)

(** An absolute path, as the list of its components below [/]. *)
Definition path : Type := list string.

Module PurePath.

(** A parsed path string: whether it is anchored at [/], and its
    components; empty components and [.] are dropped by the parser. *)
Record t : Type := mk { absolute : bool; parts : list string }.

Definition keep_part (x : string) : bool := negb (x =? "")%string && negb (x =? ".")%string.

Definition parse (s : string) : t :=
  {| absolute := String.prefix "/" s;
     parts := filter keep_part (PyStr.split "/" s) |}.

(** [a / b] *)
Definition joinpath (a b : t) : t :=
  if absolute b then b else mk (absolute a) (parts a ++ parts b).

(** [.name] *)
Definition name (p : t) : string := last (parts p) "".

End PurePath.

Definition dotdot : string := "..".

(** [os.path.realpath] on components when none is a link: [..] drops
    the component before it and is absorbed at the root. *)
Fixpoint normalise (acc : path) (comps : list string) : path :=
  match comps with
  | [] => acc
  | c :: r =>
      if (c =? dotdot)%string then normalise (removelast acc) r
      else normalise (acc ++ [c]) r
  end.

(** [str(p)] of an absolute path *)
Definition str_of_path (p : path) : string :=
  String.append "/" (PyStr.join "/" p).

(** [p.parent] *)
Definition parent (p : path) : path := removelast p.

(** [p.name] *)
Definition name (p : path) : string := last p "".

Fixpoint starts_with (p q : path) {struct q} : bool :=
  match q, p with
  | [], _ => true
  | b :: q', a :: p' => (a =? b)%string && starts_with p' q'
  | _ :: _, [] => false
  end.

(** [p.relative_to(q)] succeeds: the components of [q] begin those of
    [p]; the comparison is on the components as they stand. *)
Definition is_relative_to (p q : path) : bool := starts_with p q.

Definition path_eqb (p q : path) : bool :=
  if list_eq_dec string_dec p q then true else false.

(** ** The file system *)

(** A regular file with its size in bytes and, when its bytes are valid
    UTF-8, the text they decode to; a directory with its entries in the
    order the system lists them; a socket, which exists and is neither
    a regular file nor a directory. *)
Inductive node : Type :=
| File (st_size : N) (text : option string)
| Dir (entries : list (string * node))
| Socket.

Module FS.

(** The node a link-free, [..]-free path leads to. *)
Fixpoint find (n : node) (p : path) {struct p} : option node :=
  match p with
  | [] => Some n
  | c :: r =>
      match n with
      | Dir es =>
          (fix assoc (es : list (string * node)) : option node :=
             match es with
             | [] => None
             | (k, v) :: t => if (k =? c)%string then find v r else assoc t
             end) es
      | _ => None
      end
  end.

(** Path walk of the kernel: every component but the last is looked up
    in a directory, and [..] steps back to the parent.  It gives the
    link-free, [..]-free path the walk ends on, whose last component
    may be missing. *)
Fixpoint canon (root : node) (acc : path) (comps : list string) {struct comps}
  : errno + path :=
  match comps with
  | [] => inr acc
  | c :: r =>
      match find root acc with
      | Some (Dir _) =>
          canon root (if (c =? dotdot)%string then removelast acc else acc ++ [c]) r
      | Some _ => inl ENOTDIR
      | None => inl ENOENT
      end
  end.

(** [os.stat] *)
Definition stat (root : node) (p : path) : errno + (path * node) :=
  match canon root [] p with
  | inl e => inl e
  | inr q => match find root q with
             | Some n => inr (q, n)
             | None => inl ENOENT
             end
  end.

Definition lookup (root : node) (p : path) : option node :=
  match stat root p with
  | inr (_, n) => Some n
  | inl _ => None
  end.

(** [Path.exists], [Path.is_file], [Path.is_dir] *)
Definition exists_ (root : node) (p : path) : bool :=
  match lookup root p with Some _ => true | None => false end.

Definition is_file (root : node) (p : path) : bool :=
  match lookup root p with Some (File _ _) => true | _ => false end.

Definition is_dir (root : node) (p : path) : bool :=
  match lookup root p with Some (Dir _) => true | _ => false end.

(** Change the first entry named [c] of a list of entries. *)
Fixpoint set_entry (c : string) (g : node -> node) (es : list (string * node))
  : list (string * node) :=
  match es with
  | [] => []
  | (k, v) :: t => if (k =? c)%string then (k, g v) :: t else (k, v) :: set_entry c g t
  end.

(** Change the node a [..]-free path leads to. *)
Fixpoint update (n : node) (p : path) (f : node -> node) {struct p} : node :=
  match p with
  | [] => f n
  | c :: r =>
      match n with
      | Dir es => Dir (set_entry c (fun v => update v r f) es)
      | _ => n
      end
  end.

Definition add_entry (c : string) (child : node) (d : node) : node :=
  match d with
  | Dir es => Dir (es ++ [(c, child)])
  | _ => d
  end.

(** Create the last component of [p] as [child] when it is missing and
    its parent is a directory. *)
Definition create (root : node) (p : path) (child : node) : errno + node :=
  match p with
  | [] => inl EEXIST
  | _ =>
      match canon root [] (removelast p) with
      | inl e => inl e
      | inr q =>
          match find root q with
          | Some (Dir _) => inr (update root q (add_entry (last p "") child))
          | Some _ => inl ENOTDIR
          | None => inl ENOENT
          end
      end
  end.

(** [os.mkdir] *)
Definition os_mkdir (root : node) (p : path) : errno + node :=
  match stat root p with
  | inr _ => inl EEXIST
  | inl ENOENT => create root p (Dir [])
  | inl e => inl e
  end.

(** [Path.mkdir(parents=False, exist_ok=True)] *)
Definition mkdir_exist_ok (root : node) (p : path) : res node :=
  match os_mkdir root p with
  | inr root' => Val root'
  | inl ENOENT => Exc (OSError ENOENT (str_of_path p))
  | inl e => if is_dir root p then Val root else Exc (OSError e (str_of_path p))
  end.

(** [Path.mkdir(parents=True, exist_ok=True)]: on FileNotFoundError
    the parent is made first, unless the path is its own parent.  The
    recursion is on the parent, so the fuel is the length of [p]. *)
Fixpoint mkdir_parents (fuel : nat) (root : node) (p : path) : res node :=
  match os_mkdir root p with
  | inr root' => Val root'
  | inl ENOENT =>
      match fuel with
      | O => Exc (OSError ENOENT (str_of_path p))
      | S f =>
          match mkdir_parents f root (parent p) with
          | Val root1 => mkdir_exist_ok root1 p
          | Exc e => Exc e
          end
      end
  | inl e => if is_dir root p then Val root else Exc (OSError e (str_of_path p))
  end.

Definition mkdir (root : node) (p : path) : res node :=
  mkdir_parents (length p) root p.

(** [open(p, 'w', encoding='utf-8')] followed by [f.write(content)]:
    a regular file is truncated and rewritten, a missing one is
    created in its directory. *)
Definition write_text (root : node) (p : path) (content : string) : res node :=
  let new := File (PyStr.utf8_len content) (Some content) in
  match stat root p with
  | inr (q, File _ _) => Val (update root q (fun _ => new))
  | inr (_, Dir _) => Exc (OSError EISDIR (str_of_path p))
  | inr (_, Socket) => Exc (OSError ENXIO (str_of_path p))
  | inl ENOENT =>
      match create root p new with
      | inr root' => Val root'
      | inl e => Exc (OSError e (str_of_path p))
      end
  | inl e => Exc (OSError e (str_of_path p))
  end.

(** The message of the UnicodeDecodeError of a file: the tree does not
    record the byte and the position the real message names, and no
    caller of [read_text] looks at it. *)
Definition cannot_decode : string := "'utf-8' codec can't decode bytes".

(** [open(p, 'r', encoding='utf-8')] followed by [f.read()] *)
Definition read_text (root : node) (p : path) : res string :=
  match stat root p with
  | inr (_, File _ (Some text)) => Val (PyStr.universal_newlines text)
  | inr (_, File _ None) => Exc (UnicodeDecodeError cannot_decode)
  | inr (_, Dir _) => Exc (OSError EISDIR (str_of_path p))
  | inr (_, Socket) => Exc (OSError ENXIO (str_of_path p))
  | inl e => Exc (OSError e (str_of_path p))
  end.

(** [os.scandir]: the entries of a directory, in its order. *)
Definition scandir (root : node) (p : path) : errno + list (string * node) :=
  match stat root p with
  | inr (_, Dir es) => inr es
  | inr _ => inl ENOTDIR
  | inl e => inl e
  end.

End FS.

(** ** Globbing (pathlib's selectors and fnmatch) *)

Module Glob.

(** [_is_wildcard_pattern] *)
Definition is_wildcard_pattern (pat : string) : bool :=
  PyStr.contains_char "*" pat || PyStr.contains_char "?" pat || PyStr.contains_char "[" pat.

Inductive token : Type :=
| TStar
| TAny
| TSet (negated : bool) (items : string)
| TChar (c : ascii).

Fixpoint until_rbracket (s : string) : option (string * string) :=
  match s with
  | EmptyString => None
  | String c r =>
      if Ascii.eqb c "]" then Some (EmptyString, r)
      else match until_rbracket r with
           | Some (a, b) => Some (String c a, b)
           | None => None
           end
  end.

(** After an opening bracket: an optional [!], a closing bracket that
    counts as a member when it comes first, then the members up to the
    next closing bracket.  Without one the opening bracket is an
    ordinary character. *)
Definition parse_set (s : string) : option (bool * string * string) :=
  let '(neg, s1) :=
    match s with
    | String c r => if Ascii.eqb c "!" then (true, r) else (false, s)
    | EmptyString => (false, s)
    end in
  match s1 with
  | String c r =>
      if Ascii.eqb c "]" then
        match until_rbracket r with
        | Some (a, b) => Some (neg, String c a, b)
        | None => None
        end
      else
        match until_rbracket s1 with
        | Some (a, b) => Some (neg, a, b)
        | None => None
        end
  | EmptyString => None
  end.

Fixpoint tokens (fuel : nat) (pat : string) : list token :=
  match fuel with
  | O => []
  | S f =>
      match pat with
      | EmptyString => []
      | String c r =>
          if Ascii.eqb c "*" then TStar :: tokens f r
          else if Ascii.eqb c "?" then TAny :: tokens f r
          else if Ascii.eqb c "[" then
            match parse_set r with
            | Some (neg, items, rest) => TSet neg items :: tokens f rest
            | None => TChar c :: tokens f r
            end
          else TChar c :: tokens f r
      end
  end.

(** Membership in a bracket set: [lo-hi] is a range, any other
    character stands for itself. *)
Fixpoint set_mem (c : ascii) (items : string) : bool :=
  match items with
  | String lo rest =>
      match rest with
      | String dash (String hi r) =>
          if Ascii.eqb dash "-" then
            ((nat_of_ascii lo <=? nat_of_ascii c)%nat && (nat_of_ascii c <=? nat_of_ascii hi)%nat)
            || set_mem c r
          else Ascii.eqb lo c || set_mem c rest
      | _ => Ascii.eqb lo c || set_mem c rest
      end
  | EmptyString => false
  end.

Fixpoint match_tokens (ts : list token) (s : string) : bool :=
  match ts with
  | [] => negb (PyStr.nonempty s)
  | TStar :: ts' =>
      (fix star (s : string) : bool :=
         match_tokens ts' s ||
         match s with
         | EmptyString => false
         | String _ r => star r
         end) s
  | TAny :: ts' =>
      match s with
      | String _ r => match_tokens ts' r
      | EmptyString => false
      end
  | TSet neg items :: ts' =>
      match s with
      | String c r => xorb neg (set_mem c items) && match_tokens ts' r
      | EmptyString => false
      end
  | TChar c :: ts' =>
      match s with
      | String d r => Ascii.eqb c d && match_tokens ts' r
      | EmptyString => false
      end
  end.

(** [re.compile(fnmatch.translate(pat)).fullmatch(name)] *)
Definition fnmatch (pat name : string) : bool :=
  match_tokens (tokens (String.length pat) pat) name.

Inductive selector : Type :=
| Terminating
| Precise (name : string) (dironly : bool) (successor : selector)
| Wildcard (pat : string) (dironly : bool) (successor : selector)
| Recursive (successor : selector).

Definition invalid_pattern : string :=
  "Invalid pattern: '**' can only be an entire path component".

(** [_make_selector]; a selector with further parts after it only
    accepts directories. *)
Fixpoint make_selector (pattern_parts : list string) : res selector :=
  match pattern_parts with
  | [] => Val Terminating
  | pat :: child_parts =>
      if (pat =? "")%string then Val Terminating
      else if (pat =? "**")%string then
        match make_selector child_parts with
        | Val s => Val (Recursive s)
        | Exc e => Exc e
        end
      else if PyStr.contains "**" pat then Exc (ValueError invalid_pattern)
      else
        let dironly := match child_parts with [] => false | _ :: _ => true end in
        match make_selector child_parts with
        | Val s =>
            Val (if is_wildcard_pattern pat then Wildcard pat dironly s
                 else Precise pat dironly s)
        | Exc e => Exc e
        end
  end.

(** [_iterate_directories]: a directory, then the directories below
    each of its entries, in the order of the entries. *)
Fixpoint subdirs (n : node) (p : path) {struct n} : list path :=
  match n with
  | Dir es =>
      p :: flat_map (fun kv =>
                       match snd kv with
                       | Dir _ => subdirs (snd kv) (p ++ [fst kv])
                       | _ => []
                       end) es
  | _ => [p]
  end.

Definition iterate_directories (root : node) (p : path) : list path :=
  match FS.lookup root p with
  | Some n => subdirs n p
  | None => [p]
  end.

Definition node_is_dir (n : node) : bool :=
  match n with Dir _ => true | _ => false end.

(** The [yielded] set of the recursive selector: a path is given once,
    at its first occurrence. *)
Fixpoint dedup (seen : list path) (l : list path) : list path :=
  match l with
  | [] => []
  | x :: r =>
      if existsb (path_eqb x) seen then dedup seen r
      else x :: dedup (x :: seen) r
  end.

(** [_select_from] of each selector class *)
Fixpoint select (root : node) (sel : selector) (p : path) : list path :=
  match sel with
  | Terminating => [p]
  | Precise name dironly successor =>
      let q := p ++ [name] in
      if (if dironly then FS.is_dir root q else FS.exists_ root q)
      then select root successor q else []
  | Wildcard pat dironly successor =>
      match FS.scandir root p with
      | inr es =>
          flat_map (fun kv =>
                      if (negb dironly || node_is_dir (snd kv)) && fnmatch pat (fst kv)
                      then select root successor (p ++ [fst kv]) else []) es
      | inl _ => []
      end
  | Recursive successor =>
      dedup [] (flat_map (select root successor) (iterate_directories root p))
  end.

Definition non_relative : string := "Non-relative patterns are unsupported".

(** [list(self.rglob(pattern))] *)
Definition rglob (root : node) (self : path) (pattern : string) : res (list path) :=
  let pp := PurePath.parse pattern in
  if PurePath.absolute pp then Exc (NotImplementedError non_relative)
  else
    let pattern_parts :=
      PurePath.parts pp ++ (if PyStr.last_char_is "/" pattern then [EmptyString] else []) in
    match make_selector ("**"%string :: pattern_parts) with
    | Exc e => Exc e
    | Val sel => Val (if FS.is_dir root self then select root sel self else [])
    end.

End Glob.

(** ** The world and its effects *)

(** What the child wrote on one of its streams, as [text=True] takes
    it: the text the bytes decode to as UTF-8, or, for bytes that do
    not decode, the message of the UnicodeDecodeError. *)
Inductive captured : Type :=
| Text (s : string)
| Undecodable (msg : string).

Coercion Text : string >-> captured.

(** How the script behaves once started: it ends by itself after some
    time with what it wrote and its exit code, or it never ends. *)
Inductive child : Type :=
| Exits (elapsed_ms : N) (stdout stderr : captured) (returncode : Z)
| Hangs.

(** The file tree, the current directory of the process, and the
    [python] executable of PATH when there is one, as the behaviour of
    the child for given arguments and working directory. *)
Record world : Type := mkWorld {
  fs : node;
  cwd : path;
  interpreter : option (list string -> path -> child)
}.

(** What a call does to its environment, in order. *)
Inductive event : Type :=
| EvExists (p : path)
| EvIsFile (p : path)
| EvIsDir (p : path)
| EvRglob (self : path) (pattern : string)
| EvIterdir (p : path)
| EvStat (p : path)
| EvRead (p : path)
| EvMkdir (p : path)
| EvWrite (p : path) (content : string)
| EvSpawn (cmd : list string) (dir : path)
| EvKill.

Definition state : Type := (world * list event)%type.

(** Computations over the world that log their effects and may raise. *)
Definition M (A : Type) : Type := state -> res A * state.

Definition ret {A : Type} (a : A) : M A := fun st => (Val a, st).

Definition raise {A : Type} (e : exn) : M A := fun st => (Exc e, st).

Definition bind {A B : Type} (m : M A) (k : A -> M B) : M B :=
  fun st =>
    match m st with
    | (Val a, st') => k a st'
    | (Exc e, st') => (Exc e, st')
    end.

(** [try: m except ...: handler]; a handler that does not catch an
    exception raises it again. *)
Definition try_except {A : Type} (m : M A) (handler : exn -> M A) : M A :=
  fun st =>
    match m st with
    | (Val a, st') => (Val a, st')
    | (Exc e, st') => handler e st'
    end.

Declare Scope monad_scope.
Delimit Scope monad_scope with monad.
Notation "x <- m ;; k" := (bind m (fun x => k))
  (at level 61, m at next level, right associativity) : monad_scope.
Notation "m ;;; k" := (bind m (fun _ => k))
  (at level 61, right associativity) : monad_scope.
Local Open Scope monad_scope.

Definition log (ev : event) : M unit :=
  fun st => (Val tt, (fst st, snd st ++ [ev])).

Definition lift_fs {A : Type} (f : node -> A) : M A :=
  fun st => (Val (f (fs (fst st))), st).

Definition set_fs (root : node) : M unit :=
  fun st => (Val tt, (mkWorld root (cwd (fst st)) (interpreter (fst st)), snd st)).

Definition of_res {A : Type} (r : res A) : M A := fun st => (r, st).

(** The outcome, the final world and the effects of a call started in
    world [w]. *)
Definition run {A : Type} (m : M A) (w : world) : res A * world * list event :=
  match m (w, []) with
  | (r, (w', t)) => (r, w', t)
  end.

Definition has_nul (s : string) : bool := PyStr.contains_char PyStr.nul s.

Definition embedded_null : string := "embedded null byte".

(** [Path.resolve()]: a relative path is taken from the current
    directory; [os.lstat] refuses a component with a NUL character. *)
Definition resolve_in (current : path) (pp : PurePath.t) : res path :=
  let full := if PurePath.absolute pp then PurePath.parts pp
              else current ++ PurePath.parts pp in
  if existsb has_nul full then Exc (ValueError embedded_null)
  else Val (normalise [] full).

Definition resolve (pp : PurePath.t) : M path :=
  fun st => (resolve_in (cwd (fst st)) pp, st).

(** [(base / s).resolve()] for an absolute [base] *)
Definition resolve_under (base : path) (s : string) : M path :=
  resolve (PurePath.joinpath (PurePath.mk true base) (PurePath.parse s)).

Definition path_exists (p : path) : M bool :=
  log (EvExists p) ;;; lift_fs (fun root => FS.exists_ root p).

Definition path_is_file (p : path) : M bool :=
  log (EvIsFile p) ;;; lift_fs (fun root => FS.is_file root p).

Definition path_is_dir (p : path) : M bool :=
  log (EvIsDir p) ;;; lift_fs (fun root => FS.is_dir root p).

Definition path_rglob (self : path) (pattern : string) : M (list path) :=
  log (EvRglob self pattern) ;;;
  r <- lift_fs (fun root => Glob.rglob root self pattern) ;;
  of_res r.

(** [list(p.iterdir())] *)
Definition path_iterdir (p : path) : M (list path) :=
  log (EvIterdir p) ;;;
  r <- lift_fs (fun root => FS.scandir root p) ;;
  match r with
  | inr es => ret (map (fun kv => p ++ [fst kv]) es)
  | inl e => raise (OSError e (str_of_path p))
  end.

(** [p.stat().st_size]; a directory counts one block. *)
Definition path_st_size (p : path) : M N :=
  log (EvStat p) ;;;
  r <- lift_fs (fun root => FS.stat root p) ;;
  match r with
  | inr (_, File size _) => ret size
  | inr (_, Dir _) => ret 4096%N
  | inr (_, Socket) => ret 0%N
  | inl e => raise (OSError e (str_of_path p))
  end.

Definition path_mkdir (p : path) : M unit :=
  log (EvMkdir p) ;;;
  r <- lift_fs (fun root => FS.mkdir root p) ;;
  root' <- of_res r ;;
  set_fs root'.

Definition write_text (p : path) (content : string) : M unit :=
  log (EvWrite p content) ;;;
  r <- lift_fs (fun root => FS.write_text root p content) ;;
  root' <- of_res r ;;
  set_fs root'.

Definition read_text (p : path) : M string :=
  log (EvRead p) ;;;
  r <- lift_fs (fun root => FS.read_text root p) ;;
  of_res r.

Record CompletedProcess : Type := mkCompleted {
  cp_stdout : string;
  cp_stderr : string;
  cp_returncode : Z
}.

(** The end of [communicate] in text mode: the standard output is
    decoded first, then the standard error, each with the newlines of
    text mode; bytes that do not decode raise. *)
Definition decode_streams (out err : captured) (code : Z) : res CompletedProcess :=
  match out with
  | Undecodable msg => Exc (UnicodeDecodeError msg)
  | Text o =>
      match err with
      | Undecodable msg => Exc (UnicodeDecodeError msg)
      | Text e =>
          Val (mkCompleted (PyStr.universal_newlines o) (PyStr.universal_newlines e) code)
      end
  end.

(** [subprocess.run(cmd, timeout=t, capture_output=True, text=True,
    cwd=dir)] for [cmd = python :: argv]: an argument with a NUL
    character is refused with ValueError before anything is started;
    when [dir] is not a directory the child cannot enter it and the
    OSError of [chdir] is raised; without the executable no script
    starts and FileNotFoundError is raised; a child that has not ended
    when [t] seconds have passed is killed and TimeoutExpired is
    raised; what a child that ended wrote is decoded. *)
Definition subprocess_run (argv : list string) (timeout_s : N) (dir : path)
  : M CompletedProcess :=
  fun st =>
    if existsb has_nul argv then (Exc (ValueError embedded_null), st)
    else
      match FS.stat (fs (fst st)) dir with
      | inl e => (Exc (OSError e (str_of_path dir)), st)
      | inr (_, File _ _) | inr (_, Socket) => (Exc (OSError ENOTDIR (str_of_path dir)), st)
      | inr (_, Dir _) =>
          match interpreter (fst st) with
          | None => (Exc (OSError ENOENT "python"), st)
          | Some behaviour =>
              let st1 := (fst st, snd st ++ [EvSpawn ("python"%string :: argv) dir]) in
              match behaviour argv dir with
              | Exits elapsed out err code =>
                  if (elapsed <=? timeout_s * 1000)%N
                  then (decode_streams out err code, st1)
                  else (Exc TimeoutExpired, (fst st1, snd st1 ++ [EvKill]))
              | Hangs => (Exc TimeoutExpired, (fst st1, snd st1 ++ [EvKill]))
              end
          end
      end.

(** ** The agent functions (agent_functions.py) *)

(** Modelled from the spec: [config.py], which defines
    MAX_FILE_CONTENT_LENGTH, is not among the sources; the
    specification gives the limit as 10,240 characters. *)
Definition MAX_FILE_CONTENT_LENGTH : N := 10240.

(** The texts the functions return. *)
Module Msg.
Import PyStr.

Definition list_denied (directory working_directory : string) : string :=
  f_string ["Access denied: Directory '"; directory;
            "' is outside the allowed working directory '"; working_directory; "'"].

Definition list_found_denied (directory : string) : string :=
  f_string ["Access denied: Found directory '"; directory;
            "' is outside the allowed working directory"].

Definition list_not_found (directory : string) : string :=
  f_string ["Directory '"; directory; "' does not exist"].

Definition not_a_directory (directory : string) : string :=
  f_string ["'"; directory; "' is not a directory"].

Definition list_permission (directory : string) : string :=
  f_string ["Permission denied accessing directory '"; directory; "'"].

Definition entry_line (item_name : string) (file_size : N) (is_dir : bool) : string :=
  f_string [item_name; ": file_size="; str_of_N file_size; ", is_dir="; str_of_bool is_dir].

Definition denied (file_path working_directory : string) : string :=
  f_string ["Error: Access denied: File '"; file_path;
            "' is outside the allowed working directory '"; working_directory; "'"].

Definition found_denied (file_path : string) : string :=
  f_string ["Error: Found file '"; file_path; "' is outside the allowed working directory"].

Definition not_found (file_path : string) : string :=
  f_string ["Error: File '"; file_path; "' not found"].

Definition not_regular (file_path : string) : string :=
  f_string ["Error: '"; file_path; "' is not a regular file"].

Definition truncated (file_path : string) : string :=
  f_string [nl; "[...File "; dq; file_path; dq; " truncated at ";
            str_of_N MAX_FILE_CONTENT_LENGTH; " characters]"].

Definition read_binary (file_path : string) : string :=
  f_string ["Error: Cannot read file '"; file_path;
            "' - file appears to be binary or uses unsupported encoding"].

Definition read_permission (file_path : string) : string :=
  f_string ["Error: Permission denied reading file '"; file_path; "'"].

Definition read_failed (file_path detail : string) : string :=
  f_string ["Error: Failed to read file '"; file_path; "': "; detail].

Definition read_unexpected (file_path detail : string) : string :=
  f_string ["Error: Unexpected error reading file '"; file_path; "': "; detail].

Definition wrote (file_path : string) (count : nat) : string :=
  f_string ["Successfully wrote to "; dq; file_path; dq; " (";
            str_of_N (N.of_nat count); " characters written)"].

Definition write_permission (file_path : string) : string :=
  f_string ["Error: Permission denied writing to file '"; file_path; "'"].

Definition write_failed (file_path detail : string) : string :=
  f_string ["Error: Failed to write file '"; file_path; "': "; detail].

Definition write_unexpected (file_path detail : string) : string :=
  f_string ["Error: Unexpected error writing file '"; file_path; "': "; detail].

Definition not_python (file_path : string) : string :=
  f_string ["Error: '"; file_path; "' is not a Python file (must end with .py)"].

Definition stdout_block (out : string) : string := f_string ["STDOUT:"; nl; out].

Definition stderr_block (err : string) : string := f_string ["STDERR:"; nl; err].

Definition exit_line (code : Z) : string :=
  f_string ["Process exited with code "; str_of_Z code].

Definition no_output : string := "No output produced.".

Definition timed_out (file_path : string) : string :=
  f_string ["Error: Python script '"; file_path; "' timed out after 30 seconds"].

Definition no_interpreter : string :=
  "Error: Python interpreter not found - please ensure Python is installed and in PATH".

Definition exec_failed (file_path detail : string) : string :=
  f_string ["Error: Failed to execute Python script '"; file_path; "': "; detail].

End Msg.

(** The loop of [get_files_info] over the children of the directory:
    a line for a regular file, a line for a directory, nothing else. *)
Fixpoint collect_items (items : list path) (items_info : list string) : M (list string) :=
  match items with
  | [] => ret items_info
  | item :: rest =>
      is_f <- path_is_file item ;;
      if is_f then
        file_size <- path_st_size item ;;
        collect_items rest (items_info ++ [Msg.entry_line (name item) file_size false])
      else
        is_d <- path_is_dir item ;;
        if is_d then
          collect_items rest (items_info ++ [Msg.entry_line (name item) 0 true])
        else collect_items rest items_info
  end.

(** [get_files_info] from the directory check on, once [target_dir] is
    settled. *)
Definition get_files_info_listing (target_dir : path) (directory : string) : M string :=
  is_d <- path_is_dir target_dir ;;
  if negb is_d then ret (Msg.not_a_directory directory)
  else
    try_except
      (items <- path_iterdir target_dir ;;
       items_info <- collect_items items [] ;;
       ret (PyStr.join PyStr.nl items_info))
      (fun e =>
         if is_PermissionError e then ret (Msg.list_permission directory)
         else raise e).

Definition get_files_info (working_directory directory : string) : M string :=
  working_dir <- resolve (PurePath.parse working_directory) ;;
  target_dir <- (if (directory =? ".")%string then ret working_dir
                 else resolve_under working_dir directory) ;;
  if negb (is_relative_to target_dir working_dir)
  then ret (Msg.list_denied directory working_directory)
  else
    present <- path_exists target_dir ;;
    if negb present && negb (directory =? ".")%string then
      found_dirs <- path_rglob working_dir directory ;;
      match found_dirs with
      | first :: _ =>
          if negb (is_relative_to first working_dir)
          then ret (Msg.list_found_denied directory)
          else get_files_info_listing first directory
      | [] => ret (Msg.list_not_found directory)
      end
    else get_files_info_listing target_dir directory.

(** [get_file_content] from the regular-file check on. *)
Definition get_file_content_read (target_file : path) (file_path : string) : M string :=
  is_f <- path_is_file target_file ;;
  if negb is_f then ret (Msg.not_regular file_path)
  else
    try_except
      (content <- read_text target_file ;;
       if (MAX_FILE_CONTENT_LENGTH <? N.of_nat (String.length content))%N
       then ret (String.append (PyStr.take (N.to_nat MAX_FILE_CONTENT_LENGTH) content)
                               (Msg.truncated file_path))
       else ret content)
      (fun e =>
         match e with
         | UnicodeDecodeError _ => ret (Msg.read_binary file_path)
         | OSError EACCES _ => ret (Msg.read_permission file_path)
         | OSError _ _ => ret (Msg.read_failed file_path (str_of_exn e))
         | _ => ret (Msg.read_unexpected file_path (str_of_exn e))
         end).

Definition get_file_content (working_directory file_path : string) : M string :=
  working_dir <- resolve (PurePath.parse working_directory) ;;
  target_file <- resolve_under working_dir file_path ;;
  if negb (is_relative_to target_file working_dir)
  then ret (Msg.denied file_path working_directory)
  else
    present <- path_exists target_file ;;
    if negb present then
      let file_name := PurePath.name (PurePath.parse file_path) in
      found_files <- path_rglob working_dir file_name ;;
      match found_files with
      | first :: _ =>
          if negb (is_relative_to first working_dir)
          then ret (Msg.found_denied file_path)
          else get_file_content_read first file_path
      | [] => ret (Msg.not_found file_path)
      end
    else get_file_content_read target_file file_path.

(** [write_file] from the [try] on: make the parents, write, report. *)
Definition write_file_write (target_file : path) (file_path content : string) : M string :=
  try_except
    (path_mkdir (parent target_file) ;;;
     write_text target_file content ;;;
     ret (Msg.wrote file_path (String.length content)))
    (fun e =>
       match e with
       | OSError EACCES _ => ret (Msg.write_permission file_path)
       | OSError _ _ => ret (Msg.write_failed file_path (str_of_exn e))
       | _ => ret (Msg.write_unexpected file_path (str_of_exn e))
       end).

(** [not target_file.exists() and not target_file.parent.exists()];
    the parent is only looked at when the target is missing. *)
Definition write_file_search_needed (target_file : path) : M bool :=
  present <- path_exists target_file ;;
  if present then ret false
  else
    parent_present <- path_exists (parent target_file) ;;
    ret (negb parent_present).

Definition write_file (working_directory file_path content : string) : M string :=
  working_dir <- resolve (PurePath.parse working_directory) ;;
  target_file <- resolve_under working_dir file_path ;;
  if negb (is_relative_to target_file working_dir)
  then ret (Msg.denied file_path working_directory)
  else
    search <- write_file_search_needed target_file ;;
    if search then
      let file_name := PurePath.name (PurePath.parse file_path) in
      found_files <- path_rglob working_dir file_name ;;
      match found_files with
      | first :: _ =>
          if negb (is_relative_to first working_dir)
          then ret (Msg.found_denied file_path)
          else write_file_write first file_path content
      | [] => write_file_write target_file file_path content
      end
    else write_file_write target_file file_path content.

(** The text built from a completed process. *)
Definition format_output (completed_process : CompletedProcess) : string :=
  let output_parts := [] in
  let output_parts :=
    if PyStr.nonempty (cp_stdout completed_process)
    then output_parts ++ [Msg.stdout_block (cp_stdout completed_process)]
    else output_parts in
  let output_parts :=
    if PyStr.nonempty (cp_stderr completed_process)
    then output_parts ++ [Msg.stderr_block (cp_stderr completed_process)]
    else output_parts in
  let output_parts :=
    if negb (cp_returncode completed_process =? 0)%Z
    then output_parts ++ [Msg.exit_line (cp_returncode completed_process)]
    else output_parts in
  match output_parts with
  | _ :: _ => PyStr.join (String.append PyStr.nl PyStr.nl) output_parts
  | [] => Msg.no_output
  end.

(** [run_python_file] from the regular-file check on. *)
Definition run_python_file_exec (working_dir target_file : path) (file_path : string)
    (args : list string) : M string :=
  is_f <- path_is_file target_file ;;
  if negb is_f then ret (Msg.not_regular file_path)
  else if negb (PyStr.endswith (PyStr.lower file_path) ".py")
  then ret (Msg.not_python file_path)
  else
    try_except
      (let cmd_args := str_of_path target_file :: args in
       completed_process <- subprocess_run cmd_args 30 working_dir ;;
       ret (format_output completed_process))
      (fun e =>
         match e with
         | TimeoutExpired => ret (Msg.timed_out file_path)
         | OSError ENOENT _ => ret Msg.no_interpreter
         | _ => ret (Msg.exec_failed file_path (str_of_exn e))
         end).

Definition run_python_file (working_directory file_path : string) (args : list string)
  : M string :=
  working_dir <- resolve (PurePath.parse working_directory) ;;
  target_file <- resolve_under working_dir file_path ;;
  if negb (is_relative_to target_file working_dir)
  then ret (Msg.denied file_path working_directory)
  else
    present <- path_exists target_file ;;
    if negb present then
      let file_name := PurePath.name (PurePath.parse file_path) in
      found_files <- path_rglob working_dir file_name ;;
      match found_files with
      | first :: _ =>
          if negb (is_relative_to first working_dir)
          then ret (Msg.found_denied file_path)
          else run_python_file_exec working_dir first file_path args
      | [] => ret (Msg.not_found file_path)
      end
    else run_python_file_exec working_dir target_file file_path args.

(** ** Notions the statements use *)

(** No component is [..]. *)
Definition no_dotdot (p : path) : Prop := ~ In dotdot p.

(** [p] lies strictly below [q]. *)
Definition below (p q : path) : Prop := exists rest, rest <> [] /\ p = q ++ rest.

(** The path an operation that reads works on: the literal target when
    it exists, the first result of the recursive search otherwise. *)
Definition located (root : node) (working_dir target : path) (pattern : string)
  : option path :=
  if FS.exists_ root target then Some target
  else match Glob.rglob root working_dir pattern with
       | Val (first :: _) => Some first
       | _ => None
       end.

(** The events of that resolution. *)
Definition located_trace (root : node) (working_dir target : path) (pattern : string)
  : list event :=
  if FS.exists_ root target then [EvExists target]
  else [EvExists target; EvRglob working_dir pattern].

(** A working directory [/w] with a file, a package directory that
    holds a script, a text and a deeper directory, and a socket;
    [/etc/passwd] lies outside of it. *)
Definition sample_tree : node :=
  Dir [("w", Dir [("a.txt", File 5 (Some "hello"));
                  ("pkg", Dir [("calc.py", File 8 (Some "print(1)"));
                               ("notes.txt", File 3 (Some "abc"));
                               ("deep", Dir [("a.txt", File 1 (Some "x"))])]);
                  ("sock", Socket);
                  ("main.py", File 0 (Some ""))]);
       ("etc", Dir [("passwd", File 4 (Some "root"))])].

(** A world whose script prints [ok] and exits with code 1 after ten
    milliseconds. *)
Definition sample_world : world :=
  mkWorld sample_tree ["w"] (Some (fun _ _ => Exits 10 "ok" "" 1)).

(** A world whose script sleeps for a minute. *)
Definition sleepy_world : world :=
  mkWorld sample_tree ["w"] (Some (fun _ _ => Exits 60000 "" "" 0)).

(** A request that passes the containment check: the working directory
    and the requested path joined onto it both resolve, and the result
    is the working directory or lies below it. *)
Definition contained_request (w : world) (working_directory requested : string)
    (working_dir target : path) : Prop :=
  resolve_in (cwd w) (PurePath.parse working_directory) = Val working_dir /\
  resolve_in (cwd w)
    (PurePath.joinpath (PurePath.mk true working_dir) (PurePath.parse requested)) = Val target /\
  is_relative_to target working_dir = true.

(** [Path(file_path).name] *)
Definition basename (file_path : string) : string :=
  PurePath.name (PurePath.parse file_path).

(** The blocks of a run in their order, each kept when its condition
    holds: the standard output when it is not empty, the standard error
    when it is not empty, the exit code when it is not zero. *)
Definition output_blocks (out err : string) (code : Z) : list string :=
  (match out with
   | EmptyString => []
   | String _ _ => [String.append "STDOUT:" (String "010" out)]
   end)
  ++ (match err with
      | EmptyString => []
      | String _ _ => [String.append "STDERR:" (String "010" err)]
      end)
  ++ (if Z.eq_dec code 0 then []
      else [String.append "Process exited with code " (PyStr.str_of_Z code)]).

(** The text for a script that ended: its blocks with an empty line
    between them, or the fixed text when there is no block. *)
Definition run_text (out err : string) (code : Z) : string :=
  match output_blocks out err code with
  | [] => "No output produced."
  | blocks => String.concat (String "010" (String "010" "")) blocks
  end.

(** The text for a script whose output does not decode. *)
Definition failed_to_execute (file_path msg : string) : string :=
  String.append "Error: Failed to execute Python script '"
    (String.append file_path (String.append "': " msg)).

(** What keeps a command from being started in [dir]: a NUL character
    in one of its words, or [dir] not being a directory; [None] when
    nothing does. *)
Definition refusal (root : node) (cmd : list string) (dir : path) : option string :=
  if existsb has_nul cmd then Some "embedded null byte"
  else if FS.is_dir root dir then None
  else Some (String.append "[Errno 20] Not a directory: '"
               (String.append (str_of_path dir) "'")).

(** The requested path ends with [.py], in whatever case the two
    letters are written. *)
Definition ends_with_dot_py (file_path : string) : Prop :=
  exists (stem : string) (p y : ascii),
    file_path = String.append stem (String "." (String p (String y "")))
    /\ (p = "p" \/ p = "P")%char /\ (y = "y" \/ y = "Y")%char.

(** The text [run_python_file] returns for another suffix. *)
Definition not_a_python_file (file_path : string) : string :=
  String.append "Error: '"
    (String.append file_path "' is not a Python file (must end with .py)").

(** A world whose only script is named in capitals. *)
Definition capitals_world : world :=
  mkWorld (Dir [("w", Dir [("RUN.PY", File 8 (Some "print(1)"))])])
          ["w"] (Some (fun _ _ => Exits 10 "ok" "" 1)).

(** A world whose script writes a byte that is not UTF-8. *)
Definition invalid_start_byte : string :=
  "'utf-8' codec can't decode byte 0xff in position 0: invalid start byte".

Definition garbled_world : world :=
  mkWorld sample_tree ["w"] (Some (fun _ _ => Exits 10 (Undecodable invalid_start_byte) "" 0)).

(** What a request to run leads to, up to the start of the child. *)
Definition runnable (w : world) (working_directory file_path : string)
    (working_dir target m : path) : Prop :=
  contained_request w working_directory file_path working_dir target /\
  located (fs w) working_dir target (basename file_path) = Some m /\
  FS.is_file (fs w) m = true /\
  PyStr.endswith (PyStr.lower file_path) ".py" = true.

(** A text of 10,250 characters, and a world where [/w/big.txt] holds
    it. *)
Definition long_text : string := String.concat "" (List.repeat "0123456789"%string 1025).

Definition big_world : world :=
  mkWorld (Dir [("w"%string, Dir [("big.txt"%string, File 10250 (Some long_text))])])
          ["w"%string] None.

(** The line of the listing for one entry of the directory: one line
    for a regular file, with its size; one line for a directory, with
    size 0; none for anything else. *)
Definition entry_lines (entry : string * node) : list string :=
  match entry with
  | (item_name, File size _) =>
      [String.append item_name
         (String.append ": file_size="
            (String.append (PyStr.str_of_N size) ", is_dir=False"))]
  | (item_name, Dir _) => [String.append item_name ": file_size=0, is_dir=True"]
  | (_, Socket) => []
  end.

(** The directory [get_files_info] lists: the working directory for
    [.], the located path otherwise. *)
Definition listing_target (w : world) (working_directory directory : string)
    (working_dir target d : path) : Prop :=
  contained_request w working_directory directory working_dir target /\
  (if (directory =? ".")%string then d = working_dir
   else located (fs w) working_dir target directory = Some d).

(** The first entry of a directory with a given name. *)
Fixpoint assoc (c : string) (es : list (string * node)) : option node :=
  match es with
  | [] => None
  | (k, v) :: t => if (k =? c)%string then Some v else assoc c t
  end.

Fixpoint distinct (names : list string) : bool :=
  match names with
  | [] => true
  | k :: t => negb (existsb (String.eqb k) t) && distinct t
  end.

(** A tree as a file system has it: in every directory the names of
    the entries are distinct and none is [..]. *)
Fixpoint wf (n : node) : bool :=
  match n with
  | Dir es =>
      distinct (map fst es)
      && negb (existsb (String.eqb dotdot) (map fst es))
      && forallb (fun kv => wf (snd kv)) es
  | _ => true
  end.

(** A pattern component that stands for one name: not empty, not [.]
    or [..], without [/] and without the characters of a wildcard. *)
Definition plain (c : string) : bool :=
  negb (c =? "")%string && negb (c =? ".")%string && negb (c =? dotdot)%string
  && negb (Glob.is_wildcard_pattern c) && negb (PyStr.contains_char "/" c).

(** [p] leads to a directory of the tree, by plain descent. *)
Definition is_directory (root : node) (p : path) : Prop :=
  exists es, FS.find root p = Some (Dir es).

(** The selector of a pattern whose components are plain names; the
    last one only accepts a directory when the pattern ends with [/]. *)
Fixpoint chain (parts : list string) (dir_last : bool) : Glob.selector :=
  match parts with
  | [] => Glob.Terminating
  | c :: rest =>
      Glob.Precise c (match rest with [] => dir_last | _ :: _ => true end)
                   (chain rest dir_last)
  end.

(** What a pattern of plain names accepts at [q]: any entry, or only a
    directory when the pattern ends with [/]. *)
Definition accepted (root : node) (dir_last : bool) (q : path) : Prop :=
  if dir_last then is_directory root q else FS.find root q <> None.

(** A pattern component [_make_selector] accepts: [**] alone, or a
    component without [**] in it. *)
Definition valid_part (c : string) : bool :=
  (c =? "**")%string || negb (PyStr.contains "**" c).

(** The text [write_file] returns for an exception of its [try]. *)
Definition write_error_text (file_path : string) (e : exn) : string :=
  match e with
  | OSError EACCES _ => Msg.write_permission file_path
  | OSError _ _ => Msg.write_failed file_path (str_of_exn e)
  | _ => Msg.write_unexpected file_path (str_of_exn e)
  end.

Definition with_fs (w : world) (root : node) : world :=
  mkWorld root (cwd w) (interpreter w).

(** Nothing stands in the way of writing at [target], which is not the
    root: each of its ancestors is missing or a directory, and the
    target itself is missing or a regular file. *)
Definition writable (root : node) (target : path) : Prop :=
  target <> [] /\
  (forall q r, target = q ++ r -> r <> [] ->
               FS.find root q = None \/ is_directory root q) /\
  (FS.find root target = None \/
   exists size text, FS.find root target = Some (File size text)).

(** The regular file a write of [content] leaves. *)
Definition written (content : string) : node :=
  File (PyStr.utf8_len content) (Some content).

(** The tree without the sizes and texts of its files: what the
    existence checks and the search depend on. *)
Fixpoint erase (n : node) : node :=
  match n with
  | File _ _ => File 0 None
  | Dir es => Dir (map (fun kv => (fst kv, erase (snd kv))) es)
  | Socket => Socket
  end.

Unset Implicit Arguments.

(** ** Glob patterns

    What a pattern of [fnmatch] stands for, as its documentation words
    it: [*] matches everything, [?] any single character, [[seq]] any
    character in seq, [[!seq]] any character not in seq; any other
    character stands for itself. *)

(** The text begins with a range [lo-hi]. *)
Definition starts_range (s : string) : Prop :=
  exists lo hi rest, s = String lo (String "-" (String hi rest)).

(** [c] is one of the characters of [seq], which is read from the
    left: [lo-hi] gives the characters from [lo] to [hi], and a
    character that begins no range gives itself. *)
Inductive in_seq (c : ascii) : string -> Prop :=
| in_seq_range (lo hi : ascii) (rest : string) :
    nat_of_ascii lo <= nat_of_ascii c -> nat_of_ascii c <= nat_of_ascii hi ->
    in_seq c (String lo (String "-" (String hi rest)))
| in_seq_after_range (lo hi : ascii) (rest : string) :
    in_seq c rest -> in_seq c (String lo (String "-" (String hi rest)))
| in_seq_first (rest : string) :
    ~ starts_range (String c rest) -> in_seq c (String c rest)
| in_seq_later (a : ascii) (rest : string) :
    ~ starts_range (String a rest) -> in_seq c rest -> in_seq c (String a rest).

(** What can stand between the brackets: at least one character, and
    no closing bracket after the first one. *)
Definition seq_body (body : string) : Prop :=
  exists c r, body = String c r /\ PyStr.contains_char "]" r = false.

(** The text after an opening bracket reads as [body]], or as [!body]]
    for the negated form, followed by [rest]. *)
Inductive bracket : string -> bool -> string -> string -> Prop :=
| bracket_plain (body rest : string) :
    seq_body body -> (forall r, body <> String "!" r) ->
    bracket (String.append body (String "]" rest)) false body rest
| bracket_negated (body rest : string) :
    seq_body body ->
    bracket (String "!" (String.append body (String "]" rest))) true body rest.

(** [glob_match pat name]: the pattern stands for the name.  An opening
    bracket that begins no bracket expression stands for itself. *)
Inductive glob_match : string -> string -> Prop :=
| glob_empty : glob_match "" ""
| glob_star_stop (pat s : string) :
    glob_match pat s -> glob_match (String "*" pat) s
| glob_star_step (pat : string) (c : ascii) (s : string) :
    glob_match (String "*" pat) s -> glob_match (String "*" pat) (String c s)
| glob_question (pat : string) (c : ascii) (s : string) :
    glob_match pat s -> glob_match (String "?" pat) (String c s)
| glob_seq (pat : string) (negated : bool) (body rest : string) (c : ascii) (s : string) :
    bracket pat negated body rest ->
    (in_seq c body <-> negated = false) ->
    glob_match rest s ->
    glob_match (String "[" pat) (String c s)
| glob_open (pat s : string) :
    (forall negated body rest, ~ bracket pat negated body rest) ->
    glob_match pat s ->
    glob_match (String "[" pat) (String "[" s)
| glob_char (a : ascii) (pat s : string) :
    a <> "*"%char -> a <> "?"%char -> a <> "["%char ->
    glob_match pat s ->
    glob_match (String a pat) (String a s).

Set Implicit Arguments.

(** A pattern component the search takes as a name or as a glob: not
    [..], and without [**]. *)
Definition searchable (c : string) : bool :=
  negb (c =? dotdot)%string && negb (PyStr.contains "**" c).

(** A name within NAME_MAX, 255 bytes on Linux.  For a longer one
    [os.stat] fails with ENAMETOOLONG, which [Path.exists] raises
    again; the tree has no such limit, and the statements on missing
    paths are for names within it. *)
Definition fits (c : string) : bool := (PyStr.utf8_len c <=? 255)%N.

(** The selector of a pattern of searchable components: a component
    with a wildcard character selects by matching, any other by name;
    the last one only accepts a directory when the pattern ends with
    [/]. *)
Fixpoint pattern_chain (parts : list string) (dir_last : bool) : Glob.selector :=
  match parts with
  | [] => Glob.Terminating
  | c :: rest =>
      let dironly := match rest with [] => dir_last | _ :: _ => true end in
      if Glob.is_wildcard_pattern c
      then Glob.Wildcard c dironly (pattern_chain rest dir_last)
      else Glob.Precise c dironly (pattern_chain rest dir_last)
  end.

(** A working directory where a file named [a[b]] lies in [sub],
    beside a file named [ab]; and one where it lies there alone. *)
Definition bracket_world : world :=
  mkWorld (Dir [("w", Dir [("sub", Dir [("a[b]", File 4 (Some "mine"));
                                        ("ab", File 5 (Some "other"))])])])
          ["w"] None.

Definition lone_bracket_world : world :=
  mkWorld (Dir [("w", Dir [("sub", Dir [("a[b]", File 4 (Some "mine"))])])])
          ["w"] None.
(** * The agent around the functions

    [call_function.py], [agent.py] and [main.py], and the declarations
    of the tools in [agent_functions.py].  Their scope:
    - the LLM service is an oracle: for the n-th request and its
      contents it gives a response, or the text of the exception the
      call raised; the fields of a response ([candidates],
      [function_calls], [text], [usage_metadata]) are taken as the
      library gives them;
    - the arguments of a function call have the types the declarations
      give them, a string or an array of strings;
    - [messages] is one list object, which [run_agent] extends in
      place: it is part of the state;
    - what is printed is kept line by line;
    - [os.getcwd] gives the current directory of the world;
    - [main] is taken from the loop over [sys.argv] on, with the client
      built. *)

(** ** The declarations of the tools (agent_functions.py) *)

Inductive SchemaType : Type := STRING | ARRAY | OBJECT.

(** [types.Schema], with the fields the declarations set. *)
Inductive Schema : Type :=
| mkSchema (type : SchemaType) (description : option string)
           (items : option Schema) (properties : list (string * Schema)).

Record FunctionDeclaration : Type := mkFunctionDeclaration {
  fd_name : string;
  fd_description : string;
  fd_parameters : Schema
}.

Definition string_schema (description : string) : Schema :=
  mkSchema STRING (Some description) None [].

Definition schema_get_files_info : FunctionDeclaration :=
  mkFunctionDeclaration "get_files_info"
    "Lists files in the specified directory along with their sizes, constrained to the working directory. If the directory is not found immediately, searches recursively to locate it."
    (mkSchema OBJECT None None
       [("directory",
         string_schema "The directory to list files from, relative to the working directory. If not provided, lists files in the working directory itself.")]).

Definition schema_get_file_content : FunctionDeclaration :=
  mkFunctionDeclaration "get_file_content"
    "Gets the contents of the given file as a string, constrained to the working directory. If the file is not found immediately, searches recursively to locate it."
    (mkSchema OBJECT None None
       [("file_path", string_schema "The path to the file, from the working directory.")]).

Definition schema_run_python_file : FunctionDeclaration :=
  mkFunctionDeclaration "run_python_file"
    "Runs a python file with the python3 interpreter. Accepts additionals CLI args as an optional array. If the file is not found immediately, searches recursively to locate it."
    (mkSchema OBJECT None None
       [("file_path", string_schema "The file to run, relative to the working directory.");
        ("args",
         mkSchema ARRAY
           (Some "An optional array of strings to be used as the CLI args for the Python file.")
           (Some (mkSchema STRING None None [])) [])]).

Definition schema_write_file : FunctionDeclaration :=
  mkFunctionDeclaration "write_file"
    "Writes or Overwrites an existing file to a new file (and creates required parent dirs safely). Constrained to the working directory. If writing to an existing file that is not found immediately, searches recursively to locate it."
    (mkSchema OBJECT None None
       [("file_path",
         string_schema "Path to the file to write, relative to the working directory.");
        ("content", string_schema "The content to write to the file, as a string.")]).

(** The names of the parameters a declaration gives. *)
Definition declared_parameters (d : FunctionDeclaration) : list string :=
  match fd_parameters d with
  | mkSchema _ _ _ properties => map fst properties
  end.

(** ** Function calls, contents and responses *)

(** The [args] of a function call, as [dict.get] reads them under the
    four keys the dispatcher uses: the value, or [None] for a key that
    is absent.  [args_str] is [str(args)]. *)
Record CallArgs : Type := mkCallArgs {
  args_str : string;
  get_directory : option string;
  get_file_path : option string;
  get_content : option string;
  get_args : option (list string)
}.

(** [types.FunctionCall]; [args] is optional. *)
Record FunctionCall : Type := mkFunctionCall {
  fc_name : string;
  fc_args : option CallArgs
}.

Inductive Part : Type :=
| TextPart (text : string)
| FunctionCallPart (function_call : FunctionCall).

Record Content : Type := mkContent {
  role : option string;
  parts : list Part
}.

Record UsageMetadata : Type := mkUsageMetadata {
  prompt_token_count : option Z;
  candidates_token_count : option Z
}.

Record Candidate : Type := mkCandidate {
  candidate_content : option Content
}.

(** [types.GenerateContentResponse]; a list that is [None] counts as
    the empty list, which the code does not tell apart. *)
Record GenerateContentResponse : Type := mkResponse {
  usage_metadata : option UsageMetadata;
  candidates : list (option Candidate);
  function_calls : list FunctionCall;
  response_text : option string
}.

Record GenerateContentRequest : Type := mkRequest {
  request_model : string;
  request_contents : list Content;
  request_tools : list FunctionDeclaration;
  request_system_instruction : string
}.

(** What [client.models.generate_content] does: it raises an exception
    with some text, or returns a response, which may be [None]. *)
Inductive llm_reply : Type :=
| ServiceError (text : string)
| Replied (response : option GenerateContentResponse).

(** The service: its reply to the n-th request of the process. *)
Definition Client : Type := nat -> GenerateContentRequest -> llm_reply.

(** ** The state of the process *)

Inductive printed : Type :=
| Line (text : string)
| HelpScreen.

Record process : Type := mkProcess {
  env : state;
  stdout : list printed;
  messages : list Content;
  requests : nat
}.

(** What leaves a call of this layer besides a value: an exception of
    the functions, an AttributeError, or [sys.exit]. *)
Inductive fault : Type :=
| FunctionRaised (e : exn)
| AttributeError (msg : string)
| SystemExit (code : Z).

Inductive outcome (A : Type) : Type :=
| Returned (a : A)
| Failed (f : fault).
Arguments Returned {A} a.
Arguments Failed {A} f.

Definition Agent (A : Type) : Type := process -> outcome A * process.

Definition agent_ret {A : Type} (a : A) : Agent A := fun p => (Returned a, p).

Definition agent_fail {A : Type} (f : fault) : Agent A := fun p => (Failed f, p).

Definition agent_bind {A B : Type} (m : Agent A) (k : A -> Agent B) : Agent B :=
  fun p =>
    match m p with
    | (Returned a, p') => k a p'
    | (Failed f, p') => (Failed f, p')
    end.

Declare Scope agent_scope.
Delimit Scope agent_scope with agent.
Notation "x <- m ;; k" := (agent_bind m (fun x => k))
  (at level 61, m at next level, right associativity) : agent_scope.
Notation "m ;;; k" := (agent_bind m (fun _ => k))
  (at level 61, right associativity) : agent_scope.

(** A call of one of the functions: its effects are those of the
    function, and an exception that leaves it goes on. *)
Definition lift {A : Type} (m : M A) : Agent A :=
  fun p =>
    match m (env p) with
    | (Val a, st) => (Returned a, mkProcess st (stdout p) (messages p) (requests p))
    | (Exc e, st) => (Failed (FunctionRaised e), mkProcess st (stdout p) (messages p) (requests p))
    end.

(** [print(text)] *)
Definition print (text : string) : Agent unit :=
  fun p => (Returned tt, mkProcess (env p) (stdout p ++ [Line text]) (messages p) (requests p)).

Fixpoint print_lines (lines : list string) : Agent unit :=
  match lines with
  | [] => agent_ret tt
  | l :: rest => (print l ;;; print_lines rest)%agent
  end.

(** The prints of the help screen (main.py, lines 20 to 50); some of
    their characters are outside of the strings of the model. *)
Definition print_help : Agent unit :=
  fun p => (Returned tt, mkProcess (env p) (stdout p ++ [HelpScreen]) (messages p) (requests p)).

(** [os.getcwd()] *)
Definition getcwd : Agent string :=
  fun p => (Returned (str_of_path (cwd (fst (env p)))), p).

(** [messages.append(c)] *)
Definition append_message (c : Content) : Agent unit :=
  fun p => (Returned tt, mkProcess (env p) (stdout p) (messages p ++ [c]) (requests p)).

(** [messages = l] *)
Definition set_messages (l : list Content) : Agent unit :=
  fun p => (Returned tt, mkProcess (env p) (stdout p) l (requests p)).

(** [sys.exit(code)] *)
Definition sys_exit {A : Type} (code : Z) : Agent A := agent_fail (SystemExit code).

Definition none_has_no_attribute (attribute : string) : fault :=
  AttributeError (PyStr.f_string ["'NoneType' object has no attribute '"; attribute; "'"]).

(** [str(x)] for an optional integer *)
Definition str_of_optional_int (x : option Z) : string :=
  match x with
  | Some z => PyStr.str_of_Z z
  | None => "None"
  end.

(** ** The dispatcher (call_function.py) *)

(** [function_call_part.args.get]: an AttributeError when [args] is
    [None]. *)
Definition args_of (function_call_part : FunctionCall) : Agent CallArgs :=
  match fc_args function_call_part with
  | Some a => agent_ret a
  | None => agent_fail (none_has_no_attribute "get")
  end.

Definition file_path_required (function_name : string) : string :=
  PyStr.f_string ["Error: file_path parameter is required for "; function_name].

Definition write_parameters_required : string :=
  "Error: file_path and content parameters are required for write_file".

Definition unknown_function (function_name : string) : string :=
  PyStr.f_string ["Error: Unknown function '"; function_name; "'"].

Definition call_function (function_call_part : FunctionCall) (verbose : bool) : Agent string :=
  ((if verbose then
      print (PyStr.f_string
               ["Executing function: "; fc_name function_call_part; " with arguments: ";
                match fc_args function_call_part with
                | Some a => args_str a
                | None => "None"
                end])
    else print (PyStr.f_string ["Executing function: "; fc_name function_call_part])) ;;;
   working_directory <- getcwd ;;
   if (fc_name function_call_part =? "get_files_info")%string then
     a <- args_of function_call_part ;;
     let directory := match get_directory a with Some d => d | None => "." end in
     lift (get_files_info working_directory directory)
   else if (fc_name function_call_part =? "get_file_content")%string then
     a <- args_of function_call_part ;;
     match get_file_path a with
     | None => agent_ret (file_path_required "get_file_content")
     | Some file_path => lift (get_file_content working_directory file_path)
     end
   else if (fc_name function_call_part =? "write_file")%string then
     a <- args_of function_call_part ;;
     match get_file_path a, get_content a with
     | Some file_path, Some content => lift (write_file working_directory file_path content)
     | _, _ => agent_ret write_parameters_required
     end
   else if (fc_name function_call_part =? "run_python_file")%string then
     a <- args_of function_call_part ;;
     let args := match get_args a with Some l => l | None => [] end in
     match get_file_path a with
     | None => agent_ret (file_path_required "run_python_file")
     | Some file_path => lift (run_python_file working_directory file_path args)
     end
   else agent_ret (unknown_function (fc_name function_call_part)))%agent.

(** ** One round with the model (agent.py) *)

Definition system_prompt : string :=
  PyStr.join PyStr.nl
    [""; "You are a helpful AI coding agent. You can help the user with any files/directories in the current working directory of the terminal.";
     "";
     "When a user asks a question or makes a request, make a function call plan. You can perform the following operations:";
     "";
     "- List files and directories (shows immediate contents only - you may need to explore subdirectories)";
     "- Read file contents";
     "- Write files";
     "- Run Python scripts";
     "";
     "IMPORTANT BEHAVIOR NOTES:";
     "- The get_files_info function only lists immediate directory contents, not recursive";
     PyStr.f_string ["- When looking for "; PyStr.dq; "all files"; PyStr.dq; " of a type (e.g., ";
                     PyStr.dq; "all Python files"; PyStr.dq; "), you need to:"];
     PyStr.f_string ["  1. First list the root directory with get_files_info("; PyStr.dq; ".";
                     PyStr.dq; ")"];
     "  2. Then explore each subdirectory you find to search for more files";
     "  3. Continue this pattern to find files in nested directories like pkg/, tests/, etc.";
     "- All paths you provide should be relative to the working directory";
     "- You do not need to specify the working directory in your function calls as it is automatically injected for security reasons";
     "- Always be thorough when searching - users expect complete results across the entire project structure";
     ""].

(** The lines printed when the call of the service raises. *)
Definition service_error_lines (text : string) : list string :=
  [PyStr.f_string ["Error calling LLM service: "; text];
   "This could be due to:";
   "- Network connectivity issues";
   "- API rate limits";
   "- Invalid API key";
   "- Service temporarily unavailable"].

(** [client.models.generate_content(...)] on the current [messages] *)
Definition generate_content (client : Client) (tools : list FunctionDeclaration)
  : Agent llm_reply :=
  fun p =>
    (Returned (client (requests p)
                 (mkRequest "gemini-2.5-flash" (messages p) tools system_prompt)),
     mkProcess (env p) (stdout p) (messages p) (S (requests p))).

(** The loop over [response.candidates] *)
Fixpoint append_candidates (l : list (option Candidate)) : Agent unit :=
  match l with
  | [] => agent_ret tt
  | candidate :: rest =>
      (match candidate with
       | Some c =>
           match candidate_content c with
           | Some content => append_message content
           | None => agent_ret tt
           end
       | None => agent_ret tt
       end ;;;
       append_candidates rest)%agent
  end.

(** The message that carries the result of a function call. *)
Definition function_result (result : string) : Content :=
  mkContent (Some "user") [TextPart (PyStr.f_string ["Function result: "; result])].

(** The loop over [response.function_calls] *)
Fixpoint process_function_calls (l : list FunctionCall) (verbose_flag : bool) : Agent unit :=
  match l with
  | [] => agent_ret tt
  | function_call :: rest =>
      (result <- call_function function_call verbose_flag ;;
       append_message (function_result result) ;;;
       process_function_calls rest verbose_flag)%agent
  end.

(** [run_agent]; its first result is the list [messages] of the state.
    The token counts are read before the response is checked. *)
Definition run_agent (client : Client) (available_functions : list FunctionDeclaration)
    (verbose_flag : bool) : Agent bool :=
  (reply <- generate_content client available_functions ;;
   match reply with
   | ServiceError text => print_lines (service_error_lines text) ;;; agent_ret false
   | Replied response =>
       (if verbose_flag then
          match response with
          | None => agent_fail (none_has_no_attribute "usage_metadata")
          | Some r =>
              match usage_metadata r with
              | None => agent_fail (none_has_no_attribute "prompt_token_count")
              | Some u =>
                  print (PyStr.f_string ["Prompt tokens: ";
                                         str_of_optional_int (prompt_token_count u)]) ;;;
                  print (PyStr.f_string ["Response tokens: ";
                                         str_of_optional_int (candidates_token_count u)])
              end
          end
        else agent_ret tt) ;;;
       match response with
       | None => print "Response is malformed" ;;; agent_ret false
       | Some r =>
           match usage_metadata r with
           | None => print "Response is malformed" ;;; agent_ret false
           | Some _ =>
               append_candidates (candidates r) ;;;
               match function_calls r with
               | _ :: _ =>
                   process_function_calls (function_calls r) verbose_flag ;;;
                   agent_ret true
               | [] =>
                   print (match response_text r with Some t => t | None => "None" end) ;;;
                   agent_ret false
               end
           end
       end
   end)%agent.

(** ** The command line and the loop of the agent (main.py) *)

(** The loop over [sys.argv] from index [i]; [argv] is what is left
    from that index on.  It gives the prompt and the verbose flag. *)
Fixpoint parse_arguments (argv : list string) (prompt : option string) (verbose_flag : bool)
  : Agent (option string * bool) :=
  match argv with
  | [] => agent_ret (prompt, verbose_flag)
  | arg :: rest =>
      if (arg =? "--help")%string || (arg =? "-h")%string then
        (print_help ;;; sys_exit 0)%agent
      else if (arg =? "--prompt")%string || (arg =? "-p")%string then
        match rest with
        | [] => (print "Error: --prompt requires a value" ;;; sys_exit 1)%agent
        | value :: rest' =>
            if String.prefix "--" value
            then (print "Error: --prompt requires a value" ;;; sys_exit 1)%agent
            else parse_arguments rest' (Some value) verbose_flag
        end
      else if (arg =? "--verbose")%string || (arg =? "-v")%string then
        parse_arguments rest prompt true
      else
        parse_arguments rest (match prompt with None => Some arg | Some _ => prompt end)
                        verbose_flag
  end.

(** [types.Tool(function_declarations=[...])] of [main] *)
Definition available_functions : list FunctionDeclaration :=
  [schema_get_files_info; schema_write_file; schema_get_file_content; schema_run_python_file].

Definition max_iterations : nat := 20.

(** The [while iteration < max_iterations] loop; it gives the final
    value of [iteration].  [fuel] bounds the number of rounds: the loop
    itself ends by its condition when [max_iterations - iteration] is
    not above the fuel. *)
Fixpoint agent_loop (fuel : nat) (client : Client) (verbose_flag : bool) (iteration : nat)
  : Agent nat :=
  if (iteration <? max_iterations)%nat then
    match fuel with
    | O => agent_ret iteration
    | S fuel' =>
        (has_function_calls <- run_agent client available_functions verbose_flag ;;
         if negb has_function_calls then agent_ret iteration
         else
           let iteration := S iteration in
           (if verbose_flag
            then print (PyStr.f_string ["Agent iteration "; PyStr.str_of_N (N.of_nat iteration);
                                        " completed"])
            else agent_ret tt) ;;;
           agent_loop fuel' client verbose_flag iteration)%agent
    end
  else agent_ret iteration.

Definition main (client : Client) (argv : list string) : Agent unit :=
  (parsed <- parse_arguments (tl argv) None false ;;
   let verbose_flag := snd parsed in
   match fst parsed with
   | None => print "Error: --prompt is required." ;;; sys_exit 1
   | Some prompt =>
       set_messages [mkContent (Some "user") [TextPart prompt]] ;;;
       (if verbose_flag then print (PyStr.f_string ["User's prompt: "; prompt])
        else agent_ret tt) ;;;
       iteration <- agent_loop max_iterations client verbose_flag 0 ;;
       if (max_iterations <=? iteration)%nat
       then print "Warning: Maximum iterations reached, stopping agent loop"
       else agent_ret tt
   end)%agent.

(** The process at its start in world [w]. *)
Definition start (w : world) : process := mkProcess (w, []) [] [] 0.

(** ** Notions the statements about the agent use *)

(** The tree with the directory at [p] emptied: what the tree holds
    outside of [p]. *)
Definition outside (p : path) (root : node) : node :=
  FS.update root p (fun _ => Dir []).

(** A name a directory entry can have. *)
Definition file_name_ok (c : string) : bool :=
  negb (c =? "")%string && negb (c =? ".")%string && negb (c =? dotdot)%string
  && negb (PyStr.contains_char "/" c) && negb (has_nul c).

(** A canonical path: each component is a name. *)
Definition canonical (p : path) : bool := forallb file_name_ok p.

(** An event that changes the tree or starts a process. *)
Definition mutating (ev : event) : bool :=
  match ev with
  | EvMkdir _ | EvWrite _ _ | EvSpawn _ _ | EvKill => true
  | _ => false
  end.

(** [content[:MAX] + marker] when [content] is longer than the limit:
    what [get_file_content] gives for a text. *)
Definition shown (file_path content : string) : string :=
  if (MAX_FILE_CONTENT_LENGTH <? N.of_nat (String.length content))%N
  then String.append (PyStr.take (N.to_nat MAX_FILE_CONTENT_LENGTH) content)
                     (Msg.truncated file_path)
  else content.

(** The contents the candidates of a response add to the messages. *)
Definition candidate_contents (l : list (option Candidate)) : list Content :=
  flat_map (fun candidate =>
              match candidate with
              | Some c => match candidate_content c with
                          | Some content => [content]
                          | None => []
                          end
              | None => []
              end) l.

Definition is_function_result (c : Content) : Prop :=
  exists result, c = function_result result.

(** The words the loop over the command line treats as flags. *)
Definition is_flag (arg : string) : bool :=
  existsb (String.eqb arg) ["--help"; "-h"; "--prompt"; "-p"; "--verbose"; "-v"].

(** A trace without an event that changes the tree or starts a
    process. *)
Definition quiet (t : list event) : bool := forallb (fun ev => negb (mutating ev)) t.

(** A computation that leaves the world as it is and only adds quiet
    events. *)
Definition readonly {A : Type} (m : M A) : Prop :=
  forall w t, exists r t', m (w, t) = (r, (w, t ++ t')) /\ quiet t' = true.

(** A computation that only adds events with property [P] to the
    trace. *)
Definition adds_only (P : event -> Prop) {A : Type} (m : M A) : Prop :=
  forall w t, exists r w' t', m (w, t) = (r, (w', t ++ t')) /\ Forall P t'.

(** No precise name of the selector is [..]. *)
Fixpoint selector_without_dotdot (sel : Glob.selector) : Prop :=
  match sel with
  | Glob.Terminating => True
  | Glob.Precise name _ successor => name <> dotdot /\ selector_without_dotdot successor
  | Glob.Wildcard _ _ successor => selector_without_dotdot successor
  | Glob.Recursive successor => selector_without_dotdot successor
  end.

(** A computation whose result and final world do not depend on the
    events logged before it, and which only appends to them. *)
Definition appends {A : Type} (m : M A) : Prop :=
  forall w t, m (w, t) = (fst (fst (run m w)), (snd (fst (run m w)), t ++ snd (run m w))).

(** The line [call_function] prints first. *)
Definition executing_line (function_call_part : FunctionCall) (verbose : bool) : string :=
  if verbose then
    PyStr.f_string
      ["Executing function: "; fc_name function_call_part; " with arguments: ";
       match fc_args function_call_part with
       | Some a => args_str a
       | None => "None"
       end]
  else PyStr.f_string ["Executing function: "; fc_name function_call_part].

(** The process after one more line is printed. *)
Definition printed_line (p : process) (text : string) : process :=
  mkProcess (env p) (stdout p ++ [Line text]) (messages p) (requests p).

(** The world of a process. *)
Definition world_of (p : process) : world := fst (env p).

(** The process after some more lines are printed. *)
Definition printed_lines (p : process) (lines : list string) : process :=
  mkProcess (env p) (stdout p ++ map Line lines) (messages p) (requests p).

(** The reply of the service to the request [run_agent] sends from
    process [p], and the process once the request is made. *)
Definition reply_to (client : Client) (tools : list FunctionDeclaration) (p : process)
  : llm_reply :=
  client (requests p) (mkRequest "gemini-2.5-flash" (messages p) tools system_prompt).

Definition after_request (p : process) : process :=
  mkProcess (env p) (stdout p) (messages p) (S (requests p)).

(** The process with some more messages. *)
Definition with_messages (p : process) (added : list Content) : process :=
  mkProcess (env p) (stdout p) (messages p ++ added) (requests p).

(** The two lines with the token counts. *)
Definition token_lines (u : UsageMetadata) : list string :=
  [PyStr.f_string ["Prompt tokens: "; str_of_optional_int (prompt_token_count u)];
   PyStr.f_string ["Response tokens: "; str_of_optional_int (candidates_token_count u)]].

(** A response without which [run_agent] cannot go on: [None], or one
    without usage metadata. *)
Definition malformed (response : option GenerateContentResponse) : bool :=
  match response with
  | None => true
  | Some r => match usage_metadata r with None => true | Some _ => false end
  end.

(** A service that gives the replies of a list in turn, and raises
    once the list is used up. *)
Definition scripted (replies : list llm_reply) : Client :=
  fun n _ => nth n replies (ServiceError "quota exceeded").

(** A response with usage metadata and one candidate, whose content
    holds the given function calls or else the given text. *)
Definition sample_response (calls : list FunctionCall) (text : string)
  : GenerateContentResponse :=
  mkResponse (Some (mkUsageMetadata (Some 12%Z) (Some 7%Z)))
    [Some (mkCandidate
             (Some (mkContent (Some "model")
                      (match calls with
                       | [] => [TextPart text]
                       | _ :: _ => map FunctionCallPart calls
                       end))))]
    calls
    (match calls with [] => Some text | _ :: _ => None end).

(** The call that lists the current directory, and the call that reads
    [calc.py]. *)
Definition list_call : FunctionCall :=
  mkFunctionCall "get_files_info" (Some (mkCallArgs "{}" None None None None)).

Definition read_call : FunctionCall :=
  mkFunctionCall "get_file_content"
    (Some (mkCallArgs "{'file_path': 'calc.py'}" None (Some "calc.py") None None)).

(** A service that asks for a listing in every round. *)
Definition insistent : Client :=
  fun _ _ => Replied (Some (sample_response [list_call] "")).

(** The process after the help screen is printed. *)
Definition printed_help (p : process) : process :=
  mkProcess (env p) (stdout p ++ [HelpScreen]) (messages p) (requests p).

(** The first message of a conversation: the prompt of the user. *)
Definition user_prompt (prompt : string) : Content :=
  mkContent (Some "user") [TextPart prompt].

(** What a run of the agent is to keep, for a current directory [c]
    and the tree [o] around it: the tree stays well formed, [c] stays
    the current directory and a directory of the tree, and the tree
    with [c] emptied stays [o]. *)
Definition safe_state (c : path) (o : node) (p : process) : Prop :=
  wf (fs (world_of p)) = true /\
  cwd (world_of p) = c /\
  is_directory (fs (world_of p)) c /\
  outside c (fs (world_of p)) = o.

Definition keeps (c : path) (o : node) {A : Type} (m : Agent A) : Prop :=
  forall p, safe_state c o p -> safe_state c o (snd (m p)).

(** * Properties *)

Unset Implicit Arguments.

(** ** The model on concrete inputs *)

Example str_of_numbers :
  PyStr.str_of_N 10240 = "10240"%string /\ PyStr.str_of_Z (-9) = "-9"%string /\
  PyStr.str_of_Z 0 = "0"%string.
Proof. repeat split; reflexivity. Qed.

Example parse_examples :
  PurePath.parse "a//./b/" = PurePath.mk false ["a"; "b"]%string /\
  PurePath.parse "/etc/passwd" = PurePath.mk true ["etc"; "passwd"]%string /\
  basename "pkg/../x/calc.py" = "calc.py"%string /\
  basename "a/.." = ".."%string /\ basename "." = EmptyString.
Proof. repeat split; reflexivity. Qed.

Example resolve_examples :
  resolve_in ["home"]%string (PurePath.parse "w") = Val ["home"; "w"]%string /\
  resolve_in [] (PurePath.joinpath (PurePath.mk true ["w"]%string) (PurePath.parse "a.txt/../zz"))
  = Val ["w"; "zz"]%string /\
  resolve_in [] (PurePath.joinpath (PurePath.mk true ["w"]%string) (PurePath.parse "/etc/passwd"))
  = Val ["etc"; "passwd"]%string /\
  resolve_in [] (PurePath.parse "/../..") = Val [] /\
  resolve_in [] (PurePath.parse (String "a" (String PyStr.nul "b")))
  = Exc (ValueError "embedded null byte").
Proof. repeat split; reflexivity. Qed.

Example fnmatch_examples :
  map (fun pn => Glob.fnmatch (fst pn) (snd pn))
      [("[a-m]*.py", "main.py"); ("[!a-m]*.py", "main.py"); ("[]]x", "]x");
       ("[a-c-e]", "-"); ("[a-c-e]", "d"); ("[z-a]", "m"); ("[!]", "[!]");
       ("a[", "a["); ("*.txt", "a.txt"); ("a*b*c", "aXbYc"); ("a*b*c", "aXbY")]%string
  = [true; false; true; true; false; false; true; true; true; true; false].
Proof. reflexivity. Qed.

Example rglob_examples :
  Glob.rglob sample_tree ["w"]%string ".."
  = Val [["w"; ".."]; ["w"; "pkg"; ".."]; ["w"; "pkg"; "deep"; ".."]]%string /\
  Glob.rglob sample_tree ["w"]%string ""
  = Val [["w"]; ["w"; "pkg"]; ["w"; "pkg"; "deep"]]%string /\
  Glob.rglob sample_tree ["w"]%string "*.py"
  = Val [["w"; "main.py"]; ["w"; "pkg"; "calc.py"]]%string /\
  Glob.rglob sample_tree ["w"]%string "deep/a.txt"
  = Val [["w"; "pkg"; "deep"; "a.txt"]]%string /\
  Glob.rglob sample_tree ["w"]%string "a.txt/" = Val [] /\
  Glob.rglob sample_tree ["w"]%string "a**b" = Exc (ValueError Glob.invalid_pattern) /\
  Glob.rglob sample_tree ["w"]%string "/w/pkg" = Exc (NotImplementedError Glob.non_relative).
Proof. repeat split; reflexivity. Qed.

Example walk_examples :
  FS.exists_ sample_tree ["w"; "a.txt"; ".."]%string = false /\
  FS.is_dir sample_tree ["w"; "pkg"; ".."]%string = true /\
  FS.is_file sample_tree ["w"; "sock"]%string = false /\
  FS.exists_ sample_tree ["w"; "sock"]%string = true /\
  FS.mkdir sample_tree ["w"; "a.txt"; "b"]%string = Exc (OSError ENOTDIR "/w/a.txt/b") /\
  FS.write_text sample_tree ["w"; "pkg"]%string "c" = Exc (OSError EISDIR "/w/pkg").
Proof. repeat split; reflexivity. Qed.

(** A directory with one file [a.txt] of 5 bytes and one directory [b]. *)
Example listing_example :
  fst (fst (run (get_files_info "/d" ".")
              (mkWorld (Dir [("d", Dir [("a.txt", File 5 (Some "hello")); ("b", Dir [])])]%string)
                       [] None)))
  = Val (String.append "a.txt: file_size=5, is_dir=False"
           (String.append PyStr.nl "b: file_size=0, is_dir=True")).
Proof. reflexivity. Qed.

(** A script that prints nothing and exits with 0; one that cannot be
    started because there is no interpreter. *)
Example run_examples :
  fst (fst (run (run_python_file "/w" "main.py" [])
              (mkWorld sample_tree [] (Some (fun _ _ => Exits 5 "" "" 0)))))
  = Val "No output produced."%string /\
  fst (fst (run (run_python_file "/w" "main.py" []) (mkWorld sample_tree [] None)))
  = Val Msg.no_interpreter /\
  fst (fst (run (run_python_file "/w" "pkg" []) sample_world))
  = Val "Error: 'pkg' is not a regular file"%string.
Proof. repeat split; reflexivity. Qed.

(** Output with the line ends of other systems comes back with [\n];
    a command with a NUL character in it, or one whose working
    directory is a regular file, is not started. *)
Example run_examples_not_started :
  PyStr.universal_newlines
    (String "a" (String "013" (String "010" (String "b" (String "013" (String "c" (String "010" "")))))))
  = String "a" (String "010" (String "b" (String "010" (String "c" (String "010" ""))))) /\
  fst (fst (run (run_python_file "/w" "main.py" [])
              (mkWorld sample_tree []
                 (Some (fun _ _ => Exits 5 (Text (String "o" (String "013" (String "010" "")))) "" 0)))))
  = Val (String.append "STDOUT:" (String "010" (String "o" (String "010" "")))) /\
  run (run_python_file "/w" "main.py" [String "a" (String "000" "")]) sample_world
  = (Val "Error: Failed to execute Python script 'main.py': embedded null byte"%string,
     sample_world,
     [EvExists ["w"; "main.py"]; EvIsFile ["w"; "main.py"]]%string) /\
  run (run_python_file "/w/main.py" "../main.py" []) sample_world
  = (Val "Error: Failed to execute Python script '../main.py': [Errno 20] Not a directory: '/w/main.py'"%string,
     sample_world,
     [EvExists ["w"; "main.py"]; EvIsFile ["w"; "main.py"]]%string) /\
  refusal sample_tree ["/w/main.py"; "1"]%string ["w"]%string = None.
Proof. repeat split; reflexivity. Qed.

(** ** Paths *)

Lemma starts_with_app (q r : path) : starts_with (q ++ r) q = true.
Proof.
  induction q as [|c q IH]; simpl.
  - reflexivity.
  - rewrite String.eqb_refl. exact IH.
Qed.

Lemma starts_with_refl (p : path) : starts_with p p = true.
Proof.
  rewrite <- (app_nil_r p) at 1. apply starts_with_app.
Qed.

Lemma starts_with_inv (p q : path) :
  starts_with p q = true -> exists r, p = q ++ r.
Proof.
  revert p. induction q as [|c q IH]; intros p H.
  - exists p. reflexivity.
  - destruct p as [|a p]; simpl in H; [discriminate|].
    apply andb_true_iff in H. destruct H as [Hac H].
    apply String.eqb_eq in Hac. subst a.
    destruct (IH _ H) as [r ->]. exists r. reflexivity.
Qed.

Lemma in_removelast (A : Type) (x : A) (l : list A) : In x (removelast l) -> In x l.
Proof.
  induction l as [|a l IH]; simpl; [tauto|].
  destruct l as [|b l]; simpl in *; [tauto|].
  intros [H|H]; [left; exact H | right; apply IH; exact H].
Qed.

Lemma no_dotdot_app (p q : path) : no_dotdot p -> no_dotdot q -> no_dotdot (p ++ q).
Proof.
  unfold no_dotdot. intros Hp Hq Hin. apply in_app_or in Hin. tauto.
Qed.

Lemma no_dotdot_app_inv (p q : path) : no_dotdot (p ++ q) -> no_dotdot p /\ no_dotdot q.
Proof.
  unfold no_dotdot. intros H. split; intros Hin; apply H; apply in_or_app; tauto.
Qed.

Lemma normalise_no_dotdot (l acc : path) : no_dotdot acc -> no_dotdot (normalise acc l).
Proof.
  revert acc. induction l as [|c l IH]; intros acc Hacc; simpl.
  - exact Hacc.
  - destruct (String.eqb_spec c dotdot) as [->|Hc]; apply IH.
    + intros Hin. apply Hacc. apply (in_removelast _ _ _ Hin).
    + apply no_dotdot_app; [exact Hacc|].
      intros [H|[]]. apply Hc. exact H.
Qed.

Lemma normalise_plain (l acc : path) : no_dotdot l -> normalise acc l = acc ++ l.
Proof.
  revert acc. induction l as [|c l IH]; intros acc Hl; simpl.
  - symmetry. apply app_nil_r.
  - destruct (String.eqb_spec c dotdot) as [->|Hc].
    + exfalso. apply Hl. left. reflexivity.
    + rewrite IH.
      * rewrite <- app_assoc. reflexivity.
      * intros Hin. apply Hl. right. exact Hin.
Qed.

Lemma resolve_in_no_dotdot (current : path) (pp : PurePath.t) (p : path) :
  resolve_in current pp = Val p -> no_dotdot p.
Proof.
  unfold resolve_in. destruct (existsb has_nul _); [discriminate|].
  intros H. injection H as <-. apply normalise_no_dotdot. intros [].
Qed.

(** Joined with [.], the working directory resolves to itself. *)
Lemma resolve_under_dot (current working_dir : path) (pp : PurePath.t) (p : path) :
  resolve_in current pp = Val working_dir ->
  resolve_in current (PurePath.joinpath (PurePath.mk true working_dir) (PurePath.parse ".")) = Val p ->
  p = working_dir.
Proof.
  intros Hwd Hp.
  pose proof (resolve_in_no_dotdot _ _ _ Hwd) as Hnd.
  unfold resolve_in in Hp. simpl in Hp. rewrite app_nil_r in Hp.
  destruct (existsb has_nul working_dir); [discriminate|].
  injection Hp as <-. apply (normalise_plain working_dir [] Hnd).
Qed.

(** ** C1: containment comes first *)

(** From a working directory that is not [/] and whose own name is not
    [x], the request [../x] leaves the working directory. *)
Lemma dotdot_request_escapes (current working_dir : path) :
  no_dotdot working_dir -> existsb has_nul working_dir = false ->
  working_dir <> [] -> last working_dir "" <> "x"%string ->
  exists target,
    resolve_in current (PurePath.joinpath (PurePath.mk true working_dir) (PurePath.parse "../x"))
      = Val target /\
    is_relative_to target working_dir = false.
Proof.
  intros Hnd Hnul Hne Hlast.
  exists (removelast working_dir ++ ["x"%string]).
  split.
  - unfold resolve_in. simpl.
    rewrite existsb_app, Hnul. simpl.
    replace (working_dir ++ [dotdot; "x"%string]) with (working_dir ++ [dotdot] ++ ["x"%string])
      by reflexivity.
    change (normalise [] (working_dir ++ [".."%string; "x"%string]))
      with (normalise [] (working_dir ++ [dotdot; "x"%string])).
    assert (Hn : forall l acc, no_dotdot l ->
               normalise acc (l ++ [dotdot; "x"%string]) = removelast (acc ++ l) ++ ["x"%string]).
    { induction l as [|c l IH]; intros acc Hl; simpl.
      - rewrite app_nil_r. reflexivity.
      - destruct (String.eqb_spec c dotdot) as [->|Hc].
        + exfalso. apply Hl. left. reflexivity.
        + rewrite IH.
          * rewrite <- app_assoc. reflexivity.
          * intros Hin. apply Hl. right. exact Hin. }
    rewrite Hn by exact Hnd. reflexivity.
  - unfold is_relative_to.
    destruct (starts_with (removelast working_dir ++ ["x"%string]) working_dir) eqn:Hs;
      [|reflexivity].
    exfalso. apply starts_with_inv in Hs. destruct Hs as [r Hr].
    assert (Hlen : length r = 0).
    { apply (f_equal (@length string)) in Hr.
      rewrite !length_app in Hr. simpl in Hr.
      destruct (exists_last Hne) as [l' [a Ha]].
      rewrite Ha in Hr. rewrite removelast_last in Hr. rewrite length_app in Hr.
      simpl in Hr. lia. }
    destruct r; [|discriminate]. rewrite app_nil_r in Hr.
    apply Hlast. rewrite <- Hr. apply last_last.
Qed.

Lemma denied_is_not_not_found (file_path working_directory : string) :
  Msg.denied file_path working_directory <> Msg.not_found file_path.
Proof. unfold Msg.denied, Msg.not_found. simpl. discriminate. Qed.

Lemma list_denied_is_not_not_found (directory working_directory : string) :
  Msg.list_denied directory working_directory <> Msg.list_not_found directory.
Proof. unfold Msg.list_denied, Msg.list_not_found. simpl. discriminate. Qed.

(** C1.  When the requested path, joined onto the working directory and
    resolved, is neither the working directory nor below it, each of
    the four operations returns its access-denied text, leaves the world
    as it was and has performed no effect at all: no existence check,
    no search, no write, no process.  The text is not the not-found
    one. *)
Theorem access_denied_before_any_effect
    (w : world) (working_directory requested content : string) (args : list string)
    (working_dir target : path) :
  resolve_in (cwd w) (PurePath.parse working_directory) = Val working_dir ->
  resolve_in (cwd w)
    (PurePath.joinpath (PurePath.mk true working_dir) (PurePath.parse requested)) = Val target ->
  is_relative_to target working_dir = false ->
  run (get_files_info working_directory requested) w
    = (Val (Msg.list_denied requested working_directory), w, []) /\
  run (get_file_content working_directory requested) w
    = (Val (Msg.denied requested working_directory), w, []) /\
  run (write_file working_directory requested content) w
    = (Val (Msg.denied requested working_directory), w, []) /\
  run (run_python_file working_directory requested args) w
    = (Val (Msg.denied requested working_directory), w, []) /\
  Msg.list_denied requested working_directory <> Msg.list_not_found requested /\
  Msg.denied requested working_directory <> Msg.not_found requested.
Proof.
  intros Hwd Htarget Hout.
  repeat split.
  - unfold run, get_files_info, bind, resolve_under, resolve, ret. cbn [fst snd].
    rewrite Hwd.
    destruct (String.eqb_spec requested ".") as [->|Hdot].
    + rewrite (resolve_under_dot _ _ _ _ Hwd Htarget) in Hout.
      unfold is_relative_to in Hout. rewrite starts_with_refl in Hout. discriminate.
    + cbn [fst snd]. rewrite Htarget, Hout. reflexivity.
  - unfold run, get_file_content, bind, resolve_under, resolve, ret. cbn [fst snd].
    rewrite Hwd, Htarget, Hout. reflexivity.
  - unfold run, write_file, bind, resolve_under, resolve, ret. cbn [fst snd].
    rewrite Hwd, Htarget, Hout. reflexivity.
  - unfold run, run_python_file, bind, resolve_under, resolve, ret. cbn [fst snd].
    rewrite Hwd, Htarget, Hout. reflexivity.
  - apply list_denied_is_not_not_found.
  - apply denied_is_not_not_found.
Qed.

(** In the sample world, [../x] asked from [/w]. *)
Lemma access_denied_before_any_effect_witness :
  run (get_files_info "/w" "../x") sample_world
    = (Val (Msg.list_denied "../x" "/w"), sample_world, []) /\
  run (get_file_content "/w" "../x") sample_world
    = (Val (Msg.denied "../x" "/w"), sample_world, []) /\
  run (write_file "/w" "../x" "data") sample_world
    = (Val (Msg.denied "../x" "/w"), sample_world, []) /\
  run (run_python_file "/w" "../x" []) sample_world
    = (Val (Msg.denied "../x" "/w"), sample_world, []) /\
  Msg.list_denied "../x" "/w" <> Msg.list_not_found "../x" /\
  Msg.denied "../x" "/w" <> Msg.not_found "../x".
Proof.
  apply (access_denied_before_any_effect sample_world "/w" "../x" "data" [] ["w"%string] ["x"%string]);
    reflexivity.
Defined.

(** ** Induction on the tree *)

Lemma node_nested_ind (P : node -> Prop) :
  (forall size text, P (File size text)) ->
  (forall es, Forall (fun kv => P (snd kv)) es -> P (Dir es)) ->
  P Socket ->
  forall n, P n.
Proof.
  intros HFile HDir HSocket.
  refine (fix IH (n : node) : P n :=
            match n with
            | File size text => HFile size text
            | Dir es =>
                HDir es
                  ((fix all (es : list (string * node)) : Forall (fun kv => P (snd kv)) es :=
                      match es with
                      | [] => Forall_nil _
                      | kv :: t =>
                          Forall_cons kv
                            (match kv as kv0 return P (snd kv0) with
                             | (k, v) => IH v
                             end) (all t)
                      end) es)
            | Socket => HSocket
            end).
Qed.

(** ** What the search returns lies below its starting point *)

Lemma subdirs_extends (n : node) :
  forall p q, In q (Glob.subdirs n p) -> exists r, q = p ++ r.
Proof.
  induction n as [size text|es IH|] using node_nested_ind; intros p q Hin.
  - destruct Hin as [<-|[]]. exists []. symmetry. apply app_nil_r.
  - simpl in Hin. destruct Hin as [<-|Hin].
    + exists []. symmetry. apply app_nil_r.
    + apply in_flat_map in Hin. destruct Hin as [[k v] [Hkv Hin]].
      rewrite Forall_forall in IH. specialize (IH _ Hkv). simpl in IH, Hin.
      destruct v as [size text|es'|]; try contradiction.
      destruct (IH _ _ Hin) as [r ->]. exists (k :: r).
      rewrite <- app_assoc. reflexivity.
  - destruct Hin as [<-|[]]. exists []. symmetry. apply app_nil_r.
Qed.

Lemma in_dedup (l : list path) :
  forall seen x, In x (Glob.dedup seen l) -> In x l.
Proof.
  induction l as [|a l IH]; intros seen x Hin; simpl in *; [exact Hin|].
  destruct (existsb (path_eqb a) seen).
  - right. apply (IH _ _ Hin).
  - destruct Hin as [->|Hin]; [left; reflexivity | right; apply (IH _ _ Hin)].
Qed.

Lemma select_extends (root : node) (sel : Glob.selector) :
  forall p q, In q (Glob.select root sel p) -> exists r, q = p ++ r.
Proof.
  induction sel as [|name dironly sel IH|pat dironly sel IH|sel IH]; intros p q Hin; simpl in Hin.
  - destruct Hin as [<-|[]]. exists []. symmetry. apply app_nil_r.
  - destruct (if dironly then _ else _); [|contradiction].
    destruct (IH _ _ Hin) as [r ->]. exists (name :: r).
    rewrite <- app_assoc. reflexivity.
  - destruct (FS.scandir root p) as [e|es]; [contradiction|].
    apply in_flat_map in Hin. destruct Hin as [[k v] [_ Hin]].
    destruct (_ && _); [|contradiction]. simpl in Hin.
    destruct (IH _ _ Hin) as [r ->]. exists (k :: r).
    rewrite <- app_assoc. reflexivity.
  - apply in_dedup in Hin. apply in_flat_map in Hin.
    destruct Hin as [d [Hd Hin]].
    destruct (IH _ _ Hin) as [r ->].
    unfold Glob.iterate_directories in Hd.
    destruct (FS.lookup root p) as [n|].
    + destruct (subdirs_extends _ _ _ Hd) as [r' ->].
      exists (r' ++ r). rewrite app_assoc. reflexivity.
    + destruct Hd as [<-|[]]. exists r. reflexivity.
Qed.

Lemma rglob_relative (root : node) (self : path) (pattern : string) (found : list path) :
  Glob.rglob root self pattern = Val found ->
  forall q, In q found -> is_relative_to q self = true.
Proof.
  unfold Glob.rglob. intros H q Hin.
  destruct (PurePath.absolute _); [discriminate|].
  destruct (Glob.make_selector _) as [sel|e]; [|discriminate].
  injection H as <-.
  destruct (FS.is_dir root self); [|contradiction].
  destruct (select_extends _ _ _ _ Hin) as [r ->].
  apply starts_with_app.
Qed.

(** ** Steps of the effectful primitives *)

Lemma path_exists_step (p : path) (w : world) (t : list event) :
  path_exists p (w, t) = (Val (FS.exists_ (fs w) p), (w, t ++ [EvExists p])).
Proof. reflexivity. Qed.

Lemma path_is_file_step (p : path) (w : world) (t : list event) :
  path_is_file p (w, t) = (Val (FS.is_file (fs w) p), (w, t ++ [EvIsFile p])).
Proof. reflexivity. Qed.

Lemma path_is_dir_step (p : path) (w : world) (t : list event) :
  path_is_dir p (w, t) = (Val (FS.is_dir (fs w) p), (w, t ++ [EvIsDir p])).
Proof. reflexivity. Qed.

Lemma path_rglob_step (self : path) (pattern : string) (w : world) (t : list event) :
  path_rglob self pattern (w, t)
  = (Glob.rglob (fs w) self pattern, (w, t ++ [EvRglob self pattern])).
Proof.
  unfold path_rglob, bind, log, lift_fs, of_res. cbn [fst snd]. reflexivity.
Qed.

Lemma read_text_step (p : path) (w : world) (t : list event) :
  read_text p (w, t) = (FS.read_text (fs w) p, (w, t ++ [EvRead p])).
Proof.
  unfold read_text, bind, log, lift_fs, of_res. cbn [fst snd]. reflexivity.
Qed.

Lemma bind_step {A B : Type} (m : M A) (k : A -> M B) (st st' : state) (a : A) :
  m st = (Val a, st') -> bind m k st = k a st'.
Proof. intros H. unfold bind. rewrite H. reflexivity. Qed.

Lemma bind_exc {A B : Type} (m : M A) (k : A -> M B) (st st' : state) (e : exn) :
  m st = (Exc e, st') -> bind m k st = (Exc e, st').
Proof. intros H. unfold bind. rewrite H. reflexivity. Qed.

(** ** From the request to the path worked on *)

Lemma located_relative (root : node) (working_dir target : path) (pattern : string) (m : path) :
  is_relative_to target working_dir = true ->
  located root working_dir target pattern = Some m ->
  is_relative_to m working_dir = true.
Proof.
  unfold located. intros Hrel H.
  destruct (FS.exists_ root target).
  - injection H as <-. exact Hrel.
  - destruct (Glob.rglob root working_dir pattern) as [[|first rest]|e] eqn:Hg; try discriminate.
    injection H as <-. apply (rglob_relative _ _ _ _ Hg). left. reflexivity.
Qed.

Lemma get_file_content_located (w : world) (working_directory file_path : string)
    (working_dir target m : path) :
  contained_request w working_directory file_path working_dir target ->
  located (fs w) working_dir target (basename file_path) = Some m ->
  get_file_content working_directory file_path (w, [])
  = get_file_content_read m file_path
      (w, located_trace (fs w) working_dir target (basename file_path)).
Proof.
  intros (Hwd & Htarget & Hrel) Hloc.
  pose proof (located_relative _ _ _ _ _ Hrel Hloc) as Hm.
  unfold get_file_content, resolve_under.
  rewrite (bind_step _ _ (w, []) (w, []) working_dir) by (unfold resolve; cbn; rewrite Hwd; reflexivity).
  rewrite (bind_step _ _ (w, []) (w, []) target) by (unfold resolve; cbn; rewrite Htarget; reflexivity).
  rewrite Hrel. cbn [negb].
  rewrite (bind_step _ _ _ _ _ (path_exists_step _ _ _)).
  unfold located, located_trace, basename in *.
  destruct (FS.exists_ (fs w) target); cbn [negb app].
  - injection Hloc as <-. reflexivity.
  - destruct (Glob.rglob (fs w) working_dir _) as [[|first rest]|e] eqn:Hg; try discriminate.
    injection Hloc as <-.
    unfold bind at 1. rewrite path_rglob_step, Hg. rewrite Hm. reflexivity.
Qed.

Lemma run_python_file_located (w : world) (working_directory file_path : string)
    (args : list string) (working_dir target m : path) :
  contained_request w working_directory file_path working_dir target ->
  located (fs w) working_dir target (basename file_path) = Some m ->
  run_python_file working_directory file_path args (w, [])
  = run_python_file_exec working_dir m file_path args
      (w, located_trace (fs w) working_dir target (basename file_path)).
Proof.
  intros (Hwd & Htarget & Hrel) Hloc.
  pose proof (located_relative _ _ _ _ _ Hrel Hloc) as Hm.
  unfold run_python_file, resolve_under.
  rewrite (bind_step _ _ (w, []) (w, []) working_dir) by (unfold resolve; cbn; rewrite Hwd; reflexivity).
  rewrite (bind_step _ _ (w, []) (w, []) target) by (unfold resolve; cbn; rewrite Htarget; reflexivity).
  rewrite Hrel. cbn [negb].
  rewrite (bind_step _ _ _ _ _ (path_exists_step _ _ _)).
  unfold located, located_trace, basename in *.
  destruct (FS.exists_ (fs w) target); cbn [negb app].
  - injection Hloc as <-. reflexivity.
  - destruct (Glob.rglob (fs w) working_dir _) as [[|first rest]|e] eqn:Hg; try discriminate.
    injection Hloc as <-.
    unfold bind at 1. rewrite path_rglob_step, Hg. rewrite Hm. reflexivity.
Qed.

(** For [get_files_info] the pattern is the requested directory as it
    was given, and [.] is the working directory itself. *)
Lemma get_files_info_located (w : world) (working_directory directory : string)
    (working_dir target m : path) :
  contained_request w working_directory directory working_dir target ->
  directory <> "."%string ->
  located (fs w) working_dir target directory = Some m ->
  get_files_info working_directory directory (w, [])
  = get_files_info_listing m directory
      (w, located_trace (fs w) working_dir target directory).
Proof.
  intros (Hwd & Htarget & Hrel) Hdot Hloc.
  pose proof (located_relative _ _ _ _ _ Hrel Hloc) as Hm.
  apply String.eqb_neq in Hdot.
  unfold get_files_info, resolve_under. rewrite Hdot.
  rewrite (bind_step _ _ (w, []) (w, []) working_dir) by (unfold resolve; cbn; rewrite Hwd; reflexivity).
  rewrite (bind_step _ _ (w, []) (w, []) target) by (unfold resolve; cbn; rewrite Htarget; reflexivity).
  rewrite Hrel. cbn [negb].
  rewrite (bind_step _ _ _ _ _ (path_exists_step _ _ _)).
  unfold located, located_trace in *.
  destruct (FS.exists_ (fs w) target); cbn [negb app andb].
  - injection Hloc as <-. reflexivity.
  - destruct (Glob.rglob (fs w) working_dir _) as [[|first rest]|e] eqn:Hg; try discriminate.
    injection Hloc as <-.
    unfold bind at 1. rewrite path_rglob_step, Hg. rewrite Hm. reflexivity.
Qed.

Lemma get_files_info_dot (w : world) (working_directory : string) (working_dir : path) :
  resolve_in (cwd w) (PurePath.parse working_directory) = Val working_dir ->
  get_files_info working_directory "." (w, [])
  = get_files_info_listing working_dir "." (w, [EvExists working_dir]).
Proof.
  intros Hwd.
  unfold get_files_info. cbn [String.eqb Ascii.eqb Bool.eqb].
  rewrite (bind_step _ _ (w, []) (w, []) working_dir) by (unfold resolve; cbn; rewrite Hwd; reflexivity).
  rewrite (bind_step _ _ (w, []) (w, []) working_dir) by reflexivity.
  unfold is_relative_to. rewrite starts_with_refl. cbn [negb].
  rewrite (bind_step _ _ _ _ _ (path_exists_step _ _ _)).
  rewrite andb_false_r. reflexivity.
Qed.

(** ** Running a script *)

Lemma run_python_file_exec_eq (working_dir m : path) (file_path : string)
    (args : list string) (w : world) (t : list event) :
  FS.is_file (fs w) m = true ->
  PyStr.endswith (PyStr.lower file_path) ".py" = true ->
  run_python_file_exec working_dir m file_path args (w, t)
  = if existsb has_nul (str_of_path m :: args)
    then (Val (Msg.exec_failed file_path embedded_null), (w, t ++ [EvIsFile m]))
    else
      match FS.stat (fs w) working_dir with
      | inl ENOENT => (Val Msg.no_interpreter, (w, t ++ [EvIsFile m]))
      | inl e =>
          (Val (Msg.exec_failed file_path (str_of_exn (OSError e (str_of_path working_dir)))),
           (w, t ++ [EvIsFile m]))
      | inr (_, File _ _) | inr (_, Socket) =>
          (Val (Msg.exec_failed file_path
                  (str_of_exn (OSError ENOTDIR (str_of_path working_dir)))),
           (w, t ++ [EvIsFile m]))
      | inr (_, Dir _) =>
          match interpreter w with
          | None => (Val Msg.no_interpreter, (w, t ++ [EvIsFile m]))
          | Some behaviour =>
              let t1 := (t ++ [EvIsFile m])
                          ++ [EvSpawn ("python"%string :: str_of_path m :: args) working_dir] in
              match behaviour (str_of_path m :: args) working_dir with
              | Exits elapsed out err code =>
                  if (elapsed <=? 30 * 1000)%N
                  then
                    match out with
                    | Undecodable msg => (Val (Msg.exec_failed file_path msg), (w, t1))
                    | Text o =>
                        match err with
                        | Undecodable msg => (Val (Msg.exec_failed file_path msg), (w, t1))
                        | Text e =>
                            (Val (format_output
                                    (mkCompleted (PyStr.universal_newlines o)
                                                 (PyStr.universal_newlines e) code)),
                             (w, t1))
                        end
                    end
                  else (Val (Msg.timed_out file_path), (w, t1 ++ [EvKill]))
              | Hangs => (Val (Msg.timed_out file_path), (w, t1 ++ [EvKill]))
              end
          end
      end.
Proof.
  intros Hfile Hext.
  unfold run_python_file_exec.
  rewrite (bind_step _ _ _ _ _ (path_is_file_step _ _ _)).
  rewrite Hfile, Hext. cbn [negb].
  unfold try_except, bind, subprocess_run. cbn [fst snd].
  destruct (existsb has_nul (str_of_path m :: args)); [reflexivity|].
  destruct (FS.stat (fs w) working_dir) as [[]|[q [size text|es|]]]; try reflexivity.
  destruct (interpreter w) as [behaviour|]; [|reflexivity].
  destruct (behaviour _ _) as [elapsed out err code|]; [|reflexivity].
  destruct (elapsed <=? 30 * 1000)%N; [|reflexivity].
  destruct out as [o|msg]; [|reflexivity].
  destruct err as [e|msg]; reflexivity.
Qed.

Lemma is_dir_stat (root : node) (p : path) :
  FS.is_dir root p = true -> exists q es, FS.stat root p = inr (q, Dir es).
Proof.
  unfold FS.is_dir, FS.lookup.
  destruct (FS.stat root p) as [e|[q [size text|es|]]]; try discriminate.
  intros _. exists q, es. reflexivity.
Qed.

Lemma format_output_run_text (out err : string) (code : Z) :
  format_output (mkCompleted out err code) = run_text out err code.
Proof.
  unfold format_output, run_text, output_blocks.
  cbn [cp_stdout cp_stderr cp_returncode].
  destruct (Z.eq_dec code 0) as [->|Hc].
  - destruct out, err; reflexivity.
  - apply Z.eqb_neq in Hc. rewrite Hc. destruct out, err; reflexivity.
Qed.

Lemma universal_newlines_empty (s : string) :
  PyStr.universal_newlines s = EmptyString <-> s = EmptyString.
Proof.
  split; [|intros ->; reflexivity].
  destruct s as [|c r]; [reflexivity|].
  cbn [PyStr.universal_newlines].
  destruct (Ascii.eqb c PyStr.cr).
  - destruct r as [|d r']; [discriminate|]. destruct (Ascii.eqb d PyStr.lf); discriminate.
  - discriminate.
Qed.

Lemma run_text_not_empty (out err : string) (code : Z) : run_text out err code <> EmptyString.
Proof.
  unfold run_text, output_blocks.
  destruct out, err, (Z.eq_dec code 0); simpl; discriminate.
Qed.

Lemma run_text_is_no_error (out err : string) (code : Z) (s : string) :
  run_text out err code <> String "E" s.
Proof.
  unfold run_text, output_blocks.
  destruct out, err, (Z.eq_dec code 0); simpl; discriminate.
Qed.

Ltac split_in H :=
  repeat match type of H with
         | _ \/ _ => destruct H as [H|H]
         | False => contradiction
         end.

Lemma output_blocks_members (out err : string) (code : Z) :
  (In (String.append "STDOUT:" (String "010" out)) (output_blocks out err code)
   <-> out <> EmptyString) /\
  (In (String.append "STDERR:" (String "010" err)) (output_blocks out err code)
   <-> err <> EmptyString) /\
  (In (String.append "Process exited with code " (PyStr.str_of_Z code))
      (output_blocks out err code)
   <-> code <> 0%Z) /\
  (output_blocks out err code = [] <-> out = EmptyString /\ err = EmptyString /\ code = 0%Z).
Proof.
  unfold output_blocks.
  destruct out as [|a out]; destruct err as [|b err]; destruct (Z.eq_dec code 0) as [Hc|Hc];
    cbn [app In String.append];
    (split; [|split; [|split]]); split; intros H;
    try (destruct H as (H1 & H2 & H3));
    split_in H;
    first [ congruence
          | discriminate H
          | left; reflexivity
          | right; left; reflexivity
          | right; right; left; reflexivity
          | repeat split; congruence ].
Qed.

(** C7.  For a script that was started (nothing keeps the command from
    being started) and ended in time:
    - when what it wrote on both streams decodes, the result of
      [run_python_file] is made of the block [STDOUT:] with the output
      exactly when the output is not empty, then the block [STDERR:]
      with the error output exactly when that is not empty, then the
      line with the exit code exactly when the code is not zero, with
      an empty line between them; when none of the three is there the
      result is the text [No output produced.], and it is never the
      empty string.  The outputs are as text mode gives them, with
      CR LF and CR read as LF;
    - when the output does not decode, or else the error output does
      not, the result is the failed-to-execute text with the message of
      the decoder. *)
Theorem run_result_is_blocks_or_sentinel
    (w : world) (working_directory file_path : string) (args : list string)
    (working_dir target m : path) (behaviour : list string -> path -> child)
    (elapsed : N) (out err : captured) (code : Z) :
  runnable w working_directory file_path working_dir target m ->
  interpreter w = Some behaviour ->
  refusal (fs w) (str_of_path m :: args) working_dir = None ->
  behaviour (str_of_path m :: args) working_dir = Exits elapsed out err code ->
  (elapsed <= 30 * 1000)%N ->
  In (EvSpawn ("python"%string :: str_of_path m :: args) working_dir)
     (snd (run (run_python_file working_directory file_path args) w)) /\
  match out, err with
  | Text o, Text e =>
      let o' := PyStr.universal_newlines o in
      let e' := PyStr.universal_newlines e in
      fst (fst (run (run_python_file working_directory file_path args) w))
      = Val (run_text o' e' code) /\
      (In (String.append "STDOUT:" (String "010" o')) (output_blocks o' e' code)
       <-> o <> EmptyString) /\
      (In (String.append "STDERR:" (String "010" e')) (output_blocks o' e' code)
       <-> e <> EmptyString) /\
      (In (String.append "Process exited with code " (PyStr.str_of_Z code))
          (output_blocks o' e' code)
       <-> code <> 0%Z) /\
      (output_blocks o' e' code = []
       <-> o = EmptyString /\ e = EmptyString /\ code = 0%Z) /\
      run_text o' e' code <> EmptyString
  | Undecodable msg, _ | Text _, Undecodable msg =>
      fst (fst (run (run_python_file working_directory file_path args) w))
      = Val (failed_to_execute file_path msg)
  end.
Proof.
  intros (Hreq & Hloc & Hfile & Hext) Hint Hcan Hbeh Hle.
  apply N.leb_le in Hle.
  unfold refusal in Hcan.
  destruct (existsb has_nul (str_of_path m :: args)) eqn:Hnul; [discriminate Hcan|].
  destruct (FS.is_dir (fs w) working_dir) eqn:Hdir; [|discriminate Hcan].
  destruct (is_dir_stat _ _ Hdir) as (q & es & Hstat).
  assert (Hrun : run (run_python_file working_directory file_path args) w
                 = (let '(r, (w', t)) :=
                      run_python_file_exec working_dir m file_path args
                        (w, located_trace (fs w) working_dir target (basename file_path)) in
                    (r, w', t))).
  { unfold run. rewrite (run_python_file_located _ _ _ _ _ _ _ Hreq Hloc). reflexivity. }
  rewrite Hrun. clear Hrun.
  rewrite (run_python_file_exec_eq _ _ _ _ _ _ Hfile Hext).
  rewrite Hnul, Hstat, Hint. cbn zeta. rewrite Hbeh, Hle.
  destruct out as [o|msg]; [destruct err as [e|msg]|].
  - cbn [fst snd]. split; [apply in_or_app; right; left; reflexivity|].
    split; [rewrite format_output_run_text; reflexivity|].
    destruct (output_blocks_members (PyStr.universal_newlines o)
                (PyStr.universal_newlines e) code) as (H1 & H2 & H3 & H4).
    rewrite (universal_newlines_empty o) in H1, H4.
    rewrite (universal_newlines_empty e) in H2, H4.
    split; [exact H1|]. split; [exact H2|]. split; [exact H3|]. split; [exact H4|].
    apply run_text_not_empty.
  - cbn [fst snd]. split; [apply in_or_app; right; left; reflexivity | reflexivity].
  - cbn [fst snd]. split; [apply in_or_app; right; left; reflexivity | reflexivity].
Qed.

(** In the sample world the script found as [pkg/calc.py] prints [ok]
    and exits with code 1. *)
Lemma run_result_is_blocks_or_sentinel_witness :
  fst (fst (run (run_python_file "/w" "calc.py" []) sample_world))
  = Val (String.append "STDOUT:"
           (String "010"
              (String.append "ok"
                 (String "010" (String "010" "Process exited with code 1"))))).
Proof.
  apply (run_result_is_blocks_or_sentinel sample_world "/w" "calc.py" []
           ["w"%string] ["w"%string; "calc.py"%string]
           ["w"%string; "pkg"%string; "calc.py"%string]
           (fun _ _ => Exits 10 "ok" "" 1) 10 "ok" "" 1).
  - unfold runnable, contained_request. repeat split; reflexivity.
  - reflexivity.
  - reflexivity.
  - reflexivity.
  - vm_compute. discriminate.
Defined.

(** A script that is started, ends at once with exit code 0 and has
    written a byte that is not UTF-8: the result is the
    failed-to-execute text, which is none of the texts made of blocks
    and not the text for no output. *)
Lemma undecodable_output_is_reported_as_failure :
  run (run_python_file "/w" "main.py" []) garbled_world
  = (Val (String.append "Error: Failed to execute Python script 'main.py': "
            "'utf-8' codec can't decode byte 0xff in position 0: invalid start byte"),
     garbled_world,
     [EvExists ["w"%string; "main.py"%string];
      EvIsFile ["w"%string; "main.py"%string];
      EvSpawn ["python"%string; "/w/main.py"%string] ["w"%string]]) /\
  forall out err code,
    fst (fst (run (run_python_file "/w" "main.py" []) garbled_world))
    <> Val (run_text out err code).
Proof.
  split; [reflexivity|].
  intros out err code H. injection H as H. symmetry in H.
  apply (run_text_is_no_error _ _ _ _ H).
Qed.

(** ** C10: the extension check *)

Lemma prefix_cons (a b : ascii) (s1 s2 : string) :
  String.prefix (String a s1) (String b s2)
  = if Ascii.ascii_dec a b then String.prefix s1 s2 else false.
Proof. reflexivity. Qed.

Lemma prefix_spec (p s : string) :
  String.prefix p s = true <-> exists r, s = String.append p r.
Proof.
  revert s. induction p as [|a p IH]; intros s.
  - split; [intros _; exists s; reflexivity | intros _; destruct s; reflexivity].
  - destruct s as [|b s].
    + simpl. split; [discriminate | intros [r H]; discriminate H].
    + rewrite prefix_cons. destruct (Ascii.ascii_dec a b) as [->|Hne].
      * rewrite IH. split; intros [r H]; exists r.
        -- simpl. rewrite H. reflexivity.
        -- simpl in H. injection H as H. exact H.
      * split; [discriminate|]. intros [r H]. simpl in H. injection H as H _.
        congruence.
Qed.

Lemma append_nil_r (s : string) : String.append s EmptyString = s.
Proof. induction s as [|a s IH]; [reflexivity|]. simpl. rewrite IH. reflexivity. Qed.

Lemma append_assoc (s t u : string) :
  String.append (String.append s t) u = String.append s (String.append t u).
Proof. induction s as [|a s IH]; [reflexivity|]. simpl. rewrite IH. reflexivity. Qed.

Lemma rev_string_append (s t : string) :
  PyStr.rev_string (String.append s t)
  = String.append (PyStr.rev_string t) (PyStr.rev_string s).
Proof.
  induction s as [|a s IH]; simpl.
  - rewrite append_nil_r. reflexivity.
  - rewrite IH, append_assoc. reflexivity.
Qed.

Lemma rev_string_involutive (s : string) : PyStr.rev_string (PyStr.rev_string s) = s.
Proof.
  induction s as [|a s IH]; [reflexivity|].
  simpl. rewrite rev_string_append, IH. reflexivity.
Qed.

Lemma endswith_spec (s suffix : string) :
  PyStr.endswith s suffix = true <-> exists stem, s = String.append stem suffix.
Proof.
  unfold PyStr.endswith. rewrite prefix_spec. split.
  - intros [r H]. exists (PyStr.rev_string r).
    rewrite <- (rev_string_involutive s), H, rev_string_append, rev_string_involutive.
    reflexivity.
  - intros [stem ->]. exists (PyStr.rev_string stem). apply rev_string_append.
Qed.

Lemma lower_append (s t : string) :
  PyStr.lower (String.append s t) = String.append (PyStr.lower s) (PyStr.lower t).
Proof. induction s as [|a s IH]; [reflexivity|]. simpl. rewrite IH. reflexivity. Qed.

Lemma lower_split (s x y : string) :
  PyStr.lower s = String.append x y ->
  exists a b, s = String.append a b /\ PyStr.lower a = x /\ PyStr.lower b = y.
Proof.
  revert s. induction x as [|c x IH]; intros s H.
  - exists EmptyString, s. repeat split. exact H.
  - destruct s as [|d s]; [discriminate H|].
    simpl in H. injection H as Hc H.
    destruct (IH s H) as (a & b & -> & Ha & Hb).
    exists (String d a), b. repeat split; [|exact Hb].
    simpl. rewrite Hc, Ha. reflexivity.
Qed.

Lemma lower_char_cases (c : ascii) :
  (PyStr.lower_char c = "."%char <-> c = "."%char) /\
  (PyStr.lower_char c = "p"%char <-> c = "p"%char \/ c = "P"%char) /\
  (PyStr.lower_char c = "y"%char <-> c = "y"%char \/ c = "Y"%char).
Proof.
  destruct c as [[] [] [] [] [] [] [] []]; vm_compute;
    repeat split; intros H; try discriminate H;
    try (destruct H as [H|H]; discriminate H);
    try (left; reflexivity); try (right; reflexivity).
Qed.

(** The check of the program is the condition as the claim words it. *)
Lemma endswith_lower_dot_py (file_path : string) :
  PyStr.endswith (PyStr.lower file_path) ".py" = true <-> ends_with_dot_py file_path.
Proof.
  rewrite endswith_spec. unfold ends_with_dot_py. split.
  - intros [stem H]. apply lower_split in H. destruct H as (a & b & -> & _ & Hb).
    destruct b as [|c1 [|c2 [|c3 [|c4 b]]]]; try discriminate Hb.
    simpl in Hb. injection Hb as H1 H2 H3.
    destruct (lower_char_cases c1) as (Hdot & _).
    destruct (lower_char_cases c2) as (_ & Hp & _).
    destruct (lower_char_cases c3) as (_ & _ & Hy).
    apply Hdot in H1. subst c1.
    exists a, c2, c3. split; [reflexivity|]. split; [apply Hp | apply Hy]; assumption.
  - intros (stem & p & y & -> & Hp & Hy).
    exists (PyStr.lower stem). rewrite lower_append. simpl.
    destruct (lower_char_cases p) as (_ & Hp' & _).
    destruct (lower_char_cases y) as (_ & _ & Hy').
    rewrite (proj2 Hp' Hp), (proj2 Hy' Hy). reflexivity.
Qed.

Lemma not_python_text (file_path : string) :
  Msg.not_python file_path = not_a_python_file file_path.
Proof.
  unfold Msg.not_python, not_a_python_file, PyStr.f_string.
  cbn [String.concat String.append]. reflexivity.
Qed.

Lemma not_a_python_file_differs (file_path rest : string) :
  not_a_python_file file_path <> String.append "Error: F" rest /\
  not_a_python_file file_path <> String.append "Error: P" rest.
Proof. split; intros H; discriminate H. Qed.

(** C10.  Once the path is resolved to a regular file,
    [run_python_file] returns the not-a-Python-file text if and only if
    the requested path, as the caller wrote it, does not end with
    [.py], [.PY], [.Py] or [.pY]; in that case no process is started.
    The path the request resolved to plays no part. *)
Theorem wrong_file_type_iff_requested_suffix
    (w : world) (working_directory file_path : string) (args : list string)
    (working_dir target m : path) :
  contained_request w working_directory file_path working_dir target ->
  located (fs w) working_dir target (basename file_path) = Some m ->
  FS.is_file (fs w) m = true ->
  (fst (fst (run (run_python_file working_directory file_path args) w))
     = Val (String.append "Error: '"
              (String.append file_path "' is not a Python file (must end with .py)"))
   <-> ~ ends_with_dot_py file_path) /\
  (~ ends_with_dot_py file_path ->
   run (run_python_file working_directory file_path args) w
   = (Val (String.append "Error: '"
             (String.append file_path "' is not a Python file (must end with .py)")),
      w,
      located_trace (fs w) working_dir target (basename file_path) ++ [EvIsFile m])).
Proof.
  intros Hreq Hloc Hfile.
  fold (not_a_python_file file_path).
  assert (Hno : ~ ends_with_dot_py file_path ->
                run (run_python_file working_directory file_path args) w
                = (Val (not_a_python_file file_path), w,
                   located_trace (fs w) working_dir target (basename file_path)
                     ++ [EvIsFile m])).
  { intros Hends.
    assert (Hext : PyStr.endswith (PyStr.lower file_path) ".py" = false).
    { destruct (PyStr.endswith (PyStr.lower file_path) ".py") eqn:H; [|reflexivity].
      exfalso. apply Hends. apply endswith_lower_dot_py. exact H. }
    unfold run.
    rewrite (run_python_file_located _ _ _ _ _ _ _ Hreq Hloc).
    unfold run_python_file_exec.
    rewrite (bind_step _ _ _ _ _ (path_is_file_step _ _ _)).
    rewrite Hfile, Hext, not_python_text. reflexivity. }
  split; [|exact Hno].
  split.
  - intros Hres Hends. apply endswith_lower_dot_py in Hends. revert Hres. unfold run.
    rewrite (run_python_file_located _ _ _ _ _ _ _ Hreq Hloc).
    rewrite (run_python_file_exec_eq _ _ _ _ _ _ Hfile Hends).
    destruct (existsb has_nul (str_of_path m :: args)).
    { cbn [fst snd]. intros H. injection H as H. discriminate H. }
    destruct (FS.stat (fs w) working_dir) as [[]|[q [size text|es|]]];
      try (cbn [fst snd]; intros H; injection H as H; discriminate H).
    destruct (interpreter w) as [behaviour|]; cbn zeta.
    + destruct (behaviour _ _) as [elapsed out err code|].
      * destruct (elapsed <=? 30 * 1000)%N.
        -- destruct out as [o|msg]; [destruct err as [e|msg]|];
             cbn [fst snd]; intros H; injection H as H.
           ++ rewrite format_output_run_text in H.
              apply (run_text_is_no_error _ _ _ _ H).
           ++ discriminate H.
           ++ discriminate H.
        -- cbn [fst snd]. intros H. injection H as H. discriminate H.
      * cbn [fst snd]. intros H. injection H as H. discriminate H.
    + cbn [fst snd]. intros H. injection H as H. discriminate H.
  - intros Hends. rewrite (Hno Hends). reflexivity.
Qed.

(** The request [main.py/] resolves to the regular file [/w/main.py],
    whose path ends with [.py]; the request itself does not, and it is
    refused before any process is started.  The request [RUN.PY] is
    not refused. *)
Lemma wrong_file_type_iff_requested_suffix_witness :
  run (run_python_file "/w" "main.py/" []) sample_world
  = (Val "Error: 'main.py/' is not a Python file (must end with .py)"%string,
     sample_world,
     [EvExists ["w"%string; "main.py"%string]; EvIsFile ["w"%string; "main.py"%string]]) /\
  fst (fst (run (run_python_file "/w" "RUN.PY" []) capitals_world))
  <> Val "Error: 'RUN.PY' is not a Python file (must end with .py)"%string.
Proof.
  split.
  - apply (wrong_file_type_iff_requested_suffix sample_world "/w" "main.py/" []
             ["w"%string] ["w"%string; "main.py"%string] ["w"%string; "main.py"%string]).
    + unfold contained_request. repeat split; reflexivity.
    + reflexivity.
    + reflexivity.
    + intros H. apply endswith_lower_dot_py in H. vm_compute in H. discriminate H.
  - intros H.
    apply (wrong_file_type_iff_requested_suffix capitals_world "/w" "RUN.PY" []
             ["w"%string] ["w"%string; "RUN.PY"%string] ["w"%string; "RUN.PY"%string]) in H.
    + apply H. exists "RUN"%string, "P"%char, "Y"%char.
      split; [reflexivity|]. split; right; reflexivity.
    + unfold contained_request. repeat split; reflexivity.
    + reflexivity.
    + reflexivity.
Defined.

(** The extension check on concrete requests: capitals pass, and the
    script runs. *)
Example extension_examples :
  fst (fst (run (run_python_file "/w" "RUN.PY" []) capitals_world))
  = Val (String.append "STDOUT:"
           (String "010"
              (String.append "ok"
                 (String "010" (String "010" "Process exited with code 1"))))) /\
  fst (fst (run (run_python_file "/w" "a.txt" []) sample_world))
  = Val "Error: 'a.txt' is not a Python file (must end with .py)"%string /\
  fst (fst (run (run_python_file "/w" "main.pyc" []) sample_world))
  = Val "Error: File 'main.pyc' not found"%string.
Proof. repeat split; reflexivity. Qed.

(** ** C4: truncation *)

Lemma take_length (n : nat) (s : string) :
  n <= String.length s -> String.length (PyStr.take n s) = n.
Proof.
  revert s. induction n as [|n IH]; intros s Hn.
  - destruct s; reflexivity.
  - destruct s as [|c s]; simpl in *; [lia|].
    rewrite IH by lia. reflexivity.
Qed.

Lemma take_is_prefix (n : nat) (s : string) : String.prefix (PyStr.take n s) s = true.
Proof.
  revert s. induction n as [|n IH]; intros s.
  - destruct s; reflexivity.
  - destruct s as [|c s]; simpl; [reflexivity|].
    destruct (Ascii.ascii_dec c c) as [_|Hc]; [apply IH | congruence].
Qed.

Lemma lookup_stat (root : node) (p : path) (n : node) :
  FS.lookup root p = Some n -> exists q, FS.stat root p = inr (q, n).
Proof.
  unfold FS.lookup. destruct (FS.stat root p) as [e|[q n']]; [discriminate|].
  intros H. injection H as ->. exists q. reflexivity.
Qed.

(** C4.  When [get_file_content] comes to a regular file whose text,
    once decoded, has more than 10,240 characters, it returns the first
    10,240 characters of that text followed by a line that names the
    requested path and the limit; when the text has at most 10,240
    characters it returns the text as it is.  Both are plain results,
    and the world is left unchanged. *)
Theorem content_is_cut_at_10240
    (w : world) (working_directory file_path : string)
    (working_dir target m : path) (size : N) (raw : string) :
  contained_request w working_directory file_path working_dir target ->
  located (fs w) working_dir target (basename file_path) = Some m ->
  FS.lookup (fs w) m = Some (File size (Some raw)) ->
  let content := PyStr.universal_newlines raw in
  let kept := PyStr.take (N.to_nat 10240) content in
  let marker :=
    String.append PyStr.nl
      (String.append "[...File "
         (String.append PyStr.dq
            (String.append file_path
               (String.append PyStr.dq " truncated at 10240 characters]")))) in
  exists result,
    run (get_file_content working_directory file_path) w
    = (Val result, w,
       located_trace (fs w) working_dir target (basename file_path)
         ++ [EvIsFile m; EvRead m]) /\
    ((10240 < N.of_nat (String.length content))%N ->
     result = String.append kept marker /\
     N.of_nat (String.length kept) = 10240%N /\
     String.prefix kept content = true) /\
    ((N.of_nat (String.length content) <= 10240)%N -> result = content).
Proof.
  intros Hreq Hloc Hlook content kept marker.
  destruct (lookup_stat _ _ _ Hlook) as [q Hstat].
  assert (Hfile : FS.is_file (fs w) m = true) by (unfold FS.is_file; rewrite Hlook; reflexivity).
  assert (Hrun : run (get_file_content working_directory file_path) w
                 = (Val (if (MAX_FILE_CONTENT_LENGTH <? N.of_nat (String.length content))%N
                         then String.append kept (Msg.truncated file_path) else content),
                    w,
                    located_trace (fs w) working_dir target (basename file_path)
                      ++ [EvIsFile m; EvRead m])).
  { unfold run. rewrite (get_file_content_located _ _ _ _ _ _ Hreq Hloc).
    unfold get_file_content_read.
    rewrite (bind_step _ _ _ _ _ (path_is_file_step _ _ _)).
    rewrite Hfile. cbn [negb].
    unfold try_except, bind. rewrite read_text_step.
    unfold FS.read_text. rewrite Hstat. fold content.
    destruct (MAX_FILE_CONTENT_LENGTH <? N.of_nat (String.length content))%N;
      unfold ret; rewrite <- app_assoc; reflexivity. }
  eexists. split; [exact Hrun|].
  split.
  - intros Hlong. apply N.ltb_lt in Hlong.
    unfold MAX_FILE_CONTENT_LENGTH. rewrite Hlong.
    split; [reflexivity|]. split.
    + unfold kept. rewrite take_length; [apply N2Nat.id | ].
      apply N.ltb_lt in Hlong. lia.
    + apply take_is_prefix.
  - intros Hshort. apply N.ltb_ge in Hshort.
    unfold MAX_FILE_CONTENT_LENGTH. rewrite Hshort. reflexivity.
Qed.

(** In the world where [/w/big.txt] has 10,250 characters. *)
Lemma content_is_cut_at_10240_witness :
  let content := PyStr.universal_newlines long_text in
  let kept := PyStr.take (N.to_nat 10240) content in
  let marker :=
    String.append PyStr.nl
      (String.append "[...File "
         (String.append PyStr.dq
            (String.append "big.txt"
               (String.append PyStr.dq " truncated at 10240 characters]")))) in
  exists result,
    run (get_file_content "/w" "big.txt") big_world
    = (Val result, big_world,
       located_trace (fs big_world) ["w"%string] ["w"%string; "big.txt"%string]
         (basename "big.txt")
         ++ [EvIsFile ["w"%string; "big.txt"%string]; EvRead ["w"%string; "big.txt"%string]]) /\
    ((10240 < N.of_nat (String.length content))%N ->
     result = String.append kept marker /\
     N.of_nat (String.length kept) = 10240%N /\
     String.prefix kept content = true) /\
    ((N.of_nat (String.length content) <= 10240)%N -> result = content).
Proof.
  apply (content_is_cut_at_10240 big_world "/w" "big.txt"
           ["w"%string] ["w"%string; "big.txt"%string] ["w"%string; "big.txt"%string]
           10250 long_text).
  - unfold contained_request. repeat split; reflexivity.
  - reflexivity.
  - reflexivity.
Defined.

(** ** C5: an exception that leaves [get_files_info] *)

(** C5.  [get_files_info] asked for the absolute path of a missing
    directory inside the working directory does not return a text: the
    search is given a non-relative pattern outside of any [try], and the
    NotImplementedError it raises leaves the function. *)
Theorem get_files_info_lets_an_exception_out :
  run (get_files_info "/w" "/w/ghost") sample_world
  = (Exc (NotImplementedError "Non-relative patterns are unsupported"),
     sample_world,
     [EvExists ["w"%string; "ghost"%string]; EvRglob ["w"%string] "/w/ghost"]).
Proof. reflexivity. Qed.

(** The same for every world and every absolute request that is
    contained and missing. *)
Lemma get_files_info_raises_on_absolute_request
    (w : world) (working_directory directory : string) (working_dir target : path) :
  contained_request w working_directory directory working_dir target ->
  String.prefix "/" directory = true ->
  FS.exists_ (fs w) target = false ->
  run (get_files_info working_directory directory) w
  = (Exc (NotImplementedError "Non-relative patterns are unsupported"), w,
     [EvExists target; EvRglob working_dir directory]).
Proof.
  intros (Hwd & Htarget & Hrel) Habs Hmissing.
  assert (Hdot : (directory =? ".")%string = false).
  { destruct directory as [|c s]; [discriminate|].
    rewrite prefix_cons in Habs.
    destruct (Ascii.ascii_dec "/" c) as [<-|Hne]; [reflexivity|discriminate Habs]. }
  unfold run, get_files_info, resolve_under. rewrite Hdot.
  rewrite (bind_step _ _ (w, []) (w, []) working_dir) by (unfold resolve; cbn; rewrite Hwd; reflexivity).
  rewrite (bind_step _ _ (w, []) (w, []) target) by (unfold resolve; cbn; rewrite Htarget; reflexivity).
  rewrite Hrel. cbn [negb].
  rewrite (bind_step _ _ _ _ _ (path_exists_step _ _ _)).
  rewrite Hmissing. cbn [negb andb app].
  unfold bind. rewrite path_rglob_step.
  unfold Glob.rglob, PurePath.parse. cbn [PurePath.absolute]. rewrite Habs. reflexivity.
Qed.

(** Relative requests meet the same unguarded calls: a name with [**]
    inside a component is refused by the search, and a NUL character is
    refused by [resolve], in each of the four functions. *)
Example exceptions_on_relative_requests :
  let bad := String "a" (String PyStr.nul "b") in
  fst (fst (run (get_files_info "/w" "a**b") sample_world))
  = Exc (ValueError Glob.invalid_pattern) /\
  fst (fst (run (get_file_content "/w" "a**b") sample_world))
  = Exc (ValueError Glob.invalid_pattern) /\
  fst (fst (run (run_python_file "/w" "a**b" []) sample_world))
  = Exc (ValueError Glob.invalid_pattern) /\
  fst (fst (run (write_file "/w" "new/a**b" "x") sample_world))
  = Exc (ValueError Glob.invalid_pattern) /\
  fst (fst (run (get_files_info "/w" bad) sample_world))
  = Exc (ValueError "embedded null byte") /\
  fst (fst (run (get_file_content "/w" bad) sample_world))
  = Exc (ValueError "embedded null byte") /\
  fst (fst (run (write_file "/w" bad "x") sample_world))
  = Exc (ValueError "embedded null byte") /\
  fst (fst (run (run_python_file "/w" bad []) sample_world))
  = Exc (ValueError "embedded null byte").
Proof. repeat split; reflexivity. Qed.

(** ** Walking the tree *)

Lemma find_cons (es : list (string * node)) (c : string) (r : path) :
  FS.find (Dir es) (c :: r)
  = match assoc c es with
    | Some v => FS.find v r
    | None => None
    end.
Proof.
  induction es as [|[k v] t IH]; [reflexivity|].
  simpl. destruct (k =? c)%string; [reflexivity|]. exact IH.
Qed.

Lemma find_through_leaf (n : node) (c : string) (r : path) :
  (forall es, n <> Dir es) -> FS.find n (c :: r) = None.
Proof.
  intros Hn. destruct n as [size text|es|]; try reflexivity.
  exfalso. apply (Hn es). reflexivity.
Qed.

Lemma find_app (p q : path) :
  forall n, FS.find n (p ++ q)
            = match FS.find n p with
              | Some m => FS.find m q
              | None => None
              end.
Proof.
  induction p as [|c p IH]; intros n; [reflexivity|].
  destruct n as [size text|es|]; try reflexivity.
  rewrite <- app_comm_cons, !find_cons.
  destruct (assoc c es) as [v|]; [apply IH | reflexivity].
Qed.

Lemma canon_app (root : node) (l1 l2 : list string) :
  forall acc, FS.canon root acc (l1 ++ l2)
              = match FS.canon root acc l1 with
                | inl e => inl e
                | inr a => FS.canon root a l2
                end.
Proof.
  induction l1 as [|c l1 IH]; intros acc; [reflexivity|].
  simpl. destruct (FS.find root acc) as [[size text|es|]|]; try reflexivity.
  apply IH.
Qed.

(** For a path without [..] the walk of the kernel is the plain
    descent. *)
Lemma lookup_from (root : node) (p : path) :
  no_dotdot p ->
  forall acc,
    match FS.canon root acc p with
    | inr q => FS.find root q
    | inl _ => None
    end = FS.find root (acc ++ p).
Proof.
  induction p as [|c p IH]; intros Hp acc.
  - simpl. rewrite app_nil_r. reflexivity.
  - assert (Hc : (c =? dotdot)%string = false).
    { apply String.eqb_neq. intros ->. apply Hp. left. reflexivity. }
    assert (Hp' : no_dotdot p) by (intros Hin; apply Hp; right; exact Hin).
    simpl. rewrite Hc.
    destruct (FS.find root acc) as [[size text|es|]|] eqn:Hacc.
    + rewrite find_app, Hacc. reflexivity.
    + rewrite (IH Hp' (acc ++ [c])). rewrite <- app_assoc. reflexivity.
    + rewrite find_app, Hacc. reflexivity.
    + rewrite find_app, Hacc. reflexivity.
Qed.

Lemma canon_plain (root : node) (p : path) :
  no_dotdot p ->
  forall acc q, FS.canon root acc p = inr q -> q = acc ++ p.
Proof.
  induction p as [|c p IH]; intros Hp acc q H.
  - simpl in H. injection H as <-. symmetry. apply app_nil_r.
  - assert (Hc : (c =? dotdot)%string = false).
    { apply String.eqb_neq. intros ->. apply Hp. left. reflexivity. }
    assert (Hp' : no_dotdot p) by (intros Hin; apply Hp; right; exact Hin).
    simpl in H. rewrite Hc in H.
    destruct (FS.find root acc) as [[size text|es|]|]; try discriminate.
    rewrite (IH Hp' _ _ H). rewrite <- app_assoc. reflexivity.
Qed.

Lemma lookup_plain (root : node) (p : path) :
  no_dotdot p -> FS.lookup root p = FS.find root p.
Proof.
  intros Hp. unfold FS.lookup, FS.stat.
  pose proof (lookup_from root p Hp []) as H. simpl in H.
  destruct (FS.canon root [] p) as [e|q]; [exact H|].
  destruct (FS.find root q) as [n|]; exact H.
Qed.

Lemma stat_plain (root : node) (p q : path) (n : node) :
  no_dotdot p -> FS.stat root p = inr (q, n) -> q = p /\ FS.find root p = Some n.
Proof.
  intros Hp H. unfold FS.stat in H.
  destruct (FS.canon root [] p) as [e|q'] eqn:Hc; [discriminate|].
  pose proof (canon_plain root p Hp [] q' Hc) as Hq. simpl in Hq. subst q'.
  destruct (FS.find root p) as [n'|]; [|discriminate].
  injection H as <- <-. split; reflexivity.
Qed.

(** The walk never ends on a path with [..]. *)
Lemma canon_no_dotdot (root : node) (p : list string) :
  forall acc q, no_dotdot acc -> FS.canon root acc p = inr q -> no_dotdot q.
Proof.
  induction p as [|c p IH]; intros acc q Hacc H; simpl in H.
  - injection H as <-. exact Hacc.
  - destruct (FS.find root acc) as [[size text|es|]|]; try discriminate.
    refine (IH _ _ _ H). intros Hin.
    destruct (String.eqb_spec c dotdot) as [->|Hc].
    + apply Hacc. apply (in_removelast _ _ _ Hin).
    + apply in_app_or in Hin. destruct Hin as [Hin|[Hin|[]]].
      * apply Hacc. exact Hin.
      * apply Hc. exact Hin.
Qed.

(** The child [k] of a directory [d], when [k] is not [..]. *)
(** ** C6: the time limit *)

(** The working directory of a request that leads to a regular file is
    a directory, unless the request leads to the working directory
    itself, which is then a regular file. *)
Lemma runnable_working_dir (w : world) (working_directory file_path : string)
    (working_dir target m : path) :
  runnable w working_directory file_path working_dir target m ->
  FS.is_dir (fs w) working_dir = true \/
  (FS.is_dir (fs w) working_dir = false /\
   exists q size text, FS.stat (fs w) working_dir = inr (q, File size text)).
Proof.
  intros ((Hwd & Htarget & Hrel) & Hloc & Hfile & _).
  pose proof (resolve_in_no_dotdot _ _ _ Hwd) as Hnd.
  pose proof (located_relative _ _ _ _ _ Hrel Hloc) as Hm.
  apply starts_with_inv in Hm. destruct Hm as [r ->].
  unfold FS.is_file, FS.lookup, FS.stat in Hfile. rewrite canon_app in Hfile.
  unfold FS.is_dir, FS.lookup, FS.stat.
  destruct (FS.canon (fs w) [] working_dir) as [e|a] eqn:Hc; [discriminate Hfile|].
  pose proof (canon_plain _ _ Hnd _ _ Hc) as Ha. cbn [app] in Ha. subst a.
  destruct r as [|c r].
  - cbn [FS.canon] in Hfile.
    destruct (FS.find (fs w) working_dir) as [[size text|es|]|]; try discriminate Hfile.
    right. split; [reflexivity|]. exists working_dir, size, text. reflexivity.
  - cbn [FS.canon] in Hfile.
    destruct (FS.find (fs w) working_dir) as [[size text|es|]|]; try discriminate Hfile.
    left. reflexivity.
Qed.

(** C6.  A script that is still running when 30 seconds have passed, or
    that would never end, is killed, and [run_python_file] returns the
    time-out text, which names the 30 seconds; nothing else happens
    after the child was started.  (A command that cannot be started at
    all, for a NUL character in it or for a working directory that is
    a regular file, has no script to time out: the call of
    [subprocess.run] fails and its error text is returned.) *)
Theorem script_past_30_seconds_is_killed
    (w : world) (working_directory file_path : string) (args : list string)
    (working_dir target m : path) (behaviour : list string -> path -> child) :
  runnable w working_directory file_path working_dir target m ->
  interpreter w = Some behaviour ->
  (behaviour (str_of_path m :: args) working_dir = Hangs \/
   exists elapsed out err code,
     behaviour (str_of_path m :: args) working_dir = Exits elapsed out err code /\
     (30 * 1000 < elapsed)%N) ->
  run (run_python_file working_directory file_path args) w
  = match refusal (fs w) (str_of_path m :: args) working_dir with
    | Some msg =>
        (Val (String.append "Error: Failed to execute Python script '"
                (String.append file_path (String.append "': " msg))),
         w,
         located_trace (fs w) working_dir target (basename file_path) ++ [EvIsFile m])
    | None =>
        (Val (String.append "Error: Python script '"
                (String.append file_path "' timed out after 30 seconds")),
         w,
         located_trace (fs w) working_dir target (basename file_path)
           ++ [EvIsFile m;
               EvSpawn ("python"%string :: str_of_path m :: args) working_dir;
               EvKill])
    end.
Proof.
  intros Hrun Hint Hlate.
  pose proof (runnable_working_dir _ _ _ _ _ _ Hrun) as Hwd.
  destruct Hrun as (Hreq & Hloc & Hfile & Hext).
  unfold run. rewrite (run_python_file_located _ _ _ _ _ _ _ Hreq Hloc).
  rewrite (run_python_file_exec_eq _ _ _ _ _ _ Hfile Hext).
  unfold refusal.
  destruct (existsb has_nul (str_of_path m :: args)); [reflexivity|].
  destruct Hwd as [Hdir|(Hdir & q & size & text & Hstat)].
  - rewrite Hdir. destruct (is_dir_stat _ _ Hdir) as (q & es & ->).
    rewrite Hint. cbn zeta.
    destruct Hlate as [Hhang|(elapsed & out & err & code & Hbeh & Hlt)].
    + rewrite Hhang. rewrite <- !app_assoc. reflexivity.
    + rewrite Hbeh. apply N.leb_gt in Hlt. rewrite Hlt.
      rewrite <- !app_assoc. reflexivity.
  - rewrite Hdir, Hstat. reflexivity.
Qed.

(** In the world whose script sleeps for a minute. *)
Lemma script_past_30_seconds_is_killed_witness :
  run (run_python_file "/w" "pkg/calc.py" ["1"%string]) sleepy_world
  = (Val "Error: Python script 'pkg/calc.py' timed out after 30 seconds"%string,
     sleepy_world,
     [EvExists ["w"%string; "pkg"%string; "calc.py"%string];
      EvIsFile ["w"%string; "pkg"%string; "calc.py"%string];
      EvSpawn ["python"%string; "/w/pkg/calc.py"%string; "1"%string] ["w"%string];
      EvKill]).
Proof.
  apply (script_past_30_seconds_is_killed sleepy_world "/w" "pkg/calc.py" ["1"%string]
           ["w"%string] ["w"%string; "pkg"%string; "calc.py"%string]
           ["w"%string; "pkg"%string; "calc.py"%string]
           (fun _ _ => Exits 60000 "" "" 0)).
  - unfold runnable, contained_request. repeat split; reflexivity.
  - reflexivity.
  - right. exists 60000%N, (Text EmptyString), (Text EmptyString), 0%Z. split; reflexivity.
Defined.

Lemma stat_child (root : node) (d q : path) (es : list (string * node)) (k : string) :
  FS.stat root d = inr (q, Dir es) ->
  k <> dotdot ->
  FS.stat root (d ++ [k])
  = match assoc k es with
    | Some v => inr (q ++ [k], v)
    | None => inl ENOENT
    end.
Proof.
  intros Hd Hk. unfold FS.stat in *.
  rewrite canon_app.
  destruct (FS.canon root [] d) as [e|q'] eqn:Hc; [discriminate|].
  destruct (FS.find root q') as [n|] eqn:Hq; [|discriminate].
  injection Hd as -> ->.
  simpl. rewrite Hq.
  apply String.eqb_neq in Hk. rewrite Hk.
  rewrite find_app, Hq, find_cons.
  destruct (assoc k es) as [v|]; reflexivity.
Qed.

Lemma assoc_in (es : list (string * node)) (k : string) (v : node) :
  NoDup (map fst es) -> In (k, v) es -> assoc k es = Some v.
Proof.
  induction es as [|[k' v'] t IH]; intros Hnd Hin; [contradiction|].
  simpl in Hnd. inversion Hnd as [|? ? Hnotin Hnd']; subst.
  simpl. destruct Hin as [Heq|Hin].
  - injection Heq as -> ->. rewrite String.eqb_refl. reflexivity.
  - destruct (String.eqb_spec k' k) as [->|Hne].
    + exfalso. apply Hnotin. apply (in_map fst _ _ Hin).
    + apply (IH Hnd' Hin).
Qed.

(** ** C9: what the listing shows *)

Lemma get_files_info_reaches_listing (w : world) (working_directory directory : string)
    (working_dir target d : path) :
  listing_target w working_directory directory working_dir target d ->
  exists t,
    get_files_info working_directory directory (w, [])
    = get_files_info_listing d directory (w, t).
Proof.
  intros [Hreq Hd].
  destruct (String.eqb_spec directory ".") as [->|Hdot].
  - subst d. destruct Hreq as (Hwd & _ & _).
    eexists. apply (get_files_info_dot _ _ _ Hwd).
  - eexists. apply (get_files_info_located _ _ _ _ _ _ Hreq Hdot Hd).
Qed.

Lemma entry_line_file (k : string) (size : N) :
  Msg.entry_line k size false
  = String.append k (String.append ": file_size="
                       (String.append (PyStr.str_of_N size) ", is_dir=False")).
Proof. reflexivity. Qed.

Lemma entry_line_dir (k : string) :
  Msg.entry_line k 0 true = String.append k ": file_size=0, is_dir=True".
Proof. reflexivity. Qed.

Lemma collect_items_lines (w : world) (d : path) (es : list (string * node)) :
  (forall k v, In (k, v) es -> FS.lookup (fs w) (d ++ [k]) = Some v) ->
  forall items_info t,
  exists t',
    collect_items (map (fun kv => d ++ [fst kv]) es) items_info (w, t)
    = (Val (items_info ++ flat_map entry_lines es), (w, t')).
Proof.
  induction es as [|[k v] es IH]; intros Hes items_info t.
  - exists t. simpl. rewrite app_nil_r. reflexivity.
  - assert (Hk : FS.lookup (fs w) (d ++ [k]) = Some v) by (apply Hes; left; reflexivity).
    assert (Hes' : forall k' v', In (k', v') es -> FS.lookup (fs w) (d ++ [k']) = Some v')
      by (intros k' v' Hin; apply Hes; right; exact Hin).
    destruct (lookup_stat _ _ _ Hk) as [q Hstat].
    cbn [map collect_items fst].
    rewrite (bind_step _ _ _ _ _ (path_is_file_step _ _ _)).
    unfold FS.is_file. rewrite Hk.
    destruct v as [size text|es'|].
    + unfold path_st_size.
      match goal with
      | |- context [bind (bind (log ?ev) ?k1) ?k2 (w, ?tr)] =>
          replace (bind (bind (log ev) k1) k2 (w, tr))
            with (k2 size (w, tr ++ [ev]))
      end.
      2:{ unfold bind, log, lift_fs. cbn [fst snd]. rewrite Hstat. reflexivity. }
      unfold name. rewrite last_last.
      destruct (IH Hes' (items_info ++ [Msg.entry_line k size false])
                  ((t ++ [EvIsFile (d ++ [k])]) ++ [EvStat (d ++ [k])])) as [t' Ht'].
      exists t'. rewrite Ht'. rewrite <- app_assoc. reflexivity.
    + rewrite (bind_step _ _ _ _ _ (path_is_dir_step _ _ _)).
      unfold FS.is_dir. rewrite Hk.
      unfold name. rewrite last_last.
      destruct (IH Hes' (items_info ++ [Msg.entry_line k 0 true])
                  ((t ++ [EvIsFile (d ++ [k])]) ++ [EvIsDir (d ++ [k])])) as [t' Ht'].
      exists t'. rewrite Ht'. rewrite <- app_assoc. reflexivity.
    + rewrite (bind_step _ _ _ _ _ (path_is_dir_step _ _ _)).
      unfold FS.is_dir. rewrite Hk.
      destruct (IH Hes' items_info
                  ((t ++ [EvIsFile (d ++ [k])]) ++ [EvIsDir (d ++ [k])])) as [t' Ht'].
      exists t'. rewrite Ht'. reflexivity.
Qed.

(** C9.  The listing of a directory has one line for each of its
    entries that is a regular file, with its size, and one line for
    each entry that is a directory, with size 0, in the order of the
    entries; an entry of another kind gives no line and no error, and
    the world is left unchanged. *)
Theorem listing_shows_files_and_directories_only
    (w : world) (working_directory directory : string)
    (working_dir target d : path) (es : list (string * node)) :
  listing_target w working_directory directory working_dir target d ->
  FS.lookup (fs w) d = Some (Dir es) ->
  NoDup (map fst es) ->
  ~ In dotdot (map fst es) ->
  fst (run (get_files_info working_directory directory) w)
  = (Val (PyStr.join PyStr.nl (flat_map entry_lines es)), w).
Proof.
  intros Htarget Hlook Hnodup Hnames.
  destruct (get_files_info_reaches_listing _ _ _ _ _ _ Htarget) as [t Ht].
  destruct (lookup_stat _ _ _ Hlook) as [q Hstat].
  assert (Hchildren : forall k v, In (k, v) es -> FS.lookup (fs w) (d ++ [k]) = Some v).
  { intros k v Hin. unfold FS.lookup.
    rewrite (stat_child _ _ _ _ _ Hstat).
    - rewrite (assoc_in _ _ _ Hnodup Hin). reflexivity.
    - intros ->. apply Hnames. apply (in_map fst _ _ Hin). }
  unfold run. rewrite Ht.
  unfold get_files_info_listing.
  rewrite (bind_step _ _ _ _ _ (path_is_dir_step _ _ _)).
  unfold FS.is_dir. rewrite Hlook. cbn [negb].
  destruct (collect_items_lines w d es Hchildren [] ((t ++ [EvIsDir d]) ++ [EvIterdir d]))
    as [t' Ht'].
  unfold try_except, bind at 1.
  unfold path_iterdir, bind at 1, bind at 1, log, lift_fs. cbn [fst snd].
  unfold FS.scandir. rewrite Hstat. unfold ret at 1, bind.
  rewrite Ht'. reflexivity.
Qed.

(** The working directory of the sample world holds two regular files,
    a directory and a socket. *)
Lemma listing_shows_files_and_directories_only_witness :
  fst (run (get_files_info "/w" ".") sample_world)
  = (Val (PyStr.join PyStr.nl
            (flat_map entry_lines
               [("a.txt"%string, File 5 (Some "hello"%string));
                ("pkg"%string,
                 Dir [("calc.py"%string, File 8 (Some "print(1)"%string));
                      ("notes.txt"%string, File 3 (Some "abc"%string));
                      ("deep"%string, Dir [("a.txt"%string, File 1 (Some "x"%string))])]);
                ("sock"%string, Socket);
                ("main.py"%string, File 0 (Some EmptyString))])),
     sample_world).
Proof.
  apply (listing_shows_files_and_directories_only sample_world "/w" "."
           ["w"%string] ["w"%string] ["w"%string]).
  - unfold listing_target, contained_request. repeat split; reflexivity.
  - reflexivity.
  - simpl. repeat constructor; simpl; intuition discriminate.
  - simpl. intuition discriminate.
Defined.

(** ** Well-formed trees *)

Lemma existsb_eqb_in (k : string) (l : list string) :
  existsb (String.eqb k) l = true <-> In k l.
Proof.
  rewrite existsb_exists. split.
  - intros [x [Hin Heq]]. apply String.eqb_eq in Heq. subst x. exact Hin.
  - intros Hin. exists k. split; [exact Hin | apply String.eqb_refl].
Qed.

Lemma distinct_NoDup (names : list string) : distinct names = true -> NoDup names.
Proof.
  induction names as [|k t IH]; intros H; [constructor|].
  simpl in H. apply andb_true_iff in H. destruct H as [Hk Ht].
  constructor; [|apply IH; exact Ht].
  intros Hin. apply existsb_eqb_in in Hin. rewrite Hin in Hk. discriminate.
Qed.

Lemma wf_dir (es : list (string * node)) :
  wf (Dir es) = true ->
  NoDup (map fst es) /\ ~ In dotdot (map fst es) /\
  (forall k v, In (k, v) es -> wf v = true).
Proof.
  intros H.
  change (distinct (map fst es)
          && negb (existsb (String.eqb dotdot) (map fst es))
          && forallb (fun kv => wf (snd kv)) es = true) in H.
  apply andb_true_iff in H. destruct H as [H Hall].
  apply andb_true_iff in H. destruct H as [Hd Hdd].
  split; [apply distinct_NoDup; exact Hd|]. split.
  - intros Hin. apply existsb_eqb_in in Hin. rewrite Hin in Hdd. discriminate.
  - intros k v Hin. rewrite forallb_forall in Hall. apply (Hall (k, v) Hin).
Qed.

Lemma assoc_some_in (es : list (string * node)) (k : string) (v : node) :
  assoc k es = Some v -> In (k, v) es.
Proof.
  induction es as [|[k' v'] t IH]; intros H; [discriminate|].
  simpl in H. destruct (String.eqb_spec k' k) as [->|Hne].
  - injection H as ->. left. reflexivity.
  - right. apply (IH H).
Qed.

Lemma wf_find (p : path) :
  forall n m, wf n = true -> FS.find n p = Some m -> wf m = true /\ no_dotdot p.
Proof.
  induction p as [|c p IH]; intros n m Hwf H.
  - simpl in H. injection H as <-. split; [exact Hwf | intros []].
  - destruct n as [size text|es|]; try discriminate.
    rewrite find_cons in H.
    destruct (assoc c es) as [v|] eqn:Hc; [|discriminate].
    apply assoc_some_in in Hc.
    destruct (wf_dir _ Hwf) as (_ & Hdd & Hall).
    destruct (IH _ _ (Hall _ _ Hc) H) as [Hm Hp].
    split; [exact Hm|].
    intros [Heq|Hin]; [|exact (Hp Hin)].
    apply Hdd. subst c. apply (in_map fst _ _ Hc).
Qed.

(** ** The directories the recursive selector starts from *)

Lemma find_some_through (n : node) (c : string) (r : path) (m : node) :
  FS.find n (c :: r) = Some m ->
  exists es v, n = Dir es /\ assoc c es = Some v /\ FS.find v r = Some m.
Proof.
  intros H. destruct n as [size text|es|]; try discriminate.
  rewrite find_cons in H.
  destruct (assoc c es) as [v|] eqn:Hc; [|discriminate].
  exists es, v. repeat split; assumption.
Qed.

Lemma subdirs_spec (n : node) :
  wf n = true ->
  forall p q,
    In q (Glob.subdirs n p)
    <-> exists r, q = p ++ r /\ (r = [] \/ exists es, FS.find n r = Some (Dir es)).
Proof.
  induction n as [size text|es IH|] using node_nested_ind; intros Hwf p q.
  - simpl. split.
    + intros [<-|[]]. exists []. split; [symmetry; apply app_nil_r | left; reflexivity].
    + intros [r [-> [->|[es H]]]].
      * left. symmetry. apply app_nil_r.
      * destruct r; simpl in H; discriminate.
  - destruct (wf_dir _ Hwf) as (Hnd & Hdd & Hall).
    rewrite Forall_forall in IH.
    simpl. split.
    + intros [<-|Hin].
      * exists []. split; [symmetry; apply app_nil_r | left; reflexivity].
      * apply in_flat_map in Hin. destruct Hin as [[k v] [Hkv Hin]].
        simpl in Hin. destruct v as [size text|es'|]; try contradiction.
        apply (IH _ Hkv (Hall _ _ Hkv)) in Hin.
        destruct Hin as [r [-> Hr]].
        exists (k :: r). split; [rewrite <- app_assoc; reflexivity|].
        right. rewrite find_cons, (assoc_in _ _ _ Hnd Hkv).
        destruct Hr as [->|Hr]; [exists es'; reflexivity | exact Hr].
    + intros [r [-> Hr]].
      destruct r as [|k r]; [left; symmetry; apply app_nil_r|].
      right. destruct Hr as [Hr|[es' Hr]]; [discriminate|].
      apply find_some_through in Hr. destruct Hr as (es0 & v & Hes0 & Hk & Hv).
      injection Hes0 as <-.
      apply assoc_some_in in Hk.
      apply in_flat_map. exists (k, v). split; [exact Hk|].
      simpl.
      assert (Hin : In ((p ++ [k]) ++ r) (Glob.subdirs v (p ++ [k]))).
      { apply (IH _ Hk (Hall _ _ Hk)). exists r. split; [reflexivity|].
        destruct r; [left; reflexivity | right; exists es'; exact Hv]. }
      rewrite <- app_assoc in Hin. simpl in Hin.
      destruct v as [size text|es1|].
      * destruct r; simpl in Hv; discriminate.
      * exact Hin.
      * destruct r; simpl in Hv; discriminate.
  - simpl. split.
    + intros [<-|[]]. exists []. split; [symmetry; apply app_nil_r | left; reflexivity].
    + intros [r [-> [->|[es H]]]].
      * left. symmetry. apply app_nil_r.
      * destruct r; simpl in H; discriminate.
Qed.

(** ** Removing repetitions keeps the members *)

Lemma path_eqb_true (x y : path) : path_eqb x y = true <-> x = y.
Proof.
  unfold path_eqb. destruct (list_eq_dec string_dec x y); split; congruence.
Qed.

Lemma existsb_path_in (x : path) (l : list path) :
  existsb (path_eqb x) l = true <-> In x l.
Proof.
  rewrite existsb_exists. split.
  - intros [y [Hin Heq]]. apply path_eqb_true in Heq. subst y. exact Hin.
  - intros Hin. exists x. split; [exact Hin | apply path_eqb_true; reflexivity].
Qed.

Lemma dedup_in (l : list path) :
  forall seen x, In x (Glob.dedup seen l) <-> In x l /\ ~ In x seen.
Proof.
  induction l as [|a l IH]; intros seen x; simpl.
  - tauto.
  - destruct (existsb (path_eqb a) seen) eqn:Ha.
    + apply existsb_path_in in Ha. rewrite IH. split.
      * intros [H1 H2]. tauto.
      * intros [[->|H1] H2]; [contradiction | tauto].
    + assert (Hna : ~ In a seen).
      { intros Hin. apply existsb_path_in in Hin. rewrite Hin in Ha. discriminate. }
      simpl. rewrite IH. simpl. split.
      * intros [->|[H1 H2]]; [tauto|]. split; [tauto|]. intros H3. apply H2. right. exact H3.
      * intros [[->|H1] H2]; [left; reflexivity|].
        destruct (list_eq_dec string_dec a x) as [->|Hne]; [left; reflexivity|].
        right. split; [exact H1|]. intros [H3|H3]; [contradiction | exact (H2 H3)].
Qed.

Lemma dedup_head (x : path) (l : list path) :
  Glob.dedup [] (x :: l) = x :: Glob.dedup [x] l.
Proof. reflexivity. Qed.

(** ** Plain names as patterns *)

Lemma plain_facts (c : string) :
  plain c = true ->
  c <> EmptyString /\ c <> "."%string /\ c <> dotdot /\
  Glob.is_wildcard_pattern c = false /\ PyStr.contains_char "/" c = false.
Proof.
  unfold plain. intros H.
  repeat (apply andb_true_iff in H; destruct H as [H ?]).
  repeat match goal with
         | Hn : negb _ = true |- _ => apply negb_true_iff in Hn
         end.
  repeat split; try assumption; apply String.eqb_neq; assumption.
Qed.

Lemma contains_cons (sub : string) (a : ascii) (r : string) :
  PyStr.contains sub (String a r) = String.prefix sub (String a r) || PyStr.contains sub r.
Proof. reflexivity. Qed.

Lemma double_star_has_star (c : string) :
  PyStr.contains "**" c = true -> PyStr.contains_char "*" c = true.
Proof.
  induction c as [|a c IH]; intros H.
  - discriminate H.
  - rewrite contains_cons, prefix_cons in H.
    destruct (Ascii.ascii_dec "*" a) as [<-|Hne]; [reflexivity|].
    cbn [orb] in H. cbn [PyStr.contains_char]. rewrite (IH H). apply orb_true_r.
Qed.

Lemma plain_no_double_star (c : string) :
  plain c = true -> PyStr.contains "**" c = false.
Proof.
  intros H. destruct (plain_facts _ H) as (_ & _ & _ & Hw & _).
  destruct (PyStr.contains "**" c) eqn:Hc; [|reflexivity].
  apply double_star_has_star in Hc.
  unfold Glob.is_wildcard_pattern in Hw. rewrite Hc in Hw. discriminate.
Qed.

Lemma make_selector_plain (parts : list string) (dir_last : bool) :
  forallb plain parts = true ->
  Glob.make_selector (parts ++ (if dir_last then [EmptyString] else []))
  = Val (chain parts dir_last).
Proof.
  induction parts as [|c rest IH]; intros H.
  - destruct dir_last; reflexivity.
  - simpl in H. apply andb_true_iff in H. destruct H as [Hc Hrest].
    destruct (plain_facts _ Hc) as (He & _ & _ & Hw & _).
    pose proof (plain_no_double_star _ Hc) as Hss.
    simpl.
    apply String.eqb_neq in He. rewrite He.
    assert (Hstar : (c =? "**")%string = false).
    { apply String.eqb_neq. intros ->. discriminate Hss. }
    rewrite Hstar, Hss, (IH Hrest), Hw.
    destruct rest; destruct dir_last; reflexivity.
Qed.

Lemma plain_parts_no_dotdot (parts : list string) :
  forallb plain parts = true -> no_dotdot parts.
Proof.
  intros H Hin. rewrite forallb_forall in H.
  destruct (plain_facts _ (H _ Hin)) as (_ & _ & Hdd & _). apply Hdd. reflexivity.
Qed.

Lemma exists_plain (root : node) (p : path) :
  no_dotdot p -> FS.exists_ root p = true <-> FS.find root p <> None.
Proof.
  intros Hp. unfold FS.exists_. rewrite (lookup_plain root p Hp).
  destruct (FS.find root p); split; congruence.
Qed.

Lemma is_dir_plain (root : node) (p : path) :
  no_dotdot p -> FS.is_dir root p = true <-> is_directory root p.
Proof.
  intros Hp. unfold FS.is_dir, is_directory. rewrite (lookup_plain root p Hp).
  destruct (FS.find root p) as [[size text|es|]|]; split; intros H;
    try discriminate; try (destruct H; discriminate).
  - exists es. reflexivity.
  - reflexivity.
Qed.

(** A path that is found below [d ++ [c]] goes through a directory
    there. *)
Lemma find_prefix_is_directory (root : node) (d : path) (c : string) (rest : path) :
  FS.find root (d ++ c :: rest) <> None -> rest <> [] ->
  is_directory root (d ++ [c]).
Proof.
  intros H Hrest.
  replace (d ++ c :: rest) with ((d ++ [c]) ++ rest) in H
    by (rewrite <- app_assoc; reflexivity).
  rewrite find_app in H. unfold is_directory.
  destruct (FS.find root (d ++ [c])) as [[size text|es|]|]; try (exfalso; apply H; reflexivity).
  - destruct rest; [congruence | exfalso; apply H; reflexivity].
  - exists es. reflexivity.
  - destruct rest; [congruence | exfalso; apply H; reflexivity].
Qed.

Lemma select_chain (root : node) (parts : list string) (dir_last : bool) :
  forallb plain parts = true ->
  forall d q, no_dotdot d ->
    In q (Glob.select root (chain parts dir_last) d)
    <-> q = d ++ parts /\ (parts = [] \/ accepted root dir_last q).
Proof.
  induction parts as [|c rest IH]; intros Hplain d q Hd.
  - simpl. rewrite app_nil_r. split.
    + intros [<-|[]]. split; [reflexivity | left; reflexivity].
    + intros [-> _]. left. reflexivity.
  - pose proof (plain_parts_no_dotdot _ Hplain) as Hparts.
    simpl in Hplain. apply andb_true_iff in Hplain. destruct Hplain as [Hc Hrest].
    destruct (plain_facts _ Hc) as (_ & _ & Hcdd & _).
    assert (Hdc : no_dotdot (d ++ [c])).
    { apply no_dotdot_app; [exact Hd|]. intros [H|[]]. apply Hcdd. exact H. }
    assert (Hfull : no_dotdot (d ++ c :: rest)) by (apply no_dotdot_app; assumption).
    cbn [chain Glob.select].
    destruct rest as [|c2 rest'].
    + cbn [chain Glob.select]. unfold accepted.
      destruct dir_last.
      * destruct (FS.is_dir root (d ++ [c])) eqn:Hdir.
        -- apply (is_dir_plain root _ Hdc) in Hdir. simpl. split.
           ++ intros [<-|[]]. split; [reflexivity | right; exact Hdir].
           ++ intros [-> _]. left. reflexivity.
        -- simpl. split; [contradiction|].
           intros [-> [H|H]]; [discriminate|].
           apply (is_dir_plain root _ Hdc) in H. congruence.
      * destruct (FS.exists_ root (d ++ [c])) eqn:Hex.
        -- apply (exists_plain root _ Hdc) in Hex. simpl. split.
           ++ intros [<-|[]]. split; [reflexivity | right; exact Hex].
           ++ intros [-> _]. left. reflexivity.
        -- simpl. split; [contradiction|].
           intros [-> [H|H]]; [discriminate|].
           apply (exists_plain root _ Hdc) in H. congruence.
    + destruct (FS.is_dir root (d ++ [c])) eqn:Hdir.
      * rewrite (IH Hrest (d ++ [c]) q Hdc). rewrite <- app_assoc. simpl.
        split.
        -- intros [-> [H|H]]; [discriminate|]. split; [reflexivity | right; exact H].
        -- intros [-> [H|H]]; [discriminate|]. split; [reflexivity | right; exact H].
      * split; [contradiction|].
        intros [-> [H|H]]; [discriminate|].
        assert (Hfound : FS.find root (d ++ c :: c2 :: rest') <> None).
        { unfold accepted in H. destruct dir_last; [|exact H].
          destruct H as [es H]. rewrite H. discriminate. }
        apply find_prefix_is_directory in Hfound; [|discriminate].
        apply (is_dir_plain root _ Hdc) in Hfound. congruence.
Qed.

(** ** Parsing a plain name *)

Lemma split_plain (sep : ascii) (c : string) :
  PyStr.contains_char sep c = false -> PyStr.split sep c = [c].
Proof.
  induction c as [|a c IH]; intros H; [reflexivity|].
  cbn [PyStr.contains_char] in H. apply orb_false_iff in H. destruct H as [Ha Hc].
  cbn [PyStr.split]. rewrite Ascii.eqb_sym, Ha, (IH Hc). reflexivity.
Qed.

Lemma contains_char_append (x : ascii) (s t : string) :
  PyStr.contains_char x (String.append s t)
  = PyStr.contains_char x s || PyStr.contains_char x t.
Proof.
  induction s as [|a s IH]; [reflexivity|].
  cbn [String.append PyStr.contains_char]. rewrite IH. apply orb_assoc.
Qed.

Lemma contains_char_rev (x : ascii) (s : string) :
  PyStr.contains_char x (PyStr.rev_string s) = PyStr.contains_char x s.
Proof.
  induction s as [|a s IH]; [reflexivity|].
  cbn [PyStr.rev_string]. rewrite contains_char_append, IH.
  cbn [PyStr.contains_char]. rewrite orb_false_r. apply orb_comm.
Qed.

Lemma last_char_absent (x : ascii) (s : string) :
  PyStr.contains_char x s = false -> PyStr.last_char_is x s = false.
Proof.
  intros H. rewrite <- contains_char_rev in H. unfold PyStr.last_char_is.
  destruct (PyStr.rev_string s) as [|d r]; [reflexivity|].
  cbn [PyStr.contains_char] in H. apply orb_false_iff in H. apply H.
Qed.

Lemma parse_plain (c : string) :
  plain c = true ->
  PurePath.parse c = PurePath.mk false [c] /\ PyStr.last_char_is "/" c = false.
Proof.
  intros H. destruct (plain_facts _ H) as (He & Hdot & _ & _ & Hslash).
  split; [|apply last_char_absent; exact Hslash].
  unfold PurePath.parse. rewrite (split_plain _ _ Hslash).
  assert (Hkeep : PurePath.keep_part c = true).
  { unfold PurePath.keep_part.
    apply String.eqb_neq in He. apply String.eqb_neq in Hdot. rewrite He, Hdot. reflexivity. }
  cbn [filter]. rewrite Hkeep.
  destruct c as [|a c]; [congruence|].
  rewrite prefix_cons.
  cbn [PyStr.contains_char] in Hslash. apply orb_false_iff in Hslash.
  destruct Hslash as [Ha _].
  destruct (Ascii.ascii_dec "/" a) as [<-|Hne]; [discriminate Ha | reflexivity].
Qed.

(** ** What the recursive search finds *)

Lemma prefix_is_directory (root : node) (p r : path) :
  is_directory root (p ++ r) -> is_directory root p.
Proof.
  intros [es H]. rewrite find_app in H. unfold is_directory.
  destruct (FS.find root p) as [[size text|es'|]|]; try discriminate.
  - destruct r; discriminate.
  - exists es'. reflexivity.
  - destruct r; discriminate.
Qed.

Lemma make_selector_recursive_eq (parts : list string) :
  Glob.make_selector ("**"%string :: parts)
  = match Glob.make_selector parts with
    | Val s => Val (Glob.Recursive s)
    | Exc e => Exc e
    end.
Proof. reflexivity. Qed.

Lemma make_selector_recursive (parts : list string) (sel : Glob.selector) :
  Glob.make_selector parts = Val sel ->
  Glob.make_selector ("**"%string :: parts) = Val (Glob.Recursive sel).
Proof. intros H. cbn [Glob.make_selector]. cbn. rewrite H. reflexivity. Qed.

Lemma rglob_plain_parts (root : node) (wd : path) (pattern : string)
    (parts : list string) (dir_last : bool) :
  PurePath.parse pattern = PurePath.mk false parts ->
  PyStr.last_char_is "/" pattern = dir_last ->
  forallb plain parts = true ->
  wf root = true ->
  no_dotdot wd ->
  exists found,
    Glob.rglob root wd pattern = Val found /\
    forall p, In p found
              <-> exists d, is_relative_to d wd = true /\ is_directory root d /\
                            p = d ++ parts /\ accepted root dir_last p.
Proof.
  intros Hparse Hlast Hplain Hwf Hwd.
  unfold Glob.rglob. rewrite Hparse, Hlast. cbn [PurePath.absolute PurePath.parts].
  rewrite (make_selector_recursive _ _ (make_selector_plain parts dir_last Hplain)).
  eexists. split; [reflexivity|].
  intros p.
  destruct (FS.is_dir root wd) eqn:Hdir.
  - apply (is_dir_plain root wd Hwd) in Hdir. destruct Hdir as [es0 Hes0].
    destruct (wf_find _ _ _ Hwf Hes0) as [Hwf0 _].
    cbn [Glob.select]. rewrite dedup_in, in_flat_map.
    unfold Glob.iterate_directories. rewrite (lookup_plain root wd Hwd), Hes0.
    split.
    + intros [[d [Hd Hp]] _].
      apply (subdirs_spec _ Hwf0) in Hd. destruct Hd as [r [-> Hr]].
      assert (Hdirr : is_directory root (wd ++ r)).
      { unfold is_directory. rewrite find_app, Hes0.
        destruct Hr as [->|Hr]; [exists es0; reflexivity | exact Hr]. }
      assert (Hnd : no_dotdot (wd ++ r)).
      { destruct Hdirr as [es Hes]. apply (wf_find _ _ _ Hwf Hes). }
      apply (select_chain root parts dir_last Hplain _ _ Hnd) in Hp.
      destruct Hp as [-> Hacc].
      exists (wd ++ r). split; [apply starts_with_app|]. split; [exact Hdirr|].
      split; [reflexivity|].
      destruct Hacc as [->|Hacc]; [|exact Hacc].
      rewrite app_nil_r. unfold accepted. destruct dir_last; [exact Hdirr|].
      destruct Hdirr as [es Hes]. rewrite Hes. discriminate.
    + intros [d (Hrel & Hdird & -> & Hacc)].
      split; [|intros []].
      exists d. split.
      * apply (subdirs_spec _ Hwf0).
        apply starts_with_inv in Hrel. destruct Hrel as [r ->].
        exists r. split; [reflexivity|].
        destruct Hdird as [es Hes]. rewrite find_app, Hes0 in Hes.
        right. exists es. exact Hes.
      * assert (Hnd : no_dotdot d).
        { destruct Hdird as [es Hes]. apply (wf_find _ _ _ Hwf Hes). }
        apply (select_chain root parts dir_last Hplain _ _ Hnd).
        split; [reflexivity | right; exact Hacc].
  - split; [contradiction|].
    intros [d (Hrel & Hdird & _)].
    apply starts_with_inv in Hrel. destruct Hrel as [r ->].
    apply prefix_is_directory in Hdird.
    apply (is_dir_plain root wd Hwd) in Hdird. congruence.
Qed.

Lemma last_app_nonempty (A : Type) (l r : list A) (x : A) :
  r <> [] -> last (l ++ r) x = last r x.
Proof.
  intros Hr. induction l as [|a l IH]; [reflexivity|].
  simpl. destruct (l ++ r) eqn:Hlr; [|exact IH].
  apply app_eq_nil in Hlr. destruct Hlr as [_ Hr']. contradiction.
Qed.

(** For one plain name the search finds exactly the entries of that
    name anywhere below the starting directory. *)
Lemma rglob_plain_name (root : node) (wd : path) (n : string) :
  plain n = true -> wf root = true -> no_dotdot wd ->
  exists found,
    Glob.rglob root wd n = Val found /\
    forall p, In p found <-> below p wd /\ name p = n /\ FS.find root p <> None.
Proof.
  intros Hplain Hwf Hwd.
  destruct (parse_plain _ Hplain) as [Hparse Hlast].
  assert (Hall : forallb plain [n] = true) by (simpl; rewrite Hplain; reflexivity).
  destruct (rglob_plain_parts root wd n [n] false Hparse Hlast Hall Hwf Hwd)
    as [found [Hfound Hin]].
  exists found. split; [exact Hfound|].
  intros p. rewrite Hin. unfold accepted. split.
  - intros [d (Hrel & Hdir & -> & Hacc)].
    apply starts_with_inv in Hrel. destruct Hrel as [r ->].
    split; [|split].
    + exists (r ++ [n]). split.
      * intros H. apply app_eq_nil in H. destruct H as [_ H]. discriminate H.
      * rewrite app_assoc. reflexivity.
    + unfold name. apply last_last.
    + exact Hacc.
  - intros ([rest [Hrest ->]] & Hname & Hfind).
    unfold name in Hname. rewrite (last_app_nonempty _ _ _ _ Hrest) in Hname.
    pose proof (app_removelast_last "" Hrest) as Hsplit. rewrite Hname in Hsplit.
    exists (wd ++ removelast rest).
    assert (Heq : wd ++ rest = (wd ++ removelast rest) ++ [n]).
    { rewrite <- app_assoc, <- Hsplit. reflexivity. }
    split; [apply starts_with_app|]. split; [|split].
    + rewrite Heq in Hfind. rewrite find_app in Hfind. unfold is_directory.
      destruct (FS.find root (wd ++ removelast rest)) as [[size text|es|]|];
        try (exfalso; apply Hfind; reflexivity).
      exists es. reflexivity.
    + exact Heq.
    + exact Hfind.
Qed.

(** ** When the search returns *)

Lemma make_selector_total (parts : list string) :
  forallb valid_part parts = true -> exists sel, Glob.make_selector parts = Val sel.
Proof.
  induction parts as [|c rest IH]; intros H.
  - exists Glob.Terminating. reflexivity.
  - simpl in H. apply andb_true_iff in H. destruct H as [Hc Hrest].
    destruct (IH Hrest) as [sel Hsel].
    cbn [Glob.make_selector]. rewrite Hsel.
    destruct (c =? "")%string; [eexists; reflexivity|].
    unfold valid_part in Hc.
    destruct (c =? "**")%string; [eexists; reflexivity|].
    cbn [orb] in Hc. apply negb_true_iff in Hc. rewrite Hc.
    eexists; reflexivity.
Qed.

Lemma make_selector_app_slash (parts : list string) (sel : Glob.selector) :
  Glob.make_selector parts = Val sel ->
  exists sel', Glob.make_selector (parts ++ [EmptyString]) = Val sel'.
Proof.
  revert sel. induction parts as [|c rest IH]; intros sel H.
  - exists Glob.Terminating. reflexivity.
  - cbn [Glob.make_selector app] in *.
    destruct (c =? "")%string; [eexists; reflexivity|].
    destruct (c =? "**")%string.
    + destruct (Glob.make_selector rest) as [s|e]; [|discriminate].
      destruct (IH s eq_refl) as [s' ->]. eexists; reflexivity.
    + destruct (PyStr.contains "**" c); [discriminate|].
      destruct (Glob.make_selector rest) as [s|e]; [|discriminate].
      destruct (IH s eq_refl) as [s' ->]. eexists; reflexivity.
Qed.

Lemma rglob_returns (root : node) (wd : path) (pattern : string) :
  PurePath.absolute (PurePath.parse pattern) = false ->
  forallb valid_part (PurePath.parts (PurePath.parse pattern)) = true ->
  exists found, Glob.rglob root wd pattern = Val found.
Proof.
  intros Hrel Hvalid. unfold Glob.rglob. rewrite Hrel.
  destruct (make_selector_total _ Hvalid) as [sel Hsel].
  assert (Hsel' : exists s, Glob.make_selector
                              (PurePath.parts (PurePath.parse pattern)
                               ++ (if PyStr.last_char_is "/" pattern then [EmptyString] else []))
                            = Val s).
  { destruct (PyStr.last_char_is "/" pattern).
    - apply (make_selector_app_slash _ _ Hsel).
    - rewrite app_nil_r. exists sel. exact Hsel. }
  destruct Hsel' as [s Hs].
  rewrite (make_selector_recursive _ _ Hs). eexists; reflexivity.
Qed.

Lemma split_no_sep (sep : ascii) (s : string) :
  forall c, In c (PyStr.split sep s) -> PyStr.contains_char sep c = false.
Proof.
  induction s as [|a s IH]; intros c Hin.
  - destruct Hin as [<-|[]]. reflexivity.
  - cbn [PyStr.split] in Hin. destruct (Ascii.eqb a sep) eqn:Ha.
    + destruct Hin as [<-|Hin]; [reflexivity | apply (IH _ Hin)].
    + destruct (PyStr.split sep s) as [|h t] eqn:Hs.
      * destruct Hin as [<-|[]]. cbn [PyStr.contains_char].
        rewrite Ascii.eqb_sym, Ha. reflexivity.
      * destruct Hin as [<-|Hin].
        -- cbn [PyStr.contains_char]. rewrite Ascii.eqb_sym, Ha.
           apply (IH h). left. reflexivity.
        -- apply (IH c). right. exact Hin.
Qed.

Lemma last_in_or_default (A : Type) (l : list A) (x : A) : l = [] \/ In (last l x) l.
Proof.
  induction l as [|a l IH]; [left; reflexivity|].
  right. destruct IH as [->|IH]; [left; reflexivity|].
  simpl. destruct l; [contradiction|]. right. exact IH.
Qed.

(** The base name of a request is a pattern of at most one component,
    never anchored and never ending with [/]. *)
Lemma basename_parse (requested : string) :
  PurePath.parse (basename requested)
  = PurePath.mk false (if (basename requested =? "")%string then []
                       else [basename requested]) /\
  PyStr.last_char_is "/" (basename requested) = false.
Proof.
  unfold basename, PurePath.name.
  destruct (last_in_or_default _ (PurePath.parts (PurePath.parse requested)) EmptyString)
    as [Hnil|Hin].
  - rewrite Hnil. split; reflexivity.
  - set (n := last (PurePath.parts (PurePath.parse requested)) EmptyString) in *.
    unfold PurePath.parse in Hin. cbn [PurePath.parts] in Hin.
    apply filter_In in Hin. destruct Hin as [Hin Hkeep].
    pose proof (split_no_sep _ _ _ Hin) as Hslash.
    split; [|apply last_char_absent; exact Hslash].
    unfold PurePath.parse. rewrite (split_plain _ _ Hslash).
    cbn [filter]. rewrite Hkeep.
    unfold PurePath.keep_part in Hkeep. apply andb_true_iff in Hkeep.
    destruct Hkeep as [He _]. apply negb_true_iff in He. rewrite He.
    destruct n as [|a n']; [discriminate He|].
    rewrite prefix_cons.
    cbn [PyStr.contains_char] in Hslash. apply orb_false_iff in Hslash.
    destruct Hslash as [Ha _].
    destruct (Ascii.ascii_dec "/" a) as [<-|Hne]; [discriminate Ha | reflexivity].
Qed.

Lemma basename_search_returns (root : node) (wd : path) (requested : string) :
  valid_part (basename requested) = true ->
  exists found, Glob.rglob root wd (basename requested) = Val found.
Proof.
  intros Hvalid. destruct (basename_parse requested) as [Hparse _].
  apply rglob_returns; rewrite Hparse; [reflexivity|].
  cbn [PurePath.parts]. destruct (basename requested =? "")%string; [reflexivity|].
  simpl. rewrite Hvalid. reflexivity.
Qed.

(** ** C2: the fallback search *)

Lemma search_outcome_files (w : world) (working_directory requested : string)
    (args : list string) (working_dir target : path) (found : list path) :
  contained_request w working_directory requested working_dir target ->
  FS.exists_ (fs w) target = false ->
  Glob.rglob (fs w) working_dir (basename requested) = Val found ->
  let t := [EvExists target; EvRglob working_dir (basename requested)] in
  match found with
  | [] =>
      run (get_file_content working_directory requested) w
      = (Val (Msg.not_found requested), w, t) /\
      run (run_python_file working_directory requested args) w
      = (Val (Msg.not_found requested), w, t)
  | first :: _ =>
      get_file_content working_directory requested (w, [])
      = get_file_content_read first requested (w, t) /\
      run_python_file working_directory requested args (w, [])
      = run_python_file_exec working_dir first requested args (w, t)
  end.
Proof.
  intros Hreq Hmissing Hfound t.
  destruct found as [|first rest].
  - destruct Hreq as (Hwd & Htarget & Hrel).
    split.
    + unfold run, get_file_content, resolve_under.
      rewrite (bind_step _ _ (w, []) (w, []) working_dir)
        by (unfold resolve; cbn; rewrite Hwd; reflexivity).
      rewrite (bind_step _ _ (w, []) (w, []) target)
        by (unfold resolve; cbn; rewrite Htarget; reflexivity).
      rewrite Hrel. cbn [negb].
      rewrite (bind_step _ _ _ _ _ (path_exists_step _ _ _)).
      rewrite Hmissing. cbn [negb app].
      unfold bind at 1. rewrite path_rglob_step. fold (basename requested).
      rewrite Hfound. reflexivity.
    + unfold run, run_python_file, resolve_under.
      rewrite (bind_step _ _ (w, []) (w, []) working_dir)
        by (unfold resolve; cbn; rewrite Hwd; reflexivity).
      rewrite (bind_step _ _ (w, []) (w, []) target)
        by (unfold resolve; cbn; rewrite Htarget; reflexivity).
      rewrite Hrel. cbn [negb].
      rewrite (bind_step _ _ _ _ _ (path_exists_step _ _ _)).
      rewrite Hmissing. cbn [negb app].
      unfold bind at 1. rewrite path_rglob_step. fold (basename requested).
      rewrite Hfound. reflexivity.
  - assert (Hloc : located (fs w) working_dir target (basename requested) = Some first).
    { unfold located. rewrite Hmissing, Hfound. reflexivity. }
    assert (Ht : located_trace (fs w) working_dir target (basename requested) = t).
    { unfold located_trace. rewrite Hmissing. reflexivity. }
    split.
    + rewrite (get_file_content_located _ _ _ _ _ _ Hreq Hloc), Ht. reflexivity.
    + rewrite (run_python_file_located _ _ _ _ _ _ _ Hreq Hloc), Ht. reflexivity.
Qed.

Lemma search_outcome_listing (w : world) (working_directory requested : string)
    (working_dir target : path) (found : list path) :
  contained_request w working_directory requested working_dir target ->
  FS.exists_ (fs w) target = false ->
  requested <> "."%string ->
  Glob.rglob (fs w) working_dir requested = Val found ->
  let t := [EvExists target; EvRglob working_dir requested] in
  match found with
  | [] =>
      run (get_files_info working_directory requested) w
      = (Val (Msg.list_not_found requested), w, t)
  | first :: _ =>
      get_files_info working_directory requested (w, [])
      = get_files_info_listing first requested (w, t)
  end.
Proof.
  intros Hreq Hmissing Hdot Hfound t.
  destruct found as [|first rest].
  - destruct Hreq as (Hwd & Htarget & Hrel).
    apply String.eqb_neq in Hdot.
    unfold run, get_files_info, resolve_under. rewrite Hdot.
    rewrite (bind_step _ _ (w, []) (w, []) working_dir)
      by (unfold resolve; cbn; rewrite Hwd; reflexivity).
    rewrite (bind_step _ _ (w, []) (w, []) target)
      by (unfold resolve; cbn; rewrite Htarget; reflexivity).
    rewrite Hrel. cbn [negb].
    rewrite (bind_step _ _ _ _ _ (path_exists_step _ _ _)).
    rewrite Hmissing. cbn [negb app andb].
    unfold bind at 1. rewrite path_rglob_step.
    rewrite Hfound. reflexivity.
  - assert (Hloc : located (fs w) working_dir target requested = Some first).
    { unfold located. rewrite Hmissing, Hfound. reflexivity. }
    assert (Ht : located_trace (fs w) working_dir target requested = t).
    { unfold located_trace. rewrite Hmissing. reflexivity. }
    rewrite (get_files_info_located _ _ _ _ _ _ Hreq Hdot Hloc), Ht. reflexivity.
Qed.

(** ** Patterns: the program's matching is the documented one *)

Lemma set_mem_eq (c : ascii) (items : string) :
  Glob.set_mem c items
  = match items with
    | String lo (String dash (String hi r)) =>
        if Ascii.eqb dash "-" then
          ((nat_of_ascii lo <=? nat_of_ascii c)%nat && (nat_of_ascii c <=? nat_of_ascii hi)%nat)
          || Glob.set_mem c r
        else Ascii.eqb lo c || Glob.set_mem c (String dash (String hi r))
    | String lo rest => Ascii.eqb lo c || Glob.set_mem c rest
    | EmptyString => false
    end.
Proof. destruct items as [|lo [|dash [|hi r]]]; reflexivity. Qed.

Lemma string_length_ind (P : string -> Prop) :
  (forall s, (forall t, String.length t < String.length s -> P t) -> P s) ->
  forall s, P s.
Proof.
  intros H s. remember (String.length s) as n eqn:Hn.
  revert s Hn. induction n as [n IH] using lt_wf_ind.
  intros s ->. apply H. intros t Ht. apply (IH _ Ht t eq_refl).
Qed.

Lemma set_mem_in_seq (c : ascii) (items : string) :
  Glob.set_mem c items = true <-> in_seq c items.
Proof.
  induction items as [items IH] using string_length_ind.
  rewrite set_mem_eq.
  destruct items as [|lo [|dash [|hi r]]].
  - split; [discriminate | intros H; inversion H].
  - rewrite orb_false_r. split.
    + intros H. apply Ascii.eqb_eq in H. subst lo. apply in_seq_first.
      intros (lo & hi & rest & H). discriminate H.
    + intros H. inversion H; subst.
      * apply Ascii.eqb_refl.
      * match goal with H' : in_seq c "" |- _ => inversion H' end.
  - assert (Hnr : ~ starts_range (String lo (String dash ""))).
    { intros (lo' & hi' & rest' & H). discriminate H. }
    rewrite orb_true_iff, (IH (String dash "")) by (simpl; lia). split.
    + intros [H|H].
      * apply Ascii.eqb_eq in H. subst lo. apply in_seq_first. exact Hnr.
      * apply in_seq_later; assumption.
    + intros H. inversion H; subst.
      * left. apply Ascii.eqb_refl.
      * right. assumption.
  - destruct (Ascii.eqb dash "-") eqn:Hd.
    + apply Ascii.eqb_eq in Hd. subst dash.
      assert (Hr : starts_range (String lo (String "-" (String hi r))))
        by (exists lo, hi, r; reflexivity).
      rewrite orb_true_iff, andb_true_iff, !Nat.leb_le, (IH r) by (simpl; lia). split.
      * intros [[H1 H2]|H]; [apply in_seq_range | apply in_seq_after_range]; assumption.
      * intros H. inversion H; subst; try contradiction.
        -- left. split; assumption.
        -- right. assumption.
    + assert (Hnr : ~ starts_range (String lo (String dash (String hi r)))).
      { intros (lo' & hi' & rest' & H). injection H as _ H _ _. subst dash.
        rewrite Ascii.eqb_refl in Hd. discriminate Hd. }
      rewrite orb_true_iff, (IH (String dash (String hi r))) by (simpl; lia). split.
      * intros [H|H].
        -- apply Ascii.eqb_eq in H. subst lo. apply in_seq_first. exact Hnr.
        -- apply in_seq_later; assumption.
      * intros H. inversion H; subst.
        -- rewrite Ascii.eqb_refl in Hd. discriminate Hd.
        -- rewrite Ascii.eqb_refl in Hd. discriminate Hd.
        -- left. apply Ascii.eqb_refl.
        -- right. assumption.
Qed.

Lemma until_rbracket_found (s a b : string) :
  Glob.until_rbracket s = Some (a, b) ->
  s = String.append a (String "]" b) /\ PyStr.contains_char "]" a = false.
Proof.
  revert a b. induction s as [|c s IH]; intros a b H.
  - discriminate H.
  - cbn [Glob.until_rbracket] in H. destruct (Ascii.eqb c "]") eqn:Hc.
    + apply Ascii.eqb_eq in Hc. subst c. injection H as <- <-. split; reflexivity.
    + destruct (Glob.until_rbracket s) as [[a' b']|]; [|discriminate H].
      injection H as <- <-. destruct (IH a' b' eq_refl) as [-> Ha'].
      split; [reflexivity|].
      cbn [PyStr.contains_char]. rewrite Ascii.eqb_sym, Hc. exact Ha'.
Qed.

Lemma until_rbracket_first (a b : string) :
  PyStr.contains_char "]" a = false ->
  Glob.until_rbracket (String.append a (String "]" b)) = Some (a, b).
Proof.
  induction a as [|x a IH]; intros Ha.
  - reflexivity.
  - cbn [PyStr.contains_char] in Ha. apply orb_false_iff in Ha. destruct Ha as [Hx Ha].
    cbn [String.append Glob.until_rbracket]. rewrite Ascii.eqb_sym, Hx, (IH Ha). reflexivity.
Qed.

Lemma until_rbracket_some (s a b : string) :
  Glob.until_rbracket s = Some (a, b)
  <-> s = String.append a (String "]" b) /\ PyStr.contains_char "]" a = false.
Proof.
  split; [apply until_rbracket_found|]. intros [-> Ha]. apply until_rbracket_first. exact Ha.
Qed.

Lemma parse_set_bracket (s : string) (negated : bool) (body rest : string) :
  Glob.parse_set s = Some (negated, body, rest) <-> bracket s negated body rest.
Proof.
  unfold Glob.parse_set. split.
  - intros H.
    destruct s as [|c r].
    + discriminate H.
    + destruct (Ascii.eqb c "!") eqn:Hc.
      * apply Ascii.eqb_eq in Hc. subst c.
        destruct r as [|c1 r1]; [discriminate H|].
        destruct (Ascii.eqb c1 "]") eqn:Hc1.
        -- apply Ascii.eqb_eq in Hc1. subst c1.
           destruct (Glob.until_rbracket r1) as [[a b]|] eqn:Hu; [|discriminate H].
           injection H as <- <- <-.
           apply until_rbracket_some in Hu. destruct Hu as [-> Ha].
           apply (bracket_negated (String "]" a) b). exists "]"%char, a. split; [reflexivity | exact Ha].
        -- destruct (Glob.until_rbracket (String c1 r1)) as [[a b]|] eqn:Hu; [|discriminate H].
           injection H as <- <- <-.
           apply until_rbracket_some in Hu. destruct Hu as [Heq Ha].
           rewrite Heq. apply bracket_negated.
           destruct a as [|x a].
           ++ simpl in Heq. injection Heq as -> _. rewrite Ascii.eqb_refl in Hc1. discriminate.
           ++ exists x, a. split; [reflexivity|].
              cbn [PyStr.contains_char] in Ha. apply orb_false_iff in Ha. apply Ha.
      * destruct (Ascii.eqb c "]") eqn:Hc1.
        -- apply Ascii.eqb_eq in Hc1. subst c.
           destruct (Glob.until_rbracket r) as [[a b]|] eqn:Hu; [|discriminate H].
           injection H as <- <- <-.
           apply until_rbracket_some in Hu. destruct Hu as [-> Ha].
           apply (bracket_plain (String "]" a) b).
           ++ exists "]"%char, a. split; [reflexivity | exact Ha].
           ++ intros r' Hr'. discriminate Hr'.
        -- destruct (Glob.until_rbracket (String c r)) as [[a b]|] eqn:Hu; [|discriminate H].
           injection H as <- <- <-.
           apply until_rbracket_some in Hu. destruct Hu as [Heq Ha].
           rewrite Heq.
           destruct a as [|x a].
           ++ simpl in Heq. injection Heq as -> _. rewrite Ascii.eqb_refl in Hc1. discriminate.
           ++ simpl in Heq. injection Heq as <- Heq.
              apply bracket_plain.
              ** exists c, a. split; [reflexivity|].
                 cbn [PyStr.contains_char] in Ha. apply orb_false_iff in Ha. apply Ha.
              ** intros r' Hr'. injection Hr' as -> _. rewrite Ascii.eqb_refl in Hc. discriminate.
  - intros H. destruct H as [body rest (c & r & -> & Hr) Hbang|body rest (c & r & -> & Hr)].
    + cbn [String.append].
      assert (Hc : Ascii.eqb c "!" = false).
      { apply Ascii.eqb_neq. intros ->. apply (Hbang r). reflexivity. }
      rewrite Hc.
      destruct (Ascii.eqb c "]") eqn:Hc1.
      * apply Ascii.eqb_eq in Hc1. subst c.
        rewrite (proj2 (until_rbracket_some (String.append r (String "]" rest)) r rest))
          by (split; [reflexivity | exact Hr]).
        reflexivity.
      * rewrite (proj2 (until_rbracket_some (String c (String.append r (String "]" rest)))
                          (String c r) rest)).
        -- reflexivity.
        -- split; [reflexivity|]. cbn [PyStr.contains_char].
           rewrite Ascii.eqb_sym, Hc1. exact Hr.
    + rewrite Ascii.eqb_refl. cbn [String.append].
      destruct (Ascii.eqb c "]") eqn:Hc1.
      * apply Ascii.eqb_eq in Hc1. subst c.
        rewrite (proj2 (until_rbracket_some (String.append r (String "]" rest)) r rest))
          by (split; [reflexivity | exact Hr]).
        reflexivity.
      * rewrite (proj2 (until_rbracket_some (String c (String.append r (String "]" rest)))
                          (String c r) rest)).
        -- reflexivity.
        -- split; [reflexivity|]. cbn [PyStr.contains_char].
           rewrite Ascii.eqb_sym, Hc1. exact Hr.
Qed.

Lemma append_length (s t : string) :
  String.length (String.append s t) = String.length s + String.length t.
Proof. induction s as [|a s IH]; [reflexivity|]. simpl. rewrite IH. reflexivity. Qed.

Lemma bracket_rest_shorter (pat : string) (negated : bool) (body rest : string) :
  bracket pat negated body rest -> String.length rest < String.length pat.
Proof.
  intros [b r _ _|b r _]; cbn [String.length]; rewrite append_length; simpl; lia.
Qed.

Lemma tokens_eq (fuel : nat) (c : ascii) (r : string) :
  Glob.tokens (S fuel) (String c r)
  = if Ascii.eqb c "*" then Glob.TStar :: Glob.tokens fuel r
    else if Ascii.eqb c "?" then Glob.TAny :: Glob.tokens fuel r
    else if Ascii.eqb c "[" then
      match Glob.parse_set r with
      | Some (neg, items, rest) => Glob.TSet neg items :: Glob.tokens fuel rest
      | None => Glob.TChar c :: Glob.tokens fuel r
      end
    else Glob.TChar c :: Glob.tokens fuel r.
Proof. reflexivity. Qed.

Lemma tokens_enough (n : nat) :
  forall m pat, String.length pat <= n -> String.length pat <= m ->
                Glob.tokens n pat = Glob.tokens m pat.
Proof.
  induction n as [|n IH]; intros m pat Hn Hm.
  - destruct pat; [|simpl in Hn; lia]. destruct m; reflexivity.
  - destruct pat as [|c r]; [destruct m; reflexivity|].
    destruct m as [|m]; [simpl in Hm; lia|].
    simpl in Hn, Hm. rewrite !tokens_eq.
    destruct (Ascii.eqb c "*"); [rewrite (IH m r) by lia; reflexivity|].
    destruct (Ascii.eqb c "?"); [rewrite (IH m r) by lia; reflexivity|].
    destruct (Ascii.eqb c "[").
    + destruct (Glob.parse_set r) as [[[neg items] rest]|] eqn:Hp.
      * apply parse_set_bracket, bracket_rest_shorter in Hp.
        rewrite (IH m rest) by lia. reflexivity.
      * rewrite (IH m r) by lia. reflexivity.
    + rewrite (IH m r) by lia. reflexivity.
Qed.

Lemma match_star (ts : list Glob.token) (s : string) :
  Glob.match_tokens (Glob.TStar :: ts) s
  = Glob.match_tokens ts s
    || match s with
       | EmptyString => false
       | String _ r => Glob.match_tokens (Glob.TStar :: ts) r
       end.
Proof. destruct s; reflexivity. Qed.

Lemma fnmatch_cons (c : ascii) (r : string) (s : string) :
  Glob.fnmatch (String c r) s
  = if Ascii.eqb c "*" then
      Glob.fnmatch r s
      || match s with
         | EmptyString => false
         | String _ s' => Glob.fnmatch (String c r) s'
         end
    else if Ascii.eqb c "?" then
      match s with String _ s' => Glob.fnmatch r s' | EmptyString => false end
    else if Ascii.eqb c "[" then
      match Glob.parse_set r with
      | Some (neg, items, rest) =>
          match s with
          | String x s' => xorb neg (Glob.set_mem x items) && Glob.fnmatch rest s'
          | EmptyString => false
          end
      | None =>
          match s with
          | String x s' => Ascii.eqb c x && Glob.fnmatch r s'
          | EmptyString => false
          end
      end
    else
      match s with
      | String x s' => Ascii.eqb c x && Glob.fnmatch r s'
      | EmptyString => false
      end.
Proof.
  unfold Glob.fnmatch. cbn [String.length]. rewrite tokens_eq.
  destruct (Ascii.eqb c "*") eqn:Hstar.
  - rewrite match_star. f_equal;
      try (destruct s as [|x s']; [reflexivity|];
           cbn [String.length]; rewrite tokens_eq, Hstar; reflexivity).
  - destruct (Ascii.eqb c "?"); [destruct s; reflexivity|].
    destruct (Ascii.eqb c "[").
    + destruct (Glob.parse_set r) as [[[neg items] rest]|] eqn:Hp.
      * apply parse_set_bracket, bracket_rest_shorter in Hp.
        rewrite (tokens_enough (String.length r) (String.length rest) rest) by lia.
        destruct s; reflexivity.
      * destruct s; reflexivity.
    + destruct s; reflexivity.
Qed.

Lemma fnmatch_nil (s : string) : Glob.fnmatch "" s = true <-> s = EmptyString.
Proof. unfold Glob.fnmatch. simpl. destruct s; simpl; split; congruence. Qed.

Lemma fnmatch_glob_match (pat : string) :
  forall s, Glob.fnmatch pat s = true <-> glob_match pat s.
Proof.
  induction pat as [pat IH] using string_length_ind.
  destruct pat as [|c r].
  - intros s. rewrite fnmatch_nil. split.
    + intros ->. constructor.
    + intros H. inversion H. reflexivity.
  - assert (IHr : forall s, Glob.fnmatch r s = true <-> glob_match r s)
      by (apply IH; simpl; lia).
    intros s. split.
    + (* the program accepts: so does the description *)
      induction s as [|x s' IHs]; rewrite fnmatch_cons;
        destruct (Ascii.eqb c "*") eqn:Hstar.
      * apply Ascii.eqb_eq in Hstar. subst c. rewrite orb_false_r. intros H.
        apply glob_star_stop, IHr, H.
      * destruct (Ascii.eqb c "?"); [discriminate|].
        destruct (Ascii.eqb c "["); [|discriminate].
        destruct (Glob.parse_set r) as [[[neg items] rest]|]; discriminate.
      * apply Ascii.eqb_eq in Hstar. subst c. intros H.
        apply orb_true_iff in H. destruct H as [H|H].
        -- apply glob_star_stop, IHr, H.
        -- apply glob_star_step, IHs, H.
      * destruct (Ascii.eqb c "?") eqn:Hq.
        { apply Ascii.eqb_eq in Hq. subst c. intros H. apply glob_question, IHr, H. }
        destruct (Ascii.eqb c "[") eqn:Hb.
        -- apply Ascii.eqb_eq in Hb. subst c.
           destruct (Glob.parse_set r) as [[[neg items] rest]|] eqn:Hp.
           ++ intros H. apply andb_true_iff in H. destruct H as [Hx Hrest].
              pose proof (proj1 (parse_set_bracket _ _ _ _) Hp) as Hbr.
              apply (glob_seq r neg items rest x s' Hbr).
              ** rewrite <- set_mem_in_seq.
                 destruct neg, (Glob.set_mem x items); simpl in Hx;
                   split; congruence.
              ** apply (IH rest); [|exact Hrest].
                 apply bracket_rest_shorter in Hbr. simpl. lia.
           ++ intros H. apply andb_true_iff in H. destruct H as [Hx Hrest].
              apply Ascii.eqb_eq in Hx. subst x.
              apply glob_open; [|apply IHr, Hrest].
              intros negated body rest Hbr. apply parse_set_bracket in Hbr. congruence.
        -- intros H. apply andb_true_iff in H. destruct H as [Hx Hrest].
           apply Ascii.eqb_eq in Hx. subst x.
           apply glob_char; try (apply Ascii.eqb_neq; assumption).
           apply IHr, Hrest.
    + (* the description accepts: so does the program *)
      intros H. remember (String c r) as pat eqn:Hpat.
      revert c r IH IHr Hpat.
      induction H as [|pat s H IHm|pat x s H IHm|pat x s H IHm
                      |pat neg body rest x s Hbr Hin H IHm|pat s Hno H IHm
                      |a pat s Ha1 Ha2 Ha3 H IHm];
        intros c r IH IHr Hpat; try discriminate Hpat; injection Hpat as <- <-;
        rewrite fnmatch_cons.
      * cbn [Ascii.eqb Bool.eqb andb]. apply orb_true_iff. left. apply IHr, H.
      * cbn [Ascii.eqb Bool.eqb andb]. apply orb_true_iff. right.
        apply (IHm _ _ IH IHr eq_refl).
      * cbn [Ascii.eqb Bool.eqb andb]. apply IHr, H.
      * cbn [Ascii.eqb Bool.eqb andb].
        rewrite (proj2 (parse_set_bracket _ _ _ _) Hbr).
        apply andb_true_iff. split.
        -- rewrite <- set_mem_in_seq in Hin.
           destruct neg, (Glob.set_mem x body); simpl; try reflexivity.
           ++ destruct Hin as [Hin _]. specialize (Hin eq_refl). discriminate.
           ++ destruct Hin as [_ Hin]. specialize (Hin eq_refl). discriminate.
        -- apply (IH rest); [|exact H].
           apply bracket_rest_shorter in Hbr. simpl. lia.
      * cbn [Ascii.eqb Bool.eqb andb].
        destruct (Glob.parse_set pat) as [[[neg items] rest]|] eqn:Hp.
        -- exfalso. apply (Hno neg items rest). apply parse_set_bracket. exact Hp.
        -- apply IHr, H.
      * apply Ascii.eqb_neq in Ha1, Ha2, Ha3. rewrite Ha1, Ha2, Ha3.
        rewrite Ascii.eqb_refl. apply IHr, H.
Qed.

Lemma glob_match_literal (pat : string) :
  Glob.is_wildcard_pattern pat = false ->
  forall s, glob_match pat s <-> s = pat.
Proof.
  unfold Glob.is_wildcard_pattern. intros Hw.
  apply orb_false_iff in Hw. destruct Hw as [Hw Hb].
  apply orb_false_iff in Hw. destruct Hw as [Hs Hq].
  induction pat as [|a pat IH]; intros s.
  - split; [intros H; inversion H; reflexivity | intros ->; constructor].
  - cbn [PyStr.contains_char] in Hs, Hq, Hb.
    apply orb_false_iff in Hs. destruct Hs as [Hs1 Hs].
    apply orb_false_iff in Hq. destruct Hq as [Hq1 Hq].
    apply orb_false_iff in Hb. destruct Hb as [Hb1 Hb].
    apply Ascii.eqb_neq in Hs1, Hq1, Hb1.
    split.
    + intros H. inversion H; subst; try congruence.
      f_equal. apply (IH Hs Hq Hb). assumption.
    + intros ->. apply glob_char; try congruence. apply (IH Hs Hq Hb). reflexivity.
Qed.

(** ** What the search finds for a pattern *)

Lemma searchable_facts (c : string) :
  searchable c = true -> c <> dotdot /\ PyStr.contains "**" c = false.
Proof.
  unfold searchable. intros H. apply andb_true_iff in H. destruct H as [H1 H2].
  apply negb_true_iff in H1, H2. split; [apply String.eqb_neq; exact H1 | exact H2].
Qed.

Lemma make_selector_searchable (parts : list string) (dir_last : bool) :
  forallb PurePath.keep_part parts = true ->
  forallb searchable parts = true ->
  Glob.make_selector (parts ++ (if dir_last then [EmptyString] else []))
  = Val (pattern_chain parts dir_last).
Proof.
  induction parts as [|c rest IH]; intros Hk H.
  - destruct dir_last; reflexivity.
  - simpl in H. apply andb_true_iff in H. destruct H as [Hc Hrest].
    simpl in Hk. apply andb_true_iff in Hk. destruct Hk as [Hkc Hkrest].
    destruct (searchable_facts _ Hc) as (_ & Hss).
    unfold PurePath.keep_part in Hkc. apply andb_true_iff in Hkc. destruct Hkc as [He _].
    apply negb_true_iff in He.
    cbn [app Glob.make_selector pattern_chain].
    rewrite He.
    assert (Hstar : (c =? "**")%string = false).
    { apply String.eqb_neq. intros ->. discriminate Hss. }
    rewrite Hstar, Hss, (IH Hkrest Hrest).
    destruct rest; destruct dir_last; reflexivity.
Qed.

Lemma scandir_plain (root : node) (p : path) :
  no_dotdot p ->
  (exists es, FS.find root p = Some (Dir es) /\ FS.scandir root p = inr es) \/
  (~ is_directory root p /\ exists e, FS.scandir root p = inl e).
Proof.
  intros Hp. pose proof (lookup_plain root p Hp) as Hl.
  unfold FS.lookup in Hl. unfold FS.scandir, is_directory.
  destruct (FS.stat root p) as [e|[q [size text|es|]]].
  - right. split; [intros [es H]; congruence | exists e; reflexivity].
  - right. split; [intros [es H]; congruence | eexists; reflexivity].
  - left. exists es. split; [symmetry; exact Hl | reflexivity].
  - right. split; [intros [es H]; congruence | eexists; reflexivity].
Qed.

Lemma forall2_nil_l (A B : Type) (R : A -> B -> Prop) (l : list B) :
  Forall2 R [] l -> l = [].
Proof. intros H. inversion H. reflexivity. Qed.

Lemma find_child (root : node) (d : path) (k : string) (es : list (string * node)) :
  FS.find root d = Some (Dir es) ->
  FS.find root (d ++ [k]) = assoc k es.
Proof.
  intros H. rewrite find_app, H, find_cons. destruct (assoc k es); reflexivity.
Qed.

Lemma find_below_child (root : node) (d : path) (k : string) (ks : path) :
  FS.find root (d ++ k :: ks) <> None ->
  exists es v, FS.find root d = Some (Dir es) /\ assoc k es = Some v /\
               FS.find v ks <> None.
Proof.
  rewrite find_app. intros H.
  destruct (FS.find root d) as [[size text|es|]|]; try (exfalso; apply H; reflexivity).
  rewrite find_cons in H. destruct (assoc k es) as [v|] eqn:Hk; [|exfalso; apply H; reflexivity].
  exists es, v. repeat split; assumption.
Qed.

Lemma accepted_found (root : node) (dir_last : bool) (q : path) :
  accepted root dir_last q -> FS.find root q <> None.
Proof.
  unfold accepted. destruct dir_last; [|intros H; exact H].
  intros [es H]. rewrite H. discriminate.
Qed.

Lemma select_pattern_chain (root : node) (parts : list string) (dir_last : bool) :
  wf root = true ->
  forallb searchable parts = true ->
  forall d q, no_dotdot d ->
    In q (Glob.select root (pattern_chain parts dir_last) d)
    <-> exists ks, q = d ++ ks /\ Forall2 glob_match parts ks /\
                   (parts = [] \/ accepted root dir_last q).
Proof.
  intros Hwf. induction parts as [|c rest IH]; intros Hs d q Hd.
  - simpl. split.
    + intros [<-|[]]. exists []. rewrite app_nil_r. repeat split; [constructor | left; reflexivity].
    + intros (ks & -> & Hks & _). apply forall2_nil_l in Hks. subst ks.
      rewrite app_nil_r. left. reflexivity.
  - simpl in Hs. apply andb_true_iff in Hs. destruct Hs as [Hc Hrest].
    destruct (searchable_facts _ Hc) as (Hcdd & _).
    specialize (IH Hrest).
    (* what both kinds of selector come to *)
    assert (Hstep : forall k v es,
              FS.find root d = Some (Dir es) -> assoc k es = Some v ->
              glob_match c k ->
              (match rest with [] => dir_last | _ :: _ => true end = true ->
               Glob.node_is_dir v = true) ->
              no_dotdot (d ++ [k]) ->
              forall ks', q = (d ++ [k]) ++ ks' -> Forall2 glob_match rest ks' ->
                          (rest = [] \/ accepted root dir_last q) ->
                          exists ks, q = d ++ ks /\ Forall2 glob_match (c :: rest) ks /\
                                     (c :: rest = [] \/ accepted root dir_last q)).
    { intros k v es Hes Hk Hm Hdir Hnd ks' -> Hks' Hacc.
      exists (k :: ks'). split; [rewrite <- app_assoc; reflexivity|].
      split; [constructor; assumption|]. right.
      destruct Hacc as [->|Hacc]; [|exact Hacc].
      apply forall2_nil_l in Hks'. subst ks'. rewrite app_nil_r.
      unfold accepted. unfold is_directory. rewrite (find_child _ _ k _ Hes), Hk.
      destruct dir_last; [|discriminate].
      specialize (Hdir eq_refl). destruct v; try discriminate Hdir.
      eexists; reflexivity. }
    assert (Hback : forall ks,
              q = d ++ ks -> Forall2 glob_match (c :: rest) ks ->
              accepted root dir_last q ->
              exists k ks' es v,
                ks = k :: ks' /\ glob_match c k /\ Forall2 glob_match rest ks' /\
                FS.find root d = Some (Dir es) /\ assoc k es = Some v /\
                (match rest with [] => dir_last | _ :: _ => true end = true ->
                 Glob.node_is_dir v = true)).
    { intros ks -> Hks Hacc. inversion Hks as [|c' k rest' ks' Hm Hks' E1 E2]. subst.
      pose proof (accepted_found _ _ _ Hacc) as Hf.
      destruct (find_below_child _ _ _ _ Hf) as (es & v & Hes & Hk & Hv).
      exists k, ks', es, v. repeat split; try assumption.
      intros Hdironly.
      destruct rest as [|c2 rest'].
      - apply forall2_nil_l in Hks'. subst ks'. subst dir_last.
        destruct Hacc as [es' Hes']. rewrite (find_child _ _ k _ Hes), Hk in Hes'.
        injection Hes' as ->. reflexivity.
      - inversion Hks' as [|? k2 ? ks2 ? ? E3 E4]. subst.
        destruct v as [size text|es'|]; [|reflexivity|];
          exfalso; apply Hv; reflexivity. }
    assert (Hname : forall k v es,
              FS.find root d = Some (Dir es) -> In (k, v) es ->
              assoc k es = Some v /\ no_dotdot (d ++ [k])).
    { intros k v es Hes Hin.
      destruct (wf_find _ _ _ Hwf Hes) as [Hwfd _].
      destruct (wf_dir _ Hwfd) as (Hnd & Hdd & _).
      split; [apply (assoc_in _ _ _ Hnd Hin)|].
      apply no_dotdot_app; [exact Hd|]. intros [Heq|[]].
      apply Hdd. rewrite <- Heq. apply (in_map fst _ _ Hin). }
    cbn [pattern_chain].
    destruct (Glob.is_wildcard_pattern c) eqn:Hw; cbn [Glob.select].
    + (* a pattern: the entries of the directory it describes *)
      destruct (scandir_plain root d Hd) as [(es & Hes & ->)|(Hnodir & e & ->)].
      * rewrite in_flat_map. split.
        -- intros [[k v] [Hin Hq]]. cbn [fst snd] in Hq.
           destruct ((negb (match rest with [] => dir_last | _ :: _ => true end)
                      || Glob.node_is_dir v) && Glob.fnmatch c k) eqn:Hcond;
             [|destruct Hq].
           apply andb_true_iff in Hcond. destruct Hcond as [Hdir Hm].
           destruct (Hname k v es Hes Hin) as [Hk Hnd].
           apply (IH _ _ Hnd) in Hq. destruct Hq as (ks' & Hq & Hks' & Hacc).
           apply (Hstep k v es Hes Hk (proj1 (fnmatch_glob_match c k) Hm)) with (ks' := ks');
             try assumption.
           intros Hdo. rewrite Hdo in Hdir. exact Hdir.
        -- intros (ks & Hq & Hks & [Habs|Hacc]); [discriminate Habs|].
           destruct (Hback ks Hq Hks Hacc) as (k & ks' & es' & v & -> & Hm & Hks' & Hes' & Hk & Hdir).
           rewrite Hes in Hes'. injection Hes' as <-.
           exists (k, v). split; [apply assoc_some_in; exact Hk|]. cbn [fst snd].
           rewrite (proj2 (fnmatch_glob_match c k) Hm), andb_true_r.
           assert (Hcond : negb (match rest with [] => dir_last | _ :: _ => true end)
                           || Glob.node_is_dir v = true).
           { destruct (match rest with [] => dir_last | _ :: _ => true end);
               [apply Hdir; reflexivity | reflexivity]. }
           rewrite Hcond.
           destruct (Hname k v es Hes (assoc_some_in _ _ _ Hk)) as [_ Hnd].
           apply (IH _ _ Hnd). exists ks'. split; [subst q; rewrite <- app_assoc; reflexivity|].
           split; [exact Hks'|].
           destruct rest; [left; reflexivity | right; exact Hacc].
      * split; [intros []|].
        intros (ks & Hq & Hks & [Habs|Hacc]); [discriminate Habs|].
        destruct (Hback ks Hq Hks Hacc) as (k & ks' & es' & v & _ & _ & _ & Hes' & _).
        apply Hnodir. exists es'. exact Hes'.
    + (* a name: the entry of that name *)
      pose proof (glob_match_literal c Hw) as Hlit.
      assert (Hdc : no_dotdot (d ++ [c])).
      { apply no_dotdot_app; [exact Hd|]. intros [H|[]]. apply Hcdd. exact H. }
      assert (Hsel : (if match rest with [] => dir_last | _ :: _ => true end
                      then FS.is_dir root (d ++ [c]) else FS.exists_ root (d ++ [c])) = true
                     <-> exists es v, FS.find root d = Some (Dir es) /\ assoc c es = Some v /\
                                      (match rest with [] => dir_last | _ :: _ => true end = true
                                       -> Glob.node_is_dir v = true)).
      { destruct (match rest with [] => dir_last | _ :: _ => true end).
        - rewrite (is_dir_plain root _ Hdc). split.
          + intros [es' Hes'].
            assert (Hf : FS.find root (d ++ [c]) <> None) by (rewrite Hes'; discriminate).
            destruct (find_below_child _ _ _ _ Hf) as (es & v & Hes & Hk & _).
            exists es, v. repeat split; try assumption.
            rewrite (find_child _ _ c _ Hes), Hk in Hes'. injection Hes' as ->. reflexivity.
          + intros (es & v & Hes & Hk & Hdir). unfold is_directory.
            rewrite (find_child _ _ c _ Hes), Hk.
            specialize (Hdir eq_refl). destruct v; try discriminate Hdir. eexists; reflexivity.
        - rewrite (exists_plain root _ Hdc). split.
          + intros Hf. destruct (find_below_child _ _ _ _ Hf) as (es & v & Hes & Hk & _).
            exists es, v. repeat split; try assumption. discriminate.
          + intros (es & v & Hes & Hk & _). rewrite (find_child _ _ c _ Hes), Hk. discriminate. }
      destruct (if match rest with [] => dir_last | _ :: _ => true end
                then FS.is_dir root (d ++ [c]) else FS.exists_ root (d ++ [c])) eqn:Hcheck.
      * destruct (proj1 Hsel eq_refl) as (es & v & Hes & Hk & Hdir).
        split.
        -- intros Hq. apply (IH _ _ Hdc) in Hq. destruct Hq as (ks' & Hq & Hks' & Hacc).
           apply (Hstep c v es Hes Hk (proj2 (Hlit c) eq_refl) Hdir Hdc ks' Hq Hks' Hacc).
        -- intros (ks & Hq & Hks & [Habs|Hacc]); [discriminate Habs|].
           destruct (Hback ks Hq Hks Hacc) as (k & ks' & es' & v' & -> & Hm & Hks' & _).
           apply Hlit in Hm. subst k.
           apply (IH _ _ Hdc). exists ks'. split; [subst q; rewrite <- app_assoc; reflexivity|].
           split; [exact Hks'|].
           destruct rest; [left; reflexivity | right; exact Hacc].
      * split; [intros []|].
        intros (ks & Hq & Hks & [Habs|Hacc]); [discriminate Habs|].
        destruct (Hback ks Hq Hks Hacc) as (k & ks' & es' & v' & -> & Hm & Hks' & Hes' & Hk & Hdir).
        apply Hlit in Hm. subst k.
        assert (Habs : false = true); [|discriminate Habs].
        apply Hsel. exists es', v'. repeat split; assumption.
Qed.

Lemma parse_parts_kept (s : string) :
  forallb PurePath.keep_part (PurePath.parts (PurePath.parse s)) = true.
Proof.
  apply forallb_forall. intros c Hin. unfold PurePath.parse in Hin. cbn [PurePath.parts] in Hin.
  apply filter_In in Hin. apply Hin.
Qed.

Lemma rglob_searchable (root : node) (wd : path) (pattern : string) :
  PurePath.absolute (PurePath.parse pattern) = false ->
  forallb searchable (PurePath.parts (PurePath.parse pattern)) = true ->
  wf root = true ->
  no_dotdot wd ->
  exists found,
    Glob.rglob root wd pattern = Val found /\
    forall p, In p found
              <-> exists d ks,
                    is_relative_to d wd = true /\ is_directory root d /\
                    p = d ++ ks /\
                    Forall2 glob_match (PurePath.parts (PurePath.parse pattern)) ks /\
                    accepted root (PyStr.last_char_is "/" pattern) p.
Proof.
  intros Hrel Hs Hwf Hwd.
  unfold Glob.rglob. rewrite Hrel.
  set (parts := PurePath.parts (PurePath.parse pattern)) in *.
  set (dir_last := PyStr.last_char_is "/" pattern).
  rewrite (make_selector_recursive _ _
             (make_selector_searchable parts dir_last (parse_parts_kept pattern) Hs)).
  eexists. split; [reflexivity|].
  intros p.
  destruct (FS.is_dir root wd) eqn:Hdir.
  - apply (is_dir_plain root wd Hwd) in Hdir. destruct Hdir as [es0 Hes0].
    destruct (wf_find _ _ _ Hwf Hes0) as [Hwf0 _].
    cbn [Glob.select]. rewrite dedup_in, in_flat_map.
    unfold Glob.iterate_directories. rewrite (lookup_plain root wd Hwd), Hes0.
    split.
    + intros [[d [Hd Hp]] _].
      apply (subdirs_spec _ Hwf0) in Hd. destruct Hd as [r [-> Hr]].
      assert (Hdirr : is_directory root (wd ++ r)).
      { unfold is_directory. rewrite find_app, Hes0.
        destruct Hr as [->|Hr]; [exists es0; reflexivity | exact Hr]. }
      assert (Hnd : no_dotdot (wd ++ r)).
      { destruct Hdirr as [es Hes]. apply (wf_find _ _ _ Hwf Hes). }
      apply (select_pattern_chain root parts dir_last Hwf Hs _ _ Hnd) in Hp.
      destruct Hp as (ks & -> & Hks & Hacc).
      exists (wd ++ r), ks. split; [apply starts_with_app|]. split; [exact Hdirr|].
      split; [reflexivity|]. split; [exact Hks|].
      destruct Hacc as [Hnil|Hacc]; [|exact Hacc].
      rewrite Hnil in Hks. apply forall2_nil_l in Hks. subst ks.
      rewrite app_nil_r. unfold accepted. destruct dir_last; [exact Hdirr|].
      destruct Hdirr as [es Hes]. rewrite Hes. discriminate.
    + intros (d & ks & Hrel' & Hdird & -> & Hks & Hacc).
      split; [|intros []].
      exists d. split.
      * apply (subdirs_spec _ Hwf0).
        apply starts_with_inv in Hrel'. destruct Hrel' as [r ->].
        exists r. split; [reflexivity|].
        destruct Hdird as [es Hes]. rewrite find_app, Hes0 in Hes.
        right. exists es. exact Hes.
      * assert (Hnd : no_dotdot d).
        { destruct Hdird as [es Hes]. apply (wf_find _ _ _ Hwf Hes). }
        apply (select_pattern_chain root parts dir_last Hwf Hs _ _ Hnd).
        exists ks. split; [reflexivity|]. split; [exact Hks | right; exact Hacc].
  - split; [contradiction|].
    intros (d & ks & Hrel' & Hdird & _).
    apply starts_with_inv in Hrel'. destruct Hrel' as [r ->].
    apply prefix_is_directory in Hdird.
    apply (is_dir_plain root wd Hwd) in Hdird. congruence.
Qed.

Lemma forall2_single (A B : Type) (R : A -> B -> Prop) (a : A) (l : list B) :
  Forall2 R [a] l <-> exists b, l = [b] /\ R a b.
Proof.
  split.
  - intros H. inversion H as [|? b ? l' Hab Hl']. subst. inversion Hl'. subst.
    exists b. split; [reflexivity | exact Hab].
  - intros (b & -> & Hab). constructor; [exact Hab | constructor].
Qed.

Lemma basename_empty (requested : string) :
  basename requested = EmptyString -> PurePath.parts (PurePath.parse requested) = [].
Proof.
  unfold basename, PurePath.name. intros H.
  destruct (last_in_or_default _ (PurePath.parts (PurePath.parse requested)) EmptyString)
    as [Hnil|Hin]; [exact Hnil|].
  rewrite H in Hin.
  pose proof (parse_parts_kept requested) as Hk. rewrite forallb_forall in Hk.
  specialize (Hk _ Hin). discriminate Hk.
Qed.

Lemma starts_with_nil (q : path) : starts_with [] q = true -> q = [].
Proof. destruct q; [reflexivity | discriminate]. Qed.

(** A request without components is a request for the working
    directory itself. *)
Lemma empty_request_target (w : world) (working_directory requested : string)
    (working_dir target : path) :
  contained_request w working_directory requested working_dir target ->
  PurePath.parts (PurePath.parse requested) = [] ->
  target = working_dir.
Proof.
  intros (Hwd & Htarget & Hrel) Hparts.
  pose proof (resolve_in_no_dotdot _ _ _ Hwd) as Hnd.
  unfold resolve_in, PurePath.joinpath in Htarget.
  destruct (PurePath.absolute (PurePath.parse requested)) eqn:Habs.
  - rewrite Habs, Hparts in Htarget. cbn [existsb normalise] in Htarget.
    injection Htarget as <-. unfold is_relative_to in Hrel.
    symmetry. apply starts_with_nil. exact Hrel.
  - cbn [PurePath.absolute PurePath.parts] in Htarget. rewrite Hparts, app_nil_r in Htarget.
    destruct (existsb has_nul working_dir); [discriminate Htarget|].
    injection Htarget as <-. apply (normalise_plain working_dir [] Hnd).
Qed.

Lemma rglob_from_missing (root : node) (wd : path) (pattern : string) (found : list path) :
  FS.exists_ root wd = false ->
  Glob.rglob root wd pattern = Val found -> found = [].
Proof.
  intros Hmissing. unfold Glob.rglob.
  destruct (PurePath.absolute (PurePath.parse pattern)); [discriminate|].
  destruct (Glob.make_selector _) as [sel|e]; [|discriminate].
  assert (Hdir : FS.is_dir root wd = false).
  { unfold FS.is_dir. unfold FS.exists_ in Hmissing.
    destruct (FS.lookup root wd); [discriminate | reflexivity]. }
  rewrite Hdir. intros H. injection H as <-. reflexivity.
Qed.

Lemma rglob_basename_matches (root : node) (wd : path) (requested : string) :
  searchable (basename requested) = true ->
  basename requested <> EmptyString ->
  wf root = true ->
  no_dotdot wd ->
  exists found,
    Glob.rglob root wd (basename requested) = Val found /\
    forall p, In p found
              <-> below p wd /\ glob_match (basename requested) (name p) /\
                  FS.find root p <> None.
Proof.
  intros Hs Hne Hwf Hwd.
  destruct (basename_parse requested) as [Hparse Hlast].
  apply String.eqb_neq in Hne. rewrite Hne in Hparse.
  destruct (rglob_searchable root wd (basename requested)) as [found [Hfound Hin]];
    try assumption.
  - rewrite Hparse. reflexivity.
  - rewrite Hparse. cbn [PurePath.parts forallb]. rewrite Hs. reflexivity.
  - exists found. split; [exact Hfound|].
    intros p. rewrite Hin, Hparse, Hlast. cbn [PurePath.parts]. unfold accepted. split.
    + intros (d & ks & Hrel & Hdir & -> & Hks & Hacc).
      apply forall2_single in Hks. destruct Hks as (k & -> & Hm).
      apply starts_with_inv in Hrel. destruct Hrel as [r ->].
      split; [|split].
      * exists (r ++ [k]). split.
        -- intros H. apply app_eq_nil in H. destruct H as [_ H]. discriminate H.
        -- rewrite app_assoc. reflexivity.
      * unfold name. rewrite last_last. exact Hm.
      * exact Hacc.
    + intros ([rest [Hrest ->]] & Hm & Hfind).
      unfold name in Hm. rewrite (last_app_nonempty _ _ _ _ Hrest) in Hm.
      pose proof (app_removelast_last EmptyString Hrest) as Hsplit.
      exists (wd ++ removelast rest), [last rest EmptyString].
      assert (Heq : wd ++ rest = (wd ++ removelast rest) ++ [last rest EmptyString]).
      { rewrite <- app_assoc, <- Hsplit. reflexivity. }
      split; [apply starts_with_app|]. split; [|split; [exact Heq|split]].
      * rewrite Heq in Hfind. rewrite find_app in Hfind. unfold is_directory.
        destruct (FS.find root (wd ++ removelast rest)) as [[size text|es|]|];
          try (exfalso; apply Hfind; reflexivity).
        exists es. reflexivity.
      * apply forall2_single. eexists. split; [reflexivity | exact Hm].
      * exact Hfind.
Qed.

(** C2.  Let the requested path be contained and missing at its literal
    place, with names within the length the file system allows.
    - [get_file_content] and [run_python_file] search the tree below
      the working directory with the base name of the request as the
      pattern, for a base name other than [..] and without [**] in it.
      With no result they return the not-found text, otherwise they go
      on with the first result.  On a well-formed tree the results are
      exactly the entries at any depth below the working directory
      whose name the base name stands for as a glob pattern.
    - [get_files_info], for a relative request other than [.] whose
      components are neither [..] nor contain [**], searches with the
      whole request as the pattern; with no result it returns its
      not-found text, otherwise it lists the first result.  On a
      well-formed tree the results are exactly the paths [d ++ ks] that
      exist for a directory [d] at any depth and names [ks] that the
      components of the request stand for, one by one; a request that
      ends with [/] only finds directories.
    - [get_files_info] for [.] does not search.
    - A pattern without [*], [?] and [[] stands for itself and nothing
      else.
    The results are a function of the tree alone, so the first one is
    the same on every call against the same tree. *)
Theorem missing_path_falls_back_to_search
    (w : world) (working_directory requested : string) (args : list string)
    (working_dir target : path) :
  contained_request w working_directory requested working_dir target ->
  FS.exists_ (fs w) target = false ->
  forallb fits target = true ->
  (searchable (basename requested) = true ->
   fits (basename requested) = true ->
   exists found,
     Glob.rglob (fs w) working_dir (basename requested) = Val found /\
     (let t := [EvExists target; EvRglob working_dir (basename requested)] in
      match found with
      | [] =>
          run (get_file_content working_directory requested) w
          = (Val (String.append "Error: File '" (String.append requested "' not found")), w, t) /\
          run (run_python_file working_directory requested args) w
          = (Val (String.append "Error: File '" (String.append requested "' not found")), w, t)
      | first :: _ =>
          get_file_content working_directory requested (w, [])
          = get_file_content_read first requested (w, t) /\
          run_python_file working_directory requested args (w, [])
          = run_python_file_exec working_dir first requested args (w, t)
      end) /\
     (wf (fs w) = true ->
      forall p, In p found
                <-> below p working_dir /\
                    glob_match (basename requested) (name p) /\
                    FS.find (fs w) p <> None)) /\
  (requested <> "."%string ->
   PurePath.absolute (PurePath.parse requested) = false ->
   forallb searchable (PurePath.parts (PurePath.parse requested)) = true ->
   forallb fits (PurePath.parts (PurePath.parse requested)) = true ->
   exists found,
     Glob.rglob (fs w) working_dir requested = Val found /\
     (let t := [EvExists target; EvRglob working_dir requested] in
      match found with
      | [] =>
          run (get_files_info working_directory requested) w
          = (Val (String.append "Directory '" (String.append requested "' does not exist")),
             w, t)
      | first :: _ =>
          get_files_info working_directory requested (w, [])
          = get_files_info_listing first requested (w, t)
      end) /\
     (wf (fs w) = true ->
      forall p, In p found
                <-> exists d ks,
                      is_relative_to d working_dir = true /\
                      is_directory (fs w) d /\
                      p = d ++ ks /\
                      Forall2 glob_match (PurePath.parts (PurePath.parse requested)) ks /\
                      accepted (fs w) (PyStr.last_char_is "/" requested) p)) /\
  (requested = "."%string ->
   run (get_files_info working_directory requested) w
   = (Val "'.' is not a directory"%string, w, [EvExists working_dir; EvIsDir working_dir])) /\
  (forall n k, Glob.is_wildcard_pattern n = false -> (glob_match n k <-> k = n)).
Proof.
  intros Hreq Hmissing _.
  assert (Hwdnd : no_dotdot working_dir).
  { destruct Hreq as (Hwd & _ & _). apply (resolve_in_no_dotdot _ _ _ Hwd). }
  assert (Hnf : Msg.not_found requested
                = String.append "Error: File '" (String.append requested "' not found"))
    by reflexivity.
  assert (Hlnf : Msg.list_not_found requested
                 = String.append "Directory '" (String.append requested "' does not exist"))
    by reflexivity.
  split; [|split; [|split]].
  - intros Hs _.
    destruct (string_dec (basename requested) EmptyString) as [Hb|Hb].
    + (* no component at all: the request is for the working directory *)
      pose proof (empty_request_target _ _ _ _ _ Hreq (basename_empty _ Hb)) as Ht.
      assert (Hvalid : valid_part (basename requested) = true) by (rewrite Hb; reflexivity).
      destruct (basename_search_returns (fs w) working_dir requested Hvalid) as [found Hfound].
      assert (Hnil : found = []).
      { apply (rglob_from_missing _ _ _ _ (eq_ind _ (fun x => FS.exists_ (fs w) x = false)
                                                  Hmissing _ Ht) Hfound). }
      subst found. exists []. split; [exact Hfound|]. split.
      * rewrite <- Hnf.
        apply (search_outcome_files _ _ _ args _ _ _ Hreq Hmissing Hfound).
      * intros Hwf p. split; [intros []|].
        intros ([rest [_ ->]] & _ & Hfind).
        subst target.
        assert (Hex : FS.exists_ (fs w) working_dir = true); [|congruence].
        apply (exists_plain _ _ Hwdnd). rewrite find_app in Hfind.
        destruct (FS.find (fs w) working_dir); [discriminate|].
        exfalso. apply Hfind. reflexivity.
    + destruct (basename_search_returns (fs w) working_dir requested) as [found Hfound].
      { unfold valid_part. destruct (searchable_facts _ Hs) as [_ ->]. apply orb_true_r. }
      exists found. split; [exact Hfound|]. split.
      * rewrite <- Hnf.
        apply (search_outcome_files _ _ _ args _ _ _ Hreq Hmissing Hfound).
      * intros Hwf.
        destruct (rglob_basename_matches (fs w) working_dir requested Hs Hb Hwf Hwdnd)
          as [found' [Hf' Hin]].
        rewrite Hfound in Hf'. injection Hf' as <-. exact Hin.
  - intros Hdot Hrel Hs _.
    assert (Hvalid : forallb valid_part (PurePath.parts (PurePath.parse requested)) = true).
    { apply forallb_forall. intros c Hin. rewrite forallb_forall in Hs.
      unfold valid_part. destruct (searchable_facts _ (Hs _ Hin)) as [_ ->]. apply orb_true_r. }
    destruct (rglob_returns (fs w) working_dir requested Hrel Hvalid) as [found Hfound].
    exists found. split; [exact Hfound|]. split.
    + rewrite <- Hlnf.
      apply (search_outcome_listing _ _ _ _ _ _ Hreq Hmissing Hdot Hfound).
    + intros Hwf.
      destruct (rglob_searchable (fs w) working_dir requested Hrel Hs Hwf Hwdnd)
        as [found' [Hf' Hin]].
      rewrite Hfound in Hf'. injection Hf' as <-. exact Hin.
  - intros ->.
    destruct Hreq as (Hwd & Htarget & Hrel).
    pose proof (resolve_under_dot _ _ _ _ Hwd Htarget) as ->.
    unfold run. rewrite (get_files_info_dot _ _ _ Hwd).
    unfold get_files_info_listing.
    rewrite (bind_step _ _ _ _ _ (path_is_dir_step _ _ _)).
    assert (Hnodir : FS.is_dir (fs w) working_dir = false).
    { unfold FS.is_dir. unfold FS.exists_ in Hmissing.
      destruct (FS.lookup (fs w) working_dir); [discriminate | reflexivity]. }
    rewrite Hnodir. reflexivity.
  - intros n k Hw. apply (glob_match_literal n Hw).
Qed.

(** In the sample world [calc.py] is asked from [/w], where it only
    exists as [pkg/calc.py]. *)
Lemma missing_path_falls_back_to_search_witness :
  let w := sample_world in
  let working_dir := ["w"%string] in
  let target := ["w"%string; "calc.py"%string] in
  let requested := "calc.py"%string in
  (searchable (basename requested) = true ->
   fits (basename requested) = true ->
   exists found,
     Glob.rglob (fs w) working_dir (basename requested) = Val found /\
     (let t := [EvExists target; EvRglob working_dir (basename requested)] in
      match found with
      | [] =>
          run (get_file_content "/w" requested) w
          = (Val (String.append "Error: File '" (String.append requested "' not found")), w, t) /\
          run (run_python_file "/w" requested []) w
          = (Val (String.append "Error: File '" (String.append requested "' not found")), w, t)
      | first :: _ =>
          get_file_content "/w" requested (w, [])
          = get_file_content_read first requested (w, t) /\
          run_python_file "/w" requested [] (w, [])
          = run_python_file_exec working_dir first requested [] (w, t)
      end) /\
     (wf (fs w) = true ->
      forall p, In p found
                <-> below p working_dir /\
                    glob_match (basename requested) (name p) /\
                    FS.find (fs w) p <> None)) /\
  (requested <> "."%string ->
   PurePath.absolute (PurePath.parse requested) = false ->
   forallb searchable (PurePath.parts (PurePath.parse requested)) = true ->
   forallb fits (PurePath.parts (PurePath.parse requested)) = true ->
   exists found,
     Glob.rglob (fs w) working_dir requested = Val found /\
     (let t := [EvExists target; EvRglob working_dir requested] in
      match found with
      | [] =>
          run (get_files_info "/w" requested) w
          = (Val (String.append "Directory '" (String.append requested "' does not exist")),
             w, t)
      | first :: _ =>
          get_files_info "/w" requested (w, [])
          = get_files_info_listing first requested (w, t)
      end) /\
     (wf (fs w) = true ->
      forall p, In p found
                <-> exists d ks,
                      is_relative_to d working_dir = true /\
                      is_directory (fs w) d /\
                      p = d ++ ks /\
                      Forall2 glob_match (PurePath.parts (PurePath.parse requested)) ks /\
                      accepted (fs w) (PyStr.last_char_is "/" requested) p)) /\
  (requested = "."%string ->
   run (get_files_info "/w" requested) w
   = (Val "'.' is not a directory"%string, w, [EvExists working_dir; EvIsDir working_dir])) /\
  (forall n k, Glob.is_wildcard_pattern n = false -> (glob_match n k <-> k = n)).
Proof.
  apply (missing_path_falls_back_to_search sample_world "/w" "calc.py" []
           ["w"%string] ["w"%string; "calc.py"%string]).
  - unfold contained_request. repeat split; reflexivity.
  - reflexivity.
  - reflexivity.
Defined.

(** A file named [a[b]] that is missing at its literal place and lies
    once elsewhere below the working directory is not found: as a
    pattern its name stands for [ab].  With a file named [ab] beside
    it, that file is read. *)
Lemma name_with_brackets_is_read_as_a_pattern :
  FS.find (fs lone_bracket_world) ["w"; "sub"; "a[b]"]%string = Some (File 4 (Some "mine"%string)) /\
  FS.exists_ (fs lone_bracket_world) ["w"; "a[b]"]%string = false /\
  basename "a[b]" = "a[b]"%string /\
  run (get_file_content "/w" "a[b]") lone_bracket_world
  = (Val "Error: File 'a[b]' not found"%string, lone_bracket_world,
     [EvExists ["w"; "a[b]"]%string; EvRglob ["w"%string] "a[b]"]) /\
  fst (fst (run (run_python_file "/w" "a[b]" []) lone_bracket_world))
  = Val "Error: File 'a[b]' not found"%string /\
  fst (fst (run (get_file_content "/w" "a[b]") bracket_world)) = Val "other"%string.
Proof. repeat split; reflexivity. Qed.

(** The same search on the sample world, evaluated: the script is found
    in [pkg], a name that is nowhere gives the not-found text, of the
    two files named [a.txt] the one nearer to the working directory
    comes first, and a pattern finds what it stands for. *)
Example fallback_examples :
  fst (fst (run (get_file_content "/w" "calc.py") sample_world)) = Val "print(1)"%string /\
  fst (fst (run (get_file_content "/w" "ghost.txt") sample_world))
  = Val "Error: File 'ghost.txt' not found"%string /\
  fst (fst (run (get_files_info "/w" "ghost") sample_world))
  = Val "Directory 'ghost' does not exist"%string /\
  Glob.rglob sample_tree ["w"%string] "a.txt"
  = Val [["w"%string; "a.txt"%string];
         ["w"%string; "pkg"%string; "deep"%string; "a.txt"%string]] /\
  Glob.rglob sample_tree ["w"%string] "[a-c]*.py"
  = Val [["w"%string; "pkg"%string; "calc.py"%string]] /\
  fst (fst (run (get_file_content "/w" "ghost/n?tes.txt") sample_world)) = Val "abc"%string /\
  fst (fst (run (get_files_info "/w" "p*/deep") sample_world))
  = Val "a.txt: file_size=1, is_dir=False"%string /\
  wf sample_tree = true /\ plain "calc.py" = true.
Proof. repeat split; reflexivity. Qed.

(** ** Writing *)

Lemma write_file_write_eq (p : path) (file_path content : string) (w : world) (t : list event) :
  write_file_write p file_path content (w, t)
  = match FS.mkdir (fs w) (parent p) with
    | Exc e => (Val (write_error_text file_path e), (w, t ++ [EvMkdir (parent p)]))
    | Val root1 =>
        match FS.write_text root1 p content with
        | Exc e =>
            (Val (write_error_text file_path e),
             (with_fs w root1, (t ++ [EvMkdir (parent p)]) ++ [EvWrite p content]))
        | Val root2 =>
            (Val (Msg.wrote file_path (String.length content)),
             (with_fs w root2, (t ++ [EvMkdir (parent p)]) ++ [EvWrite p content]))
        end
    end.
Proof.
  unfold write_file_write, try_except, bind, path_mkdir, write_text, bind, log, lift_fs,
    of_res, set_fs, ret, with_fs.
  cbn [fst snd fs cwd interpreter].
  destruct (FS.mkdir (fs w) (parent p)) as [root1|e].
  - cbn [fst snd fs cwd interpreter].
    destruct (FS.write_text root1 p content) as [root2|e].
    + reflexivity.
    + destruct e as [[] f| | | |]; reflexivity.
  - destruct e as [[] f| | | |]; reflexivity.
Qed.

Lemma write_file_write_trace (p : path) (file_path content : string) (w : world)
    (t : list event) :
  exists t',
    snd (snd (write_file_write p file_path content (w, t))) = t ++ t' /\
    forall ev, In ev t' -> ev = EvMkdir (parent p) \/ ev = EvWrite p content.
Proof.
  rewrite write_file_write_eq.
  destruct (FS.mkdir (fs w) (parent p)) as [root1|e].
  - exists [EvMkdir (parent p); EvWrite p content].
    split.
    + destruct (FS.write_text root1 p content); cbn [snd]; rewrite <- app_assoc; reflexivity.
    + intros ev [<-|[<-|[]]]; [left | right]; reflexivity.
  - exists [EvMkdir (parent p)]. split; [reflexivity|].
    intros ev [<-|[]]. left. reflexivity.
Qed.

Lemma write_file_search_needed_step (target : path) (w : world) (t : list event) :
  write_file_search_needed target (w, t)
  = (Val (negb (FS.exists_ (fs w) target) && negb (FS.exists_ (fs w) (parent target))),
     (w, t ++ (if FS.exists_ (fs w) target then [EvExists target]
               else [EvExists target; EvExists (parent target)]))).
Proof.
  unfold write_file_search_needed.
  rewrite (bind_step _ _ _ _ _ (path_exists_step _ _ _)).
  destruct (FS.exists_ (fs w) target); [reflexivity|].
  rewrite (bind_step _ _ _ _ _ (path_exists_step _ _ _)).
  rewrite <- app_assoc. reflexivity.
Qed.

(** ** Changing the tree *)

Lemma assoc_set_entry (es : list (string * node)) (c : string) (g : node -> node) :
  assoc c (FS.set_entry c g es) = option_map g (assoc c es).
Proof.
  induction es as [|[k v] t IH]; [reflexivity|].
  cbn [FS.set_entry assoc].
  destruct (String.eqb_spec k c) as [->|Hk]; cbn [assoc].
  - rewrite String.eqb_refl. reflexivity.
  - apply String.eqb_neq in Hk. rewrite Hk. exact IH.
Qed.

Lemma find_update_same (p : path) :
  forall n f, FS.find (FS.update n p f) p = option_map f (FS.find n p).
Proof.
  induction p as [|c r IH]; intros n f; [reflexivity|].
  destruct n as [size text|es|]; try reflexivity.
  cbn [FS.update]. rewrite !find_cons, assoc_set_entry.
  destruct (assoc c es) as [v|]; [apply IH | reflexivity].
Qed.

Lemma assoc_app_new (es : list (string * node)) (k : string) (child : node) :
  assoc k es = None -> assoc k (es ++ [(k, child)]) = Some child.
Proof.
  induction es as [|[k' v] t IH]; intros H.
  - simpl. rewrite String.eqb_refl. reflexivity.
  - simpl in *. destruct (k' =? k)%string; [discriminate | apply (IH H)].
Qed.

Lemma find_missing_child (root : node) (par : path) (k : string) (es : list (string * node)) :
  FS.find root par = Some (Dir es) -> FS.find root (par ++ [k]) = None ->
  assoc k es = None.
Proof.
  intros Hpar H. rewrite find_app, Hpar, find_cons in H.
  destruct (assoc k es); [discriminate | reflexivity].
Qed.

Lemma find_added (root : node) (par : path) (k : string) (child : node)
    (es : list (string * node)) :
  FS.find root par = Some (Dir es) -> FS.find root (par ++ [k]) = None ->
  forall r, FS.find (FS.update root par (FS.add_entry k child)) (par ++ k :: r)
            = FS.find child r.
Proof.
  intros Hpar Hmissing r.
  rewrite find_app, find_update_same, Hpar. cbn [option_map FS.add_entry].
  rewrite find_cons, (assoc_app_new _ _ _ (find_missing_child _ _ _ _ Hpar Hmissing)).
  reflexivity.
Qed.

Lemma find_some_prefix_dir (root : node) (q r : path) (n : node) :
  FS.find root (q ++ r) = Some n -> r <> [] -> is_directory root q.
Proof.
  intros H Hr. rewrite find_app in H. unfold is_directory.
  destruct (FS.find root q) as [[size text|es|]|]; try discriminate.
  - destruct r; [congruence | discriminate].
  - exists es. reflexivity.
  - destruct r; [congruence | discriminate].
Qed.

Lemma split_last (p : path) : p <> [] -> p = parent p ++ [last p ""%string].
Proof. intros H. apply (app_removelast_last _ H). Qed.

Lemma no_dotdot_parent (p : path) : no_dotdot p -> no_dotdot (parent p).
Proof. intros H Hin. apply H. apply (in_removelast _ _ _ Hin). Qed.

(** The walk goes through when every strict prefix is a directory. *)
Lemma canon_ok (root : node) (p : path) :
  no_dotdot p ->
  forall acc,
    (forall q r, p = q ++ r -> r <> [] -> is_directory root (acc ++ q)) ->
    FS.canon root acc p = inr (acc ++ p).
Proof.
  induction p as [|c p IH]; intros Hp acc Hdirs.
  - simpl. rewrite app_nil_r. reflexivity.
  - assert (Hc : (c =? dotdot)%string = false).
    { apply String.eqb_neq. intros ->. apply Hp. left. reflexivity. }
    assert (Hp' : no_dotdot p) by (intros Hin; apply Hp; right; exact Hin).
    destruct (Hdirs [] (c :: p) eq_refl) as [es Hes]; [discriminate|].
    rewrite app_nil_r in Hes.
    cbn [FS.canon]. rewrite Hes, Hc. rewrite (IH Hp' (acc ++ [c])).
    + rewrite <- app_assoc. reflexivity.
    + intros q r -> Hr. rewrite <- app_assoc. apply (Hdirs (c :: q) r eq_refl Hr).
Qed.

Lemma canon_below_directory (root : node) (p : path) :
  no_dotdot p -> p <> [] -> is_directory root (parent p) ->
  FS.canon root [] p = inr p.
Proof.
  intros Hp Hne Hdir.
  apply (canon_ok root p Hp []).
  intros q r -> Hr. simpl.
  unfold parent in Hdir. rewrite (removelast_app q Hr) in Hdir.
  apply (prefix_is_directory _ _ _ Hdir).
Qed.

(** The walk only fails on a missing component when nothing but
    directories is in the way. *)
Lemma canon_enoent (root : node) (p : path) :
  no_dotdot p ->
  forall acc e,
    (forall q r, acc ++ p = q ++ r -> r <> [] ->
                 FS.find root q = None \/ is_directory root q) ->
    FS.canon root acc p = inl e -> e = ENOENT.
Proof.
  induction p as [|c p IH]; intros Hp acc e Hfree H.
  - discriminate H.
  - assert (Hc : (c =? dotdot)%string = false).
    { apply String.eqb_neq. intros ->. apply Hp. left. reflexivity. }
    assert (Hp' : no_dotdot p) by (intros Hin; apply Hp; right; exact Hin).
    cbn [FS.canon] in H. rewrite Hc in H.
    destruct (Hfree acc (c :: p) eq_refl) as [Hnone|[es Hes]]; [discriminate| |].
    + rewrite Hnone in H. injection H as <-. reflexivity.
    + rewrite Hes in H. apply (IH Hp' (acc ++ [c]) e); [|exact H].
      intros q r Heq Hr. apply (Hfree q r); [|exact Hr].
      rewrite <- Heq, <- app_assoc. reflexivity.
Qed.

Lemma stat_missing (root : node) (p : path) :
  no_dotdot p ->
  (forall q r, p = q ++ r -> r <> [] -> FS.find root q = None \/ is_directory root q) ->
  FS.find root p = None ->
  FS.stat root p = inl ENOENT.
Proof.
  intros Hp Hfree Hnone. unfold FS.stat.
  destruct (FS.canon root [] p) as [e|q] eqn:Hc.
  - rewrite (canon_enoent root p Hp [] e Hfree Hc). reflexivity.
  - pose proof (canon_plain root p Hp [] q Hc) as Hq. simpl in Hq. subst q.
    rewrite Hnone. reflexivity.
Qed.

Lemma stat_found (root : node) (p : path) (n : node) :
  no_dotdot p -> FS.find root p = Some n -> FS.stat root p = inr (p, n).
Proof.
  intros Hp Hfind. unfold FS.stat.
  rewrite (canon_ok root p Hp []).
  - simpl. rewrite Hfind. reflexivity.
  - intros q r -> Hr. simpl. apply (find_some_prefix_dir _ _ _ _ Hfind Hr).
Qed.

Lemma create_in_directory (root : node) (p : path) (child : node) :
  no_dotdot p -> p <> [] -> is_directory root (parent p) ->
  FS.create root p child
  = inr (FS.update root (parent p) (FS.add_entry (last p ""%string) child)).
Proof.
  intros Hp Hne [es Hes]. unfold FS.create.
  destruct p as [|c p']; [congruence|].
  fold (parent (c :: p')).
  pose proof (stat_found root (parent (c :: p')) (Dir es) (no_dotdot_parent _ Hp) Hes) as Hs.
  unfold FS.stat in Hs.
  destruct (FS.canon root [] (parent (c :: p'))) as [e|q]; [discriminate|].
  destruct (FS.find root q) as [n|] eqn:Hq; [|discriminate].
  injection Hs as -> ->. reflexivity.
Qed.

Lemma create_without_parent (root : node) (p : path) (child : node) :
  no_dotdot p -> p <> [] ->
  (forall q r, p = q ++ r -> r <> [] -> FS.find root q = None \/ is_directory root q) ->
  FS.find root (parent p) = None ->
  FS.create root p child = inl ENOENT.
Proof.
  intros Hp Hne Hfree Hnone. unfold FS.create.
  destruct p as [|c p']; [congruence|].
  fold (parent (c :: p')).
  assert (Hs : FS.stat root (parent (c :: p')) = inl ENOENT).
  { apply stat_missing; [apply no_dotdot_parent; exact Hp | | exact Hnone].
    intros q r Heq Hr. apply (Hfree q (r ++ [last (c :: p') ""%string])).
    - rewrite app_assoc, <- Heq. apply split_last. discriminate.
    - intros H. apply app_eq_nil in H. destruct H as [_ H]. discriminate H. }
  unfold FS.stat in Hs.
  destruct (FS.canon root [] (parent (c :: p'))) as [e|q].
  - injection Hs as ->. reflexivity.
  - destruct (FS.find root q) as [n|]; [discriminate | reflexivity].
Qed.

(** ** Making the parent directories *)

Lemma os_mkdir_cases (root : node) (p : path) :
  no_dotdot p ->
  (forall q r, p = q ++ r -> FS.find root q = None \/ is_directory root q) ->
  (is_directory root p /\ FS.os_mkdir root p = inl EEXIST) \/
  (FS.find root p = None /\ p <> [] /\ is_directory root (parent p) /\
   FS.os_mkdir root p
   = inr (FS.update root (parent p) (FS.add_entry (last p ""%string) (Dir [])))) \/
  (FS.find root p = None /\ p <> [] /\ FS.find root (parent p) = None /\
   FS.os_mkdir root p = inl ENOENT).
Proof.
  intros Hp Hfree.
  assert (Hstrict : forall q r, p = q ++ r -> r <> [] ->
                                FS.find root q = None \/ is_directory root q)
    by (intros q r Heq _; apply (Hfree q r Heq)).
  destruct (Hfree p [] (eq_sym (app_nil_r p))) as [Hnone|Hdir].
  - right.
    assert (Hne : p <> []) by (intros ->; discriminate Hnone).
    unfold FS.os_mkdir. rewrite (stat_missing root p Hp Hstrict Hnone).
    destruct (Hfree (parent p) [last p ""%string] (split_last p Hne)) as [Hpn|Hpd].
    + right. repeat split; try assumption.
      apply (create_without_parent root p _ Hp Hne Hstrict Hpn).
    + left. repeat split; try assumption.
      apply (create_in_directory root p _ Hp Hne Hpd).
  - left. split; [exact Hdir|].
    destruct Hdir as [es Hes].
    unfold FS.os_mkdir. rewrite (stat_found root p _ Hp Hes). reflexivity.
Qed.

Lemma parent_snoc (par : path) (k : string) : parent (par ++ [k]) = par.
Proof. apply removelast_last. Qed.

Lemma mkdir_parents_ok (fuel : nat) :
  forall root p,
    length p = fuel ->
    no_dotdot p ->
    (forall q r, p = q ++ r -> FS.find root q = None \/ is_directory root q) ->
    exists root',
      FS.mkdir_parents fuel root p = Val root' /\
      is_directory root' p /\
      (forall c, FS.find root' (p ++ [c]) = FS.find root (p ++ [c])).
Proof.
  induction fuel as [|fuel IH]; intros root p Hlen Hp Hfree.
  - destruct p; [|discriminate].
    destruct (os_mkdir_cases root [] Hp Hfree)
      as [[Hdir Hmk]|[(_ & Hne & _)|(_ & Hne & _)]]; try congruence.
    exists root. cbn [FS.mkdir_parents]. rewrite Hmk.
    apply (is_dir_plain root [] Hp) in Hdir. rewrite Hdir.
    apply (is_dir_plain root [] Hp) in Hdir.
    split; [reflexivity|]. split; [exact Hdir | intros c; reflexivity].
  - destruct (os_mkdir_cases root p Hp Hfree)
      as [[Hdir Hmk]|[(Hnone & Hne & Hpd & Hmk)|(Hnone & Hne & Hpn & Hmk)]].
    + exists root. cbn [FS.mkdir_parents]. rewrite Hmk.
      apply (is_dir_plain root p Hp) in Hdir. rewrite Hdir.
      apply (is_dir_plain root p Hp) in Hdir.
      split; [reflexivity|]. split; [exact Hdir | intros c; reflexivity].
    + destruct (exists_last Hne) as [par [k ->]].
      rewrite parent_snoc in Hpd, Hmk. rewrite last_last in Hmk.
      eexists. cbn [FS.mkdir_parents]. rewrite Hmk. split; [reflexivity|].
      destruct Hpd as [es Hes].
      split.
      * exists []. apply (find_added root par k (Dir []) es Hes Hnone []).
      * intros c. rewrite <- !app_assoc. cbn [app].
        rewrite (find_added root par k (Dir []) es Hes Hnone [c]).
        change (par ++ [k; c]) with (par ++ [k] ++ [c]).
        rewrite app_assoc, find_app, Hnone. reflexivity.
    + destruct (exists_last Hne) as [par [k ->]].
      rewrite parent_snoc in Hpn.
      assert (Hlen' : length par = fuel).
      { rewrite length_app in Hlen. simpl in Hlen. lia. }
      assert (Hfree' : forall q r, par = q ++ r ->
                                   FS.find root q = None \/ is_directory root q).
      { intros q r Heq. apply (Hfree q (r ++ [k])).
        rewrite app_assoc, <- Heq. reflexivity. }
      destruct (no_dotdot_app_inv _ _ Hp) as [Hpar _].
      destruct (IH root par Hlen' Hpar Hfree') as (root1 & Hmk1 & Hdir1 & Hsame1).
      assert (Hnone1 : FS.find root1 (par ++ [k]) = None).
      { rewrite Hsame1. exact Hnone. }
      assert (Hfree1 : forall q r, par ++ [k] = q ++ r ->
                                   FS.find root1 q = None \/ is_directory root1 q).
      { intros q r Heq. destruct r as [|c r].
        - rewrite app_nil_r in Heq. subst q. left. exact Hnone1.
        - right. apply (f_equal (@removelast string)) in Heq.
          rewrite removelast_last in Heq.
          rewrite removelast_app in Heq by discriminate.
          rewrite Heq in Hdir1. apply (prefix_is_directory _ _ _ Hdir1). }
      destruct (os_mkdir_cases root1 (par ++ [k]) Hp Hfree1)
        as [[[es Hes] _]|[(_ & _ & Hpd2 & Hmk2)|(_ & _ & Hpn2 & _)]].
      * congruence.
      * rewrite parent_snoc in Hpd2, Hmk2. rewrite last_last in Hmk2.
        destruct Hpd2 as [es Hes].
        eexists. cbn [FS.mkdir_parents]. rewrite Hmk. rewrite parent_snoc, Hmk1.
        unfold FS.mkdir_exist_ok. rewrite Hmk2. split; [reflexivity|].
        split.
        -- exists []. apply (find_added root1 par k (Dir []) es Hes Hnone1 []).
        -- intros c. rewrite <- !app_assoc. cbn [app].
           rewrite (find_added root1 par k (Dir []) es Hes Hnone1 [c]).
           change (par ++ [k; c]) with (par ++ [k] ++ [c]).
           rewrite app_assoc, find_app, Hnone. reflexivity.
      * rewrite parent_snoc in Hpn2. destruct Hdir1 as [es Hes]. congruence.
Qed.

(** With nothing in the way, the parents are made and the file is
    written at [target]. *)
Lemma write_phase_ok (root : node) (target : path) (content : string) :
  no_dotdot target -> writable root target ->
  exists root1 root2,
    FS.mkdir root (parent target) = Val root1 /\
    FS.write_text root1 target content = Val root2 /\
    FS.find root2 target = Some (File (PyStr.utf8_len content) (Some content)).
Proof.
  intros Hp (Hne & Hfree & Hleaf).
  destruct (exists_last Hne) as [par [k ->]].
  rewrite parent_snoc.
  destruct (no_dotdot_app_inv _ _ Hp) as [Hpar _].
  assert (Hfree' : forall q r, par = q ++ r ->
                               FS.find root q = None \/ is_directory root q).
  { intros q r Heq. apply (Hfree q (r ++ [k])).
    - rewrite app_assoc, <- Heq. reflexivity.
    - intros H. apply app_eq_nil in H. destruct H as [_ H]. discriminate H. }
  destruct (mkdir_parents_ok (length par) root par eq_refl Hpar Hfree')
    as (root1 & Hmk & Hdir1 & Hsame).
  pose proof (Hsame k) as Hleaf1.
  exists root1. unfold FS.mkdir. rewrite Hmk.
  unfold FS.write_text.
  assert (Hdir1' : is_directory root1 (parent (par ++ [k])))
    by (rewrite parent_snoc; exact Hdir1).
  destruct Hleaf as [Hnone|(size & text & Hfile)].
  - rewrite Hnone in Hleaf1.
    assert (Hstat : FS.stat root1 (par ++ [k]) = inl ENOENT).
    { apply (stat_missing root1 _ Hp); [|exact Hleaf1].
      intros q r Heq Hr. right.
      apply (f_equal (@removelast string)) in Heq.
      rewrite removelast_last in Heq. rewrite (removelast_app q Hr) in Heq.
      rewrite Heq in Hdir1. apply (prefix_is_directory _ _ _ Hdir1). }
    rewrite Hstat, (create_in_directory root1 _ _ Hp Hne Hdir1').
    rewrite parent_snoc, last_last.
    eexists. split; [reflexivity|]. split; [reflexivity|].
    destruct Hdir1 as [es Hes].
    apply (find_added root1 par k _ es Hes Hleaf1 []).
  - rewrite Hfile in Hleaf1.
    rewrite (stat_found root1 _ _ Hp Hleaf1).
    eexists. split; [reflexivity|]. split; [reflexivity|].
    rewrite find_update_same, Hleaf1. reflexivity.
Qed.

(** ** C3: when [write_file] searches *)

Lemma write_file_eq (w : world) (working_directory file_path content : string)
    (working_dir target : path) :
  contained_request w working_directory file_path working_dir target ->
  let probes := if FS.exists_ (fs w) target then [EvExists target]
                else [EvExists target; EvExists (parent target)] in
  let searched := probes ++ [EvRglob working_dir (basename file_path)] in
  write_file working_directory file_path content (w, [])
  = if negb (FS.exists_ (fs w) target) && negb (FS.exists_ (fs w) (parent target))
    then match Glob.rglob (fs w) working_dir (basename file_path) with
         | Exc e => (Exc e, (w, searched))
         | Val [] => write_file_write target file_path content (w, searched)
         | Val (first :: _) => write_file_write first file_path content (w, searched)
         end
    else write_file_write target file_path content (w, probes).
Proof.
  intros (Hwd & Htarget & Hrel) probes searched.
  unfold write_file, resolve_under.
  rewrite (bind_step _ _ (w, []) (w, []) working_dir)
    by (unfold resolve; cbn; rewrite Hwd; reflexivity).
  rewrite (bind_step _ _ (w, []) (w, []) target)
    by (unfold resolve; cbn; rewrite Htarget; reflexivity).
  rewrite Hrel. cbn [negb].
  rewrite (bind_step _ _ _ _ _ (write_file_search_needed_step _ _ _)).
  cbn [app]. fold probes.
  destruct (negb (FS.exists_ (fs w) target) && negb (FS.exists_ (fs w) (parent target)));
    [|reflexivity].
  unfold bind at 1. rewrite path_rglob_step. fold (basename file_path). fold searched.
  destruct (Glob.rglob (fs w) working_dir (basename file_path)) as [[|first rest]|e] eqn:Hg;
    try reflexivity.
  assert (Hfirst : is_relative_to first working_dir = true)
    by (apply (rglob_relative _ _ _ _ Hg); left; reflexivity).
  rewrite Hfirst. reflexivity.
Qed.

Lemma no_search_in_write (p : path) (file_path content : string) (w : world)
    (t : list event) (self : path) (pattern : string) :
  In (EvRglob self pattern) (snd (snd (write_file_write p file_path content (w, t)))) ->
  In (EvRglob self pattern) t.
Proof.
  destruct (write_file_write_trace p file_path content w t) as [t' [Ht Honly]].
  rewrite Ht. intros Hin. apply in_app_or in Hin.
  destruct Hin as [Hin|Hin]; [exact Hin|].
  destruct (Honly _ Hin) as [H|H]; discriminate H.
Qed.

Lemma search_kept_in_write (p : path) (file_path content : string) (w : world)
    (t : list event) (ev : event) :
  In ev t -> In ev (snd (snd (write_file_write p file_path content (w, t)))).
Proof.
  destruct (write_file_write_trace p file_path content w t) as [t' [Ht _]].
  rewrite Ht. intros Hin. apply in_or_app. left. exact Hin.
Qed.

Lemma run_trace {A : Type} (m : M A) (w : world) : snd (run m w) = snd (snd (m (w, []))).
Proof. unfold run. destruct (m (w, [])) as [r [w' t]]. reflexivity. Qed.

(** C3.  For a contained request, [write_file] runs the recursive
    search exactly when the literal target is missing and its parent is
    missing too; the pattern is the base name of the request and the
    first result is the path written.  When the search is not run, or
    finds nothing, the path written is the literal target: its parents
    are made, then the file is written, and with nothing in the way the
    call reports success, the target holds the content and every
    ancestor of it is a directory. *)
Theorem write_searches_iff_target_and_parent_missing
    (w : world) (working_directory file_path content : string)
    (working_dir target : path) :
  contained_request w working_directory file_path working_dir target ->
  let search :=
    negb (FS.exists_ (fs w) target) && negb (FS.exists_ (fs w) (parent target)) in
  let probes := if FS.exists_ (fs w) target then [EvExists target]
                else [EvExists target; EvExists (parent target)] in
  let searched := probes ++ [EvRglob working_dir (basename file_path)] in
  ((exists self pattern,
      In (EvRglob self pattern)
         (snd (run (write_file working_directory file_path content) w)))
   <-> search = true) /\
  (search = true ->
   forall first rest,
     Glob.rglob (fs w) working_dir (basename file_path) = Val (first :: rest) ->
     write_file working_directory file_path content (w, [])
     = write_file_write first file_path content (w, searched)) /\
  (search = true ->
   Glob.rglob (fs w) working_dir (basename file_path) = Val [] ->
   write_file working_directory file_path content (w, [])
   = write_file_write target file_path content (w, searched)) /\
  (search = false ->
   write_file working_directory file_path content (w, [])
   = write_file_write target file_path content (w, probes)) /\
  (search = false \/ Glob.rglob (fs w) working_dir (basename file_path) = Val [] ->
   writable (fs w) target ->
   exists w' t',
     run (write_file working_directory file_path content) w
     = (Val (Msg.wrote file_path (String.length content)), w', t') /\
     FS.find (fs w') target = Some (File (PyStr.utf8_len content) (Some content)) /\
     (forall q r, target = q ++ r -> r <> [] -> is_directory (fs w') q)).
Proof.
  intros Hreq search probes searched.
  pose proof (write_file_eq w working_directory file_path content working_dir target Hreq)
    as Heq. cbn zeta in Heq. fold search probes searched in Heq.
  assert (Hprobes : forall self pattern, ~ In (EvRglob self pattern) probes).
  { intros self pattern. unfold probes.
    destruct (FS.exists_ (fs w) target); simpl; intuition discriminate. }
  assert (Hsearched : In (EvRglob working_dir (basename file_path)) searched)
    by (apply in_or_app; right; left; reflexivity).
  split; [|split; [|split; [|split]]].
  - rewrite run_trace, Heq. split.
    + intros (self & pattern & Hin).
      destruct search; [reflexivity|].
      apply no_search_in_write in Hin. exfalso. apply (Hprobes _ _ Hin).
    + intros Hs. rewrite Hs.
      exists working_dir, (basename file_path).
      destruct (Glob.rglob (fs w) working_dir (basename file_path)) as [[|first rest]|e].
      * apply search_kept_in_write. exact Hsearched.
      * apply search_kept_in_write. exact Hsearched.
      * exact Hsearched.
  - intros Hs first rest Hg. rewrite Heq, Hs, Hg. reflexivity.
  - intros Hs Hg. rewrite Heq, Hs, Hg. reflexivity.
  - intros Hs. rewrite Heq, Hs. reflexivity.
  - intros Hcase Hwritable.
    assert (Hnd : no_dotdot target).
    { destruct Hreq as (_ & Htarget & _). apply (resolve_in_no_dotdot _ _ _ Htarget). }
    destruct (write_phase_ok (fs w) target content Hnd Hwritable)
      as (root1 & root2 & Hmk & Hwr & Hfind).
    assert (Hgo : exists t, write_file working_directory file_path content (w, [])
                            = write_file_write target file_path content (w, t)).
    { rewrite Heq. destruct Hcase as [Hs|Hg].
      - rewrite Hs. exists probes. reflexivity.
      - destruct search; [|exists probes; reflexivity].
        rewrite Hg. exists searched. reflexivity. }
    destruct Hgo as [t Hgo].
    unfold run. rewrite Hgo, write_file_write_eq, Hmk, Hwr.
    eexists. eexists. split; [reflexivity|].
    cbn [with_fs fs]. split; [exact Hfind|].
    intros q r Hqr Hr. rewrite Hqr in Hfind.
    apply (find_some_prefix_dir _ _ _ _ Hfind Hr).
Qed.

(** In the sample world [new/dir/notes.txt] is written from [/w]:
    neither the target nor [new/dir] exists, so the search runs and
    finds [pkg/notes.txt]. *)
Lemma write_searches_iff_target_and_parent_missing_witness :
  let w := sample_world in
  let file_path := "new/dir/notes.txt"%string in
  let content := "data"%string in
  let working_dir := ["w"%string] in
  let target := ["w"%string; "new"%string; "dir"%string; "notes.txt"%string] in
  let search :=
    negb (FS.exists_ (fs w) target) && negb (FS.exists_ (fs w) (parent target)) in
  let probes := if FS.exists_ (fs w) target then [EvExists target]
                else [EvExists target; EvExists (parent target)] in
  let searched := probes ++ [EvRglob working_dir (basename file_path)] in
  ((exists self pattern,
      In (EvRglob self pattern) (snd (run (write_file "/w" file_path content) w)))
   <-> search = true) /\
  (search = true ->
   forall first rest,
     Glob.rglob (fs w) working_dir (basename file_path) = Val (first :: rest) ->
     write_file "/w" file_path content (w, [])
     = write_file_write first file_path content (w, searched)) /\
  (search = true ->
   Glob.rglob (fs w) working_dir (basename file_path) = Val [] ->
   write_file "/w" file_path content (w, [])
   = write_file_write target file_path content (w, searched)) /\
  (search = false ->
   write_file "/w" file_path content (w, [])
   = write_file_write target file_path content (w, probes)) /\
  (search = false \/ Glob.rglob (fs w) working_dir (basename file_path) = Val [] ->
   writable (fs w) target ->
   exists w' t',
     run (write_file "/w" file_path content) w
     = (Val (Msg.wrote file_path (String.length content)), w', t') /\
     FS.find (fs w') target = Some (File (PyStr.utf8_len content) (Some content)) /\
     (forall q r, target = q ++ r -> r <> [] -> is_directory (fs w') q)).
Proof.
  apply (write_searches_iff_target_and_parent_missing sample_world "/w"
           "new/dir/notes.txt" "data" ["w"%string]
           ["w"%string; "new"%string; "dir"%string; "notes.txt"%string]).
  unfold contained_request. repeat split; reflexivity.
Defined.

(** The three ways of a write in the sample world: the search finds the
    file elsewhere and it is overwritten there; the search finds
    nothing and the file is created with its directories; the parent
    exists and no search is made. *)
Example write_examples :
  snd (run (write_file "/w" "new/dir/notes.txt" "data") sample_world)
  = [EvExists ["w"; "new"; "dir"; "notes.txt"]; EvExists ["w"; "new"; "dir"];
     EvRglob ["w"] "notes.txt";
     EvMkdir ["w"; "pkg"]; EvWrite ["w"; "pkg"; "notes.txt"] "data"]%string /\
  snd (run (write_file "/w" "new/dir/f.txt" "data") sample_world)
  = [EvExists ["w"; "new"; "dir"; "f.txt"]; EvExists ["w"; "new"; "dir"];
     EvRglob ["w"] "f.txt";
     EvMkdir ["w"; "new"; "dir"]; EvWrite ["w"; "new"; "dir"; "f.txt"] "data"]%string /\
  snd (run (write_file "/w" "pkg/notes.txt" "data") sample_world)
  = [EvExists ["w"; "pkg"; "notes.txt"];
     EvMkdir ["w"; "pkg"]; EvWrite ["w"; "pkg"; "notes.txt"] "data"]%string /\
  snd (run (write_file "/w" "pkg/new.txt" "data") sample_world)
  = [EvExists ["w"; "pkg"; "new.txt"]; EvExists ["w"; "pkg"];
     EvMkdir ["w"; "pkg"]; EvWrite ["w"; "pkg"; "new.txt"] "data"]%string.
Proof. repeat split; reflexivity. Qed.

(** ** Writing again *)

Lemma set_entry_id (es : list (string * node)) (c : string) (g : node -> node) :
  (forall v, assoc c es = Some v -> g v = v) -> FS.set_entry c g es = es.
Proof.
  induction es as [|[k v] t IH]; intros Hg; [reflexivity|].
  cbn [FS.set_entry]. cbn [assoc] in Hg.
  destruct (k =? c)%string.
  - rewrite (Hg v eq_refl). reflexivity.
  - rewrite (IH Hg). reflexivity.
Qed.

Lemma update_id (p : path) :
  forall n f, (forall m, FS.find n p = Some m -> f m = m) -> FS.update n p f = n.
Proof.
  induction p as [|c r IH]; intros n f Hf.
  - apply Hf. reflexivity.
  - destruct n as [size text|es|]; try reflexivity.
    cbn [FS.update]. f_equal. apply set_entry_id.
    intros v Hv. apply IH. intros m Hm. apply Hf.
    rewrite find_cons, Hv. exact Hm.
Qed.

Lemma mkdir_existing (root : node) (p : path) :
  no_dotdot p -> is_directory root p -> FS.mkdir root p = Val root.
Proof.
  intros Hp Hdir.
  assert (Hmk : FS.os_mkdir root p = inl EEXIST).
  { destruct Hdir as [es Hes]. unfold FS.os_mkdir.
    rewrite (stat_found root p _ Hp Hes). reflexivity. }
  apply (is_dir_plain root p Hp) in Hdir.
  unfold FS.mkdir. destruct (length p); cbn [FS.mkdir_parents]; rewrite Hmk, Hdir; reflexivity.
Qed.

Lemma write_phase_again (root : node) (p : path) (content : string) :
  no_dotdot p -> p <> [] ->
  FS.find root p = Some (File (PyStr.utf8_len content) (Some content)) ->
  FS.mkdir root (parent p) = Val root /\ FS.write_text root p content = Val root.
Proof.
  intros Hp Hne Hfind. split.
  - apply mkdir_existing; [apply no_dotdot_parent; exact Hp|].
    rewrite (split_last p Hne) in Hfind.
    apply (find_some_prefix_dir _ _ _ _ Hfind). discriminate.
  - unfold FS.write_text. rewrite (stat_found root p _ Hp Hfind).
    f_equal. apply update_id. intros m Hm. congruence.
Qed.

Lemma canon_errno (root : node) (p : list string) :
  forall acc e, FS.canon root acc p = inl e -> e = ENOENT \/ e = ENOTDIR.
Proof.
  induction p as [|c p IH]; intros acc e H; [discriminate|].
  cbn [FS.canon] in H.
  destruct (FS.find root acc) as [[size text|es|]|].
  - injection H as <-. right. reflexivity.
  - apply (IH _ _ H).
  - injection H as <-. right. reflexivity.
  - injection H as <-. left. reflexivity.
Qed.

Lemma stat_none (root : node) (p : path) :
  no_dotdot p -> FS.find root p = None ->
  FS.stat root p = inl ENOENT \/ FS.stat root p = inl ENOTDIR.
Proof.
  intros Hp Hnone.
  pose proof (lookup_plain root p Hp) as Hl. rewrite Hnone in Hl.
  unfold FS.lookup in Hl. unfold FS.stat in *.
  destruct (FS.canon root [] p) as [e|q] eqn:Hc.
  - destruct (canon_errno _ _ _ _ Hc) as [->| ->]; [left | right]; reflexivity.
  - destruct (FS.find root q); [discriminate | left; reflexivity].
Qed.

Lemma is_dir_missing (root : node) (p : path) :
  no_dotdot p -> FS.find root p = None -> FS.is_dir root p = false.
Proof.
  intros Hp Hnone. unfold FS.is_dir. rewrite (lookup_plain root p Hp), Hnone. reflexivity.
Qed.

(** Below a regular file or a socket [os.mkdir] answers ENOTDIR. *)
Lemma stat_below_leaf (root : node) (par : path) (k : string) (n : node) :
  no_dotdot (par ++ [k]) -> FS.find root par = Some n -> (forall es, n <> Dir es) ->
  FS.stat root (par ++ [k]) = inl ENOTDIR.
Proof.
  intros Hp Hpar Hleaf.
  destruct (no_dotdot_app_inv _ _ Hp) as [Hnpar Hk].
  assert (Hkd : (k =? dotdot)%string = false).
  { apply String.eqb_neq. intros ->. apply Hk. left. reflexivity. }
  pose proof (stat_found root par n Hnpar Hpar) as Hs.
  unfold FS.stat in *. rewrite canon_app.
  destruct (FS.canon root [] par) as [e|q]; [discriminate|].
  destruct (FS.find root q) as [n'|] eqn:Hq; [|discriminate].
  injection Hs as -> ->.
  cbn [FS.canon]. rewrite Hq.
  destruct n as [size text|es|]; try reflexivity.
  exfalso. apply (Hleaf es). reflexivity.
Qed.

Lemma create_errno (root : node) (p : path) (child : node) (e : errno) :
  no_dotdot p -> FS.find root p = None -> FS.find root (parent p) = None ->
  FS.create root p child = inl e -> e = ENOENT \/ e = ENOTDIR.
Proof.
  intros Hp Hnone Hpar H. unfold FS.create in H.
  destruct p as [|c p']; [discriminate Hnone|].
  fold (parent (c :: p')) in H.
  destruct (stat_none root (parent (c :: p')) (no_dotdot_parent _ Hp) Hpar) as [Hs|Hs];
    unfold FS.stat in Hs;
    destruct (FS.canon root [] (parent (c :: p'))) as [e'|q].
  - injection Hs as ->. injection H as <-. left. reflexivity.
  - destruct (FS.find root q); [discriminate|]. injection H as <-. left. reflexivity.
  - injection Hs as ->. injection H as <-. right. reflexivity.
  - destruct (FS.find root q); discriminate.
Qed.

Lemma create_never_succeeds_without_parent (root : node) (p : path) (child : node) :
  no_dotdot p -> FS.find root p = None -> FS.find root (parent p) = None ->
  exists e, FS.create root p child = inl e.
Proof.
  intros Hp Hnone Hpar. unfold FS.create.
  destruct p as [|c p']; [discriminate Hnone|].
  fold (parent (c :: p')).
  destruct (stat_none root (parent (c :: p')) (no_dotdot_parent _ Hp) Hpar) as [Hs|Hs];
    unfold FS.stat in Hs;
    destruct (FS.canon root [] (parent (c :: p'))) as [e'|q].
  - eexists; reflexivity.
  - destruct (FS.find root q); [discriminate|]. eexists; reflexivity.
  - eexists; reflexivity.
  - destruct (FS.find root q); discriminate.
Qed.

(** When [mkdir(parents=True, exist_ok=True)] succeeds, nothing but
    directories was in the way. *)
Lemma mkdir_success_free (fuel : nat) :
  forall root p root1,
    length p = fuel -> no_dotdot p ->
    FS.mkdir_parents fuel root p = Val root1 ->
    forall q r, p = q ++ r -> FS.find root q = None \/ is_directory root q.
Proof.
  induction fuel as [|fuel IH]; intros root p root1 Hlen Hp Hmk q r Hqr.
  - destruct p; [|discriminate].
    symmetry in Hqr. apply app_eq_nil in Hqr. destruct Hqr as [-> _].
    cbn [FS.mkdir_parents] in Hmk. unfold FS.os_mkdir in Hmk.
    rewrite (stat_found root [] root Hp eq_refl) in Hmk.
    destruct (FS.is_dir root []) eqn:Hd; [|discriminate].
    right. apply (is_dir_plain root [] Hp). exact Hd.
  - destruct (FS.find root p) as [n|] eqn:Hfind.
    + cbn [FS.mkdir_parents] in Hmk. unfold FS.os_mkdir in Hmk.
      rewrite (stat_found root p n Hp Hfind) in Hmk.
      destruct (FS.is_dir root p) eqn:Hd; [|discriminate].
      apply (is_dir_plain root p Hp) in Hd.
      right. rewrite Hqr in Hd. apply (prefix_is_directory _ _ _ Hd).
    + assert (Hne : p <> []) by (intros ->; discriminate Hfind).
      revert Hqr. destruct (exists_last Hne) as [par [k Hpk]]. subst p. intros Hqr.
      destruct (no_dotdot_app_inv _ _ Hp) as [Hpar _].
      assert (Hnodir : FS.is_dir root (par ++ [k]) = false)
        by (apply is_dir_missing; assumption).
      assert (Hcases : r = [] \/ exists r', par = q ++ r').
      { destruct r as [|c r] using rev_ind; [left; reflexivity|].
        right. exists r. rewrite app_assoc in Hqr.
        apply app_inj_tail in Hqr. apply Hqr. }
      destruct Hcases as [->|[r' Hpar']].
      * rewrite app_nil_r in Hqr. subst q. left. exact Hfind.
      * cbn [FS.mkdir_parents] in Hmk. unfold FS.os_mkdir in Hmk.
        destruct (FS.find root par) as [[size text|es|]|] eqn:Hfpar.
        -- rewrite (stat_below_leaf root par k _ Hp Hfpar) in Hmk by discriminate.
           rewrite Hnodir in Hmk. discriminate.
        -- right. assert (Hd : is_directory root par) by (exists es; exact Hfpar).
           rewrite Hpar' in Hd. apply (prefix_is_directory _ _ _ Hd).
        -- rewrite (stat_below_leaf root par k _ Hp Hfpar) in Hmk by discriminate.
           rewrite Hnodir in Hmk. discriminate.
        -- assert (Hfpar' : FS.find root (parent (par ++ [k])) = None)
             by (rewrite parent_snoc; exact Hfpar).
           destruct (stat_none root (par ++ [k]) Hp Hfind) as [Hs|Hs]; rewrite Hs in Hmk.
           ++ destruct (create_never_succeeds_without_parent root (par ++ [k]) (Dir [])
                          Hp Hfind Hfpar') as [e He].
              rewrite He in Hmk.
              destruct (create_errno root (par ++ [k]) (Dir []) e Hp Hfind Hfpar' He)
                as [->| ->].
              ** rewrite parent_snoc in Hmk.
                 destruct (FS.mkdir_parents fuel root par) as [root1'|e'] eqn:Hrec;
                   [|discriminate].
                 assert (Hlen' : length par = fuel).
                 { rewrite length_app in Hlen. simpl in Hlen. lia. }
                 apply (IH root par root1' Hlen' Hpar Hrec q r' Hpar').
              ** rewrite Hnodir in Hmk. discriminate.
           ++ rewrite Hnodir in Hmk. discriminate.
Qed.

(** The three outcomes of making the parents and writing at a path
    without [..]: the parents cannot be made; they are there already
    and the write fails, the tree being unchanged; or the file is
    written. *)
Lemma write_phase_outcome (root : node) (p : path) (content : string) :
  no_dotdot p ->
  (exists e, FS.mkdir root (parent p) = Exc e) \/
  (FS.mkdir root (parent p) = Val root /\ exists e, FS.write_text root p content = Exc e) \/
  (exists root1 root2,
     FS.mkdir root (parent p) = Val root1 /\
     FS.write_text root1 p content = Val root2 /\
     FS.find root2 p = Some (written content) /\ p <> [] /\
     (FS.find root p = None \/ exists size text, FS.find root p = Some (File size text)) /\
     (forall size text, FS.find root p = Some (File size text) ->
                        root1 = root /\ root2 = FS.update root p (fun _ => written content))).
Proof.
  intros Hp.
  destruct (FS.mkdir root (parent p)) as [root1|e] eqn:Hmk; [|left; exists e; reflexivity].
  right.
  pose proof (mkdir_success_free _ root (parent p) root1 eq_refl (no_dotdot_parent _ Hp) Hmk)
    as Hfree.
  destruct (mkdir_parents_ok _ root (parent p) eq_refl (no_dotdot_parent _ Hp) Hfree)
    as (root1' & Hmk' & Hdir1 & Hsame).
  unfold FS.mkdir in Hmk. rewrite Hmk in Hmk'. injection Hmk' as <-.
  destruct p as [|c0 p0] eqn:Hpeq.
  - left. cbn [parent removelast] in *.
    assert (Hroot : root1 = root).
    { cbn [length FS.mkdir_parents] in Hmk. unfold FS.os_mkdir in Hmk.
      rewrite (stat_found root [] root Hp eq_refl) in Hmk.
      destruct (FS.is_dir root []); [|discriminate]. injection Hmk as <-. reflexivity. }
    subst root1. split; [reflexivity|].
    destruct Hdir1 as [es Hes]. unfold FS.write_text.
    rewrite (stat_found root [] _ Hp Hes). eexists; reflexivity.
  - rewrite <- Hpeq in *.
    assert (Hne : p <> []) by (rewrite Hpeq; discriminate).
    clear Hpeq c0 p0.
    destruct (exists_last Hne) as [par [k ->]].
    rewrite parent_snoc in *.
    pose proof (Hsame k) as Hleaf.
    assert (Hdir1' : is_directory root1 (parent (par ++ [k])))
      by (rewrite parent_snoc; exact Hdir1).
    destruct (no_dotdot_app_inv _ _ Hp) as [Hpar _].
    assert (Hunchanged : FS.find root (par ++ [k]) <> None -> root1 = root).
    { intros Hex.
      destruct (FS.find root (par ++ [k])) as [n|] eqn:Hn; [|congruence].
      assert (Hd : is_directory root par)
        by (apply (find_some_prefix_dir _ _ _ _ Hn); discriminate).
      pose proof (mkdir_existing root par Hpar Hd) as Hmk2.
      unfold FS.mkdir in Hmk2. rewrite Hmk in Hmk2. injection Hmk2 as ->. reflexivity. }
    destruct (FS.find root (par ++ [k])) as [[size text|es|]|] eqn:Hn.
    + right. rewrite (Hunchanged ltac:(discriminate)) in *.
      exists root. eexists. split; [reflexivity|].
      unfold FS.write_text. rewrite (stat_found root _ _ Hp Hn).
      split; [reflexivity|]. split; [|split; [exact Hne|split]].
      * rewrite find_update_same, Hn. reflexivity.
      * right. exists size, text. reflexivity.
      * intros size' text' _. split; reflexivity.
    + left. rewrite (Hunchanged ltac:(discriminate)) in *.
      split; [reflexivity|]. unfold FS.write_text.
      rewrite (stat_found root _ _ Hp Hn). eexists; reflexivity.
    + left. rewrite (Hunchanged ltac:(discriminate)) in *.
      split; [reflexivity|]. unfold FS.write_text.
      rewrite (stat_found root _ _ Hp Hn). eexists; reflexivity.
    + right. exists root1. eexists. split; [reflexivity|].
      assert (Hstat : FS.stat root1 (par ++ [k]) = inl ENOENT).
      { apply (stat_missing root1 _ Hp); [|exact Hleaf].
        intros q r Heq Hr. right.
        apply (f_equal (@removelast string)) in Heq.
        rewrite removelast_last in Heq. rewrite (removelast_app q Hr) in Heq.
        rewrite Heq in Hdir1. apply (prefix_is_directory _ _ _ Hdir1). }
      unfold FS.write_text.
      rewrite Hstat, (create_in_directory root1 _ _ Hp Hne Hdir1').
      rewrite parent_snoc, last_last.
      split; [reflexivity|]. split; [|split; [exact Hne|split]].
      * destruct Hdir1 as [es Hes].
        apply (find_added root1 par k _ es Hes Hleaf []).
      * left. reflexivity.
      * intros size text H. discriminate H.
Qed.

(** ** What does not depend on the content of files *)

Lemma assoc_erase (es : list (string * node)) (c : string) :
  assoc c (map (fun kv => (fst kv, erase (snd kv))) es) = option_map erase (assoc c es).
Proof.
  induction es as [|[k v] t IH]; [reflexivity|].
  cbn [map assoc fst snd]. destruct (k =? c)%string; [reflexivity | exact IH].
Qed.

Lemma find_erase (p : path) :
  forall n, FS.find (erase n) p = option_map erase (FS.find n p).
Proof.
  induction p as [|c r IH]; intros n; [reflexivity|].
  destruct n as [size text|es|]; try reflexivity.
  cbn [erase]. rewrite !find_cons, assoc_erase.
  destruct (assoc c es) as [v|]; [apply IH | reflexivity].
Qed.

Lemma canon_erase (root : node) (p : list string) :
  forall acc, FS.canon (erase root) acc p = FS.canon root acc p.
Proof.
  induction p as [|c p IH]; intros acc; [reflexivity|].
  cbn [FS.canon]. rewrite find_erase.
  destruct (FS.find root acc) as [[size text|es|]|]; try reflexivity.
  cbn [option_map erase]. apply IH.
Qed.

Lemma lookup_erase (root : node) (p : path) :
  FS.lookup (erase root) p = option_map erase (FS.lookup root p).
Proof.
  unfold FS.lookup, FS.stat. rewrite canon_erase.
  destruct (FS.canon root [] p) as [e|q]; [reflexivity|].
  rewrite find_erase. destruct (FS.find root q); reflexivity.
Qed.

Lemma exists_erase (root : node) (p : path) :
  FS.exists_ (erase root) p = FS.exists_ root p.
Proof.
  unfold FS.exists_. rewrite lookup_erase. destruct (FS.lookup root p); reflexivity.
Qed.

Lemma is_dir_erase (root : node) (p : path) :
  FS.is_dir (erase root) p = FS.is_dir root p.
Proof.
  unfold FS.is_dir. rewrite lookup_erase.
  destruct (FS.lookup root p) as [[size text|es|]|]; reflexivity.
Qed.

Lemma scandir_erase (root : node) (p : path) :
  FS.scandir (erase root) p
  = match FS.scandir root p with
    | inr es => inr (map (fun kv => (fst kv, erase (snd kv))) es)
    | inl e => inl e
    end.
Proof.
  unfold FS.scandir, FS.stat. rewrite canon_erase.
  destruct (FS.canon root [] p) as [e|q]; [reflexivity|].
  rewrite find_erase. destruct (FS.find root q) as [[size text|es|]|]; reflexivity.
Qed.

Lemma flat_map_pointwise (A B : Type) (f g : A -> list B) (l : list A) :
  Forall (fun x => f x = g x) l -> flat_map f l = flat_map g l.
Proof.
  induction 1 as [|x l Hx _ IH]; [reflexivity|].
  simpl. rewrite Hx, IH. reflexivity.
Qed.

Lemma subdirs_erase (n : node) : forall p, Glob.subdirs (erase n) p = Glob.subdirs n p.
Proof.
  induction n as [size text|es IH|] using node_nested_ind; intros p; try reflexivity.
  cbn [erase Glob.subdirs]. f_equal.
  rewrite flat_map_concat_map, map_map, <- flat_map_concat_map.
  apply flat_map_pointwise.
  rewrite Forall_forall in *. intros [k v] Hin. cbn [fst snd].
  specialize (IH _ Hin). cbn [snd] in IH.
  destruct v as [size text|es'|]; try reflexivity.
  apply IH.
Qed.

Lemma iterate_directories_erase (root : node) (p : path) :
  Glob.iterate_directories (erase root) p = Glob.iterate_directories root p.
Proof.
  unfold Glob.iterate_directories. rewrite lookup_erase.
  destruct (FS.lookup root p) as [n|]; [apply subdirs_erase | reflexivity].
Qed.

Lemma node_is_dir_erase (n : node) : Glob.node_is_dir (erase n) = Glob.node_is_dir n.
Proof. destruct n; reflexivity. Qed.

Lemma select_erase (root : node) (sel : Glob.selector) :
  forall p, Glob.select (erase root) sel p = Glob.select root sel p.
Proof.
  induction sel as [|name dironly sel IH|pat dironly sel IH|sel IH]; intros p.
  - reflexivity.
  - cbn [Glob.select]. rewrite is_dir_erase, exists_erase, IH. reflexivity.
  - cbn [Glob.select]. rewrite scandir_erase.
    destruct (FS.scandir root p) as [e|es]; [reflexivity|].
    rewrite flat_map_concat_map, map_map, <- flat_map_concat_map.
    apply flat_map_pointwise. rewrite Forall_forall. intros [k v] _.
    cbn [fst snd]. rewrite node_is_dir_erase, IH. reflexivity.
  - cbn [Glob.select]. rewrite iterate_directories_erase. f_equal.
    apply flat_map_pointwise. rewrite Forall_forall. intros d _. apply IH.
Qed.

Lemma rglob_erase (root : node) (wd : path) (pattern : string) :
  Glob.rglob (erase root) wd pattern = Glob.rglob root wd pattern.
Proof.
  unfold Glob.rglob.
  destruct (PurePath.absolute (PurePath.parse pattern)); [reflexivity|].
  destruct (Glob.make_selector _) as [sel|e]; [|reflexivity].
  rewrite is_dir_erase, select_erase. reflexivity.
Qed.

Lemma erase_set_entry (es : list (string * node)) (c : string) (g : node -> node)
    (v : node) :
  assoc c es = Some v -> erase (g v) = erase v ->
  map (fun kv => (fst kv, erase (snd kv))) (FS.set_entry c g es)
  = map (fun kv => (fst kv, erase (snd kv))) es.
Proof.
  induction es as [|[k v'] t IH]; intros Hv Hg; [reflexivity|].
  cbn [FS.set_entry]. cbn [assoc] in Hv.
  destruct (k =? c)%string.
  - injection Hv as ->. cbn [map fst snd]. rewrite Hg. reflexivity.
  - cbn [map fst snd]. rewrite (IH Hv Hg). reflexivity.
Qed.

(** Rewriting a regular file leaves the erased tree as it was. *)
Lemma erase_update_file (p : path) :
  forall root size text new_size new_text,
    FS.find root p = Some (File size text) ->
    erase (FS.update root p (fun _ => File new_size new_text)) = erase root.
Proof.
  induction p as [|c r IH]; intros root size text new_size new_text H.
  - simpl in H. injection H as ->. reflexivity.
  - apply find_some_through in H. destruct H as (es & v & -> & Hv & Hfind).
    cbn [FS.update erase]. f_equal.
    apply (erase_set_entry es c _ v Hv).
    apply (IH _ _ _ _ _ Hfind).
Qed.

(** ** What the search for a base name returns *)

Lemma iterate_directories_clean (root : node) (wd : path) :
  wf root = true -> no_dotdot wd -> is_directory root wd ->
  forall d, In d (Glob.iterate_directories root wd) ->
            no_dotdot d /\ is_directory root d.
Proof.
  intros Hwf Hwd [es0 Hes0] d Hd.
  destruct (wf_find _ _ _ Hwf Hes0) as [Hwf0 _].
  unfold Glob.iterate_directories in Hd. rewrite (lookup_plain root wd Hwd), Hes0 in Hd.
  apply (subdirs_spec _ Hwf0) in Hd. destruct Hd as [r [-> Hr]].
  assert (Hdir : is_directory root (wd ++ r)).
  { unfold is_directory. rewrite find_app, Hes0.
    destruct Hr as [->|Hr]; [exists es0; reflexivity | exact Hr]. }
  split; [|exact Hdir].
  destruct Hdir as [es Hes]. apply (wf_find _ _ _ Hwf Hes).
Qed.

Lemma stat_dotdot (root : node) (d : path) :
  no_dotdot d -> is_directory root d ->
  exists q es, FS.stat root (d ++ [dotdot]) = inr (q, Dir es).
Proof.
  intros Hd [es Hes].
  pose proof (stat_found root d _ Hd Hes) as Hs.
  unfold FS.stat in *. rewrite canon_app.
  destruct (FS.canon root [] d) as [e|q]; [discriminate|].
  destruct (FS.find root q) as [n|] eqn:Hq; [|discriminate].
  injection Hs as -> ->.
  cbn [FS.canon]. rewrite Hq, String.eqb_refl.
  assert (Hpar : is_directory root (removelast d)).
  { destruct d as [|c d'] using rev_ind; [exists es; exact Hq|].
    rewrite removelast_last. apply (prefix_is_directory root d' [c]).
    exists es. exact Hq. }
  destruct Hpar as [es' Hes']. exists (removelast d), es'. rewrite Hes'. reflexivity.
Qed.

(** On a well-formed tree, each result of the search for the base name
    of a request is an existing entry with a path free of [..], or is
    [d/..] for a directory [d]. *)
Lemma rglob_basename_results (root : node) (wd : path) (file_path : string)
    (found : list path) :
  wf root = true -> no_dotdot wd ->
  Glob.rglob root wd (basename file_path) = Val found ->
  forall p, In p found ->
    (no_dotdot p /\ FS.find root p <> None) \/
    (exists d, p = d ++ [dotdot] /\ no_dotdot d /\ is_directory root d).
Proof.
  intros Hwf Hwd Hfound p Hin.
  destruct (basename_parse file_path) as [Hparse Hlast].
  unfold Glob.rglob in Hfound. rewrite Hparse, Hlast in Hfound.
  cbn [PurePath.absolute PurePath.parts] in Hfound. rewrite app_nil_r in Hfound.
  set (n := basename file_path) in *.
  destruct (Glob.make_selector ("**"%string :: (if (n =? "")%string then [] else [n])))
    as [sel|e] eqn:Hsel; [|discriminate].
  injection Hfound as <-.
  destruct (FS.is_dir root wd) eqn:Hdir; [|contradiction].
  apply (is_dir_plain root wd Hwd) in Hdir.
  pose proof (iterate_directories_clean root wd Hwf Hwd Hdir) as Hdirs.
  assert (Hrec : exists inner, sel = Glob.Recursive inner /\
                   Glob.make_selector (if (n =? "")%string then [] else [n]) = Val inner).
  { rewrite make_selector_recursive_eq in Hsel.
    destruct (Glob.make_selector (if (n =? "")%string then [] else [n])) as [s|e];
      [|discriminate].
    injection Hsel as <-. exists s. split; reflexivity. }
  destruct Hrec as (inner & -> & Hinner).
  cbn [Glob.select] in Hin. apply dedup_in in Hin. destruct Hin as [Hin _].
  apply in_flat_map in Hin. destruct Hin as [d [Hd Hp]].
  destruct (Hdirs d Hd) as [Hdclean Hddir].
  destruct (String.eqb_spec n "") as [Hn|Hn].
  - injection Hinner as <-. destruct Hp as [<-|[]].
    left. split; [exact Hdclean|]. destruct Hddir as [es Hes]. rewrite Hes. discriminate.
  - cbn [Glob.make_selector] in Hinner.
    apply String.eqb_neq in Hn. rewrite Hn in Hinner.
    destruct (String.eqb_spec n "**") as [Hss|Hss].
    + injection Hinner as <-.
      cbn [Glob.select] in Hp. apply dedup_in in Hp. destruct Hp as [Hp _].
      apply in_flat_map in Hp. destruct Hp as [d' [Hd' Hp]].
      destruct Hp as [<-|[]].
      destruct (iterate_directories_clean root d Hwf Hdclean Hddir d' Hd') as [Hc' Hd''].
      left. split; [exact Hc'|]. destruct Hd'' as [es Hes]. rewrite Hes. discriminate.
    + destruct (PyStr.contains "**" n); [discriminate|].
      destruct (Glob.is_wildcard_pattern n).
      * injection Hinner as <-. cbn [Glob.select] in Hp.
        destruct Hddir as [es Hes].
        unfold FS.scandir in Hp. rewrite (stat_found root d _ Hdclean Hes) in Hp.
        apply in_flat_map in Hp. destruct Hp as [[k v] [Hkv Hp]].
        destruct (_ && _); [|contradiction].
        cbn [fst] in Hp. destruct Hp as [<-|[]].
        destruct (wf_find _ _ _ Hwf Hes) as [Hwfd _].
        destruct (wf_dir _ Hwfd) as (Hnd & Hdd & _).
        left. split.
        -- apply no_dotdot_app; [exact Hdclean|].
           intros [Heq|[]]. apply Hdd. rewrite <- Heq. apply (in_map fst _ _ Hkv).
        -- rewrite find_app, Hes, find_cons, (assoc_in _ _ _ Hnd Hkv). discriminate.
      * injection Hinner as <-. cbn [Glob.select] in Hp.
        destruct (FS.exists_ root (d ++ [n])) eqn:Hex; [|contradiction].
        destruct Hp as [<-|[]].
        destruct (String.eqb_spec n dotdot) as [Hdd|Hdd].
        -- right. exists d. rewrite Hdd. split; [reflexivity|]. split; assumption.
        -- assert (Hclean : no_dotdot (d ++ [n])).
           { apply no_dotdot_app; [exact Hdclean|]. intros [Heq|[]]. apply Hdd.
             exact Heq. }
           left. split; [exact Hclean|].
           apply (exists_plain root _ Hclean). exact Hex.
Qed.

(** ** C8: writing twice *)

Lemma val_inj {A : Type} (a b : A) : Val a = Val b -> a = b.
Proof. intros H. congruence. Qed.

Lemma with_fs_id (w : world) : with_fs w (fs w) = w.
Proof. destruct w. reflexivity. Qed.

Lemma wrote_is_not_error (file_path : string) (count : nat) (e : exn) :
  Msg.wrote file_path count <> write_error_text file_path e.
Proof.
  destruct e as [[] f|m|m| |]; unfold Msg.wrote, write_error_text, Msg.write_permission,
    Msg.write_failed, Msg.write_unexpected; simpl; discriminate.
Qed.

Lemma wrote_is_not_denied (file_path working_directory : string) (count : nat) :
  Msg.denied file_path working_directory <> Msg.wrote file_path count.
Proof. unfold Msg.wrote, Msg.denied. simpl. discriminate. Qed.

(** At a path without [..]: either the world is unchanged and an error
    text is returned, or the success text is returned and the path
    holds the content; in that case the path was missing, or it was a
    regular file and only that file changed. *)
Lemma write_file_write_clean (p : path) (file_path content : string) (w : world)
    (t : list event) :
  no_dotdot p ->
  (exists e t1,
     write_file_write p file_path content (w, t)
     = (Val (write_error_text file_path e), (w, t1))) \/
  (exists root2 t1,
     write_file_write p file_path content (w, t)
     = (Val (Msg.wrote file_path (String.length content)), (with_fs w root2, t1)) /\
     FS.find root2 p = Some (written content) /\ p <> [] /\ In (EvWrite p content) t1 /\
     (FS.find (fs w) p = None \/
      exists size text,
        FS.find (fs w) p = Some (File size text) /\
        root2 = FS.update (fs w) p (fun _ => written content))).
Proof.
  intros Hp. rewrite write_file_write_eq.
  destruct (write_phase_outcome (fs w) p content Hp)
    as [[e He]|[[Hmk [e He]]|(root1 & root2 & Hmk & Hwr & Hfind & Hne & Hwas & Hfile)]].
  - left. rewrite He. eexists; eexists; reflexivity.
  - left. rewrite Hmk, He, with_fs_id. eexists; eexists; reflexivity.
  - right. rewrite Hmk, Hwr. exists root2. eexists. split; [reflexivity|].
    split; [exact Hfind|]. split; [exact Hne|]. split.
    + apply in_or_app. right. left. reflexivity.
    + destruct Hwas as [Hnone|(size & text & Hf)]; [left; exact Hnone|].
      right. exists size, text. split; [exact Hf|]. apply (Hfile _ _ Hf).
Qed.

Lemma write_file_write_again (p : path) (file_path content : string) (w : world)
    (t : list event) :
  no_dotdot p -> p <> [] -> FS.find (fs w) p = Some (written content) ->
  exists t1,
    write_file_write p file_path content (w, t)
    = (Val (Msg.wrote file_path (String.length content)), (w, t1)).
Proof.
  intros Hp Hne Hfind.
  destruct (write_phase_again (fs w) p content Hp Hne Hfind) as [Hmk Hwr].
  rewrite write_file_write_eq, Hmk, Hwr, with_fs_id. eexists; reflexivity.
Qed.

Lemma write_file_write_dotdot (d : path) (file_path content : string) (w : world)
    (t : list event) :
  no_dotdot d -> is_directory (fs w) d ->
  exists e t1,
    write_file_write (d ++ [dotdot]) file_path content (w, t)
    = (Val (write_error_text file_path e), (w, t1)).
Proof.
  intros Hd Hdir.
  rewrite write_file_write_eq, parent_snoc, (mkdir_existing (fs w) d Hd Hdir).
  destruct (stat_dotdot (fs w) d Hd Hdir) as (q & es & Hs).
  unfold FS.write_text. rewrite Hs, with_fs_id. eexists; eexists; reflexivity.
Qed.

Lemma contained_request_with_fs (w : world) (root : node)
    (working_directory requested : string) (working_dir target : path) :
  contained_request w working_directory requested working_dir target ->
  contained_request (with_fs w root) working_directory requested working_dir target.
Proof. intros H. exact H. Qed.

Lemma exists_same_shape (root root' : node) (p : path) :
  erase root' = erase root -> FS.exists_ root' p = FS.exists_ root p.
Proof. intros H. rewrite <- (exists_erase root'), H. apply exists_erase. Qed.

Lemma rglob_same_shape (root root' : node) (wd : path) (pattern : string) :
  erase root' = erase root -> Glob.rglob root' wd pattern = Glob.rglob root wd pattern.
Proof. intros H. rewrite <- (rglob_erase root'), H. apply rglob_erase. Qed.

(** The first call either changes nothing and does not report success,
    or reports success, has written the content, and a second call
    from the world it left gives the same result and the same world. *)
Lemma write_file_summary (w : world) (working_directory file_path content : string) :
  wf (fs w) = true ->
  (exists r t, run (write_file working_directory file_path content) w = (r, w, t) /\
               r <> Val (Msg.wrote file_path (String.length content))) \/
  (exists w1 t1 t2 p,
     run (write_file working_directory file_path content) w
     = (Val (Msg.wrote file_path (String.length content)), w1, t1) /\
     In (EvWrite p content) t1 /\
     FS.lookup (fs w1) p = Some (written content) /\
     run (write_file working_directory file_path content) w1
     = (Val (Msg.wrote file_path (String.length content)), w1, t2)).
Proof.
  intros Hwf.
  destruct (resolve_in (cwd w) (PurePath.parse working_directory)) as [wd|e] eqn:Hwd.
  2:{ left. exists (Exc e), []. split; [|discriminate].
      unfold run, write_file.
      rewrite (bind_exc _ _ (w, []) (w, []) e)
        by (unfold resolve; cbn; rewrite Hwd; reflexivity).
      reflexivity. }
  destruct (resolve_in (cwd w)
              (PurePath.joinpath (PurePath.mk true wd) (PurePath.parse file_path)))
    as [target|e] eqn:Htarget.
  2:{ left. exists (Exc e), []. split; [|discriminate].
      unfold run, write_file, resolve_under.
      rewrite (bind_step _ _ (w, []) (w, []) wd)
        by (unfold resolve; cbn; rewrite Hwd; reflexivity).
      rewrite (bind_exc _ _ (w, []) (w, []) e)
        by (unfold resolve; cbn; rewrite Htarget; reflexivity).
      reflexivity. }
  destruct (is_relative_to target wd) eqn:Hrel.
  2:{ left. exists (Val (Msg.denied file_path working_directory)), [].
      split.
      - unfold run, write_file, resolve_under.
        rewrite (bind_step _ _ (w, []) (w, []) wd)
          by (unfold resolve; cbn; rewrite Hwd; reflexivity).
        rewrite (bind_step _ _ (w, []) (w, []) target)
          by (unfold resolve; cbn; rewrite Htarget; reflexivity).
        rewrite Hrel. reflexivity.
      - intros H. apply val_inj in H. apply (wrote_is_not_denied _ _ _ H). }
  assert (Hreq : contained_request w working_directory file_path wd target)
    by (repeat split; assumption).
  assert (Hwdc : no_dotdot wd) by apply (resolve_in_no_dotdot _ _ _ Hwd).
  assert (Htc : no_dotdot target) by apply (resolve_in_no_dotdot _ _ _ Htarget).
  pose proof (write_file_eq w working_directory file_path content wd target Hreq) as Heq.
  cbn zeta in Heq.
  (* the second call, when the first has written at the literal target *)
  assert (Hliteral : forall t,
            (exists e t1, write_file_write target file_path content (w, t)
                          = (Val (write_error_text file_path e), (w, t1))) \/
            (exists root2 t1 t2,
               write_file_write target file_path content (w, t)
               = (Val (Msg.wrote file_path (String.length content)), (with_fs w root2, t1)) /\
               In (EvWrite target content) t1 /\
               FS.lookup root2 target = Some (written content) /\
               run (write_file working_directory file_path content) (with_fs w root2)
               = (Val (Msg.wrote file_path (String.length content)), with_fs w root2, t2))).
  { intros t.
    destruct (write_file_write_clean target file_path content w t Htc)
      as [Hfail|(root2 & t1 & Hrun & Hfind & Hne & Hev & _)]; [left; exact Hfail|].
    right.
    pose proof (write_file_eq (with_fs w root2) working_directory file_path content
                  wd target (contained_request_with_fs _ _ _ _ _ _ Hreq)) as Heq2.
    cbn zeta in Heq2. cbn [with_fs fs] in Heq2.
    assert (Hex : FS.exists_ root2 target = true).
    { apply (exists_plain root2 target Htc). rewrite Hfind. discriminate. }
    rewrite Hex in Heq2. cbn [negb andb] in Heq2.
    destruct (write_file_write_again target file_path content (with_fs w root2)
                [EvExists target] Htc Hne Hfind) as [t2 Ht2].
    exists root2, t1, t2. split; [exact Hrun|]. split; [exact Hev|]. split.
    - rewrite (lookup_plain root2 target Htc). exact Hfind.
    - unfold run. rewrite Heq2, Ht2. reflexivity. }
  assert (Hfinish : forall t,
            write_file working_directory file_path content (w, [])
            = write_file_write target file_path content (w, t) ->
            (exists r t', run (write_file working_directory file_path content) w = (r, w, t') /\
                          r <> Val (Msg.wrote file_path (String.length content))) \/
            (exists w1 t1 t2 p,
               run (write_file working_directory file_path content) w
               = (Val (Msg.wrote file_path (String.length content)), w1, t1) /\
               In (EvWrite p content) t1 /\
               FS.lookup (fs w1) p = Some (written content) /\
               run (write_file working_directory file_path content) w1
               = (Val (Msg.wrote file_path (String.length content)), w1, t2))).
  { intros t Hgo.
    destruct (Hliteral t) as [(e & t1 & Hfail)|(root2 & t1 & t2 & Hrun & Hev & Hl & Hsecond)].
    - left. exists (Val (write_error_text file_path e)), t1. split.
      + unfold run. rewrite Hgo, Hfail. reflexivity.
      + intros H. apply val_inj in H. symmetry in H. apply (wrote_is_not_error _ _ _ H).
    - right. exists (with_fs w root2), t1, t2, target. split; [|split; [exact Hev|split]].
      + unfold run. rewrite Hgo, Hrun. reflexivity.
      + exact Hl.
      + exact Hsecond. }
  destruct (negb (FS.exists_ (fs w) target) && negb (FS.exists_ (fs w) (parent target)))
    eqn:Hsearch.
  2:{ apply (Hfinish _ Heq). }
  destruct (Glob.rglob (fs w) wd (basename file_path)) as [[|first rest]|e] eqn:Hg.
  - apply (Hfinish _ Heq).
  - destruct (rglob_basename_results (fs w) wd file_path _ Hwf Hwdc Hg first
                (or_introl eq_refl)) as [[Hfc Hfex]|(d & -> & Hdc & Hdd)].
    + destruct (write_file_write_clean first file_path content w
                  ((if FS.exists_ (fs w) target then [EvExists target]
                    else [EvExists target; EvExists (parent target)])
                   ++ [EvRglob wd (basename file_path)]) Hfc)
        as [(e & t1 & Hfail)|(root2 & t1 & Hrun & Hfind & Hne & Hev & Hwas)].
      * left. exists (Val (write_error_text file_path e)), t1. split.
        -- unfold run. rewrite Heq, Hfail. reflexivity.
        -- intros H. apply val_inj in H. symmetry in H. apply (wrote_is_not_error _ _ _ H).
      * destruct Hwas as [Hnone|(size & text & Hfile & Hroot2)]; [congruence|].
        assert (Hshape : erase root2 = erase (fs w)).
        { rewrite Hroot2. apply (erase_update_file first (fs w) size text _ _ Hfile). }
        pose proof (write_file_eq (with_fs w root2) working_directory file_path content
                      wd target (contained_request_with_fs _ _ _ _ _ _ Hreq)) as Heq2.
        cbn zeta in Heq2. cbn [with_fs fs] in Heq2.
        rewrite !(exists_same_shape _ _ _ Hshape), Hsearch in Heq2.
        rewrite (rglob_same_shape _ _ _ _ Hshape), Hg in Heq2.
        destruct (write_file_write_again first file_path content (with_fs w root2)
                    ((if FS.exists_ (fs w) target then [EvExists target]
                      else [EvExists target; EvExists (parent target)])
                     ++ [EvRglob wd (basename file_path)]) Hfc Hne Hfind) as [t2 Ht2].
        right. exists (with_fs w root2), t1, t2, first.
        split; [|split; [exact Hev|split]].
        -- unfold run. rewrite Heq, Hrun. reflexivity.
        -- cbn [with_fs fs]. rewrite (lookup_plain root2 first Hfc). exact Hfind.
        -- unfold run. rewrite Heq2, Ht2. reflexivity.
    + destruct (write_file_write_dotdot d file_path content w
                  ((if FS.exists_ (fs w) target then [EvExists target]
                    else [EvExists target; EvExists (parent target)])
                   ++ [EvRglob wd (basename file_path)]) Hdc Hdd) as (e & t1 & Hfail).
      left. exists (Val (write_error_text file_path e)), t1. split.
      * unfold run. rewrite Heq, Hfail. reflexivity.
      * intros H. apply val_inj in H. symmetry in H. apply (wrote_is_not_error _ _ _ H).
  - left. exists (Exc e). eexists. split; [|discriminate].
    unfold run. rewrite Heq. reflexivity.
Qed.

(** C8.  On a well-formed tree, a second call of [write_file] with the
    same path and the same content, made in the world the first call
    left, returns the same result and leaves that world as it is: the
    same files with the same content, the same reported count.  A call
    that reports success reports the number of characters of the
    content, and the file it wrote holds the content; a call that does
    not report success has changed nothing. *)
Theorem write_twice_is_write_once
    (w : world) (working_directory file_path content : string) :
  wf (fs w) = true ->
  let first := run (write_file working_directory file_path content) w in
  let w1 := snd (fst first) in
  let second := run (write_file working_directory file_path content) w1 in
  fst second = fst first /\
  Msg.wrote file_path (String.length content)
  = String.append "Successfully wrote to "
      (String.append PyStr.dq
         (String.append file_path
            (String.append PyStr.dq
               (String.append " ("
                  (String.append (PyStr.str_of_N (N.of_nat (String.length content)))
                                 " characters written)"))))) /\
  ((fst (fst first) = Val (Msg.wrote file_path (String.length content)) /\
    exists p, In (EvWrite p content) (snd first) /\
              FS.lookup (fs w1) p
              = Some (File (PyStr.utf8_len content) (Some content))) \/
   (w1 = w /\ fst (fst first) <> Val (Msg.wrote file_path (String.length content)))).
Proof.
  intros Hwf first w1 second.
  split; [|split; [reflexivity|]].
  - destruct (write_file_summary w working_directory file_path content Hwf)
      as [(r & t & Hrun & _)|(w' & t1 & t2 & p & Hrun & _ & _ & Hsecond)].
    + unfold second, w1, first. rewrite Hrun. cbn [fst snd]. rewrite Hrun. reflexivity.
    + unfold second, w1, first. rewrite Hrun. cbn [fst snd]. rewrite Hsecond. reflexivity.
  - destruct (write_file_summary w working_directory file_path content Hwf)
      as [(r & t & Hrun & Hno)|(w' & t1 & t2 & p & Hrun & Hev & Hl & _)].
    + right. unfold w1, first. rewrite Hrun. cbn [fst snd]. split; [reflexivity | exact Hno].
    + left. unfold w1, first. rewrite Hrun. cbn [fst snd]. split; [reflexivity|].
      exists p. split; [exact Hev | exact Hl].
Qed.

(** In the sample world [new/dir/notes.txt] is written twice from
    [/w]; both calls overwrite [pkg/notes.txt]. *)
Lemma write_twice_is_write_once_witness :
  let first := run (write_file "/w" "new/dir/notes.txt" "data") sample_world in
  let w1 := snd (fst first) in
  let second := run (write_file "/w" "new/dir/notes.txt" "data") w1 in
  fst second = fst first /\
  Msg.wrote "new/dir/notes.txt" (String.length "data")
  = String.append "Successfully wrote to "
      (String.append PyStr.dq
         (String.append "new/dir/notes.txt"
            (String.append PyStr.dq
               (String.append " ("
                  (String.append (PyStr.str_of_N (N.of_nat (String.length "data")))
                                 " characters written)"))))) /\
  ((fst (fst first) = Val (Msg.wrote "new/dir/notes.txt" (String.length "data")) /\
    exists p, In (EvWrite p "data") (snd first) /\
              FS.lookup (fs w1) p = Some (File (PyStr.utf8_len "data") (Some "data"%string))) \/
   (w1 = sample_world /\
    fst (fst first) <> Val (Msg.wrote "new/dir/notes.txt" (String.length "data")))).
Proof.
  apply (write_twice_is_write_once sample_world "/w" "new/dir/notes.txt" "data").
  reflexivity.
Defined.

(** Writing a new file twice in the sample world: the first call makes
    [new/dir] and the file, the second finds it at its literal place. *)
Example write_twice_example :
  let first := run (write_file "/w" "new/dir/f.txt" "data") sample_world in
  let second := run (write_file "/w" "new/dir/f.txt" "data") (snd (fst first)) in
  fst (fst first)
  = Val (String.append "Successfully wrote to "
           (String.append PyStr.dq
              (String.append "new/dir/f.txt"
                 (String.append PyStr.dq " (4 characters written)")))) /\
  fst second = fst first /\
  FS.lookup (fs (snd (fst second))) ["w"; "new"; "dir"; "f.txt"]%string
  = Some (File 4 (Some "data"%string)) /\
  snd second = [EvExists ["w"; "new"; "dir"; "f.txt"]; EvMkdir ["w"; "new"; "dir"];
                EvWrite ["w"; "new"; "dir"; "f.txt"] "data"]%string.
Proof. repeat split; reflexivity. Qed.

(** * The functions as a whole, the dispatcher, the agent and the command line *)

(** ** Calls that only look *)

Lemma quiet_app (t1 t2 : list event) : quiet (t1 ++ t2) = quiet t1 && quiet t2.
Proof. unfold quiet. apply forallb_app. Qed.

Lemma readonly_ret {A : Type} (a : A) : readonly (ret a).
Proof. intros w t. exists (Val a), []. rewrite app_nil_r. split; reflexivity. Qed.

Lemma readonly_raise {A : Type} (e : exn) : readonly (@raise A e).
Proof. intros w t. exists (Exc e), []. rewrite app_nil_r. split; reflexivity. Qed.

Lemma readonly_of_res {A : Type} (r : res A) : readonly (of_res r).
Proof. intros w t. exists r, []. rewrite app_nil_r. split; reflexivity. Qed.

Lemma readonly_lift_fs {A : Type} (f : node -> A) : readonly (lift_fs f).
Proof. intros w t. exists (Val (f (fs w))), []. rewrite app_nil_r. split; reflexivity. Qed.

Lemma readonly_log (ev : event) : mutating ev = false -> readonly (log ev).
Proof.
  intros H w t. exists (Val tt), [ev]. split; [reflexivity|].
  unfold quiet. simpl. rewrite H. reflexivity.
Qed.

Lemma readonly_resolve (pp : PurePath.t) : readonly (resolve pp).
Proof.
  intros w t. exists (resolve_in (cwd w) pp), []. rewrite app_nil_r. split; reflexivity.
Qed.

Lemma readonly_bind {A B : Type} (m : M A) (k : A -> M B) :
  readonly m -> (forall a, readonly (k a)) -> readonly (bind m k).
Proof.
  intros Hm Hk w t. destruct (Hm w t) as (r & t1 & Hrun & Hq).
  unfold bind. rewrite Hrun. destruct r as [a|e].
  - destruct (Hk a w (t ++ t1)) as (r2 & t2 & Hrun2 & Hq2).
    exists r2, (t1 ++ t2). rewrite Hrun2, app_assoc. split; [reflexivity|].
    rewrite quiet_app, Hq, Hq2. reflexivity.
  - exists (Exc e), t1. split; [reflexivity | exact Hq].
Qed.

Lemma readonly_try {A : Type} (m : M A) (handler : exn -> M A) :
  readonly m -> (forall e, readonly (handler e)) -> readonly (try_except m handler).
Proof.
  intros Hm Hh w t. destruct (Hm w t) as (r & t1 & Hrun & Hq).
  unfold try_except. rewrite Hrun. destruct r as [a|e].
  - exists (Val a), t1. split; [reflexivity | exact Hq].
  - destruct (Hh e w (t ++ t1)) as (r2 & t2 & Hrun2 & Hq2).
    exists r2, (t1 ++ t2). rewrite Hrun2, app_assoc. split; [reflexivity|].
    rewrite quiet_app, Hq, Hq2. reflexivity.
Qed.

Ltac readonly_steps :=
  repeat first
    [ apply readonly_ret
    | apply readonly_raise
    | apply readonly_of_res
    | apply readonly_lift_fs
    | apply readonly_resolve
    | apply readonly_log; reflexivity
    | apply readonly_bind; [|intros ?]
    | apply readonly_try; [|intros ?]
    | match goal with
      | |- readonly (if ?b then _ else _) => destruct b
      | |- readonly (match ?x with _ => _ end) => destruct x
      end ].

Lemma readonly_path_exists (p : path) : readonly (path_exists p).
Proof. unfold path_exists. readonly_steps. Qed.

Lemma readonly_path_is_file (p : path) : readonly (path_is_file p).
Proof. unfold path_is_file. readonly_steps. Qed.

Lemma readonly_path_is_dir (p : path) : readonly (path_is_dir p).
Proof. unfold path_is_dir. readonly_steps. Qed.

Lemma readonly_path_rglob (self : path) (pattern : string) : readonly (path_rglob self pattern).
Proof. unfold path_rglob. readonly_steps. Qed.

Lemma readonly_path_iterdir (p : path) : readonly (path_iterdir p).
Proof. unfold path_iterdir. readonly_steps. Qed.

Lemma readonly_path_st_size (p : path) : readonly (path_st_size p).
Proof. unfold path_st_size. readonly_steps. Qed.

Lemma readonly_read_text (p : path) : readonly (read_text p).
Proof. unfold read_text. readonly_steps. Qed.

Lemma readonly_collect_items (items : list path) :
  forall items_info, readonly (collect_items items items_info).
Proof.
  induction items as [|item rest IH]; intros items_info; cbn [collect_items].
  - apply readonly_ret.
  - apply readonly_bind; [apply readonly_path_is_file|]. intros [|].
    + apply readonly_bind; [apply readonly_path_st_size|]. intros size. apply IH.
    + apply readonly_bind; [apply readonly_path_is_dir|]. intros [|]; apply IH.
Qed.

Lemma readonly_get_files_info_listing (target_dir : path) (directory : string) :
  readonly (get_files_info_listing target_dir directory).
Proof.
  unfold get_files_info_listing.
  apply readonly_bind; [apply readonly_path_is_dir|]. intros is_d.
  destruct (negb is_d); [apply readonly_ret|].
  apply readonly_try.
  - apply readonly_bind; [apply readonly_path_iterdir|]. intros items.
    apply readonly_bind; [apply readonly_collect_items|]. intros. apply readonly_ret.
  - intros e. destruct (is_PermissionError e); [apply readonly_ret | apply readonly_raise].
Qed.

Lemma readonly_get_files_info (working_directory directory : string) :
  readonly (get_files_info working_directory directory).
Proof.
  unfold get_files_info, resolve_under.
  apply readonly_bind; [apply readonly_resolve|]. intros working_dir.
  apply readonly_bind.
  { destruct (directory =? ".")%string; [apply readonly_ret | apply readonly_resolve]. }
  intros target_dir.
  destruct (negb (is_relative_to target_dir working_dir)); [apply readonly_ret|].
  apply readonly_bind; [apply readonly_path_exists|]. intros present.
  destruct (negb present && negb (directory =? ".")%string).
  - apply readonly_bind; [apply readonly_path_rglob|]. intros [|first rest].
    + apply readonly_ret.
    + destruct (negb (is_relative_to first working_dir));
        [apply readonly_ret | apply readonly_get_files_info_listing].
  - apply readonly_get_files_info_listing.
Qed.

Lemma readonly_get_file_content_read (target_file : path) (file_path : string) :
  readonly (get_file_content_read target_file file_path).
Proof.
  unfold get_file_content_read.
  apply readonly_bind; [apply readonly_path_is_file|]. intros is_f.
  destruct (negb is_f); [apply readonly_ret|].
  apply readonly_try.
  - apply readonly_bind; [apply readonly_read_text|]. intros content.
    destruct (MAX_FILE_CONTENT_LENGTH <? N.of_nat (String.length content))%N;
      apply readonly_ret.
  - intros e. destruct e as [[| | | | |] f| | | |]; apply readonly_ret.
Qed.

Lemma readonly_get_file_content (working_directory file_path : string) :
  readonly (get_file_content working_directory file_path).
Proof.
  unfold get_file_content, resolve_under.
  apply readonly_bind; [apply readonly_resolve|]. intros working_dir.
  apply readonly_bind; [apply readonly_resolve|]. intros target_file.
  destruct (negb (is_relative_to target_file working_dir)); [apply readonly_ret|].
  apply readonly_bind; [apply readonly_path_exists|]. intros present.
  destruct (negb present).
  - apply readonly_bind; [apply readonly_path_rglob|]. intros [|first rest].
    + apply readonly_ret.
    + destruct (negb (is_relative_to first working_dir));
        [apply readonly_ret | apply readonly_get_file_content_read].
  - apply readonly_get_file_content_read.
Qed.

Lemma readonly_run {A : Type} (m : M A) (w : world) :
  readonly m -> snd (fst (run m w)) = w /\ quiet (snd (run m w)) = true.
Proof.
  intros H. destruct (H w []) as (r & t & Hrun & Hq).
  unfold run. rewrite Hrun. split; [reflexivity | exact Hq].
Qed.

(** X1.  [get_files_info] and [get_file_content] only look: whatever
    the arguments and whatever the result, also when an exception
    leaves them, the world is left as it was, and no directory was
    made, no file written and no process started. *)
Theorem listing_and_reading_change_nothing
    (w : world) (working_directory requested : string) :
  snd (fst (run (get_files_info working_directory requested) w)) = w /\
  quiet (snd (run (get_files_info working_directory requested) w)) = true /\
  snd (fst (run (get_file_content working_directory requested) w)) = w /\
  quiet (snd (run (get_file_content working_directory requested) w)) = true.
Proof.
  destruct (readonly_run _ w (readonly_get_files_info working_directory requested)) as [H1 H2].
  destruct (readonly_run _ w (readonly_get_file_content working_directory requested))
    as [H3 H4].
  repeat split; assumption.
Qed.

(** ** What a change below a directory leaves outside of it *)

Lemma set_entry_twice (c : string) (g1 g2 : node -> node) (es : list (string * node)) :
  FS.set_entry c g2 (FS.set_entry c g1 es) = FS.set_entry c (fun v => g2 (g1 v)) es.
Proof.
  induction es as [|[k v] es IH]; [reflexivity|].
  cbn [FS.set_entry]. destruct (k =? c)%string eqn:Hk.
  - cbn [FS.set_entry]. rewrite Hk. reflexivity.
  - cbn [FS.set_entry]. rewrite Hk, IH. reflexivity.
Qed.

Lemma set_entry_ext (c : string) (g1 g2 : node -> node) (es : list (string * node)) :
  (forall v, g1 v = g2 v) -> FS.set_entry c g1 es = FS.set_entry c g2 es.
Proof.
  intros H. induction es as [|[k v] es IH]; [reflexivity|].
  cbn [FS.set_entry]. rewrite IH, H. reflexivity.
Qed.

Lemma update_cons (es : list (string * node)) (c : string) (r : path) (f : node -> node) :
  FS.update (Dir es) (c :: r) f = Dir (FS.set_entry c (fun v => FS.update v r f) es).
Proof. reflexivity. Qed.

Lemma update_leaf (n : node) (c : string) (r : path) (f : node -> node) :
  (forall es, n <> Dir es) -> FS.update n (c :: r) f = n.
Proof. intros H. destruct n as [size text|es|]; [reflexivity | destruct (H es eq_refl) | reflexivity]. Qed.

Lemma find_update_prefix (q s : path) (f : node -> node) :
  forall n, FS.find (FS.update n (q ++ s) f) q
            = option_map (fun m => FS.update m s f) (FS.find n q).
Proof.
  induction q as [|c q IH]; intros n; [reflexivity|].
  destruct n as [size text|es|]; [reflexivity| |reflexivity].
  cbn [app]. rewrite update_cons, !find_cons, assoc_set_entry.
  destruct (assoc c es) as [v|]; [|reflexivity].
  cbn [option_map]. apply IH.
Qed.

Lemma outside_update_below (q s : path) (f : node -> node) :
  forall n, outside q (FS.update n (q ++ s) f) = outside q n.
Proof.
  unfold outside. induction q as [|c q IH]; intros n; [reflexivity|].
  destruct n as [size text|es|]; [reflexivity| |reflexivity].
  cbn [app]. rewrite !update_cons, set_entry_twice. f_equal.
  apply set_entry_ext. intros v. apply IH.
Qed.

Lemma is_directory_update_below (q s : path) (f : node -> node) (n : node) :
  (forall es, exists es', f (Dir es) = Dir es') ->
  is_directory n q -> is_directory (FS.update n (q ++ s) f) q.
Proof.
  intros Hf [es Hes]. unfold is_directory.
  rewrite find_update_prefix, Hes. cbn [option_map].
  destruct s as [|c s].
  - destruct (Hf es) as [es' Hes']. exists es'. cbn [FS.update]. rewrite Hes'. reflexivity.
  - rewrite update_cons. eexists; reflexivity.
Qed.

Lemma add_entry_keeps_directories (k : string) (child : node) :
  forall es, exists es', FS.add_entry k child (Dir es) = Dir es'.
Proof. intros es. eexists; reflexivity. Qed.

Lemma exists_last_or_nil (A : Type) (l : list A) :
  l = [] \/ exists l' x, l = l' ++ [x].
Proof.
  destruct l as [|a l]; [left; reflexivity|].
  right. destruct (exists_last (l := a :: l)) as (l' & x & H); [discriminate|].
  exists l', x. exact H.
Qed.

(** When [p] and [wd] lie on one branch, so do the parent of [p] and
    [wd]. *)
Lemma parent_on_branch (p wd : path) :
  (exists r, p = wd ++ r) \/ (exists r, wd = p ++ r) ->
  (exists r, parent p = wd ++ r) \/ (exists r, wd = parent p ++ r).
Proof.
  intros [[r ->]|[r ->]].
  - destruct (exists_last_or_nil _ r) as [->|(r' & k & ->)].
    + rewrite app_nil_r. right.
      destruct (exists_last_or_nil _ wd) as [->|(wd' & k & ->)].
      * exists []. reflexivity.
      * exists [k]. rewrite parent_snoc. reflexivity.
    + left. exists r'. rewrite app_assoc, parent_snoc. reflexivity.
  - right. destruct (exists_last_or_nil _ p) as [->|(p' & k & ->)].
    + exists r. reflexivity.
    + exists (k :: r). rewrite parent_snoc, <- app_assoc. reflexivity.
Qed.

Lemma create_success (root root' : node) (p : path) (child : node) :
  no_dotdot p -> FS.create root p child = inr root' ->
  p <> [] /\ is_directory root (parent p) /\
  root' = FS.update root (parent p) (FS.add_entry (last p ""%string) child).
Proof.
  intros Hp Hc. unfold FS.create in Hc.
  destruct p as [|a l]; [discriminate|].
  split; [discriminate|].
  destruct (FS.canon root [] (removelast (a :: l))) as [e|q] eqn:Hcanon; [discriminate|].
  assert (Hq : q = parent (a :: l)).
  { apply (canon_plain root (removelast (a :: l)) (no_dotdot_parent _ Hp) [] q Hcanon). }
  subst q. fold (parent (a :: l)) in Hc.
  destruct (FS.find root (parent (a :: l))) as [[size text|es|]|] eqn:Hf; try discriminate.
  injection Hc as <-. split; [exists es; exact Hf | reflexivity].
Qed.

Lemma create_outside (root root' : node) (wd r : path) (child : node) :
  no_dotdot (wd ++ r) -> r <> [] -> is_directory root wd ->
  FS.create root (wd ++ r) child = inr root' ->
  outside wd root' = outside wd root /\ is_directory root' wd.
Proof.
  intros Hp Hr Hwd Hc.
  destruct (create_success _ _ _ _ Hp Hc) as (_ & _ & ->).
  unfold parent. rewrite (removelast_app wd Hr). split.
  - apply outside_update_below.
  - apply is_directory_update_below; [apply add_entry_keeps_directories | exact Hwd].
Qed.

Lemma stat_on_branch_to_directory (root : node) (p r : path) :
  no_dotdot p -> is_directory root (p ++ r) -> exists n, FS.stat root p = inr (p, n).
Proof.
  intros Hp Hd. destruct (prefix_is_directory root p r Hd) as [es Hes].
  exists (Dir es). apply (stat_found root p _ Hp Hes).
Qed.

Lemma os_mkdir_outside (root root' : node) (p wd : path) :
  no_dotdot p -> is_directory root wd ->
  (exists r, p = wd ++ r) \/ (exists r, wd = p ++ r) ->
  FS.os_mkdir root p = inr root' ->
  outside wd root' = outside wd root /\ is_directory root' wd.
Proof.
  intros Hp Hwd Hbranch Hmk. unfold FS.os_mkdir in Hmk.
  destruct (FS.stat root p) as [e|[q n]] eqn:Hstat; [|discriminate].
  destruct e; try discriminate.
  destruct Hbranch as [[r ->]|[r ->]].
  - destruct r as [|c r].
    + rewrite app_nil_r in Hstat, Hp.
      destruct (stat_on_branch_to_directory root wd [] Hp) as [n Hn];
        [rewrite app_nil_r; exact Hwd | congruence].
    + apply (create_outside root root' wd (c :: r) (Dir []) Hp); [discriminate|exact Hwd|exact Hmk].
  - destruct (stat_on_branch_to_directory root p r Hp Hwd) as [n Hn]. congruence.
Qed.

Lemma mkdir_exist_ok_outside (root root' : node) (p wd : path) :
  no_dotdot p -> is_directory root wd ->
  (exists r, p = wd ++ r) \/ (exists r, wd = p ++ r) ->
  FS.mkdir_exist_ok root p = Val root' ->
  outside wd root' = outside wd root /\ is_directory root' wd.
Proof.
  intros Hp Hwd Hbranch Hmk. unfold FS.mkdir_exist_ok in Hmk.
  destruct (FS.os_mkdir root p) as [e|root1] eqn:Hos.
  - destruct e; try discriminate;
      (destruct (FS.is_dir root p); [|discriminate]);
      injection Hmk as <-; (split; [reflexivity | exact Hwd]).
  - injection Hmk as <-. apply (os_mkdir_outside root root1 p wd Hp Hwd Hbranch Hos).
Qed.

Lemma mkdir_parents_outside (fuel : nat) :
  forall root root' p wd,
    no_dotdot p -> is_directory root wd ->
    (exists r, p = wd ++ r) \/ (exists r, wd = p ++ r) ->
    FS.mkdir_parents fuel root p = Val root' ->
    outside wd root' = outside wd root /\ is_directory root' wd.
Proof.
  induction fuel as [|fuel IH]; intros root root' p wd Hp Hwd Hbranch Hmk.
  - cbn [FS.mkdir_parents] in Hmk.
    destruct (FS.os_mkdir root p) as [e|root1] eqn:Hos.
    + destruct e; try discriminate;
        (destruct (FS.is_dir root p); [|discriminate]);
        injection Hmk as <-; (split; [reflexivity | exact Hwd]).
    + injection Hmk as <-. apply (os_mkdir_outside root root1 p wd Hp Hwd Hbranch Hos).
  - cbn [FS.mkdir_parents] in Hmk.
    destruct (FS.os_mkdir root p) as [e|root1] eqn:Hos.
    + destruct e;
        try ((destruct (FS.is_dir root p); [|discriminate]);
             injection Hmk as <-; (split; [reflexivity | exact Hwd])).
      destruct (FS.mkdir_parents fuel root (parent p)) as [root1|e] eqn:Hrec; [|discriminate].
      destruct (IH root root1 (parent p) wd (no_dotdot_parent _ Hp) Hwd
                  (parent_on_branch _ _ Hbranch) Hrec) as [Hout Hwd1].
      destruct (mkdir_exist_ok_outside root1 root' p wd Hp Hwd1 Hbranch Hmk) as [Hout' Hwd'].
      split; [rewrite Hout'; exact Hout | exact Hwd'].
    + injection Hmk as <-. apply (os_mkdir_outside root root1 p wd Hp Hwd Hbranch Hos).
Qed.

Lemma write_text_outside (root root' : node) (p wd : path) (content : string) :
  no_dotdot p -> is_directory root wd -> (exists r, p = wd ++ r) ->
  FS.write_text root p content = Val root' ->
  outside wd root' = outside wd root.
Proof.
  intros Hp Hwd [r ->] Hwr. unfold FS.write_text in Hwr.
  destruct (FS.stat root (wd ++ r)) as [e|[q n]] eqn:Hstat.
  - destruct e; try discriminate.
    destruct (FS.create root (wd ++ r) (File (PyStr.utf8_len content) (Some content)))
      as [e|root1] eqn:Hc; [discriminate|].
    injection Hwr as <-.
    destruct r as [|c r].
    + rewrite app_nil_r in Hstat, Hp.
      destruct (stat_on_branch_to_directory root wd [] Hp) as [n Hn];
        [rewrite app_nil_r; exact Hwd | congruence].
    + apply (create_outside root root1 wd (c :: r)
               (File (PyStr.utf8_len content) (Some content)) Hp);
        [discriminate|exact Hwd|exact Hc].
  - destruct (stat_plain root (wd ++ r) q n Hp Hstat) as [-> _].
    destruct n as [size text|es|]; try discriminate.
    injection Hwr as <-. apply outside_update_below.
Qed.

(** Outside of the emptied directory, paths lead where they led. *)
Lemma find_outside (wd : path) :
  forall q n, is_relative_to q wd = false -> is_relative_to wd q = false ->
              FS.find (outside wd n) q = FS.find n q.
Proof.
  unfold outside, is_relative_to.
  induction wd as [|c wd IH]; intros q n H1 H2.
  - destruct q; discriminate.
  - destruct q as [|k q]; [discriminate|].
    cbn [starts_with] in H1, H2.
    destruct n as [size text|es|]; [reflexivity| |reflexivity].
    rewrite update_cons, !find_cons.
    destruct (String.eqb_spec k c) as [->|Hne].
    + rewrite String.eqb_refl in H2. cbn [andb] in H1, H2.
      rewrite assoc_set_entry. destruct (assoc c es) as [v|]; [|reflexivity].
      cbn [option_map]. apply (IH q v H1 H2).
    + clear H1 H2 IH. induction es as [|[k' v'] es IHes]; [reflexivity|].
      cbn [FS.set_entry]. destruct (String.eqb_spec k' c) as [->|Hne'].
      * cbn [assoc]. destruct (String.eqb_spec c k) as [->|_]; [congruence | reflexivity].
      * cbn [assoc]. destruct (k' =? k)%string; [reflexivity | exact IHes].
Qed.

(** ** What a call of [write_file] comes to *)

Lemma write_file_write_cases (p : path) (file_path content : string) (w : world)
    (t : list event) :
  no_dotdot p ->
  (exists e t1,
     write_file_write p file_path content (w, t)
     = (Val (write_error_text file_path e), (w, t1))) \/
  (exists root1 root2,
     FS.mkdir (fs w) (parent p) = Val root1 /\
     FS.write_text root1 p content = Val root2 /\
     write_file_write p file_path content (w, t)
     = (Val (Msg.wrote file_path (String.length content)),
        (with_fs w root2, (t ++ [EvMkdir (parent p)]) ++ [EvWrite p content])) /\
     FS.find root2 p = Some (written content) /\ p <> [] /\
     (FS.find (fs w) p = None \/
      exists size text,
        FS.find (fs w) p = Some (File size text) /\
        root2 = FS.update (fs w) p (fun _ => written content))).
Proof.
  intros Hp. rewrite write_file_write_eq.
  destruct (write_phase_outcome (fs w) p content Hp)
    as [[e He]|[[Hmk [e He]]|(root1 & root2 & Hmk & Hwr & Hfind & Hne & Hwas & Hfile)]].
  - left. rewrite He. eexists; eexists; reflexivity.
  - left. rewrite Hmk, He, with_fs_id. eexists; eexists; reflexivity.
  - right. exists root1, root2. rewrite Hmk, Hwr.
    split; [reflexivity|]. split; [reflexivity|]. split; [reflexivity|].
    split; [exact Hfind|]. split; [exact Hne|].
    destruct Hwas as [Hnone|(size & text & Hf)]; [left; exact Hnone|].
    right. exists size, text. split; [exact Hf|]. apply (Hfile _ _ Hf).
Qed.

(** A call of [write_file] on a well-formed tree: it changes nothing
    and does not report success, or it reports success after having
    made the parents of one path [p] and written [p]; [p] has no [..],
    lies at or below the working directory, holds the content, and is
    where the same request is located afterwards. *)
Lemma write_file_outcome (w : world) (working_directory file_path content : string) :
  wf (fs w) = true ->
  (exists r t, run (write_file working_directory file_path content) w = (r, w, t) /\
               r <> Val (Msg.wrote file_path (String.length content))) \/
  (exists wd target p root1 root2 t1,
     contained_request w working_directory file_path wd target /\
     run (write_file working_directory file_path content) w
     = (Val (Msg.wrote file_path (String.length content)), with_fs w root2, t1) /\
     no_dotdot p /\ p <> [] /\ is_relative_to p wd = true /\
     FS.mkdir (fs w) (parent p) = Val root1 /\
     FS.write_text root1 p content = Val root2 /\
     FS.find root2 p = Some (written content) /\
     located root2 wd target (basename file_path) = Some p /\
     In (EvWrite p content) t1).
Proof.
  intros Hwf.
  destruct (resolve_in (cwd w) (PurePath.parse working_directory)) as [wd|e] eqn:Hwd.
  2:{ left. exists (Exc e), []. split; [|discriminate].
      unfold run, write_file.
      rewrite (bind_exc _ _ (w, []) (w, []) e)
        by (unfold resolve; cbn; rewrite Hwd; reflexivity).
      reflexivity. }
  destruct (resolve_in (cwd w)
              (PurePath.joinpath (PurePath.mk true wd) (PurePath.parse file_path)))
    as [target|e] eqn:Htarget.
  2:{ left. exists (Exc e), []. split; [|discriminate].
      unfold run, write_file, resolve_under.
      rewrite (bind_step _ _ (w, []) (w, []) wd)
        by (unfold resolve; cbn; rewrite Hwd; reflexivity).
      rewrite (bind_exc _ _ (w, []) (w, []) e)
        by (unfold resolve; cbn; rewrite Htarget; reflexivity).
      reflexivity. }
  destruct (is_relative_to target wd) eqn:Hrel.
  2:{ left. exists (Val (Msg.denied file_path working_directory)), [].
      split.
      - unfold run, write_file, resolve_under.
        rewrite (bind_step _ _ (w, []) (w, []) wd)
          by (unfold resolve; cbn; rewrite Hwd; reflexivity).
        rewrite (bind_step _ _ (w, []) (w, []) target)
          by (unfold resolve; cbn; rewrite Htarget; reflexivity).
        rewrite Hrel. reflexivity.
      - intros H. apply val_inj in H. apply (wrote_is_not_denied _ _ _ H). }
  assert (Hreq : contained_request w working_directory file_path wd target)
    by (repeat split; assumption).
  assert (Hwdc : no_dotdot wd) by apply (resolve_in_no_dotdot _ _ _ Hwd).
  assert (Htc : no_dotdot target) by apply (resolve_in_no_dotdot _ _ _ Htarget).
  pose proof (write_file_eq w working_directory file_path content wd target Hreq) as Heq.
  cbn zeta in Heq.
  assert (Hfinish : forall t,
            write_file working_directory file_path content (w, [])
            = write_file_write target file_path content (w, t) ->
            (exists r t', run (write_file working_directory file_path content) w = (r, w, t') /\
                          r <> Val (Msg.wrote file_path (String.length content))) \/
            (exists wd target p root1 root2 t1,
               contained_request w working_directory file_path wd target /\
               run (write_file working_directory file_path content) w
               = (Val (Msg.wrote file_path (String.length content)), with_fs w root2, t1) /\
               no_dotdot p /\ p <> [] /\ is_relative_to p wd = true /\
               FS.mkdir (fs w) (parent p) = Val root1 /\
               FS.write_text root1 p content = Val root2 /\
               FS.find root2 p = Some (written content) /\
               located root2 wd target (basename file_path) = Some p /\
               In (EvWrite p content) t1)).
  { intros t Hgo.
    destruct (write_file_write_cases target file_path content w t Htc)
      as [(e & t1 & Hfail)|(root1 & root2 & Hmk & Hwr & Hrun & Hfind & Hne & _)].
    - left. exists (Val (write_error_text file_path e)), t1. split.
      + unfold run. rewrite Hgo, Hfail. reflexivity.
      + intros H. apply val_inj in H. symmetry in H. apply (wrote_is_not_error _ _ _ H).
    - right. exists wd, target, target, root1, root2. eexists.
      split; [exact Hreq|]. split; [unfold run; rewrite Hgo, Hrun; reflexivity|].
      split; [exact Htc|]. split; [exact Hne|]. split; [exact Hrel|].
      split; [exact Hmk|]. split; [exact Hwr|]. split; [exact Hfind|]. split.
      + unfold located.
        assert (Hex : FS.exists_ root2 target = true).
        { apply (exists_plain root2 target Htc). rewrite Hfind. discriminate. }
        rewrite Hex. reflexivity.
      + apply in_or_app. right. left. reflexivity. }
  destruct (negb (FS.exists_ (fs w) target) && negb (FS.exists_ (fs w) (parent target)))
    eqn:Hsearch.
  2:{ apply (Hfinish _ Heq). }
  destruct (Glob.rglob (fs w) wd (basename file_path)) as [[|first rest]|e] eqn:Hg.
  - apply (Hfinish _ Heq).
  - destruct (rglob_basename_results (fs w) wd file_path _ Hwf Hwdc Hg first
                (or_introl eq_refl)) as [[Hfc Hfex]|(d & -> & Hdc & Hdd)].
    + destruct (write_file_write_cases first file_path content w
                  ((if FS.exists_ (fs w) target then [EvExists target]
                    else [EvExists target; EvExists (parent target)])
                   ++ [EvRglob wd (basename file_path)]) Hfc)
        as [(e & t1 & Hfail)|(root1 & root2 & Hmk & Hwr & Hrun & Hfind & Hne & Hwas)].
      * left. exists (Val (write_error_text file_path e)), t1. split.
        -- unfold run. rewrite Heq, Hfail. reflexivity.
        -- intros H. apply val_inj in H. symmetry in H. apply (wrote_is_not_error _ _ _ H).
      * destruct Hwas as [Hnone|(size & text & Hfile & Hroot2)]; [congruence|].
        assert (Hshape : erase root2 = erase (fs w)).
        { rewrite Hroot2. apply (erase_update_file first (fs w) size text _ _ Hfile). }
        right. exists wd, target, first, root1, root2. eexists.
        split; [exact Hreq|]. split; [unfold run; rewrite Heq, Hrun; reflexivity|].
        split; [exact Hfc|]. split; [exact Hne|].
        split; [apply (rglob_relative _ _ _ _ Hg); left; reflexivity|].
        split; [exact Hmk|]. split; [exact Hwr|]. split; [exact Hfind|]. split.
        -- unfold located.
           rewrite (exists_same_shape _ _ _ Hshape), (rglob_same_shape _ _ _ _ Hshape), Hg.
           destruct (FS.exists_ (fs w) target); [discriminate Hsearch | reflexivity].
        -- apply in_or_app. right. left. reflexivity.
    + destruct (write_file_write_dotdot d file_path content w
                  ((if FS.exists_ (fs w) target then [EvExists target]
                    else [EvExists target; EvExists (parent target)])
                   ++ [EvRglob wd (basename file_path)]) Hdc Hdd) as (e & t1 & Hfail).
      left. exists (Val (write_error_text file_path e)), t1. split.
      * unfold run. rewrite Heq, Hfail. reflexivity.
      * intros H. apply val_inj in H. symmetry in H. apply (wrote_is_not_error _ _ _ H).
  - left. exists (Exc e). eexists. split; [|discriminate].
    unfold run. rewrite Heq. reflexivity.
Qed.

(** ** A well-formed tree stays well formed *)

Lemma NoDup_distinct (names : list string) : NoDup names -> distinct names = true.
Proof.
  induction names as [|k t IH]; intros H; [reflexivity|].
  inversion H as [|? ? Hnotin Hnd]; subst. cbn [distinct].
  rewrite (IH Hnd), Bool.andb_true_r. apply Bool.negb_true_iff.
  destruct (existsb (String.eqb k) t) eqn:He; [|reflexivity].
  apply existsb_eqb_in in He. contradiction.
Qed.

Lemma wf_intro (es : list (string * node)) :
  NoDup (map fst es) -> ~ In dotdot (map fst es) ->
  (forall k v, In (k, v) es -> wf v = true) ->
  wf (Dir es) = true.
Proof.
  intros Hnd Hdd Hall.
  change (distinct (map fst es)
          && negb (existsb (String.eqb dotdot) (map fst es))
          && forallb (fun kv => wf (snd kv)) es = true).
  rewrite (NoDup_distinct _ Hnd). cbn [andb].
  apply Bool.andb_true_iff. split.
  - apply Bool.negb_true_iff.
    destruct (existsb (String.eqb dotdot) (map fst es)) eqn:He; [|reflexivity].
    apply existsb_eqb_in in He. contradiction.
  - apply forallb_forall. intros [k v] Hin. apply (Hall k v Hin).
Qed.

Lemma names_set_entry (c : string) (g : node -> node) (es : list (string * node)) :
  map fst (FS.set_entry c g es) = map fst es.
Proof.
  induction es as [|[k v] es IH]; [reflexivity|].
  cbn [FS.set_entry]. destruct (k =? c)%string; cbn [map fst]; [reflexivity|].
  rewrite IH. reflexivity.
Qed.

Lemma in_set_entry (c : string) (g : node -> node) (es : list (string * node))
    (k : string) (v : node) :
  In (k, v) (FS.set_entry c g es) ->
  In (k, v) es \/ exists v0, assoc c es = Some v0 /\ v = g v0.
Proof.
  induction es as [|[k' v'] es IH]; intros Hin; [destruct Hin|].
  cbn [FS.set_entry] in Hin. cbn [assoc].
  destruct (k' =? c)%string.
  - destruct Hin as [Heq|Hin].
    + injection Heq as <- <-. right. exists v'. split; reflexivity.
    + left. right. exact Hin.
  - destruct Hin as [Heq|Hin].
    + left. left. exact Heq.
    + destruct (IH Hin) as [H|H]; [left; right; exact H | right; exact H].
Qed.

Lemma wf_update (p : path) :
  forall n f,
    wf n = true ->
    (forall m, FS.find n p = Some m -> wf m = true -> wf (f m) = true) ->
    wf (FS.update n p f) = true.
Proof.
  induction p as [|c r IH]; intros n f Hwf Hf.
  - apply (Hf n eq_refl Hwf).
  - destruct n as [size text|es|]; [exact Hwf| |exact Hwf].
    rewrite update_cons. destruct (wf_dir es Hwf) as (Hnd & Hdd & Hall).
    apply wf_intro.
    + rewrite names_set_entry. exact Hnd.
    + rewrite names_set_entry. exact Hdd.
    + intros k v Hin. destruct (in_set_entry _ _ _ _ _ Hin) as [H|(v0 & Hv0 & ->)].
      * apply (Hall k v H).
      * apply IH; [apply (Hall c v0 (assoc_some_in _ _ _ Hv0))|].
        intros m Hm. apply Hf. rewrite find_cons, Hv0. exact Hm.
Qed.

Lemma assoc_none_not_in (es : list (string * node)) (k : string) :
  assoc k es = None -> ~ In k (map fst es).
Proof.
  induction es as [|[k' v'] es IH]; intros H Hin; [destruct Hin|].
  cbn [assoc] in H. destruct (String.eqb_spec k' k) as [->|Hne]; [discriminate|].
  destruct Hin as [Heq|Hin]; [apply Hne; exact Heq | apply (IH H Hin)].
Qed.

Lemma wf_add_entry (es : list (string * node)) (k : string) (child : node) :
  wf (Dir es) = true -> assoc k es = None -> k <> dotdot -> wf child = true ->
  wf (FS.add_entry k child (Dir es)) = true.
Proof.
  intros Hwf Hnone Hk Hchild. destruct (wf_dir es Hwf) as (Hnd & Hdd & Hall).
  cbn [FS.add_entry]. apply wf_intro.
  - rewrite map_app. cbn [map fst]. apply NoDup_app.
    + exact Hnd.
    + constructor; [intros []|constructor].
    + intros x Hx [<-|[]]. apply (assoc_none_not_in _ _ Hnone Hx).
  - rewrite map_app. cbn [map fst]. intros Hin. apply in_app_or in Hin.
    destruct Hin as [Hin|[Heq|[]]]; [apply (Hdd Hin) | apply Hk; exact Heq].
  - intros k' v Hin. apply in_app_or in Hin. destruct Hin as [Hin|[Heq|[]]].
    + apply (Hall k' v Hin).
    + injection Heq as <- <-. exact Hchild.
Qed.

Lemma last_not_dotdot (p : path) : no_dotdot p -> p <> [] -> last p ""%string <> dotdot.
Proof.
  intros Hp Hne Heq. apply Hp. rewrite <- Heq.
  destruct (last_in_or_default _ p ""%string) as [H|H]; [contradiction | exact H].
Qed.

Lemma create_keeps_wf (root root' : node) (p : path) (child : node) :
  wf root = true -> no_dotdot p -> FS.find root p = None -> wf child = true ->
  FS.create root p child = inr root' -> wf root' = true.
Proof.
  intros Hwf Hp Hnone Hchild Hc.
  destruct (create_success _ _ _ _ Hp Hc) as (Hne & [es Hes] & ->).
  apply wf_update; [exact Hwf|]. intros m Hm Hwfm.
  rewrite Hes in Hm. injection Hm as <-.
  apply wf_add_entry; [exact Hwfm| |apply (last_not_dotdot p Hp Hne)|exact Hchild].
  apply (find_missing_child root (parent p) _ es Hes).
  rewrite <- (split_last p Hne). exact Hnone.
Qed.

Lemma stat_enoent_missing (root : node) (p : path) :
  no_dotdot p -> FS.stat root p = inl ENOENT -> FS.find root p = None.
Proof.
  intros Hp Hstat. destruct (FS.find root p) as [n|] eqn:Hf; [|reflexivity].
  rewrite (stat_found root p n Hp Hf) in Hstat. discriminate.
Qed.

Lemma os_mkdir_keeps_wf (root root' : node) (p : path) :
  wf root = true -> no_dotdot p -> FS.os_mkdir root p = inr root' -> wf root' = true.
Proof.
  intros Hwf Hp Hmk. unfold FS.os_mkdir in Hmk.
  destruct (FS.stat root p) as [e|[q n]] eqn:Hstat; [|discriminate].
  destruct e; try discriminate.
  apply (create_keeps_wf root root' p (Dir []) Hwf Hp
           (stat_enoent_missing root p Hp Hstat) eq_refl Hmk).
Qed.

Lemma mkdir_exist_ok_keeps_wf (root root' : node) (p : path) :
  wf root = true -> no_dotdot p -> FS.mkdir_exist_ok root p = Val root' -> wf root' = true.
Proof.
  intros Hwf Hp Hmk. unfold FS.mkdir_exist_ok in Hmk.
  destruct (FS.os_mkdir root p) as [e|root1] eqn:Hos.
  - destruct e; try discriminate;
      (destruct (FS.is_dir root p); [|discriminate]); injection Hmk as <-; exact Hwf.
  - injection Hmk as <-. apply (os_mkdir_keeps_wf root root1 p Hwf Hp Hos).
Qed.

Lemma mkdir_parents_keeps_wf (fuel : nat) :
  forall root root' p,
    wf root = true -> no_dotdot p -> FS.mkdir_parents fuel root p = Val root' ->
    wf root' = true.
Proof.
  induction fuel as [|fuel IH]; intros root root' p Hwf Hp Hmk;
    cbn [FS.mkdir_parents] in Hmk;
    destruct (FS.os_mkdir root p) as [e|root1] eqn:Hos;
    try (injection Hmk as <-; apply (os_mkdir_keeps_wf root root1 p Hwf Hp Hos)).
  - destruct e; try discriminate;
      (destruct (FS.is_dir root p); [|discriminate]); injection Hmk as <-; exact Hwf.
  - destruct e;
      try ((destruct (FS.is_dir root p); [|discriminate]); injection Hmk as <-; exact Hwf).
    destruct (FS.mkdir_parents fuel root (parent p)) as [root1|e] eqn:Hrec; [|discriminate].
    apply (mkdir_exist_ok_keeps_wf root1 root' p); [|exact Hp|exact Hmk].
    apply (IH root root1 (parent p) Hwf (no_dotdot_parent _ Hp) Hrec).
Qed.

Lemma write_text_keeps_wf (root root' : node) (p : path) (content : string) :
  wf root = true -> no_dotdot p -> FS.write_text root p content = Val root' ->
  wf root' = true.
Proof.
  intros Hwf Hp Hwr. unfold FS.write_text in Hwr.
  destruct (FS.stat root p) as [e|[q n]] eqn:Hstat.
  - destruct e; try discriminate.
    destruct (FS.create root p (File (PyStr.utf8_len content) (Some content)))
      as [e|root1] eqn:Hc; [discriminate|].
    injection Hwr as <-.
    apply (create_keeps_wf root root1 p (File (PyStr.utf8_len content) (Some content))
             Hwf Hp (stat_enoent_missing root p Hp Hstat) eq_refl Hc).
  - destruct n as [size text|es|]; try discriminate.
    injection Hwr as <-. apply wf_update; [exact Hwf|]. intros; reflexivity.
Qed.

Lemma write_text_keeps_directory (root root' : node) (p wd : path) (content : string) :
  no_dotdot p -> is_directory root wd -> (exists r, p = wd ++ r) ->
  FS.write_text root p content = Val root' ->
  is_directory root' wd.
Proof.
  intros Hp Hwd [r ->] Hwr. unfold FS.write_text in Hwr.
  destruct (FS.stat root (wd ++ r)) as [e|[q n]] eqn:Hstat.
  - destruct e; try discriminate.
    destruct (FS.create root (wd ++ r) (File (PyStr.utf8_len content) (Some content)))
      as [e|root1] eqn:Hc; [discriminate|].
    injection Hwr as <-.
    destruct r as [|c r].
    + rewrite app_nil_r in Hstat, Hp.
      destruct (stat_on_branch_to_directory root wd [] Hp) as [n Hn];
        [rewrite app_nil_r; exact Hwd | congruence].
    + apply (create_outside root root1 wd (c :: r)
               (File (PyStr.utf8_len content) (Some content)) Hp);
        [discriminate|exact Hwd|exact Hc].
  - destruct (stat_plain root (wd ++ r) q n Hp Hstat) as [-> Hfind].
    destruct n as [size text|es|]; try discriminate.
    injection Hwr as <-.
    destruct r as [|c r].
    + rewrite app_nil_r in Hfind. destruct Hwd as [es Hes]. congruence.
    + destruct Hwd as [es Hes]. unfold is_directory.
      rewrite find_update_prefix, Hes. cbn [option_map]. rewrite update_cons.
      eexists; reflexivity.
Qed.

Lemma write_file_keeps_outside
    (w : world) (working_directory file_path content : string) (working_dir : path) :
  wf (fs w) = true ->
  resolve_in (cwd w) (PurePath.parse working_directory) = Val working_dir ->
  is_directory (fs w) working_dir ->
  let w' := snd (fst (run (write_file working_directory file_path content) w)) in
  outside working_dir (fs w') = outside working_dir (fs w) /\
  cwd w' = cwd w /\ interpreter w' = interpreter w /\
  wf (fs w') = true /\ is_directory (fs w') working_dir.
Proof.
  intros Hwf Hwd Hdir w'. unfold w'.
  destruct (write_file_outcome w working_directory file_path content Hwf)
    as [(r & t & Hrun & _)
       |(wd & target & p & root1 & root2 & t1 & Hreq & Hrun & Hp & Hne & Hrel
         & Hmk & Hwr & _)].
  - rewrite Hrun. repeat split; try reflexivity; assumption.
  - rewrite Hrun. cbn [fst snd with_fs fs cwd interpreter].
    destruct Hreq as (Hwd' & _ & _). rewrite Hwd in Hwd'. injection Hwd' as <-.
    destruct (starts_with_inv _ _ Hrel) as [r Hr].
    assert (Hbranch : (exists r, p = working_dir ++ r) \/ (exists r, working_dir = p ++ r))
      by (left; exists r; exact Hr).
    destruct (mkdir_parents_outside _ _ _ _ _ (no_dotdot_parent _ Hp) Hdir
                (parent_on_branch _ _ Hbranch) Hmk) as [Hout1 Hdir1].
    pose proof (mkdir_parents_keeps_wf _ _ _ _ Hwf (no_dotdot_parent _ Hp) Hmk) as Hwf1.
    split.
    { rewrite (write_text_outside root1 root2 p working_dir content Hp Hdir1
                 (ex_intro _ r Hr) Hwr).
      exact Hout1. }
    split; [reflexivity|]. split; [reflexivity|]. split.
    + apply (write_text_keeps_wf root1 root2 p content Hwf1 Hp Hwr).
    + apply (write_text_keeps_directory root1 root2 p working_dir content Hp Hdir1
               (ex_intro _ r Hr) Hwr).
Qed.

(** X2.  On a file system without symbolic links, [write_file] changes
    nothing outside of the working directory: when the working
    directory is an existing directory of a well-formed tree, then for
    every requested path and content, and whatever the call returns,
    the tree in which the working directory is emptied is the same
    before and after the call; so every path that is neither at or
    below the working directory nor above it leads to the same file or
    directory as before.  (The tree has no links.  With a link inside
    the working directory the program can write outside: it checks
    the path found by the search by its components only, and [open]
    follows links.) *)
Theorem write_file_changes_nothing_outside
    (w : world) (working_directory file_path content : string) (working_dir : path) :
  wf (fs w) = true ->
  resolve_in (cwd w) (PurePath.parse working_directory) = Val working_dir ->
  is_directory (fs w) working_dir ->
  let w' := snd (fst (run (write_file working_directory file_path content) w)) in
  outside working_dir (fs w') = outside working_dir (fs w) /\
  (forall q, is_relative_to q working_dir = false -> is_relative_to working_dir q = false ->
             FS.find (fs w') q = FS.find (fs w) q) /\
  cwd w' = cwd w /\ interpreter w' = interpreter w.
Proof.
  intros Hwf Hwd Hdir w'.
  destruct (write_file_keeps_outside w working_directory file_path content working_dir
              Hwf Hwd Hdir) as (Hout & Hcwd & Hint & _).
  fold w' in Hout, Hcwd, Hint.
  split; [exact Hout|]. split; [|split; assumption].
  intros q H1 H2.
  rewrite <- (find_outside working_dir q (fs w') H1 H2), Hout.
  apply (find_outside working_dir q (fs w) H1 H2).
Qed.

(** From [/w] of the sample world [new/dir/f.txt] is written, which
    makes two directories and a file below [/w]; [/etc/passwd] is as
    before. *)
Lemma write_file_changes_nothing_outside_witness :
  let w' := snd (fst (run (write_file "/w" "new/dir/f.txt" "data") sample_world)) in
  outside ["w"%string] (fs w') = outside ["w"%string] (fs sample_world) /\
  (forall q, is_relative_to q ["w"%string] = false -> is_relative_to ["w"%string] q = false ->
             FS.find (fs w') q = FS.find (fs sample_world) q) /\
  cwd w' = cwd sample_world /\ interpreter w' = interpreter sample_world.
Proof.
  apply (write_file_changes_nothing_outside sample_world "/w" "new/dir/f.txt" "data"
           ["w"%string]).
  - reflexivity.
  - reflexivity.
  - eexists. reflexivity.
Defined.

(** ** Reading what was written *)

Lemma get_file_content_read_cases (m : path) (file_path : string) (w : world)
    (t : list event) :
  get_file_content_read m file_path (w, t)
  = match FS.lookup (fs w) m with
    | Some (File _ (Some raw)) =>
        (Val (shown file_path (PyStr.universal_newlines raw)),
         (w, (t ++ [EvIsFile m]) ++ [EvRead m]))
    | Some (File _ None) =>
        (Val (Msg.read_binary file_path), (w, (t ++ [EvIsFile m]) ++ [EvRead m]))
    | _ => (Val (Msg.not_regular file_path), (w, t ++ [EvIsFile m]))
    end.
Proof.
  unfold get_file_content_read.
  rewrite (bind_step _ _ _ _ _ (path_is_file_step _ _ _)).
  unfold FS.is_file.
  destruct (FS.lookup (fs w) m) as [[size [raw|]|es|]|] eqn:Hlook; try reflexivity.
  - destruct (lookup_stat _ _ _ Hlook) as [q Hstat].
    cbn [negb]. unfold try_except, bind. rewrite read_text_step.
    unfold FS.read_text. rewrite Hstat. unfold shown.
    destruct (MAX_FILE_CONTENT_LENGTH
              <? N.of_nat (String.length (PyStr.universal_newlines raw)))%N; reflexivity.
  - destruct (lookup_stat _ _ _ Hlook) as [q Hstat].
    cbn [negb]. unfold try_except, bind. rewrite read_text_step.
    unfold FS.read_text. rewrite Hstat. reflexivity.
Qed.

(** Without a carriage return, text mode reads a text as it is. *)
Lemma universal_newlines_id (s : string) :
  PyStr.contains_char PyStr.cr s = false -> PyStr.universal_newlines s = s.
Proof.
  induction s as [|c s IH]; [reflexivity|].
  cbn [PyStr.contains_char PyStr.universal_newlines]. intros H.
  apply Bool.orb_false_iff in H. destruct H as [Hc Hs].
  rewrite Ascii.eqb_sym in Hc. rewrite Hc, (IH Hs). reflexivity.
Qed.

(** X3.  What [write_file] reports as written is what [get_file_content]
    returns for the same request afterwards: on a well-formed tree,
    when [write_file] returns its success text, [get_file_content] with
    the same working directory and path returns the content as text
    mode reads it (CR LF and CR become LF), cut at the limit when it is
    longer, and leaves the world as it is; a content without a carriage
    return and within the limit comes back as it was given.  This
    holds as well when the write went to a file found by the search. *)
Theorem written_file_reads_back
    (w : world) (working_directory file_path content : string) :
  wf (fs w) = true ->
  fst (fst (run (write_file working_directory file_path content) w))
  = Val (Msg.wrote file_path (String.length content)) ->
  let w1 := snd (fst (run (write_file working_directory file_path content) w)) in
  fst (run (get_file_content working_directory file_path) w1)
  = (Val (shown file_path (PyStr.universal_newlines content)), w1) /\
  (PyStr.contains_char PyStr.cr content = false ->
   (N.of_nat (String.length content) <= 10240)%N ->
   fst (run (get_file_content working_directory file_path) w1) = (Val content, w1)).
Proof.
  intros Hwf Hok w1. unfold w1. clear w1.
  assert (Hread : fst (run (get_file_content working_directory file_path)
                         (snd (fst (run (write_file working_directory file_path content) w))))
                  = (Val (shown file_path (PyStr.universal_newlines content)),
                     snd (fst (run (write_file working_directory file_path content) w)))).
  { destruct (write_file_outcome w working_directory file_path content Hwf)
      as [(r & t & Hrun & Hno)
         |(wd & target & p & root1 & root2 & t1 & Hreq & Hrun & Hp & Hne & Hrel
           & Hmk & Hwr & Hfind & Hloc & _)].
    - rewrite Hrun in Hok. cbn [fst] in Hok. contradiction.
    - rewrite Hrun. cbn [fst snd].
      unfold run.
      rewrite (get_file_content_located (with_fs w root2) working_directory file_path
                 wd target p (contained_request_with_fs _ _ _ _ _ _ Hreq) Hloc).
      rewrite get_file_content_read_cases. cbn [with_fs fs].
      rewrite (lookup_plain root2 p Hp), Hfind. reflexivity. }
  split; [exact Hread|].
  intros Hcr Hshort. rewrite Hread. rewrite (universal_newlines_id content Hcr).
  unfold shown, MAX_FILE_CONTENT_LENGTH.
  apply N.ltb_ge in Hshort. rewrite Hshort. reflexivity.
Qed.

(** In the sample world [new/dir/notes.txt] is asked for from [/w]:
    the write goes to [pkg/notes.txt], and so does the read. *)
Lemma written_file_reads_back_witness :
  let w1 := snd (fst (run (write_file "/w" "new/dir/notes.txt" "data") sample_world)) in
  fst (run (get_file_content "/w" "new/dir/notes.txt") w1)
  = (Val (shown "new/dir/notes.txt" (PyStr.universal_newlines "data")), w1) /\
  (PyStr.contains_char PyStr.cr "data" = false ->
   (N.of_nat (String.length "data") <= 10240)%N ->
   fst (run (get_file_content "/w" "new/dir/notes.txt") w1) = (Val "data"%string, w1)).
Proof.
  apply (written_file_reads_back sample_world "/w" "new/dir/notes.txt" "data").
  - reflexivity.
  - reflexivity.
Defined.



(** ** The four functions, from the request to the path worked on *)

Lemma normalise_incl (l : list string) :
  forall acc x, In x (normalise acc l) -> In x acc \/ In x l.
Proof.
  induction l as [|c l IH]; intros acc x Hin; [left; exact Hin|].
  cbn [normalise] in Hin. destruct (c =? dotdot)%string.
  - destruct (IH _ _ Hin) as [H|H].
    + left. apply (in_removelast _ _ _ H).
    + right. right. exact H.
  - destruct (IH _ _ Hin) as [H|H].
    + apply in_app_or in H. destruct H as [H|[<-|[]]].
      * left. exact H.
      * right. left. reflexivity.
    + right. right. exact H.
Qed.

Lemma resolve_in_no_nul (current : path) (pp : PurePath.t) (p : path) :
  resolve_in current pp = Val p -> existsb has_nul p = false.
Proof.
  unfold resolve_in. intros H.
  destruct (existsb has_nul _) eqn:Hnul; [discriminate|].
  injection H as <-.
  destruct (existsb has_nul (normalise [] _)) eqn:Hn; [|reflexivity].
  apply existsb_exists in Hn. destruct Hn as (x & Hin & Hx).
  destruct (normalise_incl _ _ _ Hin) as [[]|Hin'].
  assert (Hc : existsb has_nul
                 (if PurePath.absolute pp then PurePath.parts pp
                  else current ++ PurePath.parts pp) = true)
    by (apply existsb_exists; exists x; split; assumption).
  congruence.
Qed.

Lemma resolve_in_raises (current : path) (pp : PurePath.t) (e : exn) :
  resolve_in current pp = Exc e -> e = ValueError embedded_null.
Proof.
  unfold resolve_in. destruct (existsb has_nul _); intros H; [|discriminate].
  injection H as <-. reflexivity.
Qed.

Lemma resolve_again (current : path) (pp : PurePath.t) (p : path) (current' : path) :
  resolve_in current pp = Val p -> resolve_in current' (PurePath.mk true p) = Val p.
Proof.
  intros H. unfold resolve_in. cbn [PurePath.absolute PurePath.parts].
  rewrite (resolve_in_no_nul _ _ _ H).
  rewrite (normalise_plain p [] (resolve_in_no_dotdot _ _ _ H)). reflexivity.
Qed.

Lemma contained_dot (w : world) (working_directory : string) (working_dir : path) :
  resolve_in (cwd w) (PurePath.parse working_directory) = Val working_dir ->
  contained_request w working_directory "." working_dir working_dir.
Proof.
  intros H. split; [exact H|]. split.
  - change (PurePath.joinpath (PurePath.mk true working_dir) (PurePath.parse "."))
      with (PurePath.mk true (working_dir ++ [])).
    rewrite app_nil_r. apply (resolve_again _ _ _ _ H).
  - apply starts_with_refl.
Qed.

(** How a request is received: an exception of [resolve], a path
    outside of the working directory, or a contained request. *)
Lemma request_cases (w : world) (working_directory requested : string) :
  resolve_in (cwd w) (PurePath.parse working_directory) = Exc (ValueError embedded_null) \/
  (exists wd,
     resolve_in (cwd w) (PurePath.parse working_directory) = Val wd /\
     resolve_in (cwd w) (PurePath.joinpath (PurePath.mk true wd) (PurePath.parse requested))
     = Exc (ValueError embedded_null)) \/
  (exists wd target,
     resolve_in (cwd w) (PurePath.parse working_directory) = Val wd /\
     resolve_in (cwd w) (PurePath.joinpath (PurePath.mk true wd) (PurePath.parse requested))
     = Val target /\
     is_relative_to target wd = false) \/
  (exists wd target, contained_request w working_directory requested wd target).
Proof.
  destruct (resolve_in (cwd w) (PurePath.parse working_directory)) as [wd|e] eqn:Hwd.
  2:{ left. rewrite (resolve_in_raises _ _ _ Hwd). reflexivity. }
  destruct (resolve_in (cwd w)
              (PurePath.joinpath (PurePath.mk true wd) (PurePath.parse requested)))
    as [target|e] eqn:Htarget.
  2:{ right. left. exists wd. rewrite <- (resolve_in_raises _ _ _ Htarget). split; [reflexivity|exact Htarget]. }
  destruct (is_relative_to target wd) eqn:Hrel.
  - right. right. right. exists wd, target. repeat split; assumption.
  - right. right. left. exists wd, target. repeat split; assumption.
Qed.

Lemma get_file_content_eq (w : world) (working_directory file_path : string)
    (working_dir target : path) :
  contained_request w working_directory file_path working_dir target ->
  let searched := [EvExists target; EvRglob working_dir (basename file_path)] in
  get_file_content working_directory file_path (w, [])
  = if FS.exists_ (fs w) target
    then get_file_content_read target file_path (w, [EvExists target])
    else match Glob.rglob (fs w) working_dir (basename file_path) with
         | Exc e => (Exc e, (w, searched))
         | Val [] => (Val (Msg.not_found file_path), (w, searched))
         | Val (first :: _) => get_file_content_read first file_path (w, searched)
         end.
Proof.
  intros (Hwd & Htarget & Hrel) searched.
  unfold get_file_content, resolve_under.
  rewrite (bind_step _ _ (w, []) (w, []) working_dir)
    by (unfold resolve; cbn; rewrite Hwd; reflexivity).
  rewrite (bind_step _ _ (w, []) (w, []) target)
    by (unfold resolve; cbn; rewrite Htarget; reflexivity).
  rewrite Hrel. cbn [negb].
  rewrite (bind_step _ _ _ _ _ (path_exists_step _ _ _)). cbn [app].
  destruct (FS.exists_ (fs w) target); [reflexivity|]. cbn [negb].
  unfold bind at 1. rewrite path_rglob_step. fold (basename file_path). cbn [app]. fold searched.
  destruct (Glob.rglob (fs w) working_dir (basename file_path)) as [[|first rest]|e] eqn:Hg;
    try reflexivity.
  assert (Hfirst : is_relative_to first working_dir = true)
    by (apply (rglob_relative _ _ _ _ Hg); left; reflexivity).
  rewrite Hfirst. reflexivity.
Qed.

Lemma run_python_file_eq (w : world) (working_directory file_path : string)
    (args : list string) (working_dir target : path) :
  contained_request w working_directory file_path working_dir target ->
  let searched := [EvExists target; EvRglob working_dir (basename file_path)] in
  run_python_file working_directory file_path args (w, [])
  = if FS.exists_ (fs w) target
    then run_python_file_exec working_dir target file_path args (w, [EvExists target])
    else match Glob.rglob (fs w) working_dir (basename file_path) with
         | Exc e => (Exc e, (w, searched))
         | Val [] => (Val (Msg.not_found file_path), (w, searched))
         | Val (first :: _) =>
             run_python_file_exec working_dir first file_path args (w, searched)
         end.
Proof.
  intros (Hwd & Htarget & Hrel) searched.
  unfold run_python_file, resolve_under.
  rewrite (bind_step _ _ (w, []) (w, []) working_dir)
    by (unfold resolve; cbn; rewrite Hwd; reflexivity).
  rewrite (bind_step _ _ (w, []) (w, []) target)
    by (unfold resolve; cbn; rewrite Htarget; reflexivity).
  rewrite Hrel. cbn [negb].
  rewrite (bind_step _ _ _ _ _ (path_exists_step _ _ _)). cbn [app].
  destruct (FS.exists_ (fs w) target); [reflexivity|]. cbn [negb].
  unfold bind at 1. rewrite path_rglob_step. fold (basename file_path). cbn [app]. fold searched.
  destruct (Glob.rglob (fs w) working_dir (basename file_path)) as [[|first rest]|e] eqn:Hg;
    try reflexivity.
  assert (Hfirst : is_relative_to first working_dir = true)
    by (apply (rglob_relative _ _ _ _ Hg); left; reflexivity).
  rewrite Hfirst. reflexivity.
Qed.

Lemma get_files_info_eq (w : world) (working_directory directory : string)
    (working_dir target : path) :
  contained_request w working_directory directory working_dir target ->
  let searched := [EvExists target; EvRglob working_dir directory] in
  get_files_info working_directory directory (w, [])
  = if FS.exists_ (fs w) target || (directory =? ".")%string
    then get_files_info_listing target directory (w, [EvExists target])
    else match Glob.rglob (fs w) working_dir directory with
         | Exc e => (Exc e, (w, searched))
         | Val [] => (Val (Msg.list_not_found directory), (w, searched))
         | Val (first :: _) => get_files_info_listing first directory (w, searched)
         end.
Proof.
  intros Hreq searched.
  destruct (String.eqb_spec directory ".") as [->|Hdot].
  - destruct Hreq as (Hwd & Htarget & Hrel).
    pose proof (resolve_under_dot _ _ _ _ Hwd Htarget) as ->.
    rewrite Bool.orb_true_r. apply (get_files_info_dot _ _ _ Hwd).
  - rewrite Bool.orb_false_r.
    destruct Hreq as (Hwd & Htarget & Hrel).
    apply String.eqb_neq in Hdot.
    unfold get_files_info, resolve_under. rewrite Hdot.
    rewrite (bind_step _ _ (w, []) (w, []) working_dir)
      by (unfold resolve; cbn; rewrite Hwd; reflexivity).
    rewrite (bind_step _ _ (w, []) (w, []) target)
      by (unfold resolve; cbn; rewrite Htarget; reflexivity).
    rewrite Hrel. cbn [negb].
    rewrite (bind_step _ _ _ _ _ (path_exists_step _ _ _)). cbn [app].
    destruct (FS.exists_ (fs w) target); [reflexivity|]. cbn [negb andb].
    unfold bind at 1. rewrite path_rglob_step. cbn [app]. fold searched.
    destruct (Glob.rglob (fs w) working_dir directory) as [[|first rest]|e] eqn:Hg;
      try reflexivity.
    assert (Hfirst : is_relative_to first working_dir = true)
      by (apply (rglob_relative _ _ _ _ Hg); left; reflexivity).
    rewrite Hfirst. reflexivity.
Qed.

(** The calls that end before the containment check is passed. *)
Lemma not_contained_outcomes (w : world) (working_directory requested content : string)
    (args : list string) :
  (forall wd target, ~ contained_request w working_directory requested wd target) ->
  exists r1 r2,
    (r1 = Exc (ValueError embedded_null) \/ r1 = Val (Msg.list_denied requested working_directory)) /\
    (r2 = Exc (ValueError embedded_null) \/ r2 = Val (Msg.denied requested working_directory)) /\
    run (get_files_info working_directory requested) w = (r1, w, []) /\
    run (get_file_content working_directory requested) w = (r2, w, []) /\
    run (write_file working_directory requested content) w = (r2, w, []) /\
    run (run_python_file working_directory requested args) w = (r2, w, []).
Proof.
  intros Hno.
  assert (Hdot : requested <> "."%string \/
                 resolve_in (cwd w) (PurePath.parse working_directory)
                 = Exc (ValueError embedded_null)).
  { destruct (String.eqb_spec requested ".") as [->|Hne]; [|left; exact Hne].
    destruct (resolve_in (cwd w) (PurePath.parse working_directory)) as [wd|e] eqn:Hwd.
    - destruct (Hno wd wd (contained_dot _ _ _ Hwd)).
    - right. rewrite (resolve_in_raises _ _ _ Hwd). reflexivity. }
  destruct (request_cases w working_directory requested)
    as [Hwd|[(wd & Hwd & Htarget)|[(wd & target & Hwd & Htarget & Hrel)|(wd & target & Hreq)]]].
  - exists (Exc (ValueError embedded_null)), (Exc (ValueError embedded_null)).
    split; [left; reflexivity|]. split; [left; reflexivity|].
    repeat split;
      unfold run, get_files_info, get_file_content, write_file, run_python_file;
      rewrite (bind_exc _ _ (w, []) (w, []) (ValueError embedded_null))
        by (unfold resolve; cbn; rewrite Hwd; reflexivity);
      reflexivity.
  - destruct Hdot as [Hdot|Hdot]; [|congruence].
    apply String.eqb_neq in Hdot.
    exists (Exc (ValueError embedded_null)), (Exc (ValueError embedded_null)).
    split; [left; reflexivity|]. split; [left; reflexivity|].
    repeat split;
      unfold run, get_files_info, get_file_content, write_file, run_python_file, resolve_under;
      rewrite ?Hdot;
      rewrite (bind_step _ _ (w, []) (w, []) wd)
        by (unfold resolve; cbn; rewrite Hwd; reflexivity);
      rewrite (bind_exc _ _ (w, []) (w, []) (ValueError embedded_null))
        by (unfold resolve; cbn; rewrite Htarget; reflexivity);
      reflexivity.
  - destruct Hdot as [Hdot|Hdot]; [|congruence].
    apply String.eqb_neq in Hdot.
    exists (Val (Msg.list_denied requested working_directory)),
           (Val (Msg.denied requested working_directory)).
    split; [right; reflexivity|]. split; [right; reflexivity|].
    repeat split;
      unfold run, get_files_info, get_file_content, write_file, run_python_file, resolve_under;
      rewrite ?Hdot;
      rewrite (bind_step _ _ (w, []) (w, []) wd)
        by (unfold resolve; cbn; rewrite Hwd; reflexivity);
      rewrite (bind_step _ _ (w, []) (w, []) target)
        by (unfold resolve; cbn; rewrite Htarget; reflexivity);
      rewrite Hrel; reflexivity.
  - destruct (Hno wd target Hreq).
Qed.

Lemma contained_or_not (w : world) (working_directory requested : string) :
  (exists wd target, contained_request w working_directory requested wd target) \/
  (forall wd target, ~ contained_request w working_directory requested wd target).
Proof.
  destruct (request_cases w working_directory requested)
    as [Hwd|[(wd & Hwd & Htarget)|[(wd & target & Hwd & Htarget & Hrel)|Hreq]]].
  - right. intros wd' target' (H1 & _ & _). congruence.
  - right. intros wd' target' (H1 & H2 & _).
    rewrite Hwd in H1. injection H1 as <-. congruence.
  - right. intros wd' target' (H1 & H2 & H3).
    rewrite Hwd in H1. injection H1 as <-.
    rewrite Htarget in H2. injection H2 as <-. congruence.
  - left. exact Hreq.
Qed.

(** A regular file the search for a base name has found is a file of
    the tree, at a path without [..]. *)
Lemma found_file_is_clean (root : node) (wd : path) (file_path : string)
    (first : path) (rest : list path) :
  wf root = true -> no_dotdot wd ->
  Glob.rglob root wd (basename file_path) = Val (first :: rest) ->
  FS.is_file root first = true ->
  no_dotdot first /\ exists size text, FS.find root first = Some (File size text).
Proof.
  intros Hwf Hwd Hg Hfile.
  destruct (rglob_basename_results root wd file_path _ Hwf Hwd Hg first (or_introl eq_refl))
    as [[Hfc _]|(d & -> & Hdc & Hdd)].
  - split; [exact Hfc|]. unfold FS.is_file in Hfile.
    rewrite (lookup_plain root first Hfc) in Hfile.
    destruct (FS.find root first) as [[size text|es|]|]; try discriminate.
    exists size, text. reflexivity.
  - destruct (stat_dotdot root d Hdc Hdd) as (q & es & Hs).
    unfold FS.is_file, FS.lookup in Hfile. rewrite Hs in Hfile. discriminate.
Qed.

Lemma literal_file_is_clean (root : node) (target : path) :
  no_dotdot target -> FS.is_file root target = true ->
  exists size text, FS.find root target = Some (File size text).
Proof.
  intros Hc Hfile. unfold FS.is_file in Hfile.
  rewrite (lookup_plain root target Hc) in Hfile.
  destruct (FS.find root target) as [[size text|es|]|]; try discriminate.
  exists size, text. reflexivity.
Qed.

(** ** What [run_python_file] starts *)

Lemma run_python_file_exec_spawns (working_dir m : path) (file_path : string)
    (args : list string) (w : world) (t : list event) (cmd : list string) (dir : path) :
  In (EvSpawn cmd dir)
     (snd (snd (run_python_file_exec working_dir m file_path args (w, t)))) ->
  In (EvSpawn cmd dir) t \/
  (cmd = "python"%string :: str_of_path m :: args /\ dir = working_dir /\
   FS.is_file (fs w) m = true /\ PyStr.endswith (PyStr.lower file_path) ".py" = true).
Proof.
  destruct (FS.is_file (fs w) m) eqn:Hfile.
  - destruct (PyStr.endswith (PyStr.lower file_path) ".py") eqn:Hpy.
    + rewrite (run_python_file_exec_eq working_dir m file_path args w t Hfile Hpy).
      assert (Hstep : forall tail,
                In (EvSpawn cmd dir)
                   (((t ++ [EvIsFile m])
                     ++ [EvSpawn ("python"%string :: str_of_path m :: args) working_dir])
                    ++ tail) ->
                (forall ev, In ev tail -> ev = EvKill) ->
                In (EvSpawn cmd dir) t \/
                (cmd = "python"%string :: str_of_path m :: args /\ dir = working_dir /\
                 true = true /\ true = true)).
      { intros tail Hin Htail.
        apply in_app_or in Hin. destruct Hin as [Hin|Hin].
        - apply in_app_or in Hin. destruct Hin as [Hin|[Heq|[]]].
          + apply in_app_or in Hin. destruct Hin as [Hin|[Heq|[]]];
              [left; exact Hin | discriminate].
          + injection Heq as <- <-. right. repeat split.
        - specialize (Htail _ Hin). discriminate. }
      destruct (existsb has_nul (str_of_path m :: args)).
      { cbn [snd]. intros Hin.
        apply in_app_or in Hin. destruct Hin as [Hin|[Heq|[]]];
          [left; exact Hin | discriminate]. }
      destruct (FS.stat (fs w) working_dir) as [[]|[q [size text|es|]]];
        try (cbn [snd]; intros Hin;
             apply in_app_or in Hin; destruct Hin as [Hin|[Heq|[]]];
             [left; exact Hin | discriminate]).
      destruct (interpreter w) as [behaviour|].
      * cbn zeta. destruct (behaviour (str_of_path m :: args) working_dir)
          as [elapsed out err code|].
        -- destruct (elapsed <=? 30 * 1000)%N.
           ++ destruct out as [o|msg]; [destruct err as [e|msg]|]; cbn [snd]; intros Hin;
                (apply (Hstep []); [rewrite app_nil_r; exact Hin | intros ev []]).
           ++ cbn [snd]. intros Hin.
              apply (Hstep [EvKill]); [exact Hin | intros ev [<-|[]]; reflexivity].
        -- cbn [snd]. intros Hin.
           apply (Hstep [EvKill]); [exact Hin | intros ev [<-|[]]; reflexivity].
      * cbn [snd]. intros Hin.
        apply in_app_or in Hin. destruct Hin as [Hin|[Heq|[]]];
          [left; exact Hin | discriminate].
    + unfold run_python_file_exec.
      rewrite (bind_step _ _ _ _ _ (path_is_file_step _ _ _)), Hfile, Hpy.
      cbn [negb snd ret]. intros Hin.
      apply in_app_or in Hin. destruct Hin as [Hin|[Heq|[]]];
        [left; exact Hin | discriminate].
  - unfold run_python_file_exec.
    rewrite (bind_step _ _ _ _ _ (path_is_file_step _ _ _)), Hfile.
    cbn [negb snd ret]. intros Hin.
    apply in_app_or in Hin. destruct Hin as [Hin|[Heq|[]]];
      [left; exact Hin | discriminate].
Qed.

(** X4.  On a file system without symbolic links, [run_python_file]
    only starts scripts of the working directory: on a well-formed
    tree, whenever a call starts a process, the command is [python],
    the path of a regular file of the tree that lies at or below the
    working directory and has no [..] in it, and the given arguments;
    the process is started in the working directory; and the requested
    path ends with [.py] in lower case.  (The tree has no links.  With
    a link inside the working directory a script outside can be
    started: the path found by the search is checked by its components
    only, and [is_file] follows links.) *)
Theorem run_python_file_starts_only_contained_scripts
    (w : world) (working_directory file_path : string) (args : list string)
    (cmd : list string) (dir : path) :
  wf (fs w) = true ->
  In (EvSpawn cmd dir) (snd (run (run_python_file working_directory file_path args) w)) ->
  exists working_dir m size text,
    resolve_in (cwd w) (PurePath.parse working_directory) = Val working_dir /\
    dir = working_dir /\
    cmd = "python"%string :: str_of_path m :: args /\
    is_relative_to m working_dir = true /\ no_dotdot m /\
    FS.find (fs w) m = Some (File size text) /\
    PyStr.endswith (PyStr.lower file_path) ".py" = true.
Proof.
  intros Hwf Hin.
  destruct (contained_or_not w working_directory file_path) as [(wd & target & Hreq)|Hno].
  2:{ destruct (not_contained_outcomes w working_directory file_path EmptyString args Hno)
        as (r1 & r2 & _ & _ & _ & _ & _ & Hrun).
      rewrite Hrun in Hin. destruct Hin. }
  rewrite run_trace, (run_python_file_eq w working_directory file_path args wd target Hreq)
    in Hin.
  cbn zeta in Hin.
  pose proof Hreq as (Hwd & Htarget & Hrel).
  assert (Hwdc : no_dotdot wd) by apply (resolve_in_no_dotdot _ _ _ Hwd).
  assert (Htc : no_dotdot target) by apply (resolve_in_no_dotdot _ _ _ Htarget).
  destruct (FS.exists_ (fs w) target).
  - apply run_python_file_exec_spawns in Hin.
    destruct Hin as [[Heq|[]]|(-> & -> & Hfile & Hpy)]; [discriminate|].
    destruct (literal_file_is_clean (fs w) target Htc Hfile) as (size & text & Hf).
    exists wd, target, size, text. repeat split; assumption.
  - destruct (Glob.rglob (fs w) wd (basename file_path)) as [[|first rest]|e] eqn:Hg.
    + cbn [snd] in Hin. destruct Hin as [Heq|[Heq|[]]]; discriminate.
    + apply run_python_file_exec_spawns in Hin.
      destruct Hin as [[Heq|[Heq|[]]]|(-> & -> & Hfile & Hpy)]; try discriminate.
      destruct (found_file_is_clean (fs w) wd file_path first rest Hwf Hwdc Hg Hfile)
        as (Hfc & size & text & Hf).
      exists wd, first, size, text.
      split; [exact Hwd|]. split; [reflexivity|]. split; [reflexivity|].
      split; [apply (rglob_relative _ _ _ _ Hg); left; reflexivity|].
      split; [exact Hfc|]. split; [exact Hf | exact Hpy].
    + cbn [snd] in Hin. destruct Hin as [Heq|[Heq|[]]]; discriminate.
Qed.

(** In the sample world [calc.py] is asked for from [/w] and found in
    [pkg]. *)
Lemma run_python_file_starts_only_contained_scripts_witness :
  exists working_dir m size text,
    resolve_in (cwd sample_world) (PurePath.parse "/w") = Val working_dir /\
    ["w"%string] = working_dir /\
    ["python"%string; "/w/pkg/calc.py"%string; "1"%string]
    = "python"%string :: str_of_path m :: ["1"%string] /\
    is_relative_to m working_dir = true /\ no_dotdot m /\
    FS.find (fs sample_world) m = Some (File size text) /\
    PyStr.endswith (PyStr.lower "calc.py") ".py" = true.
Proof.
  apply (run_python_file_starts_only_contained_scripts sample_world "/w" "calc.py"
           ["1"%string] ["python"%string; "/w/pkg/calc.py"%string; "1"%string]
           ["w"%string]).
  - reflexivity.
  - vm_compute. right. right. right. left. reflexivity.
Defined.

(** ** What [get_file_content] reads *)

(** X5.  On a file system without symbolic links, [get_file_content]
    only reads files of the working directory: on a well-formed tree,
    whenever a call opens a file, that file is a regular file of the
    tree at a path without [..] that lies at or below the working
    directory; this holds for every requested path, also when the file
    was found by the search.  (The tree has no links.  With a link
    inside the working directory a file outside can be read: the path
    found by the search is checked by its components only, and [open]
    follows links.) *)
Theorem get_file_content_reads_only_contained_files
    (w : world) (working_directory file_path : string) (m : path) :
  wf (fs w) = true ->
  In (EvRead m) (snd (run (get_file_content working_directory file_path) w)) ->
  exists working_dir size text,
    resolve_in (cwd w) (PurePath.parse working_directory) = Val working_dir /\
    is_relative_to m working_dir = true /\ no_dotdot m /\
    FS.find (fs w) m = Some (File size text).
Proof.
  intros Hwf Hin.
  destruct (contained_or_not w working_directory file_path) as [(wd & target & Hreq)|Hno].
  2:{ destruct (not_contained_outcomes w working_directory file_path EmptyString [] Hno)
        as (r1 & r2 & _ & _ & _ & Hrun & _).
      rewrite Hrun in Hin. destruct Hin. }
  rewrite run_trace, (get_file_content_eq w working_directory file_path wd target Hreq) in Hin.
  cbn zeta in Hin.
  pose proof Hreq as (Hwd & Htarget & Hrel).
  assert (Hwdc : no_dotdot wd) by apply (resolve_in_no_dotdot _ _ _ Hwd).
  assert (Htc : no_dotdot target) by apply (resolve_in_no_dotdot _ _ _ Htarget).
  assert (Hread : forall p t,
            (forall x, ~ In (EvRead x) t) ->
            In (EvRead m) (snd (snd (get_file_content_read p file_path (w, t)))) ->
            m = p /\ FS.is_file (fs w) p = true).
  { intros p t Ht H. rewrite get_file_content_read_cases in H. unfold FS.is_file.
    destruct (FS.lookup (fs w) p) as [[size [raw|]|es|]|]; cbn [snd] in H;
      repeat (apply in_app_or in H; destruct H as [H|H]);
      try (destruct (Ht _ H));
      try (destruct H as [H|[]]; try discriminate; injection H as <-; split; reflexivity). }
  destruct (FS.exists_ (fs w) target).
  - destruct (Hread target [EvExists target]) as [-> Hfile]; [|exact Hin|].
    { intros x [H|[]]. discriminate. }
    destruct (literal_file_is_clean (fs w) target Htc Hfile) as (size & text & Hf).
    exists wd, size, text. repeat split; assumption.
  - destruct (Glob.rglob (fs w) wd (basename file_path)) as [[|first rest]|e] eqn:Hg.
    + cbn [snd] in Hin. destruct Hin as [Heq|[Heq|[]]]; discriminate.
    + destruct (Hread first [EvExists target; EvRglob wd (basename file_path)])
        as [-> Hfile]; [|exact Hin|].
      { intros x [H|[H|[]]]; discriminate. }
      destruct (found_file_is_clean (fs w) wd file_path first rest Hwf Hwdc Hg Hfile)
        as (Hfc & size & text & Hf).
      exists wd, size, text.
      split; [exact Hwd|]. split; [apply (rglob_relative _ _ _ _ Hg); left; reflexivity|].
      split; [exact Hfc | exact Hf].
    + cbn [snd] in Hin. destruct Hin as [Heq|[Heq|[]]]; discriminate.
Qed.

(** In the sample world [calc.py] is asked for from [/w] and read in
    [pkg]. *)
Lemma get_file_content_reads_only_contained_files_witness :
  exists working_dir size text,
    resolve_in (cwd sample_world) (PurePath.parse "/w") = Val working_dir /\
    is_relative_to ["w"; "pkg"; "calc.py"]%string working_dir = true /\
    no_dotdot ["w"; "pkg"; "calc.py"]%string /\
    FS.find (fs sample_world) ["w"; "pkg"; "calc.py"]%string = Some (File size text).
Proof.
  apply (get_file_content_reads_only_contained_files sample_world "/w" "calc.py"
           ["w"; "pkg"; "calc.py"]%string).
  - reflexivity.
  - vm_compute. right. right. right. left. reflexivity.
Defined.

(** ** What the search gives for a pattern without [..] *)

Lemma iterate_directories_no_dotdot (root : node) (p : path) :
  wf root = true -> no_dotdot p ->
  forall d, In d (Glob.iterate_directories root p) -> no_dotdot d.
Proof.
  intros Hwf Hp d Hin. unfold Glob.iterate_directories in Hin.
  rewrite (lookup_plain root p Hp) in Hin.
  destruct (FS.find root p) as [n|] eqn:Hn.
  - destruct (wf_find p root n Hwf Hn) as [Hwfn _].
    apply (subdirs_spec n Hwfn) in Hin. destruct Hin as (r & -> & Hr).
    apply no_dotdot_app; [exact Hp|].
    destruct Hr as [->|[es Hes]]; [intros []|].
    apply (wf_find r n _ Hwfn Hes).
  - destruct Hin as [<-|[]]. exact Hp.
Qed.

Lemma make_selector_without_dotdot (pattern_parts : list string) :
  forall sel, ~ In dotdot pattern_parts ->
              Glob.make_selector pattern_parts = Val sel -> selector_without_dotdot sel.
Proof.
  induction pattern_parts as [|pat rest IH]; intros sel Hno Hsel.
  - injection Hsel as <-. exact I.
  - cbn [Glob.make_selector] in Hsel.
    assert (Hrest : ~ In dotdot rest) by (intros H; apply Hno; right; exact H).
    assert (Hpat : pat <> dotdot) by (intros ->; apply Hno; left; reflexivity).
    destruct (pat =? "")%string; [injection Hsel as <-; exact I|].
    destruct (pat =? "**")%string.
    + destruct (Glob.make_selector rest) as [s|e] eqn:Hs; [|discriminate].
      injection Hsel as <-. apply (IH s Hrest eq_refl).
    + destruct (PyStr.contains "**" pat); [discriminate|].
      destruct (Glob.make_selector rest) as [s|e] eqn:Hs; [|discriminate].
      injection Hsel as <-.
      destruct (Glob.is_wildcard_pattern pat); cbn [selector_without_dotdot].
      * apply (IH s Hrest eq_refl).
      * split; [exact Hpat | apply (IH s Hrest eq_refl)].
Qed.

Lemma select_without_dotdot (root : node) (sel : Glob.selector) :
  wf root = true -> selector_without_dotdot sel ->
  forall p q, no_dotdot p -> In q (Glob.select root sel p) -> no_dotdot q.
Proof.
  intros Hwf. induction sel as [|name dironly s IH|pat dironly s IH|s IH];
    intros Hsel p q Hp Hin; cbn [Glob.select] in Hin.
  - destruct Hin as [<-|[]]. exact Hp.
  - destruct Hsel as [Hname Hs].
    destruct (if dironly then FS.is_dir root (p ++ [name]) else FS.exists_ root (p ++ [name]));
      [|destruct Hin].
    apply (IH Hs (p ++ [name]) q); [|exact Hin].
    apply no_dotdot_app; [exact Hp|]. intros [H|[]]. apply Hname. exact H.
  - unfold FS.scandir in Hin.
    destruct (FS.stat root p) as [e|[p' n]] eqn:Hstat; [destruct Hin|].
    destruct n as [size text|es|]; try destruct Hin.
    destruct (stat_plain root p p' (Dir es) Hp Hstat) as [-> Hfind].
    destruct (wf_find p root _ Hwf Hfind) as [Hwfd _].
    destruct (wf_dir es Hwfd) as (_ & Hnames & _).
    apply in_flat_map in Hin. destruct Hin as ([k v] & Hkv & Hq). cbn [fst snd] in Hq.
    destruct ((negb dironly || Glob.node_is_dir v) && Glob.fnmatch pat k); [|destruct Hq].
    apply (IH Hsel (p ++ [k]) q); [|exact Hq].
    apply no_dotdot_app; [exact Hp|]. intros [H|[]].
    apply Hnames. rewrite <- H. apply (in_map fst _ _ Hkv).
  - apply in_dedup in Hin. apply in_flat_map in Hin. destruct Hin as (d & Hd & Hq).
    apply (IH Hsel d q); [|exact Hq].
    apply (iterate_directories_no_dotdot root p Hwf Hp d Hd).
Qed.

Lemma rglob_without_dotdot (root : node) (wd : path) (pattern : string) (found : list path) :
  wf root = true -> no_dotdot wd ->
  ~ In dotdot (PurePath.parts (PurePath.parse pattern)) ->
  Glob.rglob root wd pattern = Val found ->
  forall q, In q found -> no_dotdot q.
Proof.
  intros Hwf Hwd Hno Hg q Hq. unfold Glob.rglob in Hg.
  destruct (PurePath.absolute (PurePath.parse pattern)); [discriminate|].
  destruct (Glob.make_selector _) as [sel|e] eqn:Hsel; [|discriminate].
  injection Hg as <-.
  destruct (FS.is_dir root wd); [|destruct Hq].
  apply (select_without_dotdot root sel Hwf) with (p := wd); [|exact Hwd|exact Hq].
  apply (make_selector_without_dotdot _ sel) in Hsel; [exact Hsel|].
  intros [H|H]; [discriminate|].
  apply in_app_or in H. destruct H as [H|H]; [exact (Hno H)|].
  destruct (PyStr.last_char_is "/" pattern); [destruct H as [H|[]]; discriminate | destruct H].
Qed.

(** ** Which events a computation adds *)

Lemma adds_only_ret (P : event -> Prop) {A : Type} (a : A) : adds_only P (ret a).
Proof. intros w t. exists (Val a), w, []. rewrite app_nil_r. split; [reflexivity|constructor]. Qed.

Lemma adds_only_raise (P : event -> Prop) {A : Type} (e : exn) : adds_only P (@raise A e).
Proof. intros w t. exists (Exc e), w, []. rewrite app_nil_r. split; [reflexivity|constructor]. Qed.

Lemma adds_only_of_res (P : event -> Prop) {A : Type} (r : res A) : adds_only P (of_res r).
Proof. intros w t. exists r, w, []. rewrite app_nil_r. split; [reflexivity|constructor]. Qed.

Lemma adds_only_lift_fs (P : event -> Prop) {A : Type} (f : node -> A) :
  adds_only P (lift_fs f).
Proof.
  intros w t. exists (Val (f (fs w))), w, []. rewrite app_nil_r.
  split; [reflexivity|constructor].
Qed.

Lemma adds_only_log (P : event -> Prop) (ev : event) : P ev -> adds_only P (log ev).
Proof.
  intros H w t. exists (Val tt), w, [ev]. split; [reflexivity|].
  constructor; [exact H|constructor].
Qed.

Lemma adds_only_bind (P : event -> Prop) {A B : Type} (m : M A) (k : A -> M B) :
  adds_only P m -> (forall a, adds_only P (k a)) -> adds_only P (bind m k).
Proof.
  intros Hm Hk w t. destruct (Hm w t) as (r & w1 & t1 & Hrun & Hq).
  unfold bind. rewrite Hrun. destruct r as [a|e].
  - destruct (Hk a w1 (t ++ t1)) as (r2 & w2 & t2 & Hrun2 & Hq2).
    exists r2, w2, (t1 ++ t2). rewrite Hrun2, app_assoc. split; [reflexivity|].
    apply Forall_app. split; assumption.
  - exists (Exc e), w1, t1. split; [reflexivity | exact Hq].
Qed.

Lemma adds_only_try (P : event -> Prop) {A : Type} (m : M A) (handler : exn -> M A) :
  adds_only P m -> (forall e, adds_only P (handler e)) -> adds_only P (try_except m handler).
Proof.
  intros Hm Hh w t. destruct (Hm w t) as (r & w1 & t1 & Hrun & Hq).
  unfold try_except. rewrite Hrun. destruct r as [a|e].
  - exists (Val a), w1, t1. split; [reflexivity | exact Hq].
  - destruct (Hh e w1 (t ++ t1)) as (r2 & w2 & t2 & Hrun2 & Hq2).
    exists r2, w2, (t1 ++ t2). rewrite Hrun2, app_assoc. split; [reflexivity|].
    apply Forall_app. split; assumption.
Qed.

Lemma adds_only_in (P : event -> Prop) {A : Type} (m : M A) (w : world) (t : list event)
    (ev : event) :
  adds_only P m -> In ev (snd (snd (m (w, t)))) -> In ev t \/ P ev.
Proof.
  intros Hm Hin. destruct (Hm w t) as (r & w1 & t1 & Hrun & Hq).
  rewrite Hrun in Hin. cbn [snd] in Hin.
  apply in_app_or in Hin. destruct Hin as [Hin|Hin]; [left; exact Hin|].
  right. apply (proj1 (Forall_forall P t1) Hq ev Hin).
Qed.

Lemma collect_items_no_iterdir (items : list path) :
  forall items_info,
    adds_only (fun ev => forall x, ev <> EvIterdir x) (collect_items items items_info).
Proof.
  induction items as [|item rest IH]; intros items_info; cbn [collect_items].
  - apply adds_only_ret.
  - apply adds_only_bind.
    { unfold path_is_file. apply adds_only_bind; [apply adds_only_log; discriminate|].
      intros _. apply adds_only_lift_fs. }
    intros [|].
    + apply adds_only_bind; [|intros size; apply IH].
      unfold path_st_size. apply adds_only_bind; [apply adds_only_log; discriminate|].
      intros _. apply adds_only_bind; [apply adds_only_lift_fs|].
      intros [e|[q [size text|es|]]];
        [apply adds_only_raise | apply adds_only_ret | apply adds_only_ret | apply adds_only_ret].
    + apply adds_only_bind; [|intros [|]; apply IH].
      unfold path_is_dir. apply adds_only_bind; [apply adds_only_log; discriminate|].
      intros _. apply adds_only_lift_fs.
Qed.

Lemma listing_iterdir (d : path) (directory : string) (w : world) (t : list event)
    (x : path) :
  In (EvIterdir x) (snd (snd (get_files_info_listing d directory (w, t)))) ->
  In (EvIterdir x) t \/ (x = d /\ FS.is_dir (fs w) d = true).
Proof.
  unfold get_files_info_listing.
  rewrite (bind_step _ _ _ _ _ (path_is_dir_step _ _ _)).
  destruct (FS.is_dir (fs w) d) eqn:Hdir; cbn [negb].
  - intros Hin.
    match type of Hin with
    | In _ (snd (snd (?m _))) =>
        assert (Hm : adds_only (fun ev => forall y, ev = EvIterdir y -> y = d) m)
    end.
    { apply adds_only_try.
      - apply adds_only_bind.
        + unfold path_iterdir. apply adds_only_bind.
          * apply adds_only_log. intros y H. injection H as <-. reflexivity.
          * intros _. apply adds_only_bind; [apply adds_only_lift_fs|].
            intros [e|es]; [apply adds_only_raise | apply adds_only_ret].
        + intros items. apply adds_only_bind; [|intros; apply adds_only_ret].
          intros w0 t0.
          destruct (collect_items_no_iterdir items [] w0 t0) as (r & w1 & t1 & Hrun & Hq).
          exists r, w1, t1. split; [exact Hrun|].
          apply Forall_forall. intros ev Hev y Hy.
          destruct (proj1 (Forall_forall _ t1) Hq ev Hev y Hy).
      - intros e. destruct (is_PermissionError e); [apply adds_only_ret | apply adds_only_raise]. }
    destruct (adds_only_in _ _ _ _ _ Hm Hin) as [H|H].
    + apply in_app_or in H. destruct H as [H|[H|[]]]; [left; exact H | discriminate].
    + right. split; [apply (H x eq_refl) | reflexivity].
  - cbn [ret snd]. intros Hin.
    apply in_app_or in Hin. destruct Hin as [H|[H|[]]]; [left; exact H | discriminate].
Qed.

(** ** What [get_files_info] lists *)

(** X6.  On a file system without symbolic links and for a request
    without a [..] component, [get_files_info] only lists directories
    of the working directory: on a well-formed tree, whenever such a
    call reads the entries of a directory, that directory is a
    directory of the tree at a path without [..] that is the working
    directory or lies below it, also when it was found by the search.
    (The tree has no links.  With a link inside the working directory
    a directory outside can be listed: the path found by the search is
    checked by its components only, and [is_dir] and [iterdir] follow
    links.) *)
Theorem get_files_info_lists_only_contained_directories
    (w : world) (working_directory directory : string) (d : path) :
  wf (fs w) = true ->
  ~ In dotdot (PurePath.parts (PurePath.parse directory)) ->
  In (EvIterdir d) (snd (run (get_files_info working_directory directory) w)) ->
  exists working_dir es,
    resolve_in (cwd w) (PurePath.parse working_directory) = Val working_dir /\
    is_relative_to d working_dir = true /\ no_dotdot d /\
    FS.find (fs w) d = Some (Dir es).
Proof.
  intros Hwf Hno Hin.
  destruct (contained_or_not w working_directory directory) as [(wd & target & Hreq)|Hnc].
  2:{ destruct (not_contained_outcomes w working_directory directory EmptyString [] Hnc)
        as (r1 & r2 & _ & _ & Hrun & _).
      rewrite Hrun in Hin. destruct Hin. }
  rewrite run_trace, (get_files_info_eq w working_directory directory wd target Hreq) in Hin.
  cbn zeta in Hin.
  pose proof Hreq as (Hwd & Htarget & Hrel).
  assert (Hwdc : no_dotdot wd) by apply (resolve_in_no_dotdot _ _ _ Hwd).
  assert (Htc : no_dotdot target) by apply (resolve_in_no_dotdot _ _ _ Htarget).
  assert (Hend : forall p, no_dotdot p -> is_relative_to p wd = true ->
                           d = p -> FS.is_dir (fs w) p = true ->
                           exists working_dir es,
                             resolve_in (cwd w) (PurePath.parse working_directory)
                             = Val working_dir /\
                             is_relative_to d working_dir = true /\ no_dotdot d /\
                             FS.find (fs w) d = Some (Dir es)).
  { intros p Hp Hprel -> Hdir.
    destruct (proj1 (is_dir_plain (fs w) p Hp) Hdir) as [es Hes].
    exists wd, es. repeat split; assumption. }
  destruct (FS.exists_ (fs w) target || (directory =? ".")%string).
  - apply listing_iterdir in Hin. destruct Hin as [[H|[]]|[Hd Hdir]]; [discriminate|].
    apply (Hend target Htc Hrel Hd Hdir).
  - destruct (Glob.rglob (fs w) wd directory) as [[|first rest]|e] eqn:Hg.
    + cbn [snd] in Hin. destruct Hin as [H|[H|[]]]; discriminate.
    + apply listing_iterdir in Hin. destruct Hin as [[H|[H|[]]]|[Hd Hdir]]; try discriminate.
      apply (Hend first); [|apply (rglob_relative _ _ _ _ Hg); left; reflexivity|exact Hd|exact Hdir].
      apply (rglob_without_dotdot (fs w) wd directory _ Hwf Hwdc Hno Hg). left. reflexivity.
    + cbn [snd] in Hin. destruct Hin as [H|[H|[]]]; discriminate.
Qed.

(** In the sample world [deep] is asked for from [/w] and found in
    [pkg]. *)
Lemma get_files_info_lists_only_contained_directories_witness :
  exists working_dir es,
    resolve_in (cwd sample_world) (PurePath.parse "/w") = Val working_dir /\
    is_relative_to ["w"; "pkg"; "deep"]%string working_dir = true /\
    no_dotdot ["w"; "pkg"; "deep"]%string /\
    FS.find (fs sample_world) ["w"; "pkg"; "deep"]%string = Some (Dir es).
Proof.
  apply (get_files_info_lists_only_contained_directories sample_world "/w" "deep"
           ["w"; "pkg"; "deep"]%string).
  - reflexivity.
  - vm_compute. intros [H|[]]. discriminate.
  - vm_compute. right. right. right. left. reflexivity.
Defined.

(** With [..] in the request the search can leave the working
    directory: from [/p/w] the request resolves to the missing
    [/p/w/ghost], and the directory listed is [/p/p/w/ghost]. *)
Example listing_outside_with_dotdot_in_the_request :
  let tree :=
    Dir [("p", Dir [("w", Dir [("e", Dir [])]);
                    ("p", Dir [("w", Dir [("ghost", Dir [("secret.txt", File 3 (Some "key"))])])])])]%string in
  wf tree = true /\
  run (get_files_info "/p/w" "../../p/w/ghost") (mkWorld tree ["p"; "w"]%string None)
  = (Val "secret.txt: file_size=3, is_dir=False"%string,
     mkWorld tree ["p"; "w"]%string None,
     [EvExists ["p"; "w"; "ghost"]; EvRglob ["p"; "w"] "../../p/w/ghost";
      EvIsDir ["p"; "w"; "e"; ".."; ".."; "p"; "w"; "ghost"];
      EvIterdir ["p"; "w"; "e"; ".."; ".."; "p"; "w"; "ghost"];
      EvIsFile ["p"; "w"; "e"; ".."; ".."; "p"; "w"; "ghost"; "secret.txt"];
      EvStat ["p"; "w"; "e"; ".."; ".."; "p"; "w"; "ghost"; "secret.txt"]]%string).
Proof. split; reflexivity. Qed.

(** ** What [get_file_content] returns for what it cannot read *)

(** X7.  Once the path is located, [get_file_content] returns a text
    and raises nothing: the not-a-regular-file text for a directory or
    a socket, the binary-file text for a regular file whose bytes are
    not valid UTF-8, and the text of the file, cut at the limit, for
    the others. *)
Theorem get_file_content_classifies_the_target
    (w : world) (working_directory file_path : string) (working_dir target m : path)
    (n : node) :
  contained_request w working_directory file_path working_dir target ->
  located (fs w) working_dir target (basename file_path) = Some m ->
  FS.lookup (fs w) m = Some n ->
  fst (fst (run (get_file_content working_directory file_path) w))
  = Val (match n with
         | File _ (Some raw) => shown file_path (PyStr.universal_newlines raw)
         | File _ None =>
             String.append "Error: Cannot read file '"
               (String.append file_path
                  "' - file appears to be binary or uses unsupported encoding")
         | _ => String.append "Error: '" (String.append file_path "' is not a regular file")
         end).
Proof.
  intros Hreq Hloc Hlook. unfold run.
  rewrite (get_file_content_located _ _ _ _ _ _ Hreq Hloc), get_file_content_read_cases, Hlook.
  destruct n as [size [raw|]|es|]; reflexivity.
Qed.

(** The socket of the sample world. *)
Lemma get_file_content_classifies_the_target_witness :
  fst (fst (run (get_file_content "/w" "sock") sample_world))
  = Val "Error: 'sock' is not a regular file"%string.
Proof.
  apply (get_file_content_classifies_the_target sample_world "/w" "sock"
           ["w"%string] ["w"%string; "sock"%string] ["w"%string; "sock"%string] Socket).
  - unfold contained_request. repeat split; reflexivity.
  - reflexivity.
  - reflexivity.
Defined.

(** ** Where an exception can come from *)

Lemma make_selector_raises (pattern_parts : list string) :
  forall e, Glob.make_selector pattern_parts = Exc e -> e = ValueError Glob.invalid_pattern.
Proof.
  induction pattern_parts as [|pat rest IH]; intros e H; [discriminate|].
  cbn [Glob.make_selector] in H.
  destruct (pat =? "")%string; [discriminate|].
  destruct (pat =? "**")%string.
  - destruct (Glob.make_selector rest) as [s|e'] eqn:Hs; [discriminate|].
    injection H as <-. apply (IH e' eq_refl).
  - destruct (PyStr.contains "**" pat); [injection H as <-; reflexivity|].
    destruct (Glob.make_selector rest) as [s|e'] eqn:Hs; [discriminate|].
    injection H as <-. apply (IH e' eq_refl).
Qed.

Lemma rglob_raises (root : node) (wd : path) (pattern : string) (e : exn) :
  Glob.rglob root wd pattern = Exc e ->
  (e = NotImplementedError Glob.non_relative /\
   PurePath.absolute (PurePath.parse pattern) = true) \/
  e = ValueError Glob.invalid_pattern.
Proof.
  unfold Glob.rglob. intros H.
  destruct (PurePath.absolute (PurePath.parse pattern)).
  - injection H as <-. left. split; reflexivity.
  - destruct (Glob.make_selector _) as [sel|e'] eqn:Hsel; [discriminate|].
    injection H as <-. right. apply (make_selector_raises _ _ Hsel).
Qed.

Lemma rglob_basename_raises (root : node) (wd : path) (file_path : string) (e : exn) :
  Glob.rglob root wd (basename file_path) = Exc e -> e = ValueError Glob.invalid_pattern.
Proof.
  intros H. destruct (rglob_raises _ _ _ _ H) as [[_ Habs]|He]; [|exact He].
  destruct (basename_parse file_path) as [Hparse _].
  rewrite Hparse in Habs. discriminate.
Qed.

Lemma collect_items_returns (items : list path) :
  forall items_info w t,
    exists items_info' t',
      collect_items items items_info (w, t) = (Val items_info', (w, t')).
Proof.
  induction items as [|item rest IH]; intros items_info w t; cbn [collect_items].
  - eexists; eexists; reflexivity.
  - rewrite (bind_step _ _ _ _ _ (path_is_file_step _ _ _)).
    unfold FS.is_file.
    destruct (FS.lookup (fs w) item) as [n|] eqn:Hlook.
    + destruct (lookup_stat _ _ _ Hlook) as [q Hstat].
      destruct n as [size text|es|].
      * unfold path_st_size.
        match goal with
        | |- context [bind (bind (log ?ev) ?k1) ?k2 (w, ?tr)] =>
            replace (bind (bind (log ev) k1) k2 (w, tr))
              with (k2 size (w, tr ++ [ev]))
        end.
        2:{ unfold bind, log, lift_fs. cbn [fst snd]. rewrite Hstat. reflexivity. }
        apply IH.
      * rewrite (bind_step _ _ _ _ _ (path_is_dir_step _ _ _)).
        destruct (FS.is_dir (fs w) item); apply IH.
      * rewrite (bind_step _ _ _ _ _ (path_is_dir_step _ _ _)).
        destruct (FS.is_dir (fs w) item); apply IH.
    + rewrite (bind_step _ _ _ _ _ (path_is_dir_step _ _ _)).
      destruct (FS.is_dir (fs w) item); apply IH.
Qed.

Lemma get_files_info_listing_returns (d : path) (directory : string) (w : world)
    (t : list event) :
  exists r t', get_files_info_listing d directory (w, t) = (Val r, (w, t')).
Proof.
  unfold get_files_info_listing.
  rewrite (bind_step _ _ _ _ _ (path_is_dir_step _ _ _)).
  destruct (FS.is_dir (fs w) d) eqn:Hdir; cbn [negb]; [|eexists; eexists; reflexivity].
  unfold FS.is_dir in Hdir.
  destruct (FS.lookup (fs w) d) as [[size text|es|]|] eqn:Hlook; try discriminate.
  destruct (lookup_stat _ _ _ Hlook) as [q Hstat].
  destruct (collect_items_returns (map (fun kv => d ++ [fst kv]) es) []
              w ((t ++ [EvIsDir d]) ++ [EvIterdir d])) as (info & t' & Hc).
  unfold try_except, bind at 1.
  unfold path_iterdir, bind at 1, bind at 1, log, lift_fs. cbn [fst snd].
  unfold FS.scandir. rewrite Hstat. unfold ret at 1, bind.
  rewrite Hc. eexists; eexists; reflexivity.
Qed.

Lemma get_file_content_read_returns (m : path) (file_path : string) (w : world)
    (t : list event) :
  exists r t', get_file_content_read m file_path (w, t) = (Val r, (w, t')).
Proof.
  rewrite get_file_content_read_cases.
  destruct (FS.lookup (fs w) m) as [[size [raw|]|es|]|]; eexists; eexists; reflexivity.
Qed.

Lemma run_python_file_exec_returns (working_dir m : path) (file_path : string)
    (args : list string) (w : world) (t : list event) :
  exists r t', run_python_file_exec working_dir m file_path args (w, t) = (Val r, (w, t')).
Proof.
  destruct (FS.is_file (fs w) m) eqn:Hfile.
  - destruct (PyStr.endswith (PyStr.lower file_path) ".py") eqn:Hpy.
    + rewrite (run_python_file_exec_eq working_dir m file_path args w t Hfile Hpy).
      destruct (existsb has_nul (str_of_path m :: args)); [eexists; eexists; reflexivity|].
      destruct (FS.stat (fs w) working_dir) as [[]|[q [size text|es|]]];
        try (eexists; eexists; reflexivity).
      destruct (interpreter w) as [behaviour|]; [|eexists; eexists; reflexivity].
      cbn zeta. destruct (behaviour (str_of_path m :: args) working_dir)
        as [elapsed out err code|]; [|eexists; eexists; reflexivity].
      destruct (elapsed <=? 30 * 1000)%N; [|eexists; eexists; reflexivity].
      destruct out as [o|msg]; [destruct err as [e|msg]|]; eexists; eexists; reflexivity.
    + unfold run_python_file_exec.
      rewrite (bind_step _ _ _ _ _ (path_is_file_step _ _ _)), Hfile, Hpy.
      eexists; eexists; reflexivity.
  - unfold run_python_file_exec.
    rewrite (bind_step _ _ _ _ _ (path_is_file_step _ _ _)), Hfile.
    eexists; eexists; reflexivity.
Qed.

Lemma write_file_write_returns (p : path) (file_path content : string) (w : world)
    (t : list event) :
  exists r st, write_file_write p file_path content (w, t) = (Val r, st).
Proof.
  rewrite write_file_write_eq.
  destruct (FS.mkdir (fs w) (parent p)) as [root1|e]; [|eexists; eexists; reflexivity].
  destruct (FS.write_text root1 p content); eexists; eexists; reflexivity.
Qed.

(** The exceptions that leave the four functions: the ValueError of
    [resolve] for a NUL character, the ValueError of the search for a
    pattern with [**] inside a component and, in [get_files_info]
    only, the NotImplementedError of the search for an absolute
    pattern.  The world is then as it was. *)
Lemma get_files_info_raises (w : world) (working_directory directory : string) (e : exn) :
  fst (fst (run (get_files_info working_directory directory) w)) = Exc e ->
  e = ValueError embedded_null \/ e = ValueError Glob.invalid_pattern \/
  e = NotImplementedError Glob.non_relative.
Proof.
  intros H.
  destruct (contained_or_not w working_directory directory) as [(wd & target & Hreq)|Hno].
  2:{ destruct (not_contained_outcomes w working_directory directory EmptyString [] Hno)
        as (r1 & r2 & [->| ->] & _ & Hrun & _); rewrite Hrun in H; cbn [fst] in H;
        [injection H as <-; left; reflexivity | discriminate]. }
  unfold run in H.
  rewrite (get_files_info_eq w working_directory directory wd target Hreq) in H.
  cbn zeta in H.
  destruct (FS.exists_ (fs w) target || (directory =? ".")%string).
  - destruct (get_files_info_listing_returns target directory w [EvExists target])
      as (r & t' & Hr).
    rewrite Hr in H. discriminate.
  - destruct (Glob.rglob (fs w) wd directory) as [[|first rest]|e'] eqn:Hg.
    + discriminate.
    + destruct (get_files_info_listing_returns first directory w
                  [EvExists target; EvRglob wd directory]) as (r & t' & Hr).
      rewrite Hr in H. discriminate.
    + cbn [fst] in H. injection H as <-.
      destruct (rglob_raises _ _ _ _ Hg) as [[-> _]| ->];
        [right; right; reflexivity | right; left; reflexivity].
Qed.

Lemma get_file_content_raises (w : world) (working_directory file_path : string) (e : exn) :
  fst (fst (run (get_file_content working_directory file_path) w)) = Exc e ->
  e = ValueError embedded_null \/ e = ValueError Glob.invalid_pattern.
Proof.
  intros H.
  destruct (contained_or_not w working_directory file_path) as [(wd & target & Hreq)|Hno].
  2:{ destruct (not_contained_outcomes w working_directory file_path EmptyString [] Hno)
        as (r1 & r2 & _ & [->| ->] & _ & Hrun & _); rewrite Hrun in H; cbn [fst] in H;
        [injection H as <-; left; reflexivity | discriminate]. }
  unfold run in H.
  rewrite (get_file_content_eq w working_directory file_path wd target Hreq) in H.
  cbn zeta in H.
  destruct (FS.exists_ (fs w) target).
  - destruct (get_file_content_read_returns target file_path w [EvExists target])
      as (r & t' & Hr).
    rewrite Hr in H. discriminate.
  - destruct (Glob.rglob (fs w) wd (basename file_path)) as [[|first rest]|e'] eqn:Hg.
    + discriminate.
    + destruct (get_file_content_read_returns first file_path w
                  [EvExists target; EvRglob wd (basename file_path)]) as (r & t' & Hr).
      rewrite Hr in H. discriminate.
    + cbn [fst] in H. injection H as <-. right. apply (rglob_basename_raises _ _ _ _ Hg).
Qed.

Lemma run_python_file_raises (w : world) (working_directory file_path : string)
    (args : list string) :
  snd (fst (run (run_python_file working_directory file_path args) w)) = w /\
  forall e, fst (fst (run (run_python_file working_directory file_path args) w)) = Exc e ->
            e = ValueError embedded_null \/ e = ValueError Glob.invalid_pattern.
Proof.
  destruct (contained_or_not w working_directory file_path) as [(wd & target & Hreq)|Hno].
  2:{ destruct (not_contained_outcomes w working_directory file_path EmptyString args Hno)
        as (r1 & r2 & _ & [->| ->] & _ & _ & _ & Hrun); rewrite Hrun; cbn [fst snd];
        (split; [reflexivity|]); intros e H;
        [injection H as <-; left; reflexivity | discriminate]. }
  unfold run.
  rewrite (run_python_file_eq w working_directory file_path args wd target Hreq).
  cbn zeta.
  destruct (FS.exists_ (fs w) target).
  - destruct (run_python_file_exec_returns wd target file_path args w [EvExists target])
      as (r & t' & Hr).
    rewrite Hr. cbn [fst snd]. split; [reflexivity | discriminate].
  - destruct (Glob.rglob (fs w) wd (basename file_path)) as [[|first rest]|e'] eqn:Hg.
    + cbn [fst snd]. split; [reflexivity | discriminate].
    + destruct (run_python_file_exec_returns wd first file_path args w
                  [EvExists target; EvRglob wd (basename file_path)]) as (r & t' & Hr).
      rewrite Hr. cbn [fst snd]. split; [reflexivity | discriminate].
    + cbn [fst snd]. split; [reflexivity|]. intros e H. injection H as <-.
      right. apply (rglob_basename_raises _ _ _ _ Hg).
Qed.

Lemma write_file_raises (w : world) (working_directory file_path content : string)
    (e : exn) :
  fst (fst (run (write_file working_directory file_path content) w)) = Exc e ->
  snd (fst (run (write_file working_directory file_path content) w)) = w /\
  (e = ValueError embedded_null \/ e = ValueError Glob.invalid_pattern).
Proof.
  intros H.
  destruct (contained_or_not w working_directory file_path) as [(wd & target & Hreq)|Hno].
  2:{ destruct (not_contained_outcomes w working_directory file_path content [] Hno)
        as (r1 & r2 & _ & [->| ->] & _ & _ & Hrun & _); rewrite Hrun in *; cbn [fst snd] in *;
        [injection H as <-; split; [reflexivity | left; reflexivity] | discriminate]. }
  unfold run in *.
  rewrite (write_file_eq w working_directory file_path content wd target Hreq) in *.
  cbn zeta in *.
  destruct (negb (FS.exists_ (fs w) target) && negb (FS.exists_ (fs w) (parent target))).
  - destruct (Glob.rglob (fs w) wd (basename file_path)) as [[|first rest]|e'] eqn:Hg.
    + match type of H with
      | context [write_file_write ?p ?f ?c (?w0, ?t0)] =>
          destruct (write_file_write_returns p f c w0 t0) as (r & [w' t'] & Hr)
      end.
      rewrite Hr in H. discriminate.
    + match type of H with
      | context [write_file_write ?p ?f ?c (?w0, ?t0)] =>
          destruct (write_file_write_returns p f c w0 t0) as (r & [w' t'] & Hr)
      end.
      rewrite Hr in H. discriminate.
    + cbn [fst snd] in *. injection H as <-. split; [reflexivity|].
      right. apply (rglob_basename_raises _ _ _ _ Hg).
  - match type of H with
    | context [write_file_write ?p ?f ?c (?w0, ?t0)] =>
        destruct (write_file_write_returns p f c w0 t0) as (r & [w' t'] & Hr)
    end.
    rewrite Hr in H. discriminate.
Qed.

(** ** Calls made after other calls *)

Lemma appends_intro {A : Type} (m : M A) :
  (forall w t, exists r w' t', m (w, []) = (r, (w', t')) /\ m (w, t) = (r, (w', t ++ t'))) ->
  appends m.
Proof.
  intros H w t. destruct (H w t) as (r & w' & t' & H0 & Ht).
  unfold run. rewrite H0, Ht. reflexivity.
Qed.

Lemma appends_elim {A : Type} (m : M A) (w : world) (t : list event) :
  appends m ->
  exists r w' t', m (w, []) = (r, (w', t')) /\ m (w, t) = (r, (w', t ++ t')).
Proof.
  intros H. destruct (m (w, [])) as [r [w' t']] eqn:H0.
  exists r, w', t'. split; [reflexivity|].
  rewrite (H w t). unfold run. rewrite H0. reflexivity.
Qed.

Lemma appends_ret {A : Type} (a : A) : appends (ret a).
Proof. intros w t. unfold run, ret. cbn. rewrite app_nil_r. reflexivity. Qed.

Lemma appends_raise {A : Type} (e : exn) : appends (@raise A e).
Proof. intros w t. unfold run, raise. cbn. rewrite app_nil_r. reflexivity. Qed.

Lemma appends_of_res {A : Type} (r : res A) : appends (of_res r).
Proof. intros w t. unfold run, of_res. cbn. rewrite app_nil_r. reflexivity. Qed.

Lemma appends_lift_fs {A : Type} (f : node -> A) : appends (lift_fs f).
Proof. intros w t. unfold run, lift_fs. cbn. rewrite app_nil_r. reflexivity. Qed.

Lemma appends_set_fs (root : node) : appends (set_fs root).
Proof. intros w t. unfold run, set_fs. cbn. rewrite app_nil_r. reflexivity. Qed.

Lemma appends_log (ev : event) : appends (log ev).
Proof. intros w t. reflexivity. Qed.

Lemma appends_resolve (pp : PurePath.t) : appends (resolve pp).
Proof. intros w t. unfold run, resolve. cbn. rewrite app_nil_r. reflexivity. Qed.

Lemma appends_bind {A B : Type} (m : M A) (k : A -> M B) :
  appends m -> (forall a, appends (k a)) -> appends (bind m k).
Proof.
  intros Hm Hk. apply appends_intro. intros w t.
  destruct (appends_elim m w t Hm) as (r & w1 & t1 & H0 & Ht).
  unfold bind. rewrite H0, Ht. destruct r as [a|e].
  - destruct (appends_elim (k a) w1 t1 (Hk a)) as (r2 & w2 & t2 & H20 & H2t).
    destruct (appends_elim (k a) w1 (t ++ t1) (Hk a)) as (r3 & w3 & t3 & H30 & H3t).
    rewrite H30 in H20. injection H20 as -> -> ->.
    exists r2, w2, (t1 ++ t2). rewrite H2t, H3t, app_assoc. split; reflexivity.
  - exists (Exc e), w1, t1. split; reflexivity.
Qed.

Lemma appends_try {A : Type} (m : M A) (handler : exn -> M A) :
  appends m -> (forall e, appends (handler e)) -> appends (try_except m handler).
Proof.
  intros Hm Hh. apply appends_intro. intros w t.
  destruct (appends_elim m w t Hm) as (r & w1 & t1 & H0 & Ht).
  unfold try_except. rewrite H0, Ht. destruct r as [a|e].
  - exists (Val a), w1, t1. split; reflexivity.
  - destruct (appends_elim (handler e) w1 t1 (Hh e)) as (r2 & w2 & t2 & H20 & H2t).
    destruct (appends_elim (handler e) w1 (t ++ t1) (Hh e)) as (r3 & w3 & t3 & H30 & H3t).
    rewrite H30 in H20. injection H20 as -> -> ->.
    exists r2, w2, (t1 ++ t2). rewrite H2t, H3t, app_assoc. split; reflexivity.
Qed.

Lemma appends_subprocess_run (argv : list string) (timeout_s : N) (dir : path) :
  appends (subprocess_run argv timeout_s dir).
Proof.
  intros w t. unfold run, subprocess_run. cbn [fst snd].
  destruct (existsb has_nul argv); [cbn; rewrite app_nil_r; reflexivity|].
  destruct (FS.stat (fs w) dir) as [e|[q [size text|es|]]];
    try (cbn; rewrite app_nil_r; reflexivity).
  destruct (interpreter w) as [behaviour|]; [|cbn; rewrite app_nil_r; reflexivity].
  destruct (behaviour argv dir) as [elapsed out err code|].
  - destruct (elapsed <=? timeout_s * 1000)%N; cbn; rewrite <- ?app_assoc; reflexivity.
  - cbn. rewrite <- app_assoc. reflexivity.
Qed.

Ltac appends_steps :=
  repeat first
    [ apply appends_ret
    | apply appends_raise
    | apply appends_of_res
    | apply appends_lift_fs
    | apply appends_set_fs
    | apply appends_log
    | apply appends_resolve
    | apply appends_subprocess_run
    | apply appends_bind; [|intros ?]
    | apply appends_try; [|intros ?]
    | match goal with
      | |- appends (if ?b then _ else _) => destruct b
      | |- appends (match ?x with _ => _ end) => destruct x
      | |- appends (let _ := _ in _) => cbn zeta
      end ].

Lemma appends_collect_items (items : list path) :
  forall items_info, appends (collect_items items items_info).
Proof.
  induction items as [|item rest IH]; intros items_info; cbn [collect_items].
  - apply appends_ret.
  - apply appends_bind; [unfold path_is_file; appends_steps|]. intros [|].
    + apply appends_bind; [unfold path_st_size; appends_steps|]. intros size. apply IH.
    + apply appends_bind; [unfold path_is_dir; appends_steps|]. intros [|]; apply IH.
Qed.

Lemma appends_get_files_info_listing (target_dir : path) (directory : string) :
  appends (get_files_info_listing target_dir directory).
Proof.
  unfold get_files_info_listing, path_is_dir, path_iterdir.
  apply appends_bind; [appends_steps|]. intros is_d.
  destruct (negb is_d); [apply appends_ret|].
  apply appends_try; [|intros e; appends_steps].
  apply appends_bind; [appends_steps|]. intros items.
  apply appends_bind; [apply appends_collect_items|]. intros. apply appends_ret.
Qed.

Lemma appends_get_files_info (working_directory directory : string) :
  appends (get_files_info working_directory directory).
Proof.
  unfold get_files_info, resolve_under, path_exists, path_rglob.
  apply appends_bind; [appends_steps|]. intros working_dir.
  apply appends_bind; [appends_steps|]. intros target_dir.
  destruct (negb (is_relative_to target_dir working_dir)); [apply appends_ret|].
  apply appends_bind; [appends_steps|]. intros present.
  destruct (negb present && negb (directory =? ".")%string).
  - apply appends_bind; [appends_steps|]. intros [|first rest]; [apply appends_ret|].
    destruct (negb (is_relative_to first working_dir));
      [apply appends_ret | apply appends_get_files_info_listing].
  - apply appends_get_files_info_listing.
Qed.

Lemma appends_get_file_content (working_directory file_path : string) :
  appends (get_file_content working_directory file_path).
Proof.
  unfold get_file_content, get_file_content_read, resolve_under, path_exists, path_rglob,
    path_is_file, read_text.
  appends_steps.
Qed.

Lemma appends_write_file (working_directory file_path content : string) :
  appends (write_file working_directory file_path content).
Proof.
  unfold write_file, write_file_write, write_file_search_needed, resolve_under, path_exists,
    path_rglob, path_mkdir, write_text.
  appends_steps.
Qed.

Lemma appends_run_python_file (working_directory file_path : string) (args : list string) :
  appends (run_python_file working_directory file_path args).
Proof.
  unfold run_python_file, run_python_file_exec, resolve_under, path_exists, path_rglob,
    path_is_file.
  appends_steps.
Qed.

(** A call of a function in a process: its outcome and its world are
    those of the call made alone in the world of the process. *)
Lemma lift_run {A : Type} (m : M A) (p : process) :
  appends m ->
  lift m p
  = (match fst (fst (run m (world_of p))) with
     | Val a => Returned a
     | Exc e => Failed (FunctionRaised e)
     end,
     mkProcess (snd (fst (run m (world_of p))), snd (env p) ++ snd (run m (world_of p)))
               (stdout p) (messages p) (requests p)).
Proof.
  intros Hm. unfold lift, world_of.
  destruct (env p) as [w t]. cbn [fst snd]. rewrite (Hm w t).
  destruct (fst (fst (run m w))); reflexivity.
Qed.

(** ** The current directory as the working directory *)

Lemma split_append_sep (sep : ascii) (c rest : string) :
  PyStr.contains_char sep c = false ->
  PyStr.split sep (String.append c (String sep rest)) = c :: PyStr.split sep rest.
Proof.
  induction c as [|a c IH]; intros H.
  - change (String.append "" (String sep rest)) with (String sep rest).
    change (PyStr.split sep (String sep rest))
      with (if Ascii.eqb sep sep then EmptyString :: PyStr.split sep rest
            else match PyStr.split sep rest with
                 | [] => [String sep EmptyString]
                 | h :: t => String sep h :: t
                 end).
    rewrite Ascii.eqb_refl. reflexivity.
  - cbn [PyStr.contains_char] in H. apply Bool.orb_false_iff in H. destruct H as [Ha Hc].
    change (String.append (String a c) (String sep rest))
      with (String a (String.append c (String sep rest))).
    change (PyStr.split sep (String a (String.append c (String sep rest))))
      with (if Ascii.eqb a sep
            then EmptyString :: PyStr.split sep (String.append c (String sep rest))
            else match PyStr.split sep (String.append c (String sep rest)) with
                 | [] => [String a EmptyString]
                 | h :: t => String a h :: t
                 end).
    rewrite Ascii.eqb_sym in Ha. rewrite Ha, (IH Hc). reflexivity.
Qed.

Lemma file_name_ok_facts (c : string) :
  file_name_ok c = true ->
  PurePath.keep_part c = true /\ c <> dotdot /\
  PyStr.contains_char "/" c = false /\ has_nul c = false.
Proof.
  unfold file_name_ok, PurePath.keep_part. intros H.
  repeat (apply Bool.andb_true_iff in H; destruct H as [H ?]).
  repeat match goal with
         | H : negb _ = true |- _ => apply Bool.negb_true_iff in H
         end.
  split; [rewrite H, H3; reflexivity|].
  split; [apply String.eqb_neq; assumption|]. split; assumption.
Qed.

Lemma split_join (p : path) :
  canonical p = true ->
  PyStr.split "/" (PyStr.join "/" p) = match p with [] => [EmptyString] | _ => p end.
Proof.
  unfold PyStr.join. induction p as [|c p IH]; intros H; [reflexivity|].
  cbn [canonical forallb] in H. apply Bool.andb_true_iff in H. destruct H as [Hc Hp].
  destruct (file_name_ok_facts c Hc) as (_ & _ & Hslash & _).
  destruct p as [|d p].
  - cbn [String.concat]. apply (split_plain _ _ Hslash).
  - change (String.concat "/" (c :: d :: p))
      with (String.append c (String "/" (String.concat "/" (d :: p)))).
    rewrite (split_append_sep _ _ _ Hslash), (IH Hp). reflexivity.
Qed.

Lemma canonical_filter (p : path) : canonical p = true -> filter PurePath.keep_part p = p.
Proof.
  induction p as [|c p IH]; intros H; [reflexivity|].
  cbn [canonical forallb] in H. apply Bool.andb_true_iff in H. destruct H as [Hc Hp].
  destruct (file_name_ok_facts c Hc) as (Hk & _).
  cbn [filter]. rewrite Hk, (IH Hp). reflexivity.
Qed.

Lemma parse_str_of_path (p : path) :
  canonical p = true -> PurePath.parse (str_of_path p) = PurePath.mk true p.
Proof.
  intros H. unfold PurePath.parse, str_of_path.
  change (String.append "/" (PyStr.join "/" p)) with (String "/" (PyStr.join "/" p)).
  f_equal.
  { rewrite prefix_cons. destruct (Ascii.ascii_dec "/" "/"); [|congruence].
    destruct (PyStr.join "/" p); reflexivity. }
  change (PyStr.split "/" (String "/" (PyStr.join "/" p)))
    with (EmptyString :: PyStr.split "/" (PyStr.join "/" p)).
  change (filter PurePath.keep_part (EmptyString :: PyStr.split "/" (PyStr.join "/" p)))
    with (filter PurePath.keep_part (PyStr.split "/" (PyStr.join "/" p))).
  rewrite (split_join p H). destruct p as [|c p]; [reflexivity|].
  apply (canonical_filter _ H).
Qed.

Lemma canonical_no_dotdot (p : path) : canonical p = true -> no_dotdot p.
Proof.
  induction p as [|c p IH]; intros H; [intros []|].
  cbn [canonical forallb] in H. apply Bool.andb_true_iff in H. destruct H as [Hc Hp].
  destruct (file_name_ok_facts c Hc) as (_ & Hd & _).
  intros [Heq|Hin]; [apply Hd; exact Heq | apply (IH Hp Hin)].
Qed.

Lemma canonical_no_nul (p : path) : canonical p = true -> existsb has_nul p = false.
Proof.
  induction p as [|c p IH]; intros H; [reflexivity|].
  cbn [canonical forallb] in H. apply Bool.andb_true_iff in H. destruct H as [Hc Hp].
  destruct (file_name_ok_facts c Hc) as (_ & _ & _ & Hn).
  cbn [existsb]. rewrite Hn, (IH Hp). reflexivity.
Qed.

(** [Path(os.getcwd()).resolve()] is the current directory. *)
Lemma resolve_cwd (current : path) (p : path) :
  canonical p = true -> resolve_in current (PurePath.parse (str_of_path p)) = Val p.
Proof.
  intros H. rewrite (parse_str_of_path p H). unfold resolve_in.
  cbn [PurePath.absolute PurePath.parts].
  rewrite (canonical_no_nul p H), (normalise_plain p [] (canonical_no_dotdot p H)).
  reflexivity.
Qed.

(** ** The dispatcher *)

Lemma call_function_eq (function_call_part : FunctionCall) (verbose : bool) (p : process) :
  call_function function_call_part verbose p
  = let p1 := printed_line p (executing_line function_call_part verbose) in
    let working_directory := str_of_path (cwd (world_of p)) in
    let name := fc_name function_call_part in
    if existsb (String.eqb name)
         ["get_files_info"; "get_file_content"; "write_file"; "run_python_file"]%string
    then
      match fc_args function_call_part with
      | None => (Failed (none_has_no_attribute "get"), p1)
      | Some a =>
          if (name =? "get_files_info")%string then
            lift (get_files_info working_directory
                    (match get_directory a with Some d => d | None => "."%string end)) p1
          else if (name =? "get_file_content")%string then
            match get_file_path a with
            | None => (Returned (file_path_required "get_file_content"), p1)
            | Some file_path => lift (get_file_content working_directory file_path) p1
            end
          else if (name =? "write_file")%string then
            match get_file_path a, get_content a with
            | Some file_path, Some content =>
                lift (write_file working_directory file_path content) p1
            | _, _ => (Returned write_parameters_required, p1)
            end
          else
            match get_file_path a with
            | None => (Returned (file_path_required "run_python_file"), p1)
            | Some file_path =>
                lift (run_python_file working_directory file_path
                        (match get_args a with Some l => l | None => [] end)) p1
            end
      end
    else (Returned (unknown_function name), p1).
Proof.
  unfold call_function, executing_line, printed_line, world_of.
  cbn zeta. cbn [existsb].
  destruct verbose;
    unfold agent_bind at 1; unfold print at 1; cbn beta iota;
    unfold agent_bind at 1; unfold getcwd at 1; cbn beta iota; cbn [env fst];
    destruct (fc_name function_call_part =? "get_files_info")%string;
    destruct (fc_name function_call_part =? "get_file_content")%string;
    destruct (fc_name function_call_part =? "write_file")%string;
    destruct (fc_name function_call_part =? "run_python_file")%string;
    cbn [orb]; unfold agent_bind, args_of;
    try reflexivity;
    destruct (fc_args function_call_part) as [a|]; try reflexivity;
    unfold agent_ret; cbn beta iota;
    destruct (get_file_path a); try reflexivity;
    destruct (get_content a); reflexivity.
Qed.

(** X8.  A function call whose name is none of the declared tools is
    answered with the unknown-function text naming it: besides the
    line that announces the call, nothing is printed, nothing is read
    or changed, and no function runs. *)
Theorem undeclared_function_is_refused
    (function_call_part : FunctionCall) (verbose : bool) (p : process) :
  (forall d, In d available_functions -> fd_name d <> fc_name function_call_part) ->
  call_function function_call_part verbose p
  = (Returned (String.append "Error: Unknown function '"
                 (String.append (fc_name function_call_part) "'")),
     printed_line p (executing_line function_call_part verbose)).
Proof.
  intros H. rewrite call_function_eq. cbn zeta.
  assert (Hn : existsb (String.eqb (fc_name function_call_part))
                 ["get_files_info"; "get_file_content"; "write_file"; "run_python_file"]%string
               = false).
  { destruct (existsb _ _) eqn:He; [|reflexivity].
    apply existsb_exists in He. destruct He as (x & Hx & Heq).
    apply String.eqb_eq in Heq. subst x. exfalso.
    destruct Hx as [Hx|[Hx|[Hx|[Hx|[]]]]].
    - apply (H schema_get_files_info); [left; reflexivity | exact Hx].
    - apply (H schema_get_file_content); [right; right; left; reflexivity | exact Hx].
    - apply (H schema_write_file); [right; left; reflexivity | exact Hx].
    - apply (H schema_run_python_file); [right; right; right; left; reflexivity | exact Hx]. }
  rewrite Hn. reflexivity.
Qed.

Lemma undeclared_function_is_refused_witness :
  call_function (mkFunctionCall "delete_file" None) false (start sample_world)
  = (Returned (String.append "Error: Unknown function '" (String.append "delete_file" "'")),
     printed_line (start sample_world)
       (executing_line (mkFunctionCall "delete_file" None) false)).
Proof.
  apply (undeclared_function_is_refused (mkFunctionCall "delete_file" None) false
           (start sample_world)).
  intros d [<-|[<-|[<-|[<-|[]]]]]; discriminate.
Defined.

(** X9.  A call of [get_file_content], [write_file] or
    [run_python_file] without [file_path], or of [write_file] without
    [content], is answered with a text that says which parameter is
    required; the function itself is not called: besides the line that
    announces the call, the process is as before. *)
Theorem missing_argument_is_refused
    (function_call_part : FunctionCall) (a : CallArgs) (verbose : bool) (p : process) :
  fc_args function_call_part = Some a ->
  In (fc_name function_call_part)
     ["get_file_content"; "write_file"; "run_python_file"]%string ->
  get_file_path a = None \/
  (fc_name function_call_part = "write_file"%string /\ get_content a = None) ->
  call_function function_call_part verbose p
  = (Returned
       (if (fc_name function_call_part =? "write_file")%string
        then "Error: file_path and content parameters are required for write_file"%string
        else String.append "Error: file_path parameter is required for "
                           (fc_name function_call_part)),
     printed_line p (executing_line function_call_part verbose)).
Proof.
  intros Hargs Hname Hmissing. rewrite call_function_eq. cbn zeta. rewrite Hargs.
  destruct Hname as [Hn|[Hn|[Hn|[]]]]; rewrite <- Hn in *; cbn [existsb String.eqb].
  - destruct Hmissing as [Hf|[Hw _]]; [|discriminate]. rewrite Hf. reflexivity.
  - destruct Hmissing as [Hf|[_ Hc]].
    + rewrite Hf. reflexivity.
    + rewrite Hc. destruct (get_file_path a); reflexivity.
  - destruct Hmissing as [Hf|[Hw _]]; [|discriminate]. rewrite Hf. reflexivity.
Qed.

Lemma missing_argument_is_refused_witness :
  let fc := mkFunctionCall "write_file"
              (Some (mkCallArgs "{'file_path': 'a.txt'}" None (Some "a.txt"%string) None None)) in
  call_function fc true (start sample_world)
  = (Returned
       (if (fc_name fc =? "write_file")%string
        then "Error: file_path and content parameters are required for write_file"%string
        else String.append "Error: file_path parameter is required for " (fc_name fc)),
     printed_line (start sample_world) (executing_line fc true)).
Proof.
  apply (missing_argument_is_refused
           (mkFunctionCall "write_file"
              (Some (mkCallArgs "{'file_path': 'a.txt'}" None (Some "a.txt"%string) None None)))
           (mkCallArgs "{'file_path': 'a.txt'}" None (Some "a.txt"%string) None None)
           true (start sample_world)).
  - reflexivity.
  - right. left. reflexivity.
  - right. split; reflexivity.
Defined.

Lemma call_function_failures
    (function_call_part : FunctionCall) (verbose : bool) (p p' : process) (f : fault) :
  call_function function_call_part verbose p = (Failed f, p') ->
  world_of p' = world_of p /\ messages p' = messages p /\ requests p' = requests p /\
  ((f = AttributeError "'NoneType' object has no attribute 'get'" /\
    fc_args function_call_part = None) \/
   f = FunctionRaised (ValueError "embedded null byte") \/
   f = FunctionRaised
         (ValueError "Invalid pattern: '**' can only be an entire path component") \/
   (f = FunctionRaised (NotImplementedError "Non-relative patterns are unsupported") /\
    fc_name function_call_part = "get_files_info"%string)).
Proof.
  rewrite call_function_eq. cbn zeta.
  set (p1 := printed_line p (executing_line function_call_part verbose)).
  set (wd := str_of_path (cwd (world_of p))).
  assert (Hp1 : world_of p1 = world_of p) by reflexivity.
  destruct (existsb _ _); [|discriminate].
  destruct (fc_args function_call_part) as [a|] eqn:Hargs.
  2:{ intros H. injection H as <- <-. repeat split; try reflexivity. left. split; reflexivity. }
  destruct (String.eqb_spec (fc_name function_call_part) "get_files_info") as [Hn|_].
  { rewrite (lift_run _ p1 (appends_get_files_info _ _)).
    destruct (readonly_run _ (world_of p1) (readonly_get_files_info wd
                (match get_directory a with Some d => d | None => "."%string end)))
      as [Hw _].
    destruct (fst (fst (run _ (world_of p1)))) as [r|e] eqn:Hr; [discriminate|].
    intros H. injection H as <- <-. unfold world_of at 1. cbn [env fst].
    split; [rewrite Hw; exact Hp1|]. repeat split; try reflexivity.
    destruct (get_files_info_raises _ _ _ _ Hr) as [->|[->| ->]].
    - right. left. reflexivity.
    - right. right. left. reflexivity.
    - right. right. right. split; [reflexivity | exact Hn]. }
  destruct (fc_name function_call_part =? "get_file_content")%string.
  { destruct (get_file_path a) as [file_path|]; [|discriminate].
    rewrite (lift_run _ p1 (appends_get_file_content _ _)).
    destruct (readonly_run _ (world_of p1) (readonly_get_file_content wd file_path))
      as [Hw _].
    destruct (fst (fst (run _ (world_of p1)))) as [r|e] eqn:Hr; [discriminate|].
    intros H. injection H as <- <-. unfold world_of at 1. cbn [env fst].
    split; [rewrite Hw; exact Hp1|]. repeat split; try reflexivity.
    destruct (get_file_content_raises _ _ _ _ Hr) as [->| ->].
    - right. left. reflexivity.
    - right. right. left. reflexivity. }
  destruct (fc_name function_call_part =? "write_file")%string.
  { destruct (get_file_path a) as [file_path|]; [|discriminate].
    destruct (get_content a) as [content|]; [|discriminate].
    rewrite (lift_run _ p1 (appends_write_file _ _ _)).
    destruct (fst (fst (run _ (world_of p1)))) as [r|e] eqn:Hr; [discriminate|].
    destruct (write_file_raises _ _ _ _ _ Hr) as [Hw He].
    intros H. injection H as <- <-. unfold world_of at 1. cbn [env fst].
    split; [rewrite Hw; exact Hp1|]. repeat split; try reflexivity.
    destruct He as [->| ->].
    - right. left. reflexivity.
    - right. right. left. reflexivity. }
  destruct (get_file_path a) as [file_path|]; [|discriminate].
  rewrite (lift_run _ p1 (appends_run_python_file _ _ _)).
  destruct (run_python_file_raises (world_of p1) wd file_path
              (match get_args a with Some l => l | None => [] end)) as [Hw He].
  destruct (fst (fst (run _ (world_of p1)))) as [r|e] eqn:Hr; [discriminate|].
  intros H. injection H as <- <-. unfold world_of at 1. cbn [env fst].
  split; [rewrite Hw; exact Hp1|]. repeat split; try reflexivity.
  destruct (He e eq_refl) as [->| ->].
  - right. left. reflexivity.
  - right. right. left. reflexivity.
Qed.

Lemma write_file_raises_quietly (w : world) (working_directory file_path content : string)
    (e : exn) :
  fst (fst (run (write_file working_directory file_path content) w)) = Exc e ->
  quiet (snd (run (write_file working_directory file_path content) w)) = true.
Proof.
  intros H.
  destruct (contained_or_not w working_directory file_path) as [(wd & target & Hreq)|Hno].
  2:{ destruct (not_contained_outcomes w working_directory file_path content [] Hno)
        as (r1 & r2 & _ & _ & _ & _ & Hrun & _). rewrite Hrun. reflexivity. }
  unfold run in *.
  rewrite (write_file_eq w working_directory file_path content wd target Hreq) in *.
  cbn zeta in *.
  destruct (negb (FS.exists_ (fs w) target) && negb (FS.exists_ (fs w) (parent target))).
  - destruct (Glob.rglob (fs w) wd (basename file_path)) as [[|first rest]|e'] eqn:Hg.
    + match type of H with
      | context [write_file_write ?p ?f ?c (?w0, ?t0)] =>
          destruct (write_file_write_returns p f c w0 t0) as (r & [w' t'] & Hr)
      end.
      rewrite Hr in H. discriminate.
    + match type of H with
      | context [write_file_write ?p ?f ?c (?w0, ?t0)] =>
          destruct (write_file_write_returns p f c w0 t0) as (r & [w' t'] & Hr)
      end.
      rewrite Hr in H. discriminate.
    + cbn [fst snd]. destruct (FS.exists_ (fs w) target); reflexivity.
  - match type of H with
    | context [write_file_write ?p ?f ?c (?w0, ?t0)] =>
        destruct (write_file_write_returns p f c w0 t0) as (r & [w' t'] & Hr)
    end.
    rewrite Hr in H. discriminate.
Qed.

Lemma run_python_file_raises_quietly (w : world) (working_directory file_path : string)
    (args : list string) (e : exn) :
  fst (fst (run (run_python_file working_directory file_path args) w)) = Exc e ->
  quiet (snd (run (run_python_file working_directory file_path args) w)) = true.
Proof.
  intros H.
  destruct (contained_or_not w working_directory file_path) as [(wd & target & Hreq)|Hno].
  2:{ destruct (not_contained_outcomes w working_directory file_path EmptyString args Hno)
        as (r1 & r2 & _ & _ & _ & _ & _ & Hrun). rewrite Hrun. reflexivity. }
  unfold run in *.
  rewrite (run_python_file_eq w working_directory file_path args wd target Hreq) in *.
  cbn zeta in *.
  destruct (FS.exists_ (fs w) target).
  - destruct (run_python_file_exec_returns wd target file_path args w [EvExists target])
      as (r & t' & Hr).
    rewrite Hr in H. discriminate.
  - destruct (Glob.rglob (fs w) wd (basename file_path)) as [[|first rest]|e'] eqn:Hg.
    + discriminate.
    + destruct (run_python_file_exec_returns wd first file_path args w
                  [EvExists target; EvRglob wd (basename file_path)]) as (r & t' & Hr).
      rewrite Hr in H. discriminate.
    + reflexivity.
Qed.

Lemma call_function_failure_frame
    (function_call_part : FunctionCall) (verbose : bool) (p p' : process) (f : fault) :
  call_function function_call_part verbose p = (Failed f, p') ->
  (exists t', env p' = (world_of p, snd (env p) ++ t') /\ quiet t' = true) /\
  stdout p' = stdout p ++ [Line (executing_line function_call_part verbose)].
Proof.
  rewrite call_function_eq. cbn zeta.
  set (p1 := printed_line p (executing_line function_call_part verbose)).
  set (wd := str_of_path (cwd (world_of p))).
  assert (Hp1 : env p1 = (world_of p, snd (env p) ++ []))
    by (unfold p1, printed_line, world_of; cbn [env]; rewrite app_nil_r;
        destruct (env p); reflexivity).
  assert (Hw1 : world_of p1 = world_of p) by reflexivity.
  assert (Hs1 : stdout p1 = stdout p ++ [Line (executing_line function_call_part verbose)])
    by reflexivity.
  assert (Hstay : forall q f0, (@Failed string f0, p1) = (Failed f, q) ->
            (exists t', env q = (world_of p, snd (env p) ++ t') /\ quiet t' = true) /\
            stdout q = stdout p ++ [Line (executing_line function_call_part verbose)]).
  { intros q f0 H. injection H as _ <-. split; [exists []; split; [exact Hp1 | reflexivity]|].
    exact Hs1. }
  assert (Hlift : forall (m : M string) e,
            fst (fst (run m (world_of p1))) = Exc e ->
            snd (fst (run m (world_of p1))) = world_of p1 ->
            quiet (snd (run m (world_of p1))) = true ->
            forall q f0,
              (@Failed string f0,
               mkProcess (snd (fst (run m (world_of p1))),
                          snd (env p1) ++ snd (run m (world_of p1)))
                         (stdout p1) (messages p1) (requests p1)) = (Failed f, q) ->
              (exists t', env q = (world_of p, snd (env p) ++ t') /\ quiet t' = true) /\
              stdout q = stdout p ++ [Line (executing_line function_call_part verbose)]).
  { intros m e _ Hw Hq q f0 H. injection H as _ <-. cbn [env stdout].
    split; [|exact Hs1].
    exists (snd (run m (world_of p1))). split; [|exact Hq].
    rewrite Hw, Hw1. reflexivity. }
  destruct (existsb _ _); [|discriminate].
  destruct (fc_args function_call_part) as [a|]; [|apply Hstay].
  destruct (fc_name function_call_part =? "get_files_info")%string.
  { rewrite (lift_run _ p1 (appends_get_files_info _ _)).
    destruct (readonly_run _ (world_of p1) (readonly_get_files_info wd
                (match get_directory a with Some d => d | None => "."%string end)))
      as [Hw Hq].
    destruct (fst (fst (run _ (world_of p1)))) as [r|e] eqn:Hr; [discriminate|].
    apply (Hlift _ e Hr Hw Hq). }
  destruct (fc_name function_call_part =? "get_file_content")%string.
  { destruct (get_file_path a) as [file_path|]; [|discriminate].
    rewrite (lift_run _ p1 (appends_get_file_content _ _)).
    destruct (readonly_run _ (world_of p1) (readonly_get_file_content wd file_path))
      as [Hw Hq].
    destruct (fst (fst (run _ (world_of p1)))) as [r|e] eqn:Hr; [discriminate|].
    apply (Hlift _ e Hr Hw Hq). }
  destruct (fc_name function_call_part =? "write_file")%string.
  { destruct (get_file_path a) as [file_path|]; [|discriminate].
    destruct (get_content a) as [content|]; [|discriminate].
    rewrite (lift_run _ p1 (appends_write_file _ _ _)).
    destruct (fst (fst (run _ (world_of p1)))) as [r|e] eqn:Hr; [discriminate|].
    apply (Hlift _ e Hr (proj1 (write_file_raises _ _ _ _ _ Hr))
             (write_file_raises_quietly _ _ _ _ _ Hr)). }
  destruct (get_file_path a) as [file_path|]; [|discriminate].
  rewrite (lift_run _ p1 (appends_run_python_file _ _ _)).
  destruct (fst (fst (run _ (world_of p1)))) as [r|e] eqn:Hr; [discriminate|].
  apply (Hlift _ e Hr (proj1 (run_python_file_raises _ _ _ _))
           (run_python_file_raises_quietly _ _ _ _ _ Hr)).
Qed.

(** X10.  A call that fails has changed nothing.  When an exception
    leaves [call_function], the tree and the current directory are as
    before the call, the call made no directory, wrote no file and
    started no process, the messages and the number of requests are
    as before, and only the line that announces the call was printed;
    the failure is never [sys.exit].  (The functions handle paths
    before their [try] blocks, and every change is made inside one.) *)
Theorem call_function_fails_only_before_any_change
    (function_call_part : FunctionCall) (verbose : bool) (p p' : process) (f : fault) :
  call_function function_call_part verbose p = (Failed f, p') ->
  (exists added, env p' = (world_of p, snd (env p) ++ added) /\ quiet added = true) /\
  messages p' = messages p /\ requests p' = requests p /\
  stdout p' = stdout p ++ [Line (executing_line function_call_part verbose)] /\
  (forall code, f <> SystemExit code).
Proof.
  intros H.
  destruct (call_function_failure_frame _ _ _ _ _ H) as [Henv Hout].
  destruct (call_function_failures _ _ _ _ _ H) as (_ & Hm & Hr & Hf).
  split; [exact Henv|]. split; [exact Hm|]. split; [exact Hr|]. split; [exact Hout|].
  intros code ->.
  destruct Hf as [[Hf _]|[Hf|[Hf|[Hf _]]]]; discriminate Hf.
Qed.

(** The absolute path of a missing directory of the working directory,
    asked of [get_files_info]: the call fails with
    NotImplementedError. *)
Lemma call_function_fails_only_before_any_change_witness :
  let fc := mkFunctionCall "get_files_info"
              (Some (mkCallArgs "{'directory': '/w/ghost'}" (Some "/w/ghost"%string)
                       None None None)) in
  let p := start sample_world in
  let p' := snd (call_function fc false p) in
  fst (call_function fc false p)
  = Failed (FunctionRaised (NotImplementedError "Non-relative patterns are unsupported")) /\
  (exists added, env p' = (world_of p, snd (env p) ++ added) /\ quiet added = true) /\
  messages p' = messages p /\ requests p' = requests p /\
  stdout p' = stdout p ++ [Line (executing_line fc false)] /\
  (forall code,
     FunctionRaised (NotImplementedError "Non-relative patterns are unsupported")
     <> SystemExit code).
Proof.
  split; [reflexivity|].
  apply (call_function_fails_only_before_any_change
           (mkFunctionCall "get_files_info"
              (Some (mkCallArgs "{'directory': '/w/ghost'}" (Some "/w/ghost"%string)
                       None None None)))
           false (start sample_world)).
  reflexivity.
Defined.

(** X11.  On a file system without symbolic links, whatever function
    the model calls with whatever arguments, nothing is changed
    outside of the current directory: when the current directory is a
    directory of a well-formed tree, the tree with the current
    directory emptied is the same after [call_function] as before, and
    so is the current directory itself.  (The tree has no links:
    through a link inside the current directory [write_file] can write
    outside.  What a script that was started does by itself is not
    part of the model either.) *)
Theorem call_function_changes_nothing_outside_cwd
    (function_call_part : FunctionCall) (verbose : bool) (p : process) :
  wf (fs (world_of p)) = true ->
  canonical (cwd (world_of p)) = true ->
  is_directory (fs (world_of p)) (cwd (world_of p)) ->
  let p' := snd (call_function function_call_part verbose p) in
  outside (cwd (world_of p)) (fs (world_of p'))
  = outside (cwd (world_of p)) (fs (world_of p)) /\
  cwd (world_of p') = cwd (world_of p).
Proof.
  intros Hwf Hcanon Hdir p'. unfold p'. clear p'.
  rewrite call_function_eq. cbn zeta.
  set (p1 := printed_line p (executing_line function_call_part verbose)).
  set (wd := str_of_path (cwd (world_of p))).
  assert (Hp1 : world_of p1 = world_of p) by reflexivity.
  assert (Hsame : forall q : process, world_of q = world_of p ->
            outside (cwd (world_of p)) (fs (world_of q))
            = outside (cwd (world_of p)) (fs (world_of p)) /\
            cwd (world_of q) = cwd (world_of p))
    by (intros q ->; split; reflexivity).
  destruct (existsb _ _); [|apply (Hsame p1 Hp1)].
  destruct (fc_args function_call_part) as [a|]; [|apply (Hsame p1 Hp1)].
  destruct (fc_name function_call_part =? "get_files_info")%string.
  { rewrite (lift_run _ p1 (appends_get_files_info _ _)). apply Hsame.
    unfold world_of at 1. cbn [snd env fst].
    rewrite (proj1 (readonly_run _ (world_of p1) (readonly_get_files_info _ _))).
    exact Hp1. }
  destruct (fc_name function_call_part =? "get_file_content")%string.
  { destruct (get_file_path a) as [file_path|]; [|apply (Hsame p1 Hp1)].
    rewrite (lift_run _ p1 (appends_get_file_content _ _)). apply Hsame.
    unfold world_of at 1. cbn [snd env fst].
    rewrite (proj1 (readonly_run _ (world_of p1) (readonly_get_file_content _ _))).
    exact Hp1. }
  destruct (fc_name function_call_part =? "write_file")%string.
  { destruct (get_file_path a) as [file_path|]; [|apply (Hsame p1 Hp1)].
    destruct (get_content a) as [content|]; [|apply (Hsame p1 Hp1)].
    rewrite (lift_run _ p1 (appends_write_file _ _ _)).
    unfold world_of at 1 4. cbn [snd env fst]. rewrite Hp1.
    destruct (write_file_keeps_outside (world_of p) wd file_path content (cwd (world_of p))
                Hwf (resolve_cwd _ _ Hcanon) Hdir) as (Hout & Hcwd & _).
    split; assumption. }
  destruct (get_file_path a) as [file_path|]; [|apply (Hsame p1 Hp1)].
  rewrite (lift_run _ p1 (appends_run_python_file _ _ _)). apply Hsame.
  unfold world_of at 1. cbn [snd env fst].
  rewrite (proj1 (run_python_file_raises (world_of p1) _ _ _)). exact Hp1.
Qed.

(** The model asks to write [new/f.txt] from [/w] of the sample world:
    [/etc] is as before. *)
Lemma call_function_changes_nothing_outside_cwd_witness :
  let fc := mkFunctionCall "write_file"
              (Some (mkCallArgs "{'file_path': 'new/f.txt', 'content': 'x'}" None
                       (Some "new/f.txt"%string) (Some "x"%string) None)) in
  let p := start sample_world in
  let p' := snd (call_function fc true p) in
  outside (cwd (world_of p)) (fs (world_of p'))
  = outside (cwd (world_of p)) (fs (world_of p)) /\
  cwd (world_of p') = cwd (world_of p).
Proof.
  apply (call_function_changes_nothing_outside_cwd
           (mkFunctionCall "write_file"
              (Some (mkCallArgs "{'file_path': 'new/f.txt', 'content': 'x'}" None
                       (Some "new/f.txt"%string) (Some "x"%string) None)))
           true (start sample_world)).
  - reflexivity.
  - reflexivity.
  - eexists. reflexivity.
Defined.

(** ** The listing of the current directory *)

Lemma listing_of_directory (w : world) (d : path) (directory : string)
    (es : list (string * node)) (t : list event) :
  FS.lookup (fs w) d = Some (Dir es) ->
  NoDup (map fst es) ->
  ~ In dotdot (map fst es) ->
  exists t',
    get_files_info_listing d directory (w, t)
    = (Val (PyStr.join PyStr.nl (flat_map entry_lines es)), (w, t')).
Proof.
  intros Hlook Hnodup Hnames.
  destruct (lookup_stat _ _ _ Hlook) as [q Hstat].
  assert (Hchildren : forall k v, In (k, v) es -> FS.lookup (fs w) (d ++ [k]) = Some v).
  { intros k v Hin. unfold FS.lookup.
    rewrite (stat_child _ _ _ _ _ Hstat).
    - rewrite (assoc_in _ _ _ Hnodup Hin). reflexivity.
    - intros ->. apply Hnames. apply (in_map fst _ _ Hin). }
  unfold get_files_info_listing.
  rewrite (bind_step _ _ _ _ _ (path_is_dir_step _ _ _)).
  unfold FS.is_dir. rewrite Hlook. cbn [negb].
  destruct (collect_items_lines w d es Hchildren [] ((t ++ [EvIsDir d]) ++ [EvIterdir d]))
    as [t' Ht'].
  unfold try_except, bind at 1.
  unfold path_iterdir, bind at 1, bind at 1, log, lift_fs. cbn [fst snd].
  unfold FS.scandir. rewrite Hstat. unfold ret at 1, bind.
  rewrite Ht'. exists t'. reflexivity.
Qed.

(** X12.  A call of [get_files_info] without [directory] lists the
    current directory of the process: the result is the lines of its
    entries, one for each regular file with its size and one for each
    directory, in the order of the entries, and the tree is as
    before. *)
Theorem get_files_info_without_directory_lists_cwd
    (function_call_part : FunctionCall) (a : CallArgs) (verbose : bool) (p : process)
    (es : list (string * node)) :
  fc_name function_call_part = "get_files_info"%string ->
  fc_args function_call_part = Some a ->
  get_directory a = None ->
  canonical (cwd (world_of p)) = true ->
  FS.find (fs (world_of p)) (cwd (world_of p)) = Some (Dir es) ->
  NoDup (map fst es) ->
  ~ In dotdot (map fst es) ->
  fst (call_function function_call_part verbose p)
  = Returned (PyStr.join PyStr.nl (flat_map entry_lines es)) /\
  world_of (snd (call_function function_call_part verbose p)) = world_of p.
Proof.
  intros Hname Hargs Hdir Hcanon Hfind Hnodup Hnames.
  rewrite call_function_eq. cbn zeta. rewrite Hname, Hargs, Hdir. cbn [existsb String.eqb orb].
  set (p1 := printed_line p (executing_line function_call_part verbose)).
  rewrite (lift_run _ p1 (appends_get_files_info _ _)). cbn [fst snd].
  change (world_of p1) with (world_of p).
  pose proof (get_files_info_dot (world_of p) (str_of_path (cwd (world_of p)))
                (cwd (world_of p)) (resolve_cwd _ _ Hcanon)) as Hdot.
  assert (Hlook : FS.lookup (fs (world_of p)) (cwd (world_of p)) = Some (Dir es)).
  { rewrite (lookup_plain _ _ (canonical_no_dotdot _ Hcanon)). exact Hfind. }
  destruct (listing_of_directory (world_of p) (cwd (world_of p)) "." es
              [EvExists (cwd (world_of p))] Hlook Hnodup Hnames) as [t' Ht'].
  unfold run. rewrite Hdot, Ht'. cbn [fst snd]. split; reflexivity.
Qed.

Lemma get_files_info_without_directory_lists_cwd_witness :
  let fc := mkFunctionCall "get_files_info" (Some (mkCallArgs "{}" None None None None)) in
  let es := [("a.txt"%string, File 5 (Some "hello"%string));
             ("pkg"%string,
              Dir [("calc.py"%string, File 8 (Some "print(1)"%string));
                   ("notes.txt"%string, File 3 (Some "abc"%string));
                   ("deep"%string, Dir [("a.txt"%string, File 1 (Some "x"%string))])]);
             ("sock"%string, Socket);
             ("main.py"%string, File 0 (Some EmptyString))] in
  fst (call_function fc false (start sample_world))
  = Returned (PyStr.join PyStr.nl (flat_map entry_lines es)) /\
  world_of (snd (call_function fc false (start sample_world))) = world_of (start sample_world).
Proof.
  apply (get_files_info_without_directory_lists_cwd
           (mkFunctionCall "get_files_info" (Some (mkCallArgs "{}" None None None None)))
           (mkCallArgs "{}" None None None None) false (start sample_world)).
  - reflexivity.
  - reflexivity.
  - reflexivity.
  - reflexivity.
  - reflexivity.
  - simpl. repeat constructor; simpl; intuition discriminate.
  - simpl. intuition discriminate.
Defined.

(** ** One round with the model *)

Lemma call_function_frame (function_call_part : FunctionCall) (verbose : bool) (p : process) :
  messages (snd (call_function function_call_part verbose p)) = messages p /\
  requests (snd (call_function function_call_part verbose p)) = requests p.
Proof.
  rewrite call_function_eq. cbn zeta.
  set (p1 := printed_line p (executing_line function_call_part verbose)).
  destruct (existsb _ _); [|split; reflexivity].
  destruct (fc_args function_call_part) as [a|]; [|split; reflexivity].
  destruct (fc_name function_call_part =? "get_files_info")%string.
  { rewrite (lift_run _ p1 (appends_get_files_info _ _)). split; reflexivity. }
  destruct (fc_name function_call_part =? "get_file_content")%string.
  { destruct (get_file_path a); [|split; reflexivity].
    rewrite (lift_run _ p1 (appends_get_file_content _ _)). split; reflexivity. }
  destruct (fc_name function_call_part =? "write_file")%string.
  { destruct (get_file_path a); [|split; reflexivity].
    destruct (get_content a); [|split; reflexivity].
    rewrite (lift_run _ p1 (appends_write_file _ _ _)). split; reflexivity. }
  destruct (get_file_path a); [|split; reflexivity].
  rewrite (lift_run _ p1 (appends_run_python_file _ _ _)). split; reflexivity.
Qed.

Lemma call_function_no_exit (function_call_part : FunctionCall) (verbose : bool)
    (p p' : process) (code : Z) :
  call_function function_call_part verbose p <> (Failed (SystemExit code), p').
Proof.
  intros H. destruct (call_function_failures _ _ _ _ _ H) as (_ & _ & _ & Hf).
  destruct Hf as [[Hf _]|[Hf|[Hf|[Hf _]]]]; discriminate.
Qed.

Lemma append_candidates_eq (l : list (option Candidate)) :
  forall p, append_candidates l p
            = (Returned tt,
               mkProcess (env p) (stdout p) (messages p ++ candidate_contents l) (requests p)).
Proof.
  induction l as [|candidate rest IH]; intros p.
  - cbn [append_candidates candidate_contents flat_map]. unfold agent_ret.
    rewrite app_nil_r. destruct p; reflexivity.
  - cbn [append_candidates candidate_contents flat_map]. unfold agent_bind.
    destruct candidate as [[[content|]]|]; cbn [candidate_content];
      unfold append_message, agent_ret; rewrite IH; cbn [env stdout messages requests];
      rewrite <- ?app_assoc; reflexivity.
Qed.

(** The loop over the function calls: it adds one result message for
    each call it gets through, and it gets through all of them unless
    a call fails. *)
Lemma process_function_calls_messages (l : list FunctionCall) (verbose : bool) :
  forall p,
    requests (snd (process_function_calls l verbose p)) = requests p /\
    exists results,
      messages (snd (process_function_calls l verbose p)) = messages p ++ results /\
      Forall is_function_result results /\
      length results <= length l /\
      (forall u, fst (process_function_calls l verbose p) = Returned u ->
                 length results = length l) /\
      (forall code, fst (process_function_calls l verbose p) <> Failed (SystemExit code)).
Proof.
  induction l as [|function_call rest IH]; intros p.
  - split; [reflexivity|]. exists []. rewrite app_nil_r.
    split; [reflexivity|]. split; [constructor|]. split; [apply le_n|].
    split; [reflexivity | discriminate].
  - cbn [process_function_calls]. unfold agent_bind, append_message.
    destruct (call_function_frame function_call verbose p) as [Hm Hr].
    destruct (call_function function_call verbose p) as [[result|f] p1] eqn:Hcall;
      cbn [snd] in Hm, Hr.
    + cbn beta iota.
      match goal with
      | |- context [process_function_calls rest verbose ?q] =>
          destruct (IH q) as (Hreq & results & Hmsg & Hall & Hlen & Hret & Hexit)
      end.
      cbn [messages requests] in Hmsg, Hreq.
      split; [rewrite Hreq; exact Hr|].
      exists (function_result result :: results).
      split; [rewrite Hmsg, Hm, <- app_assoc; reflexivity|].
      split; [constructor; [exists result; reflexivity | exact Hall]|].
      split; [cbn [length]; apply le_n_S; exact Hlen|].
      split; [intros u Hu; cbn [length]; f_equal; apply (Hret u Hu) | exact Hexit].
    + cbn [snd fst]. split; [exact Hr|]. exists []. rewrite app_nil_r.
      split; [exact Hm|]. split; [constructor|]. split; [apply Nat.le_0_l|].
      split; [discriminate|].
      intros code H. injection H as ->.
      apply (call_function_no_exit function_call verbose p p1 code Hcall).
Qed.

Lemma print_lines_eq (lines : list string) :
  forall p, print_lines lines p = (Returned tt, printed_lines p lines).
Proof.
  induction lines as [|l rest IH]; intros p.
  - unfold printed_lines. cbn [print_lines map]. unfold agent_ret.
    rewrite app_nil_r. destruct p; reflexivity.
  - cbn [print_lines]. unfold agent_bind, print. rewrite IH.
    unfold printed_lines. cbn [env stdout messages requests map].
    rewrite <- app_assoc. reflexivity.
Qed.

Lemma run_agent_eq (client : Client) (tools : list FunctionDeclaration) (verbose : bool)
    (p : process) :
  run_agent client tools verbose p
  = let p0 := after_request p in
    match reply_to client tools p with
    | ServiceError text => (Returned false, printed_lines p0 (service_error_lines text))
    | Replied None =>
        if verbose then (Failed (none_has_no_attribute "usage_metadata"), p0)
        else (Returned false, printed_lines p0 ["Response is malformed"%string])
    | Replied (Some r) =>
        match usage_metadata r with
        | None =>
            if verbose then (Failed (none_has_no_attribute "prompt_token_count"), p0)
            else (Returned false, printed_lines p0 ["Response is malformed"%string])
        | Some u =>
            let p1 := if verbose then printed_lines p0 (token_lines u) else p0 in
            let p2 := with_messages p1 (candidate_contents (candidates r)) in
            match function_calls r with
            | [] =>
                (Returned false,
                 printed_lines p2 [match response_text r with
                                   | Some t => t
                                   | None => "None"%string
                                   end])
            | _ :: _ =>
                match process_function_calls (function_calls r) verbose p2 with
                | (Returned _, p3) => (Returned true, p3)
                | (Failed f, p3) => (Failed f, p3)
                end
            end
        end
    end.
Proof.
  unfold run_agent, reply_to, after_request. cbn zeta.
  unfold agent_bind at 1. unfold generate_content at 1. cbn beta iota.
  destruct (client (requests p) _) as [text|[r|]].
  - unfold agent_bind. rewrite print_lines_eq. reflexivity.
  - destruct (usage_metadata r) as [u|] eqn:Hu.
    + destruct verbose.
      * unfold agent_bind at 1. unfold agent_bind at 1. unfold print at 1 2. cbn beta iota.
        unfold agent_bind at 1. rewrite append_candidates_eq.
        unfold printed_lines, with_messages, token_lines.
        cbn [env stdout messages requests map]. rewrite <- !app_assoc. cbn [app].
        destruct (function_calls r) as [|fc rest] eqn:Hfc.
        -- unfold agent_bind, print, agent_ret. cbn [env stdout messages requests].
           rewrite <- ?app_assoc. reflexivity.
        -- unfold agent_bind at 1.
           destruct (process_function_calls (fc :: rest) true _) as [[u0|f] p3]; reflexivity.
      * unfold agent_bind at 1. unfold agent_ret at 1. cbn beta iota.
        unfold agent_bind at 1. rewrite append_candidates_eq.
        unfold printed_lines, with_messages. cbn [env stdout messages requests map].
        destruct (function_calls r) as [|fc rest] eqn:Hfc.
        -- unfold agent_bind, print, agent_ret. cbn [env stdout messages requests].
           reflexivity.
        -- unfold agent_bind at 1.
           destruct (process_function_calls (fc :: rest) false _) as [[u0|f] p3]; reflexivity.
    + destruct verbose.
      * reflexivity.
      * unfold agent_bind, agent_ret, print, printed_lines. reflexivity.
  - destruct verbose.
    + reflexivity.
    + unfold agent_bind, agent_ret, print, printed_lines. reflexivity.
Qed.

Lemma run_agent_frame (client : Client) (tools : list FunctionDeclaration) (verbose : bool)
    (p : process) :
  requests (snd (run_agent client tools verbose p)) = S (requests p) /\
  (exists added, messages (snd (run_agent client tools verbose p)) = messages p ++ added) /\
  (forall code, fst (run_agent client tools verbose p) <> Failed (SystemExit code)).
Proof.
  rewrite run_agent_eq. cbn zeta.
  assert (Hnil : forall q : process, messages q = messages p ->
                 exists added, messages q = messages p ++ added)
    by (intros q ->; exists []; rewrite app_nil_r; reflexivity).
  destruct (reply_to client tools p) as [text|[r|]].
  - split; [reflexivity|]. split; [apply Hnil; reflexivity | discriminate].
  - destruct (usage_metadata r) as [u|].
    + set (p1 := if verbose then printed_lines (after_request p) (token_lines u)
                 else after_request p).
      assert (Hp1 : requests p1 = S (requests p) /\ messages p1 = messages p)
        by (unfold p1; destruct verbose; split; reflexivity).
      destruct Hp1 as [Hr1 Hm1].
      destruct (function_calls r) as [|fc rest].
      * cbn [snd fst requests messages printed_lines with_messages].
        split; [exact Hr1|]. split; [|discriminate].
        rewrite Hm1. eexists; reflexivity.
      * destruct (process_function_calls_messages (fc :: rest) verbose
                    (with_messages p1 (candidate_contents (candidates r))))
          as (Hreq & results & Hmsg & _ & _ & _ & Hexit).
        destruct (process_function_calls (fc :: rest) verbose _) as [[u0|f] p3];
          cbn [snd fst] in *; cbn [with_messages messages requests] in Hmsg, Hreq;
          (split; [rewrite Hreq; exact Hr1|]);
          (split; [rewrite Hmsg, Hm1, <- app_assoc; eexists; reflexivity|]).
        -- discriminate.
        -- intros code H. injection H as ->. apply (Hexit code eq_refl).
    + destruct verbose; (split; [reflexivity|]);
        (split; [apply Hnil; reflexivity | discriminate]).
  - destruct verbose; (split; [reflexivity|]);
      (split; [apply Hnil; reflexivity | discriminate]).
Qed.

(** X13.  When the call of the service raises, [run_agent] does not
    fail: it prints the six lines about the error, with the text of the
    exception in the first, returns [False] for the function calls, and
    leaves the messages and the world as they were. *)
Theorem service_error_ends_the_round
    (client : Client) (tools : list FunctionDeclaration) (verbose : bool) (p : process)
    (text : string) :
  reply_to client tools p = ServiceError text ->
  run_agent client tools verbose p
  = (Returned false,
     mkProcess (env p)
       (stdout p ++ [Line (String.append "Error calling LLM service: " text);
                     Line "This could be due to:";
                     Line "- Network connectivity issues";
                     Line "- API rate limits";
                     Line "- Invalid API key";
                     Line "- Service temporarily unavailable"])
       (messages p) (S (requests p))).
Proof.
  intros H. rewrite run_agent_eq, H. cbn zeta.
  unfold printed_lines, after_request, service_error_lines, PyStr.f_string.
  cbn [env stdout messages requests map String.concat]. reflexivity.
Qed.

Lemma service_error_ends_the_round_witness :
  run_agent (scripted []) available_functions true (start sample_world)
  = (Returned false,
     mkProcess (env (start sample_world))
       (stdout (start sample_world)
        ++ [Line (String.append "Error calling LLM service: " "quota exceeded");
            Line "This could be due to:";
            Line "- Network connectivity issues";
            Line "- API rate limits";
            Line "- Invalid API key";
            Line "- Service temporarily unavailable"])
       (messages (start sample_world)) (S (requests (start sample_world)))).
Proof.
  apply (service_error_ends_the_round (scripted []) available_functions true
           (start sample_world) "quota exceeded").
  reflexivity.
Defined.

(** X14.  [run_agent] never rewrites the conversation: whatever the
    service answers and whatever the functions do, also when the round
    fails, the messages after the round are the messages before it
    followed by what the round added, and exactly one request was sent
    to the service. *)
Theorem run_agent_only_extends_the_conversation
    (client : Client) (tools : list FunctionDeclaration) (verbose : bool) (p : process) :
  (exists added,
     messages (snd (run_agent client tools verbose p)) = messages p ++ added) /\
  requests (snd (run_agent client tools verbose p)) = S (requests p).
Proof.
  destruct (run_agent_frame client tools verbose p) as (Hreq & Hmsg & _).
  split; assumption.
Qed.

(** X15.  A round that returns: for a response with usage metadata,
    the messages are extended by the contents of the candidates that
    have one, in their order, and then by one message for each
    function call, in the form of a function result; the round reports
    function calls exactly when the response has some. *)
Theorem one_result_message_per_function_call
    (client : Client) (tools : list FunctionDeclaration) (verbose : bool) (p p' : process)
    (r : GenerateContentResponse) (u : UsageMetadata) (has_function_calls : bool) :
  reply_to client tools p = Replied (Some r) ->
  usage_metadata r = Some u ->
  run_agent client tools verbose p = (Returned has_function_calls, p') ->
  exists results,
    messages p' = messages p ++ candidate_contents (candidates r) ++ results /\
    length results = length (function_calls r) /\
    Forall is_function_result results /\
    has_function_calls = match function_calls r with [] => false | _ :: _ => true end.
Proof.
  intros Hreply Hu. rewrite run_agent_eq, Hreply, Hu. cbn zeta.
  set (p1 := if verbose then printed_lines (after_request p) (token_lines u)
             else after_request p).
  assert (Hm1 : messages p1 = messages p) by (unfold p1; destruct verbose; reflexivity).
  destruct (function_calls r) as [|fc rest].
  - intros H. injection H as <- <-. exists [].
    cbn [printed_lines with_messages messages]. rewrite Hm1, app_nil_r.
    split; [reflexivity|]. split; [reflexivity|]. split; [constructor | reflexivity].
  - destruct (process_function_calls_messages (fc :: rest) verbose
                (with_messages p1 (candidate_contents (candidates r))))
      as (_ & results & Hmsg & Hall & _ & Hret & _).
    destruct (process_function_calls (fc :: rest) verbose _) as [[u0|f] p3];
      [|discriminate].
    intros H. injection H as <- <-. cbn [snd fst] in *.
    exists results. cbn [with_messages messages] in Hmsg.
    split; [rewrite Hmsg, Hm1, <- app_assoc; reflexivity|].
    split; [apply (Hret u0 eq_refl)|]. split; [exact Hall | reflexivity].
Qed.

(** The model asks for the listing and for [calc.py]. *)
Lemma one_result_message_per_function_call_witness :
  let client := scripted [Replied (Some (sample_response [list_call; read_call] ""))] in
  let r := sample_response [list_call; read_call] "" in
  let p := start sample_world in
  let p' := snd (run_agent client available_functions false p) in
  exists results,
    messages p' = messages p ++ candidate_contents (candidates r) ++ results /\
    length results = length (function_calls r) /\
    Forall is_function_result results /\
    true = match function_calls r with [] => false | _ :: _ => true end.
Proof.
  apply (one_result_message_per_function_call
           (scripted [Replied (Some (sample_response [list_call; read_call] ""))])
           available_functions false (start sample_world)
           (snd (run_agent
                   (scripted [Replied (Some (sample_response [list_call; read_call] ""))])
                   available_functions false (start sample_world)))
           (sample_response [list_call; read_call] "")
           (mkUsageMetadata (Some 12%Z) (Some 7%Z)) true).
  - reflexivity.
  - reflexivity.
  - vm_compute. reflexivity.
Defined.

(** X16.  A malformed response, [None] or one without usage metadata,
    is only reported as such when the verbose flag is off: the round
    then prints that the response is malformed and returns [False]
    with the messages as they were.  With the verbose flag on, the
    token counts are read first, and the round fails with an
    AttributeError. *)
Theorem malformed_response_is_reported_only_without_verbose
    (client : Client) (tools : list FunctionDeclaration) (verbose : bool) (p : process)
    (response : option GenerateContentResponse) :
  reply_to client tools p = Replied response ->
  malformed response = true ->
  run_agent client tools verbose p
  = if verbose
    then (Failed (AttributeError
                    (String.append "'NoneType' object has no attribute '"
                       (String.append (match response with
                                       | None => "usage_metadata"
                                       | Some _ => "prompt_token_count"
                                       end) "'"))),
          mkProcess (env p) (stdout p) (messages p) (S (requests p)))
    else (Returned false,
          mkProcess (env p) (stdout p ++ [Line "Response is malformed"]) (messages p)
                    (S (requests p))).
Proof.
  intros Hreply Hbad. rewrite run_agent_eq, Hreply. cbn zeta.
  destruct response as [r|].
  - unfold malformed in Hbad. destruct (usage_metadata r); [discriminate|].
    destruct verbose; reflexivity.
  - destruct verbose; reflexivity.
Qed.

Lemma malformed_response_is_reported_only_without_verbose_witness :
  run_agent (scripted [Replied None]) available_functions true (start sample_world)
  = (Failed (AttributeError
               (String.append "'NoneType' object has no attribute '"
                  (String.append "usage_metadata" "'"))),
     mkProcess (env (start sample_world)) (stdout (start sample_world))
               (messages (start sample_world)) (S (requests (start sample_world)))).
Proof.
  apply (malformed_response_is_reported_only_without_verbose
           (scripted [Replied None]) available_functions true (start sample_world) None).
  - reflexivity.
  - reflexivity.
Defined.

(** ** The command line *)

Lemma parse_arguments_cases (n : nat) :
  forall argv prompt verbose_flag p,
    length argv <= n ->
    (exists prompt' verbose',
       parse_arguments argv prompt verbose_flag p = (Returned (prompt', verbose'), p) /\
       (prompt' = prompt \/ exists a, prompt' = Some a /\ In a argv) /\
       (verbose' = true ->
        verbose_flag = true \/ In "--verbose"%string argv \/ In "-v"%string argv)) \/
    (parse_arguments argv prompt verbose_flag p = (Failed (SystemExit 0), printed_help p) /\
     (In "--help"%string argv \/ In "-h"%string argv)) \/
    (parse_arguments argv prompt verbose_flag p
     = (Failed (SystemExit 1), printed_line p "Error: --prompt requires a value") /\
     (In "--prompt"%string argv \/ In "-p"%string argv)).
Proof.
  induction n as [|n IH]; intros argv prompt verbose_flag p Hlen.
  - destruct argv; [|cbn [length] in Hlen; lia].
    left. exists prompt, verbose_flag. split; [reflexivity|]. split; [left; reflexivity|].
    intros H. left. exact H.
  - destruct argv as [|arg rest].
    { left. exists prompt, verbose_flag. split; [reflexivity|]. split; [left; reflexivity|].
      intros H. left. exact H. }
    cbn [length] in Hlen. cbn [parse_arguments].
    destruct ((arg =? "--help")%string || (arg =? "-h")%string) eqn:Hhelp.
    { right. left. split; [reflexivity|].
      apply Bool.orb_true_iff in Hhelp. destruct Hhelp as [H|H]; apply String.eqb_eq in H;
        subst arg; [left|right]; left; reflexivity. }
    destruct ((arg =? "--prompt")%string || (arg =? "-p")%string) eqn:Hprompt.
    { assert (Hin : In "--prompt"%string (arg :: rest) \/ In "-p"%string (arg :: rest)).
      { apply Bool.orb_true_iff in Hprompt.
        destruct Hprompt as [H|H]; apply String.eqb_eq in H; subst arg;
          [left|right]; left; reflexivity. }
      destruct rest as [|value rest'].
      { right. right. split; [reflexivity | exact Hin]. }
      destruct (String.prefix "--" value).
      { right. right. split; [reflexivity | exact Hin]. }
      cbn [length] in Hlen.
      destruct (IH rest' (Some value) verbose_flag p ltac:(lia))
        as [(pr & vb & Hrun & Hpr & Hvb)|[[Hrun Hh]|[Hrun Hp]]].
      - left. exists pr, vb. split; [exact Hrun|]. split.
        + right. destruct Hpr as [->|(a & -> & Ha)].
          * exists value. split; [reflexivity | right; left; reflexivity].
          * exists a. split; [reflexivity | right; right; exact Ha].
        + intros H. destruct (Hvb H) as [Hv|[Hv|Hv]];
            [left; exact Hv | right; left; right; right; exact Hv
            | right; right; right; right; exact Hv].
      - right. left. split; [exact Hrun|].
        destruct Hh as [H|H]; [left|right]; right; right; exact H.
      - right. right. split; [exact Hrun | exact Hin]. }
    destruct ((arg =? "--verbose")%string || (arg =? "-v")%string) eqn:Hverbose.
    { assert (Hin : In "--verbose"%string (arg :: rest) \/ In "-v"%string (arg :: rest)).
      { apply Bool.orb_true_iff in Hverbose.
        destruct Hverbose as [H|H]; apply String.eqb_eq in H; subst arg;
          [left|right]; left; reflexivity. }
      destruct (IH rest prompt true p ltac:(lia))
        as [(pr & vb & Hrun & Hpr & Hvb)|[[Hrun Hh]|[Hrun Hp]]].
      - left. exists pr, vb. split; [exact Hrun|]. split.
        + destruct Hpr as [->|(a & -> & Ha)]; [left; reflexivity|].
          right. exists a. split; [reflexivity | right; exact Ha].
        + intros _. right. exact Hin.
      - right. left. split; [exact Hrun|].
        destruct Hh as [H|H]; [left|right]; right; exact H.
      - right. right. split; [exact Hrun|].
        destruct Hp as [H|H]; [left|right]; right; exact H. }
    destruct (IH rest (match prompt with None => Some arg | Some _ => prompt end)
                verbose_flag p ltac:(lia))
      as [(pr & vb & Hrun & Hpr & Hvb)|[[Hrun Hh]|[Hrun Hp]]].
    + left. exists pr, vb. split; [exact Hrun|]. split.
      * destruct Hpr as [->|(a & -> & Ha)].
        -- destruct prompt; [left; reflexivity|].
           right. exists arg. split; [reflexivity | left; reflexivity].
        -- right. exists a. split; [reflexivity | right; exact Ha].
      * intros H. destruct (Hvb H) as [Hv|[Hv|Hv]];
          [left; exact Hv | right; left; right; exact Hv | right; right; right; exact Hv].
    + right. left. split; [exact Hrun|].
      destruct Hh as [H|H]; [left|right]; right; exact H.
    + right. right. split; [exact Hrun|].
      destruct Hp as [H|H]; [left|right]; right; exact H.
Qed.

Lemma parse_arguments_positional (argv : list string) :
  forall prompt verbose_flag p,
    forallb (fun a => negb (is_flag a)) argv = true ->
    parse_arguments argv prompt verbose_flag p
    = (Returned (match prompt with Some _ => prompt | None => hd_error argv end,
                 verbose_flag), p).
Proof.
  induction argv as [|arg rest IH]; intros prompt verbose_flag p H.
  - destruct prompt; reflexivity.
  - cbn [forallb] in H. apply Bool.andb_true_iff in H. destruct H as [Harg Hrest].
    apply Bool.negb_true_iff in Harg. unfold is_flag in Harg. cbn [existsb] in Harg.
    repeat (apply Bool.orb_false_iff in Harg; destruct Harg as [? Harg]).
    cbn [parse_arguments].
    repeat match goal with
           | H : (arg =? _)%string = false |- _ => rewrite H; clear H
           end.
    cbn [orb]. rewrite (IH _ _ _ Hrest). destruct prompt; reflexivity.
Qed.

(** ** The loop of the agent *)

Lemma agent_loop_frame (client : Client) (verbose : bool) (fuel : nat) :
  forall iteration p,
    requests (snd (agent_loop fuel client verbose iteration p))
    <= requests p + Nat.min fuel (max_iterations - iteration) /\
    (exists added,
       messages (snd (agent_loop fuel client verbose iteration p)) = messages p ++ added) /\
    (forall code,
       fst (agent_loop fuel client verbose iteration p) <> Failed (SystemExit code)).
Proof.
  induction fuel as [|fuel IH]; intros iteration p.
  - cbn [agent_loop]. destruct (iteration <? max_iterations)%nat; cbn [snd fst agent_ret].
    + split; [lia|]. split; [exists []; rewrite app_nil_r; reflexivity | discriminate].
    + split; [lia|]. split; [exists []; rewrite app_nil_r; reflexivity | discriminate].
  - cbn [agent_loop]. destruct (iteration <? max_iterations)%nat eqn:Hlt.
    2:{ cbn [snd fst agent_ret]. split; [lia|].
        split; [exists []; rewrite app_nil_r; reflexivity | discriminate]. }
    apply Nat.ltb_lt in Hlt.
    destruct (run_agent_frame client available_functions verbose p)
      as (Hreq & [added Hmsg] & Hexit).
    unfold agent_bind.
    destruct (run_agent client available_functions verbose p) as [[has|f] p1];
      cbn [snd fst] in *.
    + destruct has; cbn [negb].
      * assert (Hgo : exists p2,
                  requests p2 = requests p1 /\ messages p2 = messages p1 /\
                  (let (o, p') :=
                     (if verbose
                      then print (PyStr.f_string
                                    ["Agent iteration ";
                                     PyStr.str_of_N (N.of_nat (S iteration)); " completed"])
                      else agent_ret tt) p1 in
                   match o with
                   | Returned _ => agent_loop fuel client verbose (S iteration) p'
                   | Failed f => (Failed f, p')
                   end) = agent_loop fuel client verbose (S iteration) p2).
        { destruct verbose; eexists; (split; [|split; [|reflexivity]]); reflexivity. }
        destruct Hgo as (p2 & Hr2 & Hm2 & ->).
        destruct (IH (S iteration) p2) as (Hreq' & [added' Hmsg'] & Hexit').
        split; [rewrite Hr2, Hreq in Hreq'; lia|].
        split; [exists (added ++ added'); rewrite Hmsg', Hm2, Hmsg, app_assoc; reflexivity|].
        exact Hexit'.
      * cbn [agent_ret snd fst]. split; [lia|].
        split; [exists added; exact Hmsg | discriminate].
    + split; [lia|]. split; [exists added; exact Hmsg|].
      intros code H. injection H as ->. apply (Hexit code eq_refl).
Qed.

Lemma main_eq (client : Client) (argv : list string) (p : process) :
  main client argv p
  = match parse_arguments (tl argv) None false p with
    | (Failed f, p') => (Failed f, p')
    | (Returned (None, _), p') =>
        (Failed (SystemExit 1), printed_line p' "Error: --prompt is required.")
    | (Returned (Some prompt, verbose_flag), p') =>
        let p1 := mkProcess (env p') (stdout p') [user_prompt prompt] (requests p') in
        let p2 := if verbose_flag
                  then printed_line p1 (String.append "User's prompt: " prompt)
                  else p1 in
        match agent_loop max_iterations client verbose_flag 0 p2 with
        | (Returned iteration, p3) =>
            (Returned tt,
             if (max_iterations <=? iteration)%nat
             then printed_line p3 "Warning: Maximum iterations reached, stopping agent loop"
             else p3)
        | (Failed f, p3) => (Failed f, p3)
        end
    end.
Proof.
  unfold main. unfold agent_bind at 1.
  destruct (parse_arguments (tl argv) None false p) as [[[[prompt|] verbose_flag]|f] p'];
    [| reflexivity | reflexivity].
  cbn [fst snd]. cbn zeta.
  unfold agent_bind at 1. unfold set_messages at 1. cbn beta iota.
  unfold agent_bind at 1.
  destruct verbose_flag.
  - unfold print at 1. cbn beta iota. unfold agent_bind at 1.
    unfold printed_line, user_prompt, PyStr.f_string.
    cbn [env stdout messages requests String.concat].
    destruct (agent_loop max_iterations client true 0 _) as [[iteration|f] p3]; [|reflexivity].
    destruct (max_iterations <=? iteration)%nat; reflexivity.
  - unfold agent_ret at 1. cbn beta iota. unfold agent_bind at 1.
    unfold user_prompt.
    destruct (agent_loop max_iterations client false 0 _) as [[iteration|f] p3]; [|reflexivity].
    destruct (max_iterations <=? iteration)%nat; reflexivity.
Qed.

(** X17.  [main] sends at most twenty requests to the service, whatever
    the command line is and whatever the service and the functions
    do. *)
Theorem main_sends_at_most_twenty_requests
    (client : Client) (argv : list string) (p : process) :
  requests (snd (main client argv p)) <= requests p + 20.
Proof.
  rewrite main_eq.
  destruct (parse_arguments_cases (length (tl argv)) (tl argv) None false p (le_n _))
    as [(pr & vb & Hrun & _)|[[Hrun _]|[Hrun _]]]; rewrite Hrun.
  - destruct pr as [prompt|]; [|cbn [snd printed_line requests]; lia].
    cbn zeta.
    set (p2 := if vb
               then printed_line
                      (mkProcess (env p) (stdout p) [user_prompt prompt] (requests p))
                      (String.append "User's prompt: " prompt)
               else mkProcess (env p) (stdout p) [user_prompt prompt] (requests p)).
    assert (Hp2 : requests p2 = requests p) by (unfold p2; destruct vb; reflexivity).
    destruct (agent_loop_frame client vb max_iterations 0 p2) as (Hreq & _ & _).
    destruct (agent_loop max_iterations client vb 0 p2) as [[iteration|f] p3];
      cbn [snd] in *.
    + rewrite Hp2 in Hreq. unfold max_iterations in Hreq. cbn [Nat.min Nat.sub] in Hreq.
      destruct (max_iterations <=? iteration)%nat; cbn [printed_line requests]; lia.
    + rewrite Hp2 in Hreq. unfold max_iterations in Hreq. cbn [Nat.min Nat.sub] in Hreq. lia.
  - cbn [snd printed_help requests]. lia.
  - cbn [snd printed_line requests]. lia.
Qed.

(** X18.  When [main] ends by [sys.exit], no request was sent, no
    function was called and the world is as it was: the status is 0
    after the help screen, which needs [--help] or [-h] on the command
    line, and 1 after one of the two error lines about the prompt. *)
Theorem main_exits_before_any_request
    (client : Client) (argv : list string) (p p' : process) (code : Z) :
  main client argv p = (Failed (SystemExit code), p') ->
  env p' = env p /\ messages p' = messages p /\ requests p' = requests p /\
  ((code = 0%Z /\ stdout p' = stdout p ++ [HelpScreen] /\
    (In "--help"%string (tl argv) \/ In "-h"%string (tl argv))) \/
   (code = 1%Z /\
    (stdout p' = stdout p ++ [Line "Error: --prompt requires a value"] \/
     stdout p' = stdout p ++ [Line "Error: --prompt is required."]))).
Proof.
  rewrite main_eq.
  destruct (parse_arguments_cases (length (tl argv)) (tl argv) None false p (le_n _))
    as [(pr & vb & Hrun & _)|[[Hrun Hin]|[Hrun _]]]; rewrite Hrun.
  - destruct pr as [prompt|].
    + cbn zeta.
      match goal with
      | |- context [agent_loop max_iterations client vb 0 ?q] =>
          destruct (agent_loop_frame client vb max_iterations 0 q) as (_ & _ & Hexit);
          destruct (agent_loop max_iterations client vb 0 q) as [[iteration|f] p3]
      end.
      * discriminate.
      * intros H. injection H as -> <-. destruct (Hexit code eq_refl).
    + intros H. injection H as <- <-. repeat split; try reflexivity.
      right. split; [reflexivity | right; reflexivity].
  - intros H. injection H as <- <-. repeat split; try reflexivity.
    left. split; [reflexivity|]. split; [reflexivity | exact Hin].
  - intros H. injection H as <- <-. repeat split; try reflexivity.
    right. split; [reflexivity | left; reflexivity].
Qed.

Lemma main_exits_before_any_request_witness :
  let p := start sample_world in
  let p' := snd (main insistent ["main.py"; "list"; "-p"]%string p) in
  env p' = env p /\ messages p' = messages p /\ requests p' = requests p /\
  ((1%Z = 0%Z /\ stdout p' = stdout p ++ [HelpScreen] /\
    (In "--help"%string (tl ["main.py"; "list"; "-p"]%string) \/
     In "-h"%string (tl ["main.py"; "list"; "-p"]%string))) \/
   (1%Z = 1%Z /\
    (stdout p' = stdout p ++ [Line "Error: --prompt requires a value"] \/
     stdout p' = stdout p ++ [Line "Error: --prompt is required."]))).
Proof.
  apply (main_exits_before_any_request insistent ["main.py"; "list"; "-p"]%string
           (start sample_world)).
  reflexivity.
Defined.

(** X19.  When [main] does not end by [sys.exit], the conversation
    starts with the prompt as a message of the user, the prompt is one
    of the words of the command line after the program name, and the
    messages of the rounds come after it.  When none of those words is
    a flag, the prompt is the first of them. *)
Theorem conversation_starts_with_the_prompt
    (client : Client) (argv : list string) (p : process) :
  (forall code, fst (main client argv p) <> Failed (SystemExit code)) ->
  exists prompt added,
    In prompt (tl argv) /\
    messages (snd (main client argv p)) = user_prompt prompt :: added /\
    (forallb (fun a => negb (is_flag a)) (tl argv) = true -> hd_error (tl argv) = Some prompt).
Proof.
  intros Hno. rewrite main_eq in *.
  destruct (parse_arguments_cases (length (tl argv)) (tl argv) None false p (le_n _))
    as [(pr & vb & Hrun & Hpr & _)|[[Hrun _]|[Hrun _]]]; rewrite Hrun in *.
  - destruct pr as [prompt|]; [|destruct (Hno 1%Z eq_refl)].
    destruct Hpr as [Hpr|(a & Ha & Hin)]; [discriminate|]. injection Ha as <-.
    cbn zeta.
    set (p2 := if vb
               then printed_line
                      (mkProcess (env p) (stdout p) [user_prompt prompt] (requests p))
                      (String.append "User's prompt: " prompt)
               else mkProcess (env p) (stdout p) [user_prompt prompt] (requests p)).
    assert (Hp2 : messages p2 = [user_prompt prompt]) by (unfold p2; destruct vb; reflexivity).
    destruct (agent_loop_frame client vb max_iterations 0 p2) as (_ & [added Hmsg] & _).
    exists prompt, added. split; [exact Hin|]. split.
    + destruct (agent_loop max_iterations client vb 0 p2) as [[iteration|f] p3];
        cbn [snd] in *.
      * destruct (max_iterations <=? iteration)%nat; cbn [printed_line messages];
          rewrite Hmsg, Hp2; reflexivity.
      * rewrite Hmsg, Hp2. reflexivity.
    + intros Hflags. rewrite (parse_arguments_positional (tl argv) None false p Hflags) in Hrun.
      injection Hrun as Hhd _. exact Hhd.
  - destruct (Hno 0%Z eq_refl).
  - destruct (Hno 1%Z eq_refl).
Qed.

Lemma conversation_starts_with_the_prompt_witness :
  exists prompt added,
    In prompt (tl ["main.py"; "list the files"; "now"]%string) /\
    messages (snd (main (scripted []) ["main.py"; "list the files"; "now"]%string
                     (start sample_world)))
    = user_prompt prompt :: added /\
    (forallb (fun a => negb (is_flag a)) (tl ["main.py"; "list the files"; "now"]%string) = true ->
     hd_error (tl ["main.py"; "list the files"; "now"]%string) = Some prompt).
Proof.
  apply (conversation_starts_with_the_prompt (scripted [])
           ["main.py"; "list the files"; "now"]%string (start sample_world)).
  intros code. vm_compute. discriminate.
Defined.

(** The agent at work in the sample world: the model asks for the
    listing, reads [calc.py], and answers; then a service that asks
    for a listing in every round, which is stopped after twenty
    rounds. *)
Example agent_examples :
  let client :=
    scripted [Replied (Some (sample_response [list_call] ""));
              Replied (Some (sample_response [read_call] ""));
              Replied (Some (sample_response [] "It prints 1."))] in
  let done := main client ["main.py"; "--prompt"; "what does calc.py do?"]%string
                (start sample_world) in
  fst done = Returned tt /\
  requests (snd done) = 3 /\
  length (messages (snd done)) = 6 /\
  nth 4 (messages (snd done)) (user_prompt "")
  = function_result "print(1)" /\
  last (stdout (snd done)) HelpScreen = Line "It prints 1." /\
  world_of (snd done) = sample_world /\
  requests (snd (main insistent ["main.py"; "go"]%string (start sample_world))) = 20 /\
  last (stdout (snd (main insistent ["main.py"; "go"]%string (start sample_world)))) HelpScreen
  = Line "Warning: Maximum iterations reached, stopping agent loop".
Proof. vm_compute. repeat split; reflexivity. Qed.

(** ** A whole run stays in the current directory *)

Lemma safe_state_of_world (c : path) (o : node) (p : process) (w : world) :
  world_of p = w ->
  wf (fs w) = true -> cwd w = c -> is_directory (fs w) c -> outside c (fs w) = o ->
  safe_state c o p.
Proof. intros <- H1 H2 H3 H4. split; [|split; [|split]]; assumption. Qed.

Lemma keeps_same_world (c : path) (o : node) {A : Type} (m : Agent A) :
  (forall p, world_of (snd (m p)) = world_of p) -> keeps c o m.
Proof. intros H p Hp. unfold safe_state. rewrite (H p). exact Hp. Qed.

Lemma keeps_ret (c : path) (o : node) {A : Type} (a : A) : keeps c o (agent_ret a).
Proof. apply keeps_same_world. reflexivity. Qed.

Lemma keeps_fail (c : path) (o : node) {A : Type} (f : fault) : keeps c o (@agent_fail A f).
Proof. apply keeps_same_world. reflexivity. Qed.

Lemma keeps_print (c : path) (o : node) (text : string) : keeps c o (print text).
Proof. apply keeps_same_world. reflexivity. Qed.

Lemma keeps_print_help (c : path) (o : node) : keeps c o print_help.
Proof. apply keeps_same_world. reflexivity. Qed.

Lemma keeps_append_message (c : path) (o : node) (m : Content) :
  keeps c o (append_message m).
Proof. apply keeps_same_world. reflexivity. Qed.

Lemma keeps_set_messages (c : path) (o : node) (l : list Content) :
  keeps c o (set_messages l).
Proof. apply keeps_same_world. reflexivity. Qed.

Lemma keeps_generate_content (c : path) (o : node) (client : Client)
    (tools : list FunctionDeclaration) :
  keeps c o (generate_content client tools).
Proof. apply keeps_same_world. reflexivity. Qed.

Lemma keeps_bind (c : path) (o : node) {A B : Type} (m : Agent A) (k : A -> Agent B) :
  keeps c o m -> (forall a, keeps c o (k a)) -> keeps c o (agent_bind m k).
Proof.
  intros Hm Hk p Hp. unfold agent_bind. specialize (Hm p Hp).
  destruct (m p) as [[a|f] p1]; cbn [snd] in *; [apply (Hk a p1 Hm) | exact Hm].
Qed.

Lemma keeps_if (c : path) (o : node) {A : Type} (b : bool) (m1 m2 : Agent A) :
  keeps c o m1 -> keeps c o m2 -> keeps c o (if b then m1 else m2).
Proof. destruct b; intros; assumption. Qed.

Lemma keeps_print_lines (c : path) (o : node) (lines : list string) :
  keeps c o (print_lines lines).
Proof.
  induction lines as [|l rest IH]; cbn [print_lines]; [apply keeps_ret|].
  apply keeps_bind; [apply keeps_print | intros _; exact IH].
Qed.

Lemma keeps_call_function (c : path) (o : node) (function_call_part : FunctionCall)
    (verbose : bool) :
  canonical c = true -> keeps c o (call_function function_call_part verbose).
Proof.
  intros Hcanon p (Hwf & Hcwd & Hdir & Hout).
  rewrite call_function_eq. cbn zeta.
  set (p1 := printed_line p (executing_line function_call_part verbose)).
  set (wd := str_of_path (cwd (world_of p))).
  assert (Hp1 : world_of p1 = world_of p) by reflexivity.
  assert (Hsame : forall q : process, world_of q = world_of p -> safe_state c o q)
    by (intros q Hq; unfold safe_state; rewrite Hq;
        split; [|split; [|split]]; assumption).
  destruct (existsb _ _); [|apply (Hsame p1 Hp1)].
  destruct (fc_args function_call_part) as [a|]; [|apply (Hsame p1 Hp1)].
  destruct (fc_name function_call_part =? "get_files_info")%string.
  { rewrite (lift_run _ p1 (appends_get_files_info _ _)). apply Hsame.
    unfold world_of at 1. cbn [snd env fst].
    rewrite (proj1 (readonly_run _ (world_of p1) (readonly_get_files_info _ _))).
    exact Hp1. }
  destruct (fc_name function_call_part =? "get_file_content")%string.
  { destruct (get_file_path a) as [file_path|]; [|apply (Hsame p1 Hp1)].
    rewrite (lift_run _ p1 (appends_get_file_content _ _)). apply Hsame.
    unfold world_of at 1. cbn [snd env fst].
    rewrite (proj1 (readonly_run _ (world_of p1) (readonly_get_file_content _ _))).
    exact Hp1. }
  destruct (fc_name function_call_part =? "write_file")%string.
  { destruct (get_file_path a) as [file_path|]; [|apply (Hsame p1 Hp1)].
    destruct (get_content a) as [content|]; [|apply (Hsame p1 Hp1)].
    rewrite (lift_run _ p1 (appends_write_file _ _ _)).
    rewrite Hp1.
    assert (Hres : resolve_in (cwd (world_of p)) (PurePath.parse wd) = Val c).
    { unfold wd. rewrite Hcwd. apply resolve_cwd. exact Hcanon. }
    destruct (write_file_keeps_outside (world_of p) wd file_path content c
                Hwf Hres Hdir) as (Hout' & Hcwd' & _ & Hwf' & Hdir').
    cbn zeta in Hout', Hcwd', Hwf', Hdir'.
    apply safe_state_of_world
      with (w := snd (fst (run (write_file wd file_path content) (world_of p)))).
    - reflexivity.
    - exact Hwf'.
    - rewrite Hcwd'. exact Hcwd.
    - exact Hdir'.
    - rewrite Hout'. exact Hout. }
  destruct (get_file_path a) as [file_path|]; [|apply (Hsame p1 Hp1)].
  rewrite (lift_run _ p1 (appends_run_python_file _ _ _)). apply Hsame.
  unfold world_of at 1. cbn [snd env fst].
  rewrite (proj1 (run_python_file_raises (world_of p1) _ _ _)). exact Hp1.
Qed.

Lemma keeps_append_candidates (c : path) (o : node) (l : list (option Candidate)) :
  keeps c o (append_candidates l).
Proof.
  induction l as [|candidate rest IH]; cbn [append_candidates]; [apply keeps_ret|].
  apply keeps_bind; [|intros _; exact IH].
  destruct candidate as [cand|]; [|apply keeps_ret].
  destruct (candidate_content cand); [apply keeps_append_message | apply keeps_ret].
Qed.

Lemma keeps_process_function_calls (c : path) (o : node) (l : list FunctionCall)
    (verbose : bool) :
  canonical c = true -> keeps c o (process_function_calls l verbose).
Proof.
  intros Hcanon.
  induction l as [|fc rest IH]; cbn [process_function_calls]; [apply keeps_ret|].
  apply keeps_bind; [apply (keeps_call_function c o fc verbose Hcanon)|].
  intros result. apply keeps_bind; [apply keeps_append_message | intros _; exact IH].
Qed.

Lemma keeps_run_agent (c : path) (o : node) (client : Client)
    (tools : list FunctionDeclaration) (verbose : bool) :
  canonical c = true -> keeps c o (run_agent client tools verbose).
Proof.
  intros Hcanon. unfold run_agent.
  apply keeps_bind; [apply keeps_generate_content|].
  intros [text|response].
  - apply keeps_bind; [apply keeps_print_lines | intros _; apply keeps_ret].
  - apply keeps_bind.
    + destruct verbose; [|apply keeps_ret].
      destruct response as [r|]; [|apply keeps_fail].
      destruct (usage_metadata r) as [u|]; [|apply keeps_fail].
      apply keeps_bind; [apply keeps_print | intros _; apply keeps_print].
    + intros _. destruct response as [r|];
        [|apply keeps_bind; [apply keeps_print | intros _; apply keeps_ret]].
      destruct (usage_metadata r) as [u|];
        [|apply keeps_bind; [apply keeps_print | intros _; apply keeps_ret]].
      apply keeps_bind; [apply keeps_append_candidates|]. intros _.
      destruct (function_calls r) as [|fc rest].
      * apply keeps_bind; [apply keeps_print | intros _; apply keeps_ret].
      * apply keeps_bind;
          [apply (keeps_process_function_calls c o _ verbose Hcanon)
          | intros _; apply keeps_ret].
Qed.

Lemma keeps_agent_loop (c : path) (o : node) (client : Client) (verbose : bool)
    (fuel : nat) :
  canonical c = true -> forall iteration, keeps c o (agent_loop fuel client verbose iteration).
Proof.
  intros Hcanon.
  induction fuel as [|fuel IH]; intros iteration; cbn [agent_loop];
    destruct (iteration <? max_iterations)%nat; try apply keeps_ret.
  apply keeps_bind; [apply (keeps_run_agent c o client _ verbose Hcanon)|].
  intros has. destruct has; cbn [negb]; [|apply keeps_ret].
  apply keeps_bind; [|intros _; apply IH].
  destruct verbose; [apply keeps_print | apply keeps_ret].
Qed.

Lemma keeps_parse_arguments (c : path) (o : node) (n : nat) :
  forall argv prompt verbose,
    length argv <= n -> keeps c o (parse_arguments argv prompt verbose).
Proof.
  induction n as [|n IH]; intros argv prompt verbose Hlen.
  - destruct argv; [apply keeps_ret | cbn [length] in Hlen; lia].
  - destruct argv as [|arg rest]; [apply keeps_ret|].
    cbn [length] in Hlen. cbn [parse_arguments].
    destruct ((arg =? "--help")%string || (arg =? "-h")%string).
    { apply keeps_bind; [apply keeps_print_help | intros _; apply keeps_fail]. }
    destruct ((arg =? "--prompt")%string || (arg =? "-p")%string).
    { destruct rest as [|value rest'].
      - apply keeps_bind; [apply keeps_print | intros _; apply keeps_fail].
      - destruct (String.prefix "--" value).
        + apply keeps_bind; [apply keeps_print | intros _; apply keeps_fail].
        + apply IH. cbn [length] in Hlen. lia. }
    destruct ((arg =? "--verbose")%string || (arg =? "-v")%string);
      apply IH; lia.
Qed.

Lemma keeps_main (c : path) (o : node) (client : Client) (argv : list string) :
  canonical c = true -> keeps c o (main client argv).
Proof.
  intros Hcanon. unfold main.
  apply keeps_bind; [apply (keeps_parse_arguments c o (length (tl argv))); apply le_n|].
  intros [[prompt|] verbose]; cbn [fst snd].
  - apply keeps_bind; [apply keeps_set_messages|]. intros _.
    apply keeps_bind; [destruct verbose; [apply keeps_print | apply keeps_ret]|].
    intros _. apply keeps_bind; [apply (keeps_agent_loop c o client verbose _ Hcanon)|].
    intros iteration. destruct (max_iterations <=? iteration)%nat;
      [apply keeps_print | apply keeps_ret].
  - apply keeps_bind; [apply keeps_print | intros _; apply keeps_fail].
Qed.

(** X20.  On a file system without symbolic links, a whole run of
    [main] changes nothing outside of the current directory: whatever
    the command line is and whatever the service answers in each
    round, when the current directory is a directory of a well-formed
    tree, the tree with the current directory emptied is the same at
    the end of the run as at its start, the tree is still well formed,
    and the current directory is still the same directory.  (The tree
    has no links: through a link inside the current directory
    [write_file] can write outside.  What a script that was started
    does by itself is not part of the model either.) *)
Theorem main_changes_nothing_outside_cwd
    (client : Client) (argv : list string) (p : process) :
  wf (fs (world_of p)) = true ->
  canonical (cwd (world_of p)) = true ->
  is_directory (fs (world_of p)) (cwd (world_of p)) ->
  let p' := snd (main client argv p) in
  outside (cwd (world_of p)) (fs (world_of p'))
  = outside (cwd (world_of p)) (fs (world_of p)) /\
  cwd (world_of p') = cwd (world_of p) /\
  is_directory (fs (world_of p')) (cwd (world_of p)) /\
  wf (fs (world_of p')) = true.
Proof.
  intros Hwf Hcanon Hdir p'. unfold p'. clear p'.
  destruct (keeps_main (cwd (world_of p)) (outside (cwd (world_of p)) (fs (world_of p)))
              client argv Hcanon p) as (Hwf' & Hcwd' & Hdir' & Hout').
  - split; [exact Hwf|]. split; [reflexivity|]. split; [exact Hdir | reflexivity].
  - split; [exact Hout'|]. split; [exact Hcwd'|]. split; [exact Hdir' | exact Hwf'].
Qed.

(** The model asks to write [new/f.txt] and then [../etc/f.txt] from
    [/w] of the sample world. *)
Lemma main_changes_nothing_outside_cwd_witness :
  let write name :=
    mkFunctionCall "write_file"
      (Some (mkCallArgs "{...}" None (Some name) (Some "x"%string) None)) in
  let client :=
    scripted [Replied (Some (sample_response [write "new/f.txt"%string] ""));
              Replied (Some (sample_response [write "../etc/f.txt"%string] ""));
              Replied (Some (sample_response [] "Done."))] in
  let p := start sample_world in
  let p' := snd (main client ["main.py"; "write two files"]%string p) in
  outside (cwd (world_of p)) (fs (world_of p'))
  = outside (cwd (world_of p)) (fs (world_of p)) /\
  cwd (world_of p') = cwd (world_of p) /\
  is_directory (fs (world_of p')) (cwd (world_of p)) /\
  wf (fs (world_of p')) = true.
Proof.
  apply (main_changes_nothing_outside_cwd
           (scripted
              [Replied (Some (sample_response
                                [mkFunctionCall "write_file"
                                   (Some (mkCallArgs "{...}" None (Some "new/f.txt"%string)
                                            (Some "x"%string) None))] ""));
               Replied (Some (sample_response
                                [mkFunctionCall "write_file"
                                   (Some (mkCallArgs "{...}" None (Some "../etc/f.txt"%string)
                                            (Some "x"%string) None))] ""));
               Replied (Some (sample_response [] "Done."))])
           ["main.py"; "write two files"]%string (start sample_world)).
  - reflexivity.
  - reflexivity.
  - eexists. reflexivity.
Defined.
